(** * Andhra cultural guide: knowledge parser, store, closest-match
      heuristic, mood mapper, output formatter, input validation and the
      guidance pipeline.

    A shallow embedding of the TypeScript/JavaScript sources
    ([ErrorHandler.ts], [ProductMdParser.ts], [DataValidator.ts],
    [CulturalDatabaseImpl.js], [EmotionFoodMapperImpl.ts],
    [ResponseFormatter.ts], [InputProcessorImpl.ts],
    [DropdownInterfaceImpl.ts], [ValidationService.ts],
    [RegionalAdapterImpl.ts], [ResponseGeneratorImpl.ts],
    [AndhraCulturalGuide.ts]) together with the properties the
    specification states about them and further properties of the code.

    Modelling conventions.
    - A JavaScript string is a [string]: a sequence of 8-bit characters.
      ASCII text has one character per UTF-16 code unit; other text is
      carried as its UTF-8 bytes (substring search, splitting and prefix
      tests agree on both encodings).
    - [toLowerCase]/[toUpperCase] act on the ASCII letters; whitespace
      ([\s], [trim]) is the ASCII whitespace set.
    - A JavaScript [Map] is a [gmap string _]; [undefined]/[null] results are
      [None].
    - [Math.random] draws are explicit natural-number arguments; the clock
      readings are explicit arguments too.
    - A call that may throw returns a [Result]: the value, or the message of
      the [Error] thrown.
    - A lookup in an object literal finds its own entries and the members
      every object inherits from its prototype ([Member]); where such an
      inherited member would end up inside a text, the text is not modelled
      and the function returns [None].
    - Numbers that are genuinely fractional (the similarity scores) are
      IEEE-754 binary64 values ([PrimFloat]), as in JavaScript. *)

From Stdlib Require Import Floats ZArith Ascii String List Bool Lia.
From stdpp Require Import base option list gmap strings.

Set Warnings "-inexact-float".
Local Open Scope string_scope.

(* ===================================================================== *)
(** ** JavaScript string primitives *)
(* ===================================================================== *)

Module Js.

Definition isUpper (c : ascii) : bool :=
  (65 <=? nat_of_ascii c)%nat && (nat_of_ascii c <=? 90)%nat.

Definition isLower (c : ascii) : bool :=
  (97 <=? nat_of_ascii c)%nat && (nat_of_ascii c <=? 122)%nat.

Definition isDigit (c : ascii) : bool :=
  (48 <=? nat_of_ascii c)%nat && (nat_of_ascii c <=? 57)%nat.

Definition isLetter (c : ascii) : bool := isUpper c || isLower c.

(** [\w] of a regular expression: letters, digits and the underscore. *)
Definition isWordChar (c : ascii) : bool :=
  isLetter c || isDigit c || (nat_of_ascii c =? 95)%nat.

(** [\s] and the characters removed by [trim]: tab, line feed, vertical tab,
    form feed, carriage return, space. *)
Definition isSpace (c : ascii) : bool :=
  let n := nat_of_ascii c in
  ((9 <=? n)%nat && (n <=? 13)%nat) || (n =? 32)%nat.

Definition LF : ascii := ascii_of_nat 10.
Definition CR : ascii := ascii_of_nat 13.

(** Line terminators, the characters [.] does not match. *)
Definition isLineTerminator (c : ascii) : bool :=
  Ascii.eqb c LF || Ascii.eqb c CR.

Definition lowerChar (c : ascii) : ascii :=
  if isUpper c then ascii_of_nat (nat_of_ascii c + 32) else c.

Definition upperChar (c : ascii) : ascii :=
  if isLower c then ascii_of_nat (nat_of_ascii c - 32) else c.

Fixpoint toLowerCase (s : string) : string :=
  match s with
  | EmptyString => EmptyString
  | String c s' => String (lowerChar c) (toLowerCase s')
  end.

Fixpoint toUpperCase (s : string) : string :=
  match s with
  | EmptyString => EmptyString
  | String c s' => String (upperChar c) (toUpperCase s')
  end.

(** [s.startsWith(p)] *)
Definition startsWith (s p : string) : bool := String.prefix p s.

(** [s.includes(sub)] *)
Fixpoint includes (s sub : string) : bool :=
  startsWith s sub ||
  match s with
  | EmptyString => false
  | String _ s' => includes s' sub
  end.

(** [s[0]]: [None] is [undefined]. *)
Definition charAt0 (s : string) : option ascii := String.get 0 s.

Definition option_ascii_eqb (a b : option ascii) : bool :=
  match a, b with
  | None, None => true
  | Some x, Some y => Ascii.eqb x y
  | _, _ => false
  end.

(** Last character, [None] for the empty string. *)
Fixpoint lastChar (s : string) : option ascii :=
  match s with
  | EmptyString => None
  | String c EmptyString => Some c
  | String _ s' => lastChar s'
  end.

(** [s.endsWith(c)] for a one-character [c]. *)
Definition endsWithChar (s : string) (c : ascii) : bool :=
  option_ascii_eqb (lastChar s) (Some c).

Fixpoint trimStart (s : string) : string :=
  match s with
  | EmptyString => EmptyString
  | String c s' => if isSpace c then trimStart s' else s
  end.

(** Drops trailing whitespace: a character is kept when it is not a space or
    when something is kept after it. *)
Fixpoint trimEnd (s : string) : string :=
  match s with
  | EmptyString => EmptyString
  | String c s' =>
      match trimEnd s' with
      | EmptyString => if isSpace c then EmptyString else String c EmptyString
      | t => String c t
      end
  end.

Definition trim (s : string) : string := trimEnd (trimStart s).

(** Truthiness of a string: the empty string is falsy. *)
Definition truthy (s : string) : bool :=
  match s with EmptyString => false | _ => true end.

(** [s.slice(n)] *)
Fixpoint drop (n : nat) (s : string) : string :=
  match n, s with
  | S k, String _ s' => drop k s'
  | _, _ => s
  end.

(** Longest prefix all of whose characters satisfy [p]. *)
Fixpoint takeWhile (p : ascii -> bool) (s : string) : string :=
  match s with
  | EmptyString => EmptyString
  | String c s' => if p c then String c (takeWhile p s') else EmptyString
  end.

(** What follows that prefix. *)
Fixpoint dropWhile (p : ascii -> bool) (s : string) : string :=
  match s with
  | EmptyString => EmptyString
  | String c s' => if p c then dropWhile p s' else s
  end.

Definition isChar (a : ascii) (c : ascii) : bool := Ascii.eqb c a.
Definition notChar (a : ascii) (c : ascii) : bool := negb (Ascii.eqb c a).

Fixpoint hasChar (a : ascii) (s : string) : bool :=
  match s with
  | EmptyString => false
  | String c s' => Ascii.eqb c a || hasChar a s'
  end.

(** [s.split(sep)] for a non-empty separator.  [skip] counts the characters
    of a separator occurrence that remain to be passed over. *)
Fixpoint split_from (sep s : string) (skip : nat) : list string :=
  match s with
  | EmptyString => [EmptyString]
  | String c s' =>
      match skip with
      | S k => split_from sep s' k
      | O =>
          if startsWith s sep
          then EmptyString :: split_from sep s' (String.length sep - 1)
          else match split_from sep s' 0 with
               | piece :: pieces => String c piece :: pieces
               | [] => [String c EmptyString]
               end
      end
  end.

Definition split (s sep : string) : list string := split_from sep s 0.

(** [pieces.join(sep)] *)
Fixpoint join (sep : string) (pieces : list string) : string :=
  match pieces with
  | [] => EmptyString
  | [p] => p
  | p :: ps => p ++ sep ++ join sep ps
  end.

(** [s.split('\n').map(line => line.trim()).filter(line => line)] *)
Definition trimmedLines (s : string) : list string :=
  List.filter truthy (List.map trim (split s (String LF EmptyString))).

(** Case-insensitive literal match at the start of [s] (regular expression
    flag [i]); [lit] is given in lower case. *)
Definition startsWithCI (s lit : string) : bool :=
  startsWith (toLowerCase s) lit.

(** [s.charAt(0).toUpperCase() + s.slice(1)] *)
Definition capitalize (s : string) : string :=
  match s with
  | EmptyString => EmptyString
  | String c s' => String (upperChar c) s'
  end.

(** [list.includes(x)] on strings. *)
Definition inList (x : string) (l : list string) : bool :=
  List.existsb (String.eqb x) l.

(** Truthiness of an optional string: [undefined] and the empty string are
    falsy. *)
Definition present (o : option string) : bool :=
  match o with Some s => truthy s | None => false end.

(** [x || d] for an optional string [x]. *)
Definition orDefault (o : option string) (d : string) : string :=
  match o with
  | Some s => if truthy s then s else d
  | None => d
  end.

(** [x === v] for an optional string [x]. *)
Definition isValue (o : option string) (v : string) : bool :=
  match o with Some s => String.eqb s v | None => false end.

(** [value && !admitted.includes(value)] *)
Definition rejected (value : option string) (admitted : list string) : bool :=
  match value with
  | Some v => truthy v && negb (inList v admitted)
  | None => false
  end.

(** The text of an optional field inside a template literal. *)
Definition shown (value : option string) : string :=
  match value with Some v => v | None => "undefined" end.

(** The message of a [TypeError] the engine raises is not modelled; such a
    throw carries this text. *)
Definition typeError : string := "TypeError".

(** [s.substring(0, n)] *)
Fixpoint takeChars (n : nat) (s : string) : string :=
  match n, s with
  | S k, String c s' => String c (takeChars k s')
  | _, _ => EmptyString
  end.

Definition doubleQuote : ascii := ascii_of_nat 34.

(** The text [s] between two double quotes, as a template literal writes
    it. *)
Definition inQuotes (s : string) : string :=
  String doubleQuote (s ++ String doubleQuote EmptyString).

(** [s.endsWith(suffix)] *)
Definition endsWith (s suffix : string) : bool :=
  (String.length suffix <=? String.length s)%nat
  && String.eqb (drop (String.length s - String.length suffix) s) suffix.

(** What a call gives: a value, or a thrown [Error] with its message. *)
Inductive Result (A : Type) : Type :=
  | Ok (value : A)
  | Throw (message : string).
Arguments Ok {A} value.
Arguments Throw {A} message.

(** The names every object literal inherits from [Object.prototype]. *)
Definition objectPrototypeNames : list string :=
  ["constructor"; "hasOwnProperty"; "isPrototypeOf"; "propertyIsEnumerable";
   "toLocaleString"; "toString"; "valueOf"; "__proto__"; "__defineGetter__";
   "__defineSetter__"; "__lookupGetter__"; "__lookupSetter__"].

(** [table[key]] for an object literal [table]: an entry of the literal, a
    member inherited from the prototype (a function or object, which is
    truthy and is no string), or [undefined]. *)
Inductive Member (A : Type) : Type :=
  | Own (value : A)
  | Inherited
  | Missing.
Arguments Own {A} value.
Arguments Inherited {A}.
Arguments Missing {A}.

Fixpoint ownEntry {A : Type} (table : list (string * A)) (key : string)
    : option A :=
  match table with
  | [] => None
  | (k, v) :: rest => if String.eqb key k then Some v else ownEntry rest key
  end.

Definition member {A : Type} (table : list (string * A)) (key : string)
    : Member A :=
  match ownEntry table key with
  | Some v => Own v
  | None => if inList key objectPrototypeNames then Inherited else Missing
  end.

(** Sequencing inside a [try] block: a throw ends the block. *)
Definition andThen {A B : Type} (r : Result A) (k : A -> Result B) : Result B :=
  match r with
  | Ok value => k value
  | Throw message => Throw message
  end.

End Js.

(* ===================================================================== *)
(** ** Request, fallback and error records (types.ts) *)
(* ===================================================================== *)

(** The fields are strings as they arrive; the components validate them
    against their lists of admitted values.  A field declared optional is an
    [option]. *)

Module UserPreferences.
Record t : Type := mk {
  spiceLevel : option string;
  dietary : option string;
  formality : option string;
  region : option string
}.
(** The empty preferences object. *)
Definition empty : t := mk None None None None.
End UserPreferences.

Module UserInput.
Record t : Type := mk {
  category : string;
  selection : string;
  preferences : option UserPreferences.t
}.
End UserInput.

Module FallbackResponse.
Record t : Type := mk {
  content : string;
  isApproximation : bool;
  originalQuery : string;
  fallbackReason : string
}.
End FallbackResponse.

Module UserIntent.
(** The [context] object of an intent. *)
Record Context : Type := mkContext {
  contextRegion : option string;
  timeOfDay : option string
}.
Record t : Type := mk {
  category : string;
  selection : string;
  preferences : UserPreferences.t;
  context : Context
}.
End UserIntent.

Module CulturalResponse.
(** A response as the generator builds it: [region] and [category] are the
    strings of the intent, and [culturalTone] is [None] when it is
    [undefined]. *)
Record t : Type := mk {
  content : string;
  teluguWords : list string;
  culturalTone : option string;
  region : option string;
  category : string
}.
End CulturalResponse.

Module CulturalError.
(** A value of [fallbackData]: a string or an array of strings. *)
Inductive Value : Type :=
  | Text (s : string)
  | Texts (l : list string).
Record t : Type := mk {
  code : string;
  message : string;
  category : option string;
  fallbackData : option (list (string * Value))
}.
End CulturalError.

(* ===================================================================== *)
(** ** ErrorHandler.ts *)
(* ===================================================================== *)

Module ErrorHandler.

Import Js.

Definition containsMatch (targetLower candidateLower : string) : bool :=
  includes candidateLower targetLower || includes targetLower candidateLower.

Definition firstLetterMatch (targetLower candidateLower : string) : bool :=
  option_ascii_eqb (charAt0 targetLower) (charAt0 candidateLower).

(** [Math.abs(target.length - candidate.length) <= 2] *)
Definition lengthSimilar (target candidate : string) : bool :=
  (Z.abs (Z.of_nat (String.length target) - Z.of_nat (String.length candidate))
     <=? 2)%Z.

(** The score the loop body computes for one candidate (in the branch where
    the candidate is not an exact match). *)
Definition matchScore (target candidate : string) : float :=
  let targetLower := toLowerCase target in
  let candidateLower := toLowerCase candidate in
  let score := 0%float in
  let score := if containsMatch targetLower candidateLower
               then 0.8%float else score in
  let score := if firstLetterMatch targetLower candidateLower
               then (score + 0.2)%float else score in
  let score := if lengthSimilar target candidate
               then (score + 0.1)%float else score in
  score.

Definition exactMatch (target candidate : string) : bool :=
  String.eqb (toLowerCase target) (toLowerCase candidate).

(** The [for ... of candidates] loop; [bestMatch]/[bestScore] are the two
    loop variables. *)
Fixpoint findClosestMatch_loop (target : string) (candidates : list string)
    (bestMatch : option string) (bestScore : float) : option string :=
  match candidates with
  | [] => bestMatch
  | candidate :: rest =>
      if exactMatch target candidate then Some candidate
      else
        let score := matchScore target candidate in
        if PrimFloat.ltb bestScore score && PrimFloat.leb 0.3%float score
        then findClosestMatch_loop target rest (Some candidate) score
        else findClosestMatch_loop target rest bestMatch bestScore
  end.

Definition findClosestMatch (target : string) (candidates : list string)
    : option string :=
  findClosestMatch_loop target candidates None 0%float.

Definition knownSlang : list string :=
  ["Arey Baboi"; "Doola Teerinda"; "Taggede Le"; "Lite Teesko";
   "Chala Scene Undi"].
Definition knownCities : list string :=
  ["Visakhapatnam"; "Vijayawada"; "Guntur"; "Tirupati"].
Definition knownFestivals : list string :=
  ["Sankranti"; "Ugadi"; "Vinayaka Chavithi"].
Definition knownEmotions : list string :=
  ["sad"; "sick"; "happy"; "angry"; "tired"].

Definition findClosestSlangMatch (term : string) := findClosestMatch term knownSlang.
Definition findClosestCityMatch (city : string) := findClosestMatch city knownCities.
Definition findClosestFestivalMatch (f : string) := findClosestMatch f knownFestivals.
Definition findClosestEmotionMatch (e : string) := findClosestMatch e knownEmotions.

(** *** Error codes *)

Definition MISSING_SLANG : string := "MISSING_SLANG".
Definition MISSING_FOOD : string := "MISSING_FOOD".
Definition MISSING_FESTIVAL : string := "MISSING_FESTIVAL".
Definition MISSING_EMOTION : string := "MISSING_EMOTION".
Definition INVALID_INPUT : string := "INVALID_INPUT".
Definition DATABASE_ERROR : string := "DATABASE_ERROR".
Definition COMPONENT_FAILURE : string := "COMPONENT_FAILURE".

(** *** Fallback responses *)

(** [if (closestMatch) content += sentence(closestMatch)] *)
Definition addWhenFound (closestMatch : option string) (content : string)
    (sentence : string -> string) : string :=
  match closestMatch with
  | Some m => if truthy m then content ++ sentence m else content
  | None => content
  end.

Definition createSlangFallback (term : string) : FallbackResponse.t :=
  let closestMatch := findClosestSlangMatch term in
  let content :=
    "I don't have specific information about " ++ inQuotes term
    ++ " in my cultural knowledge, " in
  let content :=
    addWhenFound closestMatch content
      (fun m => "but it sounds similar to " ++ inQuotes m
                ++ " which is authentic Andhra slang. ") in
  let content :=
    content
    ++ "These expressions usually carry deep emotional meaning in our culture. " in
  let content :=
    content ++ "Try asking about common terms like " ++ inQuotes "Arey Baboi"
    ++ " or " ++ inQuotes "Lite Teesko" ++ " for authentic examples!" in
  {| FallbackResponse.content := content;
     FallbackResponse.isApproximation := true;
     FallbackResponse.originalQuery := term;
     FallbackResponse.fallbackReason := "Slang term not found in cultural database" |}.

(** [preferences] is read through its [spiceLevel] and [dietary] fields only;
    the callers pass a [UserPreferences] or a [FoodPreferences] object. *)
Definition createFoodFallback (city : string) (spiceLevel dietary : option string)
    : FallbackResponse.t :=
  let closestCity := findClosestCityMatch city in
  let spiceLevel := orDefault spiceLevel "medium" in
  let dietary := orDefault dietary "any" in
  let content := "I don't have specific food recommendations for " ++ city ++ " " in
  let content :=
    addWhenFound closestCity content
      (fun m => "but " ++ m ++ " has similar Andhra cuisine! ") in
  let content :=
    content ++ "For " ++ dietary ++ " preferences with " ++ spiceLevel
    ++ " spice level, " in
  let content := content ++ "Andhra cuisine always has something delicious. " in
  let content :=
    content
    ++ "Try exploring popular cities like Visakhapatnam, Vijayawada, or Guntur for authentic recommendations!" in
  {| FallbackResponse.content := content;
     FallbackResponse.isApproximation := true;
     FallbackResponse.originalQuery := city;
     FallbackResponse.fallbackReason := "City not found in food database" |}.

Definition createFestivalFallback (festival : string) : FallbackResponse.t :=
  let closestMatch := findClosestFestivalMatch festival in
  let content :=
    "I don't have detailed information about " ++ inQuotes festival ++ ", " in
  let content :=
    addWhenFound closestMatch content
      (fun m => "but it might be similar to " ++ inQuotes m
                ++ " which is celebrated in Andhra. ") in
  let content :=
    content
    ++ "Andhra festivals are always rich in cultural meaning and food traditions! " in
  let content :=
    content
    ++ "Each celebration brings families together with special preparations. " in
  let content :=
    content
    ++ "Try asking about Sankranti, Ugadi, or Vinayaka Chavithi for detailed examples!" in
  {| FallbackResponse.content := content;
     FallbackResponse.isApproximation := true;
     FallbackResponse.originalQuery := festival;
     FallbackResponse.fallbackReason := "Festival not found in cultural database" |}.

Definition createEmotionFallback (emotion : string) : FallbackResponse.t :=
  let closestMatch := findClosestEmotionMatch emotion in
  let content :=
    "I don't have a specific food recommendation for " ++ inQuotes emotion
    ++ ", " in
  let content :=
    addWhenFound closestMatch content
      (fun m => "but it's similar to feeling " ++ inQuotes m ++ ". ") in
  let content :=
    content ++ "In Andhra culture, we believe food can heal emotions. " in
  let content :=
    content
    ++ "Generally, comfort foods like Pappu with Avakaya work for sadness, " in
  let content :=
    content ++ "while cooling foods like Curd Rice help with anger. " in
  let content :=
    content
    ++ "Try asking about common emotions like sad, happy, angry, or tired!" in
  {| FallbackResponse.content := content;
     FallbackResponse.isApproximation := true;
     FallbackResponse.originalQuery := emotion;
     FallbackResponse.fallbackReason := "Emotion not found in mapping database" |}.

(** *** Input validation errors *)

Definition validSpiceLevels : list string := ["low"; "medium"; "high"; "extreme"].
Definition validDietary : list string := ["veg"; "non-veg"; "any"].
Definition validFormality : list string := ["formal"; "informal"].
Definition validRegions : list string := ["coastal"; "guntur"; "rayalaseema"].

(** The [errors] array, in push order. *)
Definition validatePreferences (preferences : UserPreferences.t) : list string :=
  (if rejected (UserPreferences.spiceLevel preferences) validSpiceLevels
   then ["Invalid spice level "
         ++ inQuotes (shown (UserPreferences.spiceLevel preferences))]
   else [])
  ++ (if rejected (UserPreferences.dietary preferences) validDietary
      then ["Invalid dietary preference "
            ++ inQuotes (shown (UserPreferences.dietary preferences))]
      else [])
  ++ (if rejected (UserPreferences.formality preferences) validFormality
      then ["Invalid formality level "
            ++ inQuotes (shown (UserPreferences.formality preferences))]
      else [])
  ++ (if rejected (UserPreferences.region preferences) validRegions
      then ["Invalid region "
            ++ inQuotes (shown (UserPreferences.region preferences))]
      else []).

Definition createInputValidationError (input : UserInput.t) : CulturalError.t :=
  let message := "Invalid input provided. " in
  let message :=
    if negb (truthy (UserInput.category input))
    then message
         ++ "Please select a valid category (slang, food, festival, or emotion). "
    else if negb (inList (UserInput.category input)
                    ["slang"; "food"; "festival"; "emotion"])
    then message ++ inQuotes (UserInput.category input)
         ++ " is not a valid category. Choose from slang, food, festival, or emotion. "
    else message in
  let message :=
    if negb (truthy (UserInput.selection input))
       || String.eqb (trim (UserInput.selection input)) ""
    then message ++ "Please provide a selection for your chosen category. "
    else message in
  let message :=
    match UserInput.preferences input with
    | Some preferences =>
        let prefErrors := validatePreferences preferences in
        if (0 <? List.length prefErrors)%nat
        then message ++ "Preference errors: " ++ join ", " prefErrors ++ ". "
        else message
    | None => message
    end in
  {| CulturalError.code := INVALID_INPUT;
     CulturalError.message := trim message;
     CulturalError.category := Some (UserInput.category input);
     CulturalError.fallbackData := None |}.

Definition createDatabaseError (operation : string) : CulturalError.t :=
  {| CulturalError.code := DATABASE_ERROR;
     CulturalError.message :=
       "Cultural database is temporarily unavailable for " ++ operation
       ++ ". Please try again later or contact support.";
     CulturalError.category := None;
     CulturalError.fallbackData :=
       Some [("suggestion",
              CulturalError.Text
                "Try basic cultural queries or check your connection")] |}.

Definition createComponentError (componentName operation : string)
    : CulturalError.t :=
  {| CulturalError.code := COMPONENT_FAILURE;
     CulturalError.message :=
       componentName ++ " component encountered an error during " ++ operation
       ++ ". Using fallback response.";
     CulturalError.category := None;
     CulturalError.fallbackData :=
       Some [("component", CulturalError.Text componentName);
             ("operation", CulturalError.Text operation)] |}.

Definition isRecoverableError (error : CulturalError.t) : bool :=
  inList (CulturalError.code error)
    [MISSING_SLANG; MISSING_FOOD; MISSING_FESTIVAL; MISSING_EMOTION].

End ErrorHandler.

(* ===================================================================== *)
(** ** Record types (types.ts) *)
(* ===================================================================== *)

(** The module [../types] declares the record shapes; the fields below are
    the ones the sources read and write.  An optional field is an [option]. *)

Module RegionalVariation.
Record t : Type := mk { region : string; variation : string }.
End RegionalVariation.

Module SlangInfo.
Record t : Type := mk {
  term : string;
  literalMeaning : string;
  emotionalIntent : string;
  socialAppropriateness : string;
  formalityLevel : string;
  regionalVariations : option (list RegionalVariation.t)
}.
End SlangInfo.

Module FoodInfo.
Record t : Type := mk {
  name : string;
  city : string;
  spiceLevel : string;
  bestTime : string;
  description : string;
  culturalSignificance : option string
}.
End FoodInfo.

Module FestivalInfo.
Record t : Type := mk {
  name : string;
  culturalMeaning : string;
  associatedFoods : list string;
  foodSymbolism : string;
  emotionalTone : string;
  regionalVariations : option (list RegionalVariation.t)
}.
End FestivalInfo.

Module EmotionFoodMapping.
Record t : Type := mk {
  emotion : string;
  recommendedFood : string;
  emotionalLogic : string;
  homeVsStreet : string
}.
End EmotionFoodMapping.

Record ParsedCulturalData : Type := mkParsed {
  slang : list SlangInfo.t;
  food : list FoodInfo.t;
  festivals : list FestivalInfo.t;
  emotions : list EmotionFoodMapping.t
}.

(* ===================================================================== *)
(** ** DataValidator.ts *)
(* ===================================================================== *)

Module DataValidator.

Import Js.

(** A required field passes when it is not
    [!v || typeof v !== 'string' || v.trim() === '']. *)
Definition requiredField (v : string) : bool :=
  truthy v && negb (String.eqb (trim v) "").

Definition validVariations (vs : option (list RegionalVariation.t)) : bool :=
  match vs with
  | None => true
  | Some l =>
      List.forallb (fun v => truthy (RegionalVariation.region v)
                             && truthy (RegionalVariation.variation v)) l
  end.

Definition validateSlangInfo (slang : SlangInfo.t) : bool :=
  List.forallb requiredField
    [SlangInfo.term slang; SlangInfo.literalMeaning slang;
     SlangInfo.emotionalIntent slang; SlangInfo.socialAppropriateness slang;
     SlangInfo.formalityLevel slang]
  && inList (SlangInfo.formalityLevel slang) ["formal"; "informal"]
  && validVariations (SlangInfo.regionalVariations slang).

Definition validateFoodInfo (food : FoodInfo.t) : bool :=
  List.forallb requiredField
    [FoodInfo.name food; FoodInfo.city food; FoodInfo.spiceLevel food;
     FoodInfo.bestTime food; FoodInfo.description food]
  && inList (FoodInfo.spiceLevel food) ["low"; "medium"; "high"; "extreme"]
  && List.existsb (fun time => includes (FoodInfo.bestTime food) time)
       ["Morning"; "Lunch"; "Evening"; "Any"].

Definition validateFestivalInfo (festival : FestivalInfo.t) : bool :=
  List.forallb requiredField
    [FestivalInfo.name festival; FestivalInfo.culturalMeaning festival;
     FestivalInfo.foodSymbolism festival; FestivalInfo.emotionalTone festival]
  && negb (Nat.eqb (List.length (FestivalInfo.associatedFoods festival)) 0)
  && List.forallb (fun food => negb (String.eqb (trim food) ""))
       (FestivalInfo.associatedFoods festival)
  && validVariations (FestivalInfo.regionalVariations festival).

Definition validateEmotionFoodMapping (mapping : EmotionFoodMapping.t) : bool :=
  List.forallb requiredField
    [EmotionFoodMapping.emotion mapping;
     EmotionFoodMapping.recommendedFood mapping;
     EmotionFoodMapping.emotionalLogic mapping;
     EmotionFoodMapping.homeVsStreet mapping]
  && inList (EmotionFoodMapping.homeVsStreet mapping) ["home"; "street"; "both"]
  && String.eqb (EmotionFoodMapping.emotion mapping)
       (toLowerCase (EmotionFoodMapping.emotion mapping)).

Definition requiredEmotions : list string :=
  ["sad"; "sick"; "happy"; "angry"; "tired"].
Definition requiredCities : list string :=
  ["visakhapatnam"; "vijayawada"; "guntur"; "tirupati"].

(** The [errors] array of [validateDataCompleteness], in push order. *)
Definition completenessErrors (data : ParsedCulturalData) : list string :=
  let providedEmotions :=
    List.map (fun e => toLowerCase (EmotionFoodMapping.emotion e)) (emotions data) in
  let providedCities :=
    List.map (fun f => toLowerCase (FoodInfo.city f)) (food data) in
  (if Nat.eqb (List.length (slang data)) 0 then ["No slang data provided"] else [])
  ++ (if Nat.eqb (List.length (food data)) 0 then ["No food data provided"] else [])
  ++ (if Nat.eqb (List.length (festivals data)) 0
      then ["No festival data provided"] else [])
  ++ (if Nat.eqb (List.length (emotions data)) 0
      then ["No emotion-food mapping data provided"] else [])
  ++ List.map (fun emotion => "Missing required emotion mapping: " ++ emotion)
       (List.filter (fun emotion => negb (inList emotion providedEmotions))
          requiredEmotions)
  ++ List.map (fun city => "Missing food data for required city: " ++ city)
       (List.filter (fun city => negb (inList city providedCities))
          requiredCities).

(** [validateDataCompleteness(data).isValid] *)
Definition isComplete (data : ParsedCulturalData) : bool :=
  Nat.eqb (List.length (completenessErrors data)) 0.

End DataValidator.

(* ===================================================================== *)
(** ** ProductMdParser.ts *)
(* ===================================================================== *)

Module ProductMdParser.

Import Js.

Definition DQUOTE : ascii := ascii_of_nat 34.
Definition LPAREN : ascii := "("%char.
Definition RPAREN : ascii := ")"%char.
Definition arrow : string := "→".

(** *** Regular-expression idioms used by the parser *)

(** Text following the first occurrence of [marker] in [s]. *)
Fixpoint afterFirst (marker s : string) : option string :=
  if startsWith s marker then Some (drop (String.length marker) s)
  else match s with
       | EmptyString => None
       | String _ s' => afterFirst marker s'
       end.

(** The same with flag [i]; [lit] is in lower case. *)
Fixpoint afterFirstCI (lit s : string) : option string :=
  if startsWithCI s lit then Some (drop (String.length lit) s)
  else match s with
       | EmptyString => None
       | String _ s' => afterFirstCI lit s'
       end.

(** Lazy capture [([\s\S]*?)(?=stop|$)]: the text before the first occurrence
    of [stop], or all of it. *)
Fixpoint upTo (stop s : string) : string :=
  if startsWith s stop then EmptyString
  else match s with
       | EmptyString => EmptyString
       | String c s' => String c (upTo stop s')
       end.

(** [open([^close]+)close] matched at the start of [s]: the captured body. *)
Definition delimitedAt (open close : ascii) (s : string) : option string :=
  match s with
  | String c s' =>
      if Ascii.eqb c open then
        let body := takeWhile (notChar close) s' in
        if truthy body
           && startsWith (drop (String.length body) s') (String close EmptyString)
        then Some body else None
      else None
  | EmptyString => None
  end.

(** First match of [open([^close]+)close] anywhere in [s]. *)
Fixpoint firstDelimited (open close : ascii) (s : string) : option string :=
  match delimitedAt open close s with
  | Some body => Some body
  | None => match s with
            | EmptyString => None
            | String _ s' => firstDelimited open close s'
            end
  end.

(** All matches (flag [g]) of [open([^close]+)close], left to right and not
    overlapping; [skip] counts the characters of the last match still to be
    passed over. *)
Fixpoint allDelimited (open close : ascii) (s : string) (skip : nat)
    : list string :=
  match s with
  | EmptyString => []
  | String _ s' =>
      match skip with
      | S k => allDelimited open close s' k
      | O =>
          match delimitedAt open close s with
          | Some body => body :: allDelimited open close s' (String.length body + 1)
          | None => allDelimited open close s' 0
          end
      end
  end.

(** [([^\n]+)] tried after exactly [k] characters of [tail]. *)
Definition captureAt (tail : string) (k : nat) : option string :=
  match drop k tail with
  | String c _ as r =>
      if Ascii.eqb c LF then None else Some (takeWhile (notChar LF) r)
  | EmptyString => None
  end.

(** The greedy whitespace run gives characters back, one at a time and not
    below [min], until the capture succeeds. *)
Fixpoint backtrackSpaces (tail : string) (min k : nat) : option string :=
  match captureAt tail k with
  | Some v => Some v
  | None =>
      match k with
      | O => None
      | S k' => if (min <=? k')%nat then backtrackSpaces tail min k' else None
      end
  end.

(** [\s*([^\n]+)] ([min = 0]) or [\s+([^\n]+)] ([min = 1]) at the start of
    [tail]. *)
Definition spacesThenLine (min : nat) (tail : string) : option string :=
  let w := String.length (takeWhile isSpace tail) in
  if (min <=? w)%nat then backtrackSpaces tail min w else None.

(** The alternatives of [(?:l1|l2)] followed by the capture, tried in order
    at the start of [s]. *)
Fixpoint tryLabels (labels : list string) (min : nat) (s : string)
    : option string :=
  match labels with
  | [] => None
  | l :: ls =>
      if startsWithCI s l then
        match spacesThenLine min (drop (String.length l) s) with
        | Some v => Some v
        | None => tryLabels ls min s
        end
      else tryLabels ls min s
  end.

(** First match of [/(?:l1|l2)\s*([^\n]+)/i] in [s]: its capture group. *)
Fixpoint firstLabelled (labels : list string) (min : nat) (s : string)
    : option string :=
  match tryLabels labels min s with
  | Some v => Some v
  | None => match s with
            | EmptyString => None
            | String _ s' => firstLabelled labels min s'
            end
  end.

(** *** extractSections *)

Record Sections : Type := mkSections {
  sec_slang : option string;
  sec_food : option string;
  sec_festivals : option string;
  sec_emotions : option string
}.

Definition section (marker stop content : string) : option string :=
  match afterFirst marker content with
  | Some rest => Some (upTo stop rest)
  | None => None
  end.

Definition extractSections (content : string) : Sections :=
  {| sec_slang := section "🗣️ Andhra Slang Intelligence" "🍗" content;
     sec_food := section "🍗 Andhra Street Food Culture" "🎉" content;
     sec_festivals := section "🎉 Festivals of Andhra Pradesh" "❤️" content;
     sec_emotions := section "❤️ Emotional Food Mapping" "🎛️" content |}.

(** [sections.x || ''] *)
Definition orEmpty (o : option string) : string :=
  match o with Some s => s | None => EmptyString end.

(** *** Slang section *)

(** The lazy capture that follows the quoted term in [termRegex]; its
    lookahead asks for a double quote, any run of other characters and a
    second double quote, or for the end of the text.  So the capture is the
    text up to the first double quote that is followed, somewhere, by another
    one, and all of the text when there is no such quote. *)
Fixpoint termBlock (rest : string) : string :=
  match rest with
  | EmptyString => EmptyString
  | String c r' =>
      if Ascii.eqb c DQUOTE && hasChar DQUOTE r' then EmptyString
      else String c (termBlock r')
  end.

Definition quoted (term : string) : string :=
  String DQUOTE (term ++ String DQUOTE EmptyString).

(** [termMatch[1]] for the first case-insensitive occurrence of the quoted
    term. *)
Definition termContentOf (content term : string) : option string :=
  match afterFirstCI (toLowerCase (quoted term)) content with
  | Some rest => Some (termBlock rest)
  | None => None
  end.

(** [m ? m[1].trim() : ''] *)
Definition trimmedOrEmpty (m : option string) : string :=
  match m with Some v => trim v | None => EmptyString end.

Definition formalityOf (termContent : string) : string :=
  if includes (toLowerCase termContent) "formal" then "formal" else "informal".

(** The part of [parseSlangTerm] that follows the extraction of the
    sub-block text [termContent]. *)
Definition slangFromBlock (term termContent : string) : option SlangInfo.t :=
  let literalMeaning :=
    trimmedOrEmpty (firstLabelled ["literal:"; "meaning:"] 0 termContent) in
  let emotionalIntent :=
    trimmedOrEmpty (firstLabelled ["emotional meaning:"; "emotion:"] 0 termContent) in
  let socialAppropriateness :=
    trimmedOrEmpty (firstLabelled ["usage:"; "use:"] 0 termContent) in
  let socialAppropriateness :=
    match firstLabelled ["avoid"] 1 termContent with
    | Some avoid =>
        socialAppropriateness
        ++ (if truthy socialAppropriateness then "; " else "")
        ++ "Avoid " ++ trim avoid
    | None => socialAppropriateness
    end in
  let socialAppropriateness :=
    if truthy socialAppropriateness then socialAppropriateness
    else "General use" in
  let formalityLevel := formalityOf termContent in
  if negb (truthy literalMeaning) || negb (truthy emotionalIntent) then None
  else Some {| SlangInfo.term := term;
               SlangInfo.literalMeaning := literalMeaning;
               SlangInfo.emotionalIntent := emotionalIntent;
               SlangInfo.socialAppropriateness := socialAppropriateness;
               SlangInfo.formalityLevel := formalityLevel;
               SlangInfo.regionalVariations := Some [] |}.

Definition parseSlangTerm (content term : string) : option SlangInfo.t :=
  match termContentOf content term with
  | None => None
  | Some termContent => slangFromBlock term termContent
  end.

(** Every match of the quoted-term pattern of [parseSlangSection] (a double
    quote, one or more other characters, a double quote), with the quotes
    removed. *)
Definition slangTerms (content : string) : list string :=
  allDelimited DQUOTE DQUOTE content 0.

Fixpoint parseSlangTerms (content : string) (terms : list string)
    : list SlangInfo.t :=
  match terms with
  | [] => []
  | term :: rest =>
      match parseSlangTerm content term with
      | Some slangInfo =>
          if DataValidator.validateSlangInfo slangInfo
          then slangInfo :: parseSlangTerms content rest
          else parseSlangTerms content rest
      | None => parseSlangTerms content rest
      end
  end.

Definition parseSlangSection (content : string) : list SlangInfo.t :=
  parseSlangTerms content (slangTerms content).

(** *** Food section *)

(** [cityLine.match(/^([A-Za-z\s]+)(?:\s*\([^)]+\))?/)]: group 1 is the
    longest non-empty run of letters and whitespace at the start. *)
Definition extractCityName (cityLine : string) : option string :=
  let m := takeWhile (fun c => isLetter c || isSpace c) cityLine in
  if truthy m then Some (trim m) else None.

Definition spiceLevelOf (description : string) : string :=
  let d := toLowerCase description in
  if includes d "extreme" then "extreme"
  else if includes d "high" || includes d "spicy" then "high"
  else if includes d "low" || includes d "mild" then "low"
  else "medium".

Definition bestTimeOf (description : string) : string :=
  let d := toLowerCase description in
  if includes d "breakfast" || includes d "morning" then "Morning"
  else if includes d "lunch" then "Lunch"
  else if includes d "evening" then "Evening"
  else "Evening".

Definition parseFoodLine (line city : string) : option FoodInfo.t :=
  match split line arrow with
  | [part0; part1] =>
      let name := trim part0 in
      let description := trim part1 in
      Some {| FoodInfo.name := name;
              FoodInfo.city := city;
              FoodInfo.spiceLevel := spiceLevelOf description;
              FoodInfo.bestTime := bestTimeOf description;
              FoodInfo.description := description;
              FoodInfo.culturalSignificance :=
                Some ("Traditional " ++ city ++ " specialty") |}
  | _ => None
  end.

Definition isFoodHeader (line : string) : bool :=
  includes line "🍗" || includes line "Food Principles"
  || includes line "City-wise".

Definition isCityHeader (line : string) : bool :=
  negb (includes line arrow)
  && (includes line "Visakhapatnam" || includes line "Vijayawada"
      || includes line "Guntur" || includes line "Tirupati").

(** The [for (const line of lines)] loop; [currentCity] is its state and the
    result lists the pushed items in order. *)
Fixpoint parseFoodLines (lines : list string) (currentCity : string)
    : list FoodInfo.t :=
  match lines with
  | [] => []
  | line :: rest =>
      if isFoodHeader line then parseFoodLines rest currentCity
      else if isCityHeader line
      then parseFoodLines rest (orEmpty (extractCityName line))
      else if includes line arrow && truthy currentCity then
        match parseFoodLine line currentCity with
        | Some foodInfo =>
            if DataValidator.validateFoodInfo foodInfo
            then foodInfo :: parseFoodLines rest currentCity
            else parseFoodLines rest currentCity
        | None => parseFoodLines rest currentCity
        end
      else parseFoodLines rest currentCity
  end.

Definition parseFoodSection (content : string) : list FoodInfo.t :=
  parseFoodLines (trimmedLines content) EmptyString.

(** *** Festival section *)

(** [festivalData]: the fields collected for the festival being read. *)
Record FestivalData : Type := mkFestivalData {
  fd_culturalMeaning : option string;
  fd_associatedFoods : option (list string);
  fd_emotionalTone : option string;
  fd_foodSymbolism : option string
}.

Definition emptyFestivalData : FestivalData :=
  {| fd_culturalMeaning := None; fd_associatedFoods := None;
     fd_emotionalTone := None; fd_foodSymbolism := None |}.

(** One or more words, each an upper-case letter and one or more lower-case
    letters, separated by whitespace runs:
    [/^[A-Z][a-z]+(\s+[A-Z][a-z]+)*$/].  [wordTail] reads the lower-case
    letters of a word ([seen] tells whether one was read), [wordGap] the
    whitespace before the next word. *)
Fixpoint wordTail (s : string) (seen : bool) : bool :=
  match s with
  | EmptyString => seen
  | String c s' =>
      if isLower c then wordTail s' true
      else if isSpace c then seen && wordGap s'
      else false
  end
with wordGap (s : string) : bool :=
  match s with
  | EmptyString => false
  | String c s' =>
      if isSpace c then wordGap s'
      else if isUpper c then wordTail s' false
      else false
  end.

Definition isFestivalName (line : string) : bool :=
  match line with
  | String c s' => isUpper c && wordTail s' false
  | EmptyString => false
  end
  && negb (includes line ":").

(** [x || fallback] on an optional string field. *)
Definition orElse (o : option string) (fallback : string) : string :=
  match o with
  | Some s => if truthy s then s else fallback
  | None => fallback
  end.

(** The block that saves the festival read so far, when it has a cultural
    meaning and associated foods: the items it pushes. *)
Definition flushFestival (currentFestival : string) (festivalData : FestivalData)
    : list FestivalInfo.t :=
  match fd_culturalMeaning festivalData, fd_associatedFoods festivalData with
  | Some culturalMeaning, Some associatedFoods =>
      if truthy currentFestival && truthy culturalMeaning then
        let festival :=
          {| FestivalInfo.name := currentFestival;
             FestivalInfo.culturalMeaning := culturalMeaning;
             FestivalInfo.associatedFoods := associatedFoods;
             FestivalInfo.foodSymbolism :=
               orElse (fd_foodSymbolism festivalData)
                 ("Traditional foods representing the spirit of " ++ currentFestival);
             FestivalInfo.emotionalTone :=
               orElse (fd_emotionalTone festivalData) "Celebratory";
             FestivalInfo.regionalVariations := None |} in
        if DataValidator.validateFestivalInfo festival then [festival] else []
      else []
  | _, _ => []
  end.

(** [line.replace(/^foods?:\s*/i, '')] *)
Definition stripFoodsLabel (line : string) : string :=
  if startsWithCI line "foods:" then dropWhile isSpace (drop 6 line)
  else if startsWithCI line "food:" then dropWhile isSpace (drop 5 line)
  else line.

(** What follows the last case-insensitive occurrence of [lit] in [s]. *)
Fixpoint afterLastCI (lit s : string) : option string :=
  match s with
  | EmptyString => None
  | String _ s' =>
      match afterLastCI lit s' with
      | Some r => Some r
      | None =>
          if startsWithCI s lit then Some (drop (String.length lit) s) else None
      end
  end.

(** [line.replace(/.*emotional tone:\s*/i, '')] on the line cut at its
    carriage returns ([.] does not cross one).  The match starts with the
    first piece that holds the label, runs to the last occurrence of the label
    in that piece and through the whitespace after it; what precedes the
    match is kept. *)
Fixpoint stripToneIn (pieces : list string) : string :=
  match pieces with
  | [] => EmptyString
  | piece :: later =>
      match afterLastCI "emotional tone:" piece with
      | Some r => dropWhile isSpace (join (String CR EmptyString) (r :: later))
      | None =>
          match later with
          | [] => piece
          | _ => piece ++ String CR (stripToneIn later)
          end
      end
  end.

Definition stripToneLabel (line : string) : string :=
  stripToneIn (split line (String CR EmptyString)).

(** The [if / else if] chain that files a detail line of the current
    festival. *)
Definition classifyFestivalLine (line : string) (festivalData : FestivalData)
    : FestivalData :=
  let l := toLowerCase line in
  if includes l "festival" || includes l "worship" || includes l "celebration"
  then {| fd_culturalMeaning := Some line;
          fd_associatedFoods := fd_associatedFoods festivalData;
          fd_emotionalTone := fd_emotionalTone festivalData;
          fd_foodSymbolism := fd_foodSymbolism festivalData |}
  else if startsWith l "foods:" || startsWith l "food:"
  then {| fd_culturalMeaning := fd_culturalMeaning festivalData;
          fd_associatedFoods :=
            Some (List.map trim (split (stripFoodsLabel line) ","));
          fd_emotionalTone := fd_emotionalTone festivalData;
          fd_foodSymbolism := fd_foodSymbolism festivalData |}
  else if includes l "emotional tone:"
  then {| fd_culturalMeaning := fd_culturalMeaning festivalData;
          fd_associatedFoods := fd_associatedFoods festivalData;
          fd_emotionalTone := Some (stripToneLabel line);
          fd_foodSymbolism := fd_foodSymbolism festivalData |}
  else if includes l "symbolizes" || includes l "represents"
  then {| fd_culturalMeaning := fd_culturalMeaning festivalData;
          fd_associatedFoods := fd_associatedFoods festivalData;
          fd_emotionalTone := fd_emotionalTone festivalData;
          fd_foodSymbolism := Some line |}
  else festivalData.

(** The [for] loop over the lines and the final save after it. *)
Fixpoint parseFestivalLines (lines : list string) (currentFestival : string)
    (festivalData : FestivalData) : list FestivalInfo.t :=
  match lines with
  | [] => flushFestival currentFestival festivalData
  | line :: rest =>
      if includes line "🎉" || includes line "Festivals"
      then parseFestivalLines rest currentFestival festivalData
      else if isFestivalName line
      then flushFestival currentFestival festivalData
           ++ parseFestivalLines rest line emptyFestivalData
      else if truthy currentFestival
      then parseFestivalLines rest currentFestival
             (classifyFestivalLine line festivalData)
      else parseFestivalLines rest currentFestival festivalData
  end.

Definition parseFestivalSection (content : string) : list FestivalInfo.t :=
  parseFestivalLines (trimmedLines content) EmptyString emptyFestivalData.

(** *** Emotion section *)

Definition isEmotionHeader (line : string) : bool :=
  includes line "❤️" || includes line "Emotional"
  || includes line "Core Belief" || includes line "Mood".

Definition homeVsStreetOf (recommendedFood : string) : string :=
  let foodLower := toLowerCase recommendedFood in
  if includes foodLower "coffee" || includes foodLower "punugulu" then "street"
  else if includes foodLower "pappu" || includes foodLower "rasam"
          || includes foodLower "curd rice" then "home"
  else "both".

(** The body of the loop for a line that holds an arrow; [next] is
    [lines[i + 1]] when there is one. *)
Definition parseEmotionLine (line : string) (next : option string)
    : option EmotionFoodMapping.t :=
  match split line arrow with
  | [part0; part1] =>
      let emotion := toLowerCase (trim part0) in
      let foodLine := trim part1 in
      let recommendedFood :=
        trim (List.hd EmptyString (split foodLine (String LPAREN EmptyString))) in
      let emotionalLogic := EmptyString in
      let emotionalLogic :=
        match next with
        | Some nextLine =>
            match delimitedAt LPAREN RPAREN nextLine with
            | Some logic => trim logic
            | None => emotionalLogic
            end
        | None => emotionalLogic
        end in
      let emotionalLogic :=
        if truthy emotionalLogic then emotionalLogic
        else match firstDelimited LPAREN RPAREN foodLine with
             | Some logic => trim logic
             | None => emotionalLogic
             end in
      let emotionalLogic :=
        if truthy emotionalLogic then emotionalLogic
        else recommendedFood ++ " is culturally appropriate for "
             ++ emotion ++ " feelings" in
      Some {| EmotionFoodMapping.emotion := emotion;
              EmotionFoodMapping.recommendedFood := recommendedFood;
              EmotionFoodMapping.emotionalLogic := emotionalLogic;
              EmotionFoodMapping.homeVsStreet := homeVsStreetOf recommendedFood |}
  | _ => None
  end.

Fixpoint parseEmotionLines (lines : list string) : list EmotionFoodMapping.t :=
  match lines with
  | [] => []
  | line :: rest =>
      if isEmotionHeader line then parseEmotionLines rest
      else if includes line arrow then
        match parseEmotionLine line (List.hd_error rest) with
        | Some mapping =>
            if DataValidator.validateEmotionFoodMapping mapping
            then mapping :: parseEmotionLines rest
            else parseEmotionLines rest
        | None => parseEmotionLines rest
        end
      else parseEmotionLines rest
  end.

Definition parseEmotionSection (content : string) : list EmotionFoodMapping.t :=
  parseEmotionLines (trimmedLines content).

(** *** parseContent, parseProductMd, validateParsedData *)

Definition parseContent (content : string) : ParsedCulturalData :=
  let sections := extractSections content in
  {| slang := parseSlangSection (orEmpty (sec_slang sections));
     food := parseFoodSection (orEmpty (sec_food sections));
     festivals := parseFestivalSection (orEmpty (sec_festivals sections));
     emotions := parseEmotionSection (orEmpty (sec_emotions sections)) |}.

(** [file] is the outcome of [fs.readFileSync]: [None] when it throws, in
    which case [parseProductMd] throws too. *)
Definition parseProductMd (file : option string) : option ParsedCulturalData :=
  match file with
  | Some content => Some (parseContent content)
  | None => None
  end.

Definition validateParsedData (data : ParsedCulturalData) : bool :=
  DataValidator.isComplete data.

End ProductMdParser.

(* ===================================================================== *)
(** ** CulturalDatabaseImpl.js *)
(* ===================================================================== *)

Module CulturalDatabaseImpl.

Import Js.

(** The four [Map]s of the store and its [isLoaded] flag. *)
Record t : Type := mk {
  slangData : gmap string SlangInfo.t;
  foodData : gmap string (list FoodInfo.t);
  festivalData : gmap string FestivalInfo.t;
  emotionFoodData : gmap string EmotionFoodMapping.t;
  isLoaded : bool
}.

(** The state the constructor sets up before [loadCulturalData]. *)
Definition initial : t :=
  {| slangData := ∅; foodData := ∅; festivalData := ∅; emotionFoodData := ∅;
     isLoaded := false |}.

(** [entries.forEach(e => map.set(key(e).toLowerCase(), e))] *)
Definition setAll {A : Type} (key : A -> string) (entries : list A)
    (m : gmap string A) : gmap string A :=
  List.fold_left (fun m e => <[toLowerCase (key e) := e]> m) entries m.

(** The grouping loop: create the city's array when it is missing, then push
    the dish onto it. *)
Definition pushFood (m : gmap string (list FoodInfo.t)) (food : FoodInfo.t)
    : gmap string (list FoodInfo.t) :=
  let cityKey := toLowerCase (FoodInfo.city food) in
  let m := match m !! cityKey with
           | Some _ => m
           | None => <[cityKey := []]> m
           end in
  match m !! cityKey with
  | Some foods => <[cityKey := (foods ++ [food])%list]> m
  | None => m
  end.

Definition groupFoods (entries : list FoodInfo.t)
    (m : gmap string (list FoodInfo.t)) : gmap string (list FoodInfo.t) :=
  List.fold_left pushFood entries m.

Definition loadFromParsedData (db : t) (data : ParsedCulturalData) : t :=
  {| slangData := setAll SlangInfo.term (slang data) (slangData db);
     foodData := groupFoods (food data) (foodData db);
     festivalData := setAll FestivalInfo.name (festivals data) (festivalData db);
     emotionFoodData :=
       setAll EmotionFoodMapping.emotion (emotions data) (emotionFoodData db);
     isLoaded := isLoaded db |}.

(** *** The hardcoded record set *)

Definition slangEntries : list SlangInfo.t :=
  [ SlangInfo.mk "Arey Baboi" "Oh my God" "Shock / frustration / disbelief"
      "Informal only" "informal" (Some []);
    SlangInfo.mk "Doola Teerinda?" "Are you out of your mind?"
      "Anger / scolding" "Use only among close relations" "informal" None;
    SlangInfo.mk "Taggede Le" "I won't step back" "Confidence / motivation"
      "Often used humorously" "informal" None;
    SlangInfo.mk "Lite Teesko" "Don't worry about it"
      "Comfort / casual dismissal" "Casual conversations" "informal" None;
    SlangInfo.mk "Chala Scene Undi" "Too much drama" "Sarcasm" "Youth slang"
      "informal" None ].

Definition foodEntries : list FoodInfo.t :=
  [ FoodInfo.mk "Punugulu" "Visakhapatnam" "medium" "Evening"
      "Deep-fried lentil balls, crispy outside and soft inside"
      (Some "Popular evening snack near beach areas");
    FoodInfo.mk "Bongulo Chicken" "Visakhapatnam" "high" "Evening"
      "Spicy chicken preparation with coastal flavors"
      (Some "Coastal Andhra specialty with seafood influence");
    FoodInfo.mk "Idli with Karam" "Vijayawada" "high" "Morning"
      "Steamed rice cakes with spicy powder"
      (Some "Traditional breakfast combining comfort with spice");
    FoodInfo.mk "Chicken Pakodi" "Vijayawada" "medium" "Evening"
      "Spiced chicken fritters"
      (Some "Popular evening snack in Krishna district");
    FoodInfo.mk "Mirchi Bajji" "Guntur" "extreme" "Evening"
      "Stuffed chili fritters"
      (Some "Guntur's signature dish showcasing extreme spice tolerance");
    FoodInfo.mk "Gongura Pachadi" "Guntur" "high" "Lunch"
      "Tangy sorrel leaves chutney"
      (Some "Guntur's pride, represents bold flavors");
    FoodInfo.mk "Dosa with Red Chutney" "Tirupati" "medium" "Morning"
      "Crispy crepe with spicy red chutney"
      (Some "Temple town breakfast tradition");
    FoodInfo.mk "Laddu" "Tirupati" "low" "Any"
      "Sweet gram flour balls"
      (Some "Sacred temple prasadam, spiritually significant");
    FoodInfo.mk "Vegetable Biryani" "Tirupati" "medium" "Evening"
      "Aromatic rice with mixed vegetables and spices"
      (Some "Temple town vegetarian specialty for evening meals");
    FoodInfo.mk "Curd Rice" "Tirupati" "low" "Evening"
      "Cooling rice with yogurt and mild tempering"
      (Some "Temple town comfort food, perfect for evening") ].

Definition festivalEntries : list FestivalInfo.t :=
  [ FestivalInfo.mk "Sankranti"
      "Harvest festival celebrating the transition of seasons and agricultural abundance"
      ["Ariselu"; "Pongal"]
      "Ariselu represents prosperity, Pongal symbolizes gratitude to nature"
      "Family bonding and gratitude"
      (Some [ RegionalVariation.mk "coastal"
                "More emphasis on seafood preparations alongside traditional sweets";
              RegionalVariation.mk "rayalaseema"
                "Focus on simple, rustic preparations with local grains" ]);
    FestivalInfo.mk "Ugadi"
      "Telugu New Year symbolizing new beginnings and the balance of life experiences"
      ["Ugadi Pachadi"]
      "Six tastes represent the full spectrum of life experiences - sweet, sour, salty, bitter, spicy, and astringent"
      "Hope and renewal" None;
    FestivalInfo.mk "Vinayaka Chavithi"
      "Ganesh worship celebrating wisdom, prosperity, and removal of obstacles"
      ["Modakam"]
      "Modakam represents the sweetness of devotion and Lord Ganesha's favorite offering"
      "Joy and community celebration" None ].

Definition emotionMappings : list EmotionFoodMapping.t :=
  [ EmotionFoodMapping.mk "sad" "Pappu with Avakaya"
      "Comfort food that brings nostalgia and warmth, like mother's cooking" "home";
    EmotionFoodMapping.mk "sick" "Rasam"
      "Light, healing properties with digestive benefits and warmth" "home";
    EmotionFoodMapping.mk "happy" "Biryani"
      "Celebratory dish that represents abundance and festive mood" "both";
    EmotionFoodMapping.mk "angry" "Curd Rice"
      "Cooling effect that calms the mind and reduces heat in the body" "home";
    EmotionFoodMapping.mk "tired" "Coffee with Punugulu"
      "Energy boost from caffeine combined with satisfying evening snack" "street" ].

(** [loadSlangData], [loadFoodData], [loadFestivalData] and
    [loadEmotionFoodData], in that order. *)
Definition loadHardcodedData (db : t) : t :=
  {| slangData := setAll SlangInfo.term slangEntries (slangData db);
     foodData := groupFoods foodEntries (foodData db);
     festivalData := setAll FestivalInfo.name festivalEntries (festivalData db);
     emotionFoodData :=
       setAll EmotionFoodMapping.emotion emotionMappings (emotionFoodData db);
     isLoaded := isLoaded db |}.

Definition setLoaded (db : t) : t :=
  {| slangData := slangData db; foodData := foodData db;
     festivalData := festivalData db; emotionFoodData := emotionFoodData db;
     isLoaded := true |}.

(** [loadCulturalData]: [file] is what reading the document gives ([None]:
    the read throws, and so does [parseProductMd]). *)
Definition loadCulturalData (db : t) (file : option string) : t :=
  setLoaded
    match ProductMdParser.parseProductMd file with
    | Some parsedData =>
        let db := loadFromParsedData db parsedData in
        if ProductMdParser.validateParsedData parsedData then db
        else loadHardcodedData db
    | None => loadHardcodedData db
    end.

(** [new CulturalDatabaseImpl(productMdPath)] *)
Definition new (file : option string) : t := loadCulturalData initial file.

(** The store that holds the hardcoded record set and nothing else. *)
Definition hardcoded : t := setLoaded (loadHardcodedData initial).

(** *** Lookups *)

(** [null] is [None]; the [catch] branches return [null] (or the empty
    array) as well. *)
Definition getSlangInfo (db : t) (term : string) : option SlangInfo.t :=
  if negb (isLoaded db) then None
  else slangData db !! toLowerCase term.

Definition getFestivalInfo (db : t) (festival : string) : option FestivalInfo.t :=
  if negb (isLoaded db) then None
  else festivalData db !! toLowerCase festival.

Definition getEmotionFoodMapping (db : t) (emotion : string)
    : option EmotionFoodMapping.t :=
  if negb (isLoaded db) then None
  else emotionFoodData db !! toLowerCase emotion.

Record FoodPreferences : Type := mkPreferences {
  dietary : option string;
  spiceLevel : option string;
  timeOfDay : option string
}.

(** [spiceLevels[key]]; a key outside the table gives [undefined] (or a
    member inherited from [Object.prototype]), which is [None]. *)
Definition spiceLevels (key : string) : option Z :=
  if String.eqb key "low" then Some 1%Z
  else if String.eqb key "medium" then Some 2%Z
  else if String.eqb key "high" then Some 3%Z
  else if String.eqb key "extreme" then Some 4%Z
  else None.

(** [a < b] where a missing rank converts to [NaN]: the comparison is then
    false. *)
Definition lessThan (a b : option Z) : bool :=
  match a, b with
  | Some x, Some y => (x <? y)%Z
  | _, _ => false
  end.

(** [timeMapping[key]] *)
Definition timeMapping (key : string) : option (list string) :=
  if String.eqb key "morning" then Some ["Morning"; "morning"]
  else if String.eqb key "afternoon" then Some ["Lunch"; "lunch"]
  else if String.eqb key "evening" then Some ["Evening"; "evening"; "Any"; "any"]
  else if String.eqb key "night" then Some ["Evening"; "evening"; "Any"; "any"]
  else None.

Definition isPreference (o : option string) (v : string) : bool :=
  match o with Some s => String.eqb s v | None => false end.

Definition hasChicken (food : FoodInfo.t) : bool :=
  includes (toLowerCase (FoodInfo.name food)) "chicken".

(** The time-of-day test at the end of the filter callback. *)
Definition timeAllows (preferences : FoodPreferences) (food : FoodInfo.t)
    : bool :=
  match timeOfDay preferences with
  | Some t =>
      if truthy t then
        let validTimes :=
          match timeMapping (toLowerCase t) with Some l => l | None => [] end in
        let foodBestTime := toLowerCase (FoodInfo.bestTime food) in
        if negb (List.existsb
                   (fun time => includes foodBestTime (toLowerCase time))
                   validTimes)
        then false else true
      else true
  | None => true
  end.

(** The callback given to [cityFoods.filter]. *)
Definition foodFilter (preferences : FoodPreferences) (food : FoodInfo.t)
    : bool :=
  if isPreference (dietary preferences) "veg" && hasChicken food then false
  else if isPreference (dietary preferences) "non-veg" && negb (hasChicken food)
  then hasChicken food
  else
    let userSpiceLevel :=
      match spiceLevel preferences with
      | Some k => spiceLevels k
      | None => None
      end in
    let foodSpiceLevel := spiceLevels (FoodInfo.spiceLevel food) in
    if lessThan userSpiceLevel foodSpiceLevel then false
    else timeAllows preferences food.

Definition getFoodInfo (db : t) (city : string) (preferences : FoodPreferences)
    : list FoodInfo.t :=
  if negb (isLoaded db) then []
  else
    let cityFoods :=
      match foodData db !! toLowerCase city with
      | Some foods => foods
      | None => []
      end in
    List.filter (foodFilter preferences) cityFoods.

(** What a lookup hands back, as a JavaScript value: [null], one record, or an
    array of records. *)
Inductive Returned (A : Type) : Type :=
  | Null
  | Object (r : A)
  | Array (items : list A).
Arguments Null {A}.
Arguments Object {A} r.
Arguments Array {A} items.

Definition ofNullable {A : Type} (o : option A) : Returned A :=
  match o with Some r => Object r | None => Null end.

Definition returnedBySlang (db : t) (term : string) : Returned SlangInfo.t :=
  ofNullable (getSlangInfo db term).
Definition returnedByFestival (db : t) (festival : string)
    : Returned FestivalInfo.t :=
  ofNullable (getFestivalInfo db festival).
Definition returnedByEmotion (db : t) (emotion : string)
    : Returned EmotionFoodMapping.t :=
  ofNullable (getEmotionFoodMapping db emotion).
Definition returnedByFood (db : t) (city : string) (preferences : FoodPreferences)
    : Returned FoodInfo.t :=
  Array (getFoodInfo db city preferences).

(** *** The store's own validation functions *)

Definition validateSlangInfo (slang : SlangInfo.t) : bool :=
  truthy (SlangInfo.term slang)
  && truthy (SlangInfo.literalMeaning slang)
  && truthy (SlangInfo.emotionalIntent slang)
  && truthy (SlangInfo.socialAppropriateness slang)
  && truthy (SlangInfo.formalityLevel slang).

Definition validateFoodInfo (food : FoodInfo.t) : bool :=
  truthy (FoodInfo.name food)
  && truthy (FoodInfo.city food)
  && truthy (FoodInfo.spiceLevel food)
  && truthy (FoodInfo.bestTime food)
  && truthy (FoodInfo.description food).

Definition validateFestivalInfo (festival : FestivalInfo.t) : bool :=
  truthy (FestivalInfo.name festival)
  && truthy (FestivalInfo.culturalMeaning festival)
  && (0 <? List.length (FestivalInfo.associatedFoods festival))%nat
  && truthy (FestivalInfo.foodSymbolism festival)
  && truthy (FestivalInfo.emotionalTone festival).

Definition validateEmotionFoodMapping (mapping : EmotionFoodMapping.t) : bool :=
  truthy (EmotionFoodMapping.emotion mapping)
  && truthy (EmotionFoodMapping.recommendedFood mapping)
  && truthy (EmotionFoodMapping.emotionalLogic mapping)
  && truthy (EmotionFoodMapping.homeVsStreet mapping).

Definition isDataLoaded (db : t) : bool := isLoaded db.

(** *** Lookups with a fallback response *)

(** A record (or array of records) of the store, or a fallback response. *)
Inductive OrFallback (A : Type) : Type :=
  | Found (value : A)
  | Fallback (response : FallbackResponse.t).
Arguments Found {A} value.
Arguments Fallback {A} response.

Definition getSlangInfoWithFallback (db : t) (term : string)
    : OrFallback SlangInfo.t :=
  match getSlangInfo db term with
  | Some slangInfo => Found slangInfo
  | None => Fallback (ErrorHandler.createSlangFallback term)
  end.

Definition getFoodInfoWithFallback (db : t) (city : string)
    (preferences : FoodPreferences) : OrFallback (list FoodInfo.t) :=
  let foodInfo := getFoodInfo db city preferences in
  if (0 <? List.length foodInfo)%nat then Found foodInfo
  else Fallback (ErrorHandler.createFoodFallback city
                   (spiceLevel preferences) (dietary preferences)).

Definition getFestivalInfoWithFallback (db : t) (festival : string)
    : OrFallback FestivalInfo.t :=
  match getFestivalInfo db festival with
  | Some festivalInfo => Found festivalInfo
  | None => Fallback (ErrorHandler.createFestivalFallback festival)
  end.

Definition getEmotionFoodMappingWithFallback (db : t) (emotion : string)
    : OrFallback EmotionFoodMapping.t :=
  match getEmotionFoodMapping db emotion with
  | Some mapping => Found mapping
  | None => Fallback (ErrorHandler.createEmotionFallback emotion)
  end.

End CulturalDatabaseImpl.

(* ===================================================================== *)
(** ** EmotionFoodMapperImpl.ts *)
(* ===================================================================== *)

Module EmotionFoodMapperImpl.

Import Js.

Record Mapping : Type := mkMapping {
  m_food : string;
  m_reasoning : string;
  m_spiceLevel : string;
  m_homeVsStreet : string
}.

Record FoodRecommendation : Type := mkRecommendation {
  food : string;
  reasoning : string;
  culturalContext : string;
  spiceLevel : string
}.

(** [new Map(entries)]: a later entry replaces an earlier one with the same
    key. *)
Definition mapOf {A : Type} (entries : list (string * A)) : gmap string A :=
  List.fold_left (fun m e => <[fst e := snd e]> m) entries ∅.

(** The table the constructor builds. *)
Definition emotionMappings : gmap string Mapping :=
  mapOf
    [ ("sad", mkMapping "Pappu with Avakaya"
         "Comfort food that brings nostalgia and warmth, like amma's cooking"
         "medium" "home");
      ("sick", mkMapping "Rasam"
         "Light, healing soup with pepper that soothes the body and aids digestion"
         "low" "home");
      ("happy", mkMapping "Biryani"
         "Celebratory feast food that matches the joy and festive mood"
         "high" "street");
      ("angry", mkMapping "Curd Rice"
         "Cooling effect that calms the mind and reduces body heat from anger"
         "low" "home");
      ("tired", mkMapping "Coffee with Punugulu"
         "Energy boost from caffeine paired with crispy snacks for quick satisfaction"
         "medium" "street") ].

Definition mapEmotionToFood (emotion : string) : FoodRecommendation :=
  let normalizedEmotion := trim (toLowerCase emotion) in
  match emotionMappings !! normalizedEmotion with
  | None =>
      {| food := "Pappu with Avakaya";
         reasoning := "When in doubt, comfort food like pappu always helps, ra!";
         culturalContext :=
           "In Andhra culture, pappu is the ultimate comfort food that soothes any emotion";
         spiceLevel := "medium" |}
  | Some mapping =>
      {| food := m_food mapping;
         reasoning := m_reasoning mapping;
         culturalContext :=
           "In Andhra culture, food is emotional medicine - " ++ m_food mapping
           ++ " is perfect for when you're feeling " ++ emotion;
         spiceLevel := m_spiceLevel mapping |}
  end.

(** *** explainEmotionalLogic *)

(** The first return statement's text. *)
Definition balanceSentence (emotion : string) : string :=
  "This food choice might help balance your " ++ emotion
  ++ " mood through Andhra food wisdom".

(** The text after [||] in the last return statement. *)
Definition traditionSentence (emotion : string) : string :=
  "This combination works well for your " ++ emotion
  ++ " mood according to Andhra food traditions.".

Definition explanations : list (string * string) :=
  [ ("sad",
     "Arey, when you're feeling low, nothing beats the comfort of pappu with avakaya. It's like amma's hug in food form - the tangy pickle cuts through sadness while the dal provides warmth and comfort.");
    ("sick",
     "Baboi, when you're not well, rasam is like liquid medicine! The pepper and tamarind help clear your system, and it's light on the stomach. Our elders always say "
     ++ inQuotes "rasam tho everything will be fine.");
    ("happy",
     "Chala scene undi! When you're happy, only biryani can match that energy. It's celebration food - rich, flavorful, and meant to be shared with loved ones. Perfect for your joyful mood!");
    ("angry",
     "Lite teesko, when anger heats up your body, curd rice is the perfect coolant. The yogurt literally cools your system down, and the simple taste helps calm your mind. Very effective, trust me!");
    ("tired",
     "Taggede le! When you're exhausted, you need both caffeine and carbs. Coffee gives instant energy while punugulu provides that satisfying crunch and quick fuel. Perfect evening combo!") ].

(** [None] stands for a result that is no string: a member the table
    inherits from the prototype. *)
Definition explainEmotionalLogic (emotion food : string) : option string :=
  let normalizedEmotion := trim (toLowerCase emotion) in
  match emotionMappings !! normalizedEmotion with
  | None => Some (balanceSentence emotion)
  | Some mapping =>
      if negb (String.eqb (toLowerCase (m_food mapping)) (toLowerCase food))
      then Some (balanceSentence emotion)
      else
        match member explanations normalizedEmotion with
        | Own explanation =>
            Some (if truthy explanation then explanation
                  else traditionSentence emotion)
        | Missing => Some (traditionSentence emotion)
        | Inherited => None
        end
  end.

(** *** considerPreferences *)

Definition vegAlternatives : list (string * string) :=
  [ ("Biryani", "Veg Biryani with paneer");
    ("Coffee with Punugulu", "Coffee with Veg Punugulu") ].

(** In the four adaptation functions [None] stands for a recommendation one
    of whose fields is no string, because a table lookup met a member
    inherited from the prototype. *)
Definition adaptForVegetarian (recommendation : FoodRecommendation)
    : option FoodRecommendation :=
  match member vegAlternatives (food recommendation) with
  | Own vegAlternative =>
      if truthy vegAlternative then
        Some {| food := vegAlternative;
                reasoning := reasoning recommendation
                             ++ " (adapted for vegetarian preference)";
                culturalContext := culturalContext recommendation;
                spiceLevel := spiceLevel recommendation |}
      else Some recommendation
  | Missing => Some recommendation
  | Inherited => None
  end.

Definition spiceAdjustments : list (string * string) :=
  [ ("low", "with mild spicing");
    ("medium", "with moderate spice level");
    ("high", "with good spice kick");
    ("extreme", "with maximum Guntur-style heat") ].

Definition adaptForSpiceLevel (recommendation : FoodRecommendation)
    (preferredSpice : string) : option FoodRecommendation :=
  if String.eqb (spiceLevel recommendation) preferredSpice
  then Some recommendation
  else
    let adapted (adjustment : string) :=
      {| food := food recommendation ++ " " ++ adjustment;
         reasoning := reasoning recommendation ++ " (adjusted to your "
                      ++ preferredSpice ++ " spice preference)";
         culturalContext := culturalContext recommendation;
         spiceLevel := preferredSpice |} in
    match member spiceAdjustments preferredSpice with
    | Own adjustment => Some (adapted adjustment)
    | Missing => Some (adapted "undefined")
    | Inherited => None
    end.

Definition regionalTouches : list (string * string) :=
  [ ("coastal", "with coastal Andhra style preparation");
    ("guntur", "with extra Guntur mirchi for that authentic kick");
    ("rayalaseema", "prepared in traditional Rayalaseema style") ].

Definition adaptForRegion (recommendation : FoodRecommendation)
    (region : string) : option FoodRecommendation :=
  match member regionalTouches region with
  | Own regionalTouch =>
      if truthy regionalTouch then
        Some {| food := food recommendation ++ " " ++ regionalTouch;
                reasoning := reasoning recommendation;
                culturalContext :=
                  culturalContext recommendation ++ " This " ++ region
                  ++ " region preparation adds authentic local flavor.";
                spiceLevel := spiceLevel recommendation |}
      else Some recommendation
  | Missing => Some recommendation
  | Inherited => None
  end.

Definition homeEmotions : list string := ["sad"; "sick"; "angry"].
Definition streetEmotions : list string := ["happy"; "tired"].

(** The value of [preferredSetting] after the two tests. *)
Definition preferredSetting (recommendation : FoodRecommendation) : string :=
  let emotionContext :=
    toLowerCase (culturalContext recommendation) ++ " "
    ++ toLowerCase (reasoning recommendation) in
  if List.existsb (fun emotion => includes emotionContext emotion) homeEmotions
  then "home"
  else if List.existsb (fun emotion => includes emotionContext emotion)
            streetEmotions
  then "street"
  else "both".

(** The [preferences] argument is not read. *)
Definition applyHomeVsStreetLogic (recommendation : FoodRecommendation)
    (preferences : UserPreferences.t) : FoodRecommendation :=
  let setting := preferredSetting recommendation in
  if String.eqb setting "home" then
    {| food := food recommendation;
       reasoning := reasoning recommendation
                    ++ " Best enjoyed at home for that personal comfort.";
       culturalContext :=
         culturalContext recommendation
         ++ " Home-style preparation brings out the emotional healing aspect.";
       spiceLevel := spiceLevel recommendation |}
  else if String.eqb setting "street" then
    {| food := food recommendation;
       reasoning := reasoning recommendation
                    ++ " Perfect to grab from your favorite local spot!";
       culturalContext :=
         culturalContext recommendation
         ++ " Street-style preparation adds that authentic local flavor and social energy.";
       spiceLevel := spiceLevel recommendation |}
  else recommendation.

Definition considerPreferences (recommendation : FoodRecommendation)
    (preferences : UserPreferences.t) : option FoodRecommendation :=
  let adaptedRecommendation := Some recommendation in
  let adaptedRecommendation :=
    if isValue (UserPreferences.dietary preferences) "veg"
    then adaptedRecommendation ≫= adaptForVegetarian
    else adaptedRecommendation in
  let adaptedRecommendation :=
    match UserPreferences.spiceLevel preferences with
    | Some preferredSpice =>
        if truthy preferredSpice
        then adaptedRecommendation
             ≫= (fun r => adaptForSpiceLevel r preferredSpice)
        else adaptedRecommendation
    | None => adaptedRecommendation
    end in
  let adaptedRecommendation :=
    match UserPreferences.region preferences with
    | Some region =>
        if truthy region
        then adaptedRecommendation ≫= (fun r => adaptForRegion r region)
        else adaptedRecommendation
    | None => adaptedRecommendation
    end in
  (fun r => applyHomeVsStreetLogic r preferences) <$> adaptedRecommendation.

End EmotionFoodMapperImpl.

(* ===================================================================== *)
(** ** ResponseFormatter.ts *)
(* ===================================================================== *)

Module ResponseFormatter.

Import Js.

Inductive Region : Type := coastal | guntur | rayalaseema.
Inductive Category : Type := cat_slang | cat_food | cat_festival | cat_emotion.

Record CulturalResponse : Type := mkResponse {
  content : string;
  teluguWords : list string;
  culturalTone : string;
  region : option Region;
  category : Category
}.

Definition culturalGreetings (r : Region) : list string :=
  match r with
  | coastal => ["Trust me"; "You know what"; "Let me tell you"; "Honestly speaking"]
  | guntur => ["Pakka guarantee"; "Believe me"; "No doubt about it";
               "Fire ga cheppali ante"]
  | rayalaseema => ["Simple ga cheppali ante"; "Traditional ga";
                    "Straight forward ga"; "Honestly"]
  end.

Definition culturalClosings (c : Category) : list string :=
  match c with
  | cat_slang =>
      ["That's how we express ourselves in Andhra culture!";
       "This is authentic Andhra way of speaking!";
       "That's the beauty of our Telugu expressions!"]
  | cat_food =>
      ["This is authentic Andhra taste that locals love!";
       "That's real Andhra flavor for you!";
       "This is what makes Andhra cuisine special!"]
  | cat_festival =>
      ["That's the beauty of Andhra festival traditions!";
       "This is how we celebrate in Andhra culture!";
       "That's the richness of our cultural heritage!"]
  | cat_emotion =>
      ["That's the wisdom of Andhra food culture!";
       "This is how we heal through food in our tradition!";
       "That's the emotional connection we have with food!"]
  end.

(** [list[Math.floor(Math.random() * list.length)]]; [draw] stands for the
    random draw and is reduced to an index of the list. *)
Definition pick (draw : nat) (l : list string) : string :=
  List.nth (draw mod List.length l) l EmptyString.

(** *** Step 1: addCulturalOpening *)

Definition openingPatterns : list string :=
  ["trust me"; "you know"; "let me tell"; "pakka"; "believe"; "honestly";
   "simple"; "arey"; "baboi"].

Definition hasOpening (content : string) : bool :=
  List.existsb (startsWithCI content) openingPatterns.

Definition addCulturalOpening (draw : nat) (content : string)
    (region : option Region) : string :=
  if negb (hasOpening content) then
    let greetings :=
      match region with
      | Some r => culturalGreetings r
      | None => culturalGreetings coastal
      end in
    let randomGreeting := pick draw greetings in
    randomGreeting ++ ", " ++ toLowerCase content
  else content.

(** *** Step 2: ensureTeluguIntegration *)

Definition ensureTeluguIntegration (content : string) (teluguWords : list string)
    : string :=
  match teluguWords with
  | [] => content
  | word :: _ =>
      let hasTeluguWords :=
        List.existsb
          (fun w => includes (toLowerCase content) (toLowerCase w)) teluguWords in
      if negb hasTeluguWords then
        if inList (toLowerCase word) ["arey"; "baboi"]
        then capitalize word ++ ", " ++ toLowerCase content
        else if inList (toLowerCase word) ["babu"; "amma"]
        then content ++ " That's what we call it, " ++ word ++ "!"
        else content ++ " We call it " ++ word ++ " in Telugu."
      else content
  end.

(** *** Step 3: removeTechnicalTerms *)

Definition isWordOpt (c : option ascii) : bool :=
  match c with Some x => isWordChar x | None => false end.

(** [\b] between the character [prev] and the character [cur]. *)
Definition wordBoundary (prev cur : option ascii) : bool :=
  xorb (isWordOpt prev) (isWordOpt cur).

(** The alternative [alt] followed by [\b], matched without regard to case at
    the start of [s]. *)
Definition altThenBoundary (s alt : string) : bool :=
  startsWithCI s alt
  && wordBoundary (lastChar alt) (charAt0 (drop (String.length alt) s)).

(** [\b(alt1|alt2|...)\b] at the start of [s], the character before being
    [prev]: the length of the match. *)
Definition wordAt (alts : list string) (prev : option ascii) (s : string)
    : option nat :=
  if wordBoundary prev (charAt0 s) then
    match List.find (altThenBoundary s) alts with
    | Some alt => Some (String.length alt)
    | None => None
    end
  else None.

(** [s.replace(/\b(alt1|alt2|...)\b/gi, '')]; [skip] counts the characters of
    the current match still to be passed over. *)
Fixpoint removeWords (alts : list string) (prev : option ascii) (s : string)
    (skip : nat) : string :=
  match s with
  | EmptyString => EmptyString
  | String c s' =>
      match skip with
      | S k => removeWords alts (Some c) s' k
      | O =>
          match wordAt alts prev s with
          | Some n => removeWords alts (Some c) s' (n - 1)
          | None => String c (removeWords alts (Some c) s' 0)
          end
      end
  end.

Definition technicalTerms : list (list string) :=
  [ ["api"; "database"; "dataset"; "training data"; "algorithm"; "model"];
    ["implementation"; "system"; "interface"; "component"; "module"];
    ["configuration"; "parameter"; "function"; "method"; "class"];
    ["server"; "client"; "endpoint"; "request"; "response"];
    ["json"; "xml"; "http"; "rest"; "graphql"] ].

(** [s.replace(/\s+/g, ' ')]; [inRun] tells that the previous character was
    whitespace. *)
Fixpoint collapseSpaces (s : string) (inRun : bool) : string :=
  match s with
  | EmptyString => EmptyString
  | String c s' =>
      if isSpace c then
        if inRun then collapseSpaces s' true
        else String " "%char (collapseSpaces s' true)
      else String c (collapseSpaces s' false)
  end.

Definition isPunct (c : ascii) : bool :=
  Ascii.eqb c ","%char || Ascii.eqb c "."%char
  || Ascii.eqb c "!"%char || Ascii.eqb c "?"%char.

(** The whitespace run starting at [s] is followed by [,], [.], [!] or [?]. *)
Definition punctAhead (s : string) : bool :=
  match dropWhile isSpace s with
  | String c _ => isPunct c
  | EmptyString => false
  end.

(** [s.replace(/\s+([,.!?])/g, '$1')]: a whitespace run that ends at one of
    the four marks is removed. *)
Fixpoint dropSpaceBeforePunct (s : string) : string :=
  match s with
  | EmptyString => EmptyString
  | String c s' =>
      if isSpace c && punctAhead s' then dropSpaceBeforePunct s'
      else String c (dropSpaceBeforePunct s')
  end.

Definition removeTechnicalTerms (content : string) : string :=
  let cleanedContent :=
    List.fold_left (fun acc alts => removeWords alts None acc 0)
      technicalTerms content in
  trim (dropSpaceBeforePunct (collapseSpaces cleanedContent false)).

(** *** Step 4: addCulturalClosing *)

Definition closingWords : list string :=
  ["that's"; "this is"; "beauty"; "authentic"; "traditional"; "culture";
   "heritage"].

Fixpoint hasLineTerminator (s : string) : bool :=
  match s with
  | EmptyString => false
  | String c s' => isLineTerminator c || hasLineTerminator s'
  end.

(** [.*[!.]$] at the start of [r]. *)
Definition closingTail (r : string) : bool :=
  negb (hasLineTerminator r)
  && (endsWithChar r "!"%char || endsWithChar r "."%char).

(** The closing pattern tried at the start of [s]. *)
Definition closingAt (prev : option ascii) (s : string) : bool :=
  wordBoundary prev (charAt0 s)
  && List.existsb
       (fun alt => altThenBoundary s alt
                   && closingTail (drop (String.length alt) s))
       closingWords.

(** [/\b(that's|this is|...)\b.*[!.]$/i.test(content)] *)
Fixpoint hasClosingFrom (prev : option ascii) (s : string) : bool :=
  closingAt prev s
  || match s with
     | EmptyString => false
     | String c s' => hasClosingFrom (Some c) s'
     end.

Definition hasClosing (content : string) : bool := hasClosingFrom None content.

Definition endsWithMark (content : string) : bool :=
  endsWithChar content "."%char || endsWithChar content "!"%char
  || endsWithChar content "?"%char.

Definition addCulturalClosing (draw : nat) (content : string)
    (category : Category) : string :=
  if negb (hasClosing content) then
    let randomClosing := pick draw (culturalClosings category) in
    let content := if negb (endsWithMark content) then content ++ "." else content in
    content ++ " " ++ randomClosing
  else content.

(** *** Step 5: improveFlow *)

(** [s.replace(/([,.!?])([A-Z])/g, '$1 $2')] *)
Fixpoint spaceAfterPunct (s : string) : string :=
  match s with
  | EmptyString => EmptyString
  | String c s' =>
      match s' with
      | String d _ =>
          if isPunct c && isUpper d
          then String c (String " "%char (spaceAfterPunct s'))
          else String c (spaceAfterPunct s')
      | EmptyString => String c EmptyString
      end
  end.

(** [s.replace(/p\s*([a-z])/g, (m, letter) => p + ' ' + letter.toUpperCase())]
    for the mark [p]; [skip] counts the characters of the current match still
    to be passed over. *)
Fixpoint capitalizeAfter (p : ascii) (s : string) (skip : nat) : string :=
  match s with
  | EmptyString => EmptyString
  | String c s' =>
      match skip with
      | S k => capitalizeAfter p s' k
      | O =>
          if Ascii.eqb c p then
            match dropWhile isSpace s' with
            | String l _ =>
                if isLower l
                then String p (String " "%char (String (upperChar l)
                       (capitalizeAfter p s'
                          (String.length (takeWhile isSpace s') + 1))))
                else String c (capitalizeAfter p s' 0)
            | EmptyString => String c (capitalizeAfter p s' 0)
            end
          else String c (capitalizeAfter p s' 0)
      end
  end.

Definition improveFlow (content : string) : string :=
  let improved := collapseSpaces content false in
  let improved := dropSpaceBeforePunct improved in
  let improved := spaceAfterPunct improved in
  let improved := capitalizeAfter "."%char improved 0 in
  let improved := capitalizeAfter "!"%char improved 0 in
  let improved := capitalizeAfter "?"%char improved 0 in
  let improved := trim improved in
  capitalize improved.

(** *** formatResponse *)

(** [drawOpening] and [drawClosing] are the two random draws. *)
Definition formatResponse (drawOpening drawClosing : nat)
    (response : CulturalResponse) : string :=
  let formattedContent := content response in
  let formattedContent :=
    addCulturalOpening drawOpening formattedContent (region response) in
  let formattedContent :=
    ensureTeluguIntegration formattedContent (teluguWords response) in
  let formattedContent := removeTechnicalTerms formattedContent in
  let formattedContent :=
    addCulturalClosing drawClosing formattedContent (category response) in
  improveFlow formattedContent.

(** *** The checks of validateResponseFormat *)

Definition vocabulary : list string :=
  ["babu"; "amma"; "arey"; "baboi"; "pappu"; "avakaya"; "rasam"; "biryani";
   "panduga"; "santosham"].

Definition hasTeluguWord (content : string) : bool :=
  List.existsb (fun word => includes (toLowerCase content) word) vocabulary.

Definition denylist : list string :=
  ["API"; "database"; "dataset"; "training"; "algorithm"; "system"].

Definition hasTechnicalTerms (content : string) : bool :=
  List.existsb
    (fun term => includes (toLowerCase content) (toLowerCase term)) denylist.

Definition hasEndMark (content : string) : bool := endsWithMark (trim content).

Definition warmthIndicators : list string :=
  ["trust me"; "you know"; "let me tell"; "pakka"; "believe"; "honestly";
   "arey"; "baboi"].

Definition hasWarmth (content : string) : bool :=
  List.existsb
    (fun indicator => includes (toLowerCase content) (toLowerCase indicator))
    warmthIndicators.

Definition issueTelugu : string := "Response should include Telugu vocabulary".
Definition issueTechnical : string :=
  "Response contains technical implementation details".
Definition issueWarmth : string := "Response should have warm, friendly tone".
Definition issuePunctuation : string :=
  "Response should end with proper punctuation".

Record FormatValidation : Type := mkFormatValidation {
  isValid : bool;
  issues : list string
}.

Definition validateResponseFormat (content : string) : FormatValidation :=
  let issues :=
    ((if negb (hasTeluguWord content) then [issueTelugu] else [])
     ++ (if hasTechnicalTerms content then [issueTechnical] else [])
     ++ (if negb (hasWarmth content) then [issueWarmth] else [])
     ++ (if negb (hasEndMark content) then [issuePunctuation] else []))%list in
  {| isValid := Nat.eqb (List.length issues) 0; issues := issues |}.

(** *** Error and success responses *)

Definition culturalErrorOpeners : list string := ["Arey"; "Baboi"; "Sorry ra"].

Definition suggestions : list (string * string) :=
  [ ("slang",
     "Try asking about greeting expressions, emotional expressions, or casual conversation!");
    ("food",
     "Try asking about street food, breakfast items, or snacks from different cities!");
    ("festival", "Try asking about Ugadi, Sankranti, or Dussehra celebrations!");
    ("emotion",
     "Try asking about food for when you're happy, sad, tired, or excited!") ].

(** [None] stands for a member the table inherits from the prototype, whose
    text is not a string of the source. *)
Definition getCategorySuggestions (category : string) : option string :=
  match member suggestions category with
  | Own suggestion =>
      Some (if truthy suggestion then suggestion
            else "Try exploring different cultural topics!")
  | Missing => Some "Try exploring different cultural topics!"
  | Inherited => None
  end.

(** [draw] is the random draw of the opener. *)
Definition formatErrorResponse (draw : nat) (errorMessage : string)
    (category : option string) : option string :=
  let opener := pick draw culturalErrorOpeners in
  let formattedError := opener ++ ", " ++ toLowerCase errorMessage in
  match category with
  | Some c =>
      if truthy c then
        (fun suggestion => formattedError ++ " " ++ suggestion)
          <$> getCategorySuggestions c
      else
        Some (formattedError
              ++ " Try asking about slang, food, festivals, or emotions - I'm here to help with Andhra culture!")
  | None =>
      Some (formattedError
            ++ " Try asking about slang, food, festivals, or emotions - I'm here to help with Andhra culture!")
  end.

Definition successOpeners : list string :=
  ["Perfect!"; "Excellent choice!"; "Great question!"].

(** The [category] argument is not read. *)
Definition formatSuccessResponse (draw : nat) (content : string) : string :=
  let opener := pick draw successOpeners in
  opener ++ " " ++ content.

(** *** formatResponse on a region that is any string *)

(** The declared type of a region admits the three names, and a caller that
    keeps to it is served by [formatResponse] above.  A caller that casts
    ([region as any]) passes any string, and [culturalGreetings[region]] is
    looked up under that string. *)
Definition greetingsTable : list (string * list string) :=
  [ ("coastal", culturalGreetings coastal);
    ("guntur", culturalGreetings guntur);
    ("rayalaseema", culturalGreetings rayalaseema) ].

(** Step 1 on such a region.  Without a region (or with the empty string)
    the coastal greetings are used.  A name the table does not hold gives
    [undefined], whose [length] cannot be read: a [TypeError].  A name the
    table inherits from the prototype gives a function or an object, which
    has no element to pick: the greeting is [undefined], and the template
    literal writes it as the text [undefined]. *)
Definition addCulturalOpeningAny (draw : nat) (content : string)
    (region : option string) : Result string :=
  if negb (hasOpening content) then
    let greetings :=
      match region with
      | Some name =>
          if truthy name then member greetingsTable name
          else Own (culturalGreetings coastal)
      | None => Own (culturalGreetings coastal)
      end in
    match greetings with
    | Own greetings =>
        let randomGreeting := pick draw greetings in
        Ok (randomGreeting ++ ", " ++ toLowerCase content)
    | Inherited => Ok ("undefined" ++ ", " ++ toLowerCase content)
    | Missing => Throw typeError
    end
  else Ok content.

(** The five steps of [formatResponse] on a response given by its content,
    words, category and a region that is any string. *)
Definition formatResponseAny (drawOpening drawClosing : nat) (content : string)
    (teluguWords : list string) (category : Category) (region : option string)
    : Result string :=
  andThen (addCulturalOpeningAny drawOpening content region)
    (fun formattedContent =>
       let formattedContent :=
         ensureTeluguIntegration formattedContent teluguWords in
       let formattedContent := removeTechnicalTerms formattedContent in
       let formattedContent :=
         addCulturalClosing drawClosing formattedContent category in
       Ok (improveFlow formattedContent)).

End ResponseFormatter.

(* ===================================================================== *)
(** ** InputProcessorImpl.ts *)
(* ===================================================================== *)

Module InputProcessorImpl.

Import Js.

Definition validCategories : list string :=
  ["slang"; "food"; "festival"; "emotion"].

Definition validatePreferences (preferences : UserPreferences.t) : bool :=
  let validSpiceLevels := ["low"; "medium"; "high"; "extreme"] in
  let validDietaryPrefs := ["veg"; "non-veg"; "any"] in
  let validFormalityLevels := ["formal"; "informal"] in
  let validRegions := ["coastal"; "guntur"; "rayalaseema"] in
  if rejected (UserPreferences.spiceLevel preferences) validSpiceLevels
  then false
  else if rejected (UserPreferences.dietary preferences) validDietaryPrefs
  then false
  else if rejected (UserPreferences.formality preferences) validFormalityLevels
  then false
  else if rejected (UserPreferences.region preferences) validRegions
  then false
  else true.

(** Nothing in the [try] block throws. *)
Definition validateInput (input : UserInput.t) : bool :=
  if negb (truthy (UserInput.category input))
     || negb (inList (UserInput.category input) validCategories)
  then false
  else if negb (truthy (UserInput.selection input))
          || String.eqb (trim (UserInput.selection input)) ""
  then false
  else
    match UserInput.preferences input with
    | Some preferences => validatePreferences preferences
    | None => true
    end.

(** An input with the two fields [enrichInput] adds. *)
Record EnrichedInput : Type := mkEnriched {
  input : UserInput.t;
  timestamp : Z;
  sessionId : string
}.

(** [timestamp] is the clock reading and [sessionId] the generated
    identifier. *)
Definition enrichInput (input : UserInput.t) (timestamp : Z) (sessionId : string)
    : Result EnrichedInput :=
  if negb (validateInput input)
  then Throw (CulturalError.message (ErrorHandler.createInputValidationError input))
  else Ok {| input := input; timestamp := timestamp; sessionId := sessionId |}.

(** [currentHour] is [new Date().getHours()].  The [category] argument is
    not read. *)
Definition inferContext (preferences : UserPreferences.t) (currentHour : Z)
    : UserIntent.Context :=
  {| UserIntent.contextRegion :=
       if present (UserPreferences.region preferences)
       then UserPreferences.region preferences else None;
     UserIntent.timeOfDay :=
       Some (if (6 <=? currentHour)%Z && (currentHour <? 10)%Z then "morning"
             else if (10 <=? currentHour)%Z && (currentHour <? 16)%Z
             then "afternoon"
             else if (16 <=? currentHour)%Z && (currentHour <? 20)%Z
             then "evening"
             else "night") |}.

Definition inferIntent (enriched : EnrichedInput) (currentHour : Z)
    : Result UserIntent.t :=
  if negb (validateInput (input enriched))
  then Throw (CulturalError.message
                (ErrorHandler.createInputValidationError (input enriched)))
  else
    let preferences :=
      match UserInput.preferences (input enriched) with
      | Some preferences => preferences
      | None => UserPreferences.empty
      end in
    let context := inferContext preferences currentHour in
    Ok {| UserIntent.category := UserInput.category (input enriched);
          UserIntent.selection := trim (UserInput.selection (input enriched));
          UserIntent.preferences := preferences;
          UserIntent.context := context |}.

(** The result object [{ isValid, error? }]. *)
Record Validity : Type := mkValidity {
  isValid : bool;
  error : option CulturalError.t
}.

Definition validateInputWithDetails (input : UserInput.t) : Validity :=
  if validateInput input then {| isValid := true; error := None |}
  else {| isValid := false;
          error := Some (ErrorHandler.createInputValidationError input) |}.

End InputProcessorImpl.

(* ===================================================================== *)
(** ** DropdownInterfaceImpl.ts *)
(* ===================================================================== *)

Module DropdownInterfaceImpl.

Import Js.

Definition categories : list string := ["slang"; "food"; "festival"; "emotion"].

Definition subcategories : list (string * list string) :=
  [ ("slang",
     ["greeting expressions"; "emotional expressions"; "casual conversation";
      "family terms"; "food-related slang"]);
    ("food",
     ["breakfast items"; "street food"; "main meals"; "snacks"; "beverages";
      "sweets"]);
    ("festival",
     ["Ugadi"; "Sankranti"; "Dussehra"; "Diwali"; "Vinayaka Chavithi";
      "Shivaratri"]);
    ("emotion",
     ["sad"; "happy"; "angry"; "tired"; "sick"; "excited"; "stressed"]) ].

Definition getCategories : list string := categories.

Definition isValidCategory (category : string) : bool :=
  inList category categories.

(** The [catch] blocks of this class rethrow what they caught. *)
Definition getSubcategories (category : string) : Result (list string) :=
  if negb (isValidCategory category)
  then Throw ("Invalid category: " ++ category ++ ". Valid categories are: "
              ++ join ", " categories)
  else
    match member subcategories category with
    | Own options => Ok options
    | _ => Throw typeError
    end.

(** The message of the error [validatePreferences] throws, if it throws. *)
Definition validatePreferences (preferences : UserPreferences.t)
    : option string :=
  let validSpiceLevels := ["low"; "medium"; "high"; "extreme"] in
  let validDietaryPrefs := ["veg"; "non-veg"; "any"] in
  let validFormalityLevels := ["formal"; "informal"] in
  let validRegions := ["coastal"; "guntur"; "rayalaseema"] in
  if rejected (UserPreferences.spiceLevel preferences) validSpiceLevels
  then Some ("Invalid spice level: "
             ++ inQuotes (shown (UserPreferences.spiceLevel preferences))
             ++ ". Please choose from: " ++ join ", " validSpiceLevels)
  else if rejected (UserPreferences.dietary preferences) validDietaryPrefs
  then Some ("Invalid dietary preference: "
             ++ inQuotes (shown (UserPreferences.dietary preferences))
             ++ ". Please choose from: " ++ join ", " validDietaryPrefs)
  else if rejected (UserPreferences.formality preferences) validFormalityLevels
  then Some ("Invalid formality level: "
             ++ inQuotes (shown (UserPreferences.formality preferences))
             ++ ". Please choose from: " ++ join ", " validFormalityLevels)
  else if rejected (UserPreferences.region preferences) validRegions
  then Some ("Invalid region: "
             ++ inQuotes (shown (UserPreferences.region preferences))
             ++ ". Please choose from: " ++ join ", " validRegions)
  else None.

Definition processSelection (category selection : string)
    (preferences : option UserPreferences.t) : Result UserInput.t :=
  if negb (isValidCategory category)
  then Throw ("Invalid category: " ++ category ++ ". Please select from: "
              ++ join ", " categories)
  else if negb (truthy selection) || String.eqb (trim selection) ""
  then Throw "Please provide a selection for your chosen category"
  else
    match member subcategories category with
    | Own validSubcategories =>
        if negb (inList selection validSubcategories)
        then Throw (inQuotes selection ++ " is not available for " ++ category
                    ++ ". Available options: " ++ join ", " validSubcategories)
        else
          let accepted :=
            Ok {| UserInput.category := category;
                  UserInput.selection := trim selection;
                  UserInput.preferences := preferences |} in
          match preferences with
          | Some given =>
              match validatePreferences given with
              | Some message => Throw message
              | None => accepted
              end
          | None => accepted
          end
    | _ => Throw typeError
    end.

Definition validateSelection (category selection : string)
    (preferences : option UserPreferences.t) : InputProcessorImpl.Validity :=
  match processSelection category selection preferences with
  | Ok _ =>
      {| InputProcessorImpl.isValid := true; InputProcessorImpl.error := None |}
  | Throw _ =>
      let userInput :=
        {| UserInput.category := category;
           UserInput.selection := if truthy selection then selection else "";
           UserInput.preferences := preferences |} in
      let culturalError := ErrorHandler.createInputValidationError userInput in
      {| InputProcessorImpl.isValid := false;
         InputProcessorImpl.error := Some culturalError |}
  end.

Definition getCategoryErrorMessage (category : string) : string :=
  if negb (truthy category) || String.eqb (trim category) ""
  then "Please select a category to explore Andhra culture. Choose from slang, food, festival, or emotion."
  else inQuotes category ++ " is not a valid category. Please choose from: "
       ++ join ", " categories ++ ".".

Definition getSelectionErrorMessage (category selection : string)
    : Result string :=
  if negb (isValidCategory category) then Ok (getCategoryErrorMessage category)
  else
    match member subcategories category with
    | Own validOptions =>
        if negb (truthy selection) || String.eqb (trim selection) ""
        then Ok ("Please make a selection for " ++ category
                 ++ ". Available options: " ++ join ", " validOptions ++ ".")
        else Ok (inQuotes selection ++ " is not available for " ++ category
                 ++ ". Try one of these: " ++ join ", " validOptions ++ ".")
    | _ => Throw typeError
    end.

(** The [errors] array, in push order. *)
Definition getPreferencesErrorMessage (preferences : UserPreferences.t)
    : list string :=
  let validSpiceLevels := ["low"; "medium"; "high"; "extreme"] in
  let validDietaryPrefs := ["veg"; "non-veg"; "any"] in
  let validFormalityLevels := ["formal"; "informal"] in
  let validRegions := ["coastal"; "guntur"; "rayalaseema"] in
  (if rejected (UserPreferences.spiceLevel preferences) validSpiceLevels
    then ["Spice level "
          ++ inQuotes (shown (UserPreferences.spiceLevel preferences))
          ++ " is not valid. Choose from: " ++ join ", " validSpiceLevels]
    else [])
   ++ (if rejected (UserPreferences.dietary preferences) validDietaryPrefs
       then ["Dietary preference "
             ++ inQuotes (shown (UserPreferences.dietary preferences))
             ++ " is not valid. Choose from: " ++ join ", " validDietaryPrefs]
       else [])
   ++ (if rejected (UserPreferences.formality preferences) validFormalityLevels
       then ["Formality level "
             ++ inQuotes (shown (UserPreferences.formality preferences))
             ++ " is not valid. Choose from: "
             ++ join ", " validFormalityLevels]
       else [])
   ++ (if rejected (UserPreferences.region preferences) validRegions
       then ["Region "
             ++ inQuotes (shown (UserPreferences.region preferences))
             ++ " is not valid. Choose from: " ++ join ", " validRegions]
       else []).

End DropdownInterfaceImpl.

(* ===================================================================== *)
(** ** ValidationService.ts *)
(* ===================================================================== *)

Module ValidationService.

Import Js.

Definition VALID_CATEGORIES : list string :=
  ["slang"; "food"; "festival"; "emotion"].
Definition VALID_SPICE_LEVELS : list string :=
  ["low"; "medium"; "high"; "extreme"].
Definition VALID_DIETARY_PREFS : list string := ["veg"; "non-veg"; "any"].
Definition VALID_FORMALITY_LEVELS : list string := ["formal"; "informal"].
Definition VALID_REGIONS : list string := ["coastal"; "guntur"; "rayalaseema"].

Record ValidationResult : Type := mkResult {
  isValid : bool;
  errors : list string;
  warnings : list string
}.

(** The result object for the two arrays. *)
Definition resultOf (errors warnings : list string) : ValidationResult :=
  {| isValid := Nat.eqb (List.length errors) 0;
     errors := errors; warnings := warnings |}.

Definition validatePreferences (preferences : UserPreferences.t)
    : ValidationResult :=
  let errors :=
    ((if rejected (UserPreferences.spiceLevel preferences) VALID_SPICE_LEVELS
      then [("Spice level "
             ++ inQuotes (shown (UserPreferences.spiceLevel preferences))
             ++ " is not valid. Choose from: " ++ join ", " VALID_SPICE_LEVELS
             ++ ".")%string]
      else [])
     ++ (if rejected (UserPreferences.dietary preferences) VALID_DIETARY_PREFS
         then [("Dietary preference "
                ++ inQuotes (shown (UserPreferences.dietary preferences))
                ++ " is not valid. Choose from: "
                ++ join ", " VALID_DIETARY_PREFS ++ ".")%string]
         else [])
     ++ (if rejected (UserPreferences.formality preferences)
              VALID_FORMALITY_LEVELS
         then [("Formality level "
                ++ inQuotes (shown (UserPreferences.formality preferences))
                ++ " is not valid. Choose from: "
                ++ join ", " VALID_FORMALITY_LEVELS ++ ".")%string]
         else [])
     ++ (if rejected (UserPreferences.region preferences) VALID_REGIONS
         then [("Region "
                ++ inQuotes (shown (UserPreferences.region preferences))
                ++ " is not valid. Choose from: " ++ join ", " VALID_REGIONS
                ++ ".")%string]
         else []))%list in
  let warnings :=
    ((if isValue (UserPreferences.spiceLevel preferences) "extreme"
         && negb (isValue (UserPreferences.region preferences) "guntur")
      then ["Extreme spice level is most authentic in Guntur region. Consider selecting Guntur for the most authentic experience."]
      else [])
     ++ (if isValue (UserPreferences.dietary preferences) "non-veg"
            && isValue (UserPreferences.formality preferences) "formal"
         then ["Non-vegetarian options might be limited in formal settings. Consider vegetarian alternatives for formal occasions."]
         else []))%list in
  resultOf errors warnings.

Definition isValidEmotion (emotion : string) : bool :=
  inList (toLowerCase emotion)
    ["sad"; "happy"; "angry"; "tired"; "sick"; "excited"; "stressed"; "lonely";
     "confused"].

(** [input.preferences?.field] *)
Definition preference (input : UserInput.t)
    (field : UserPreferences.t -> option string) : option string :=
  match UserInput.preferences input with
  | Some preferences => field preferences
  | None => None
  end.

Definition validateCategorySpecificInput (input : UserInput.t)
    : ValidationResult :=
  let category := UserInput.category input in
  let selection := UserInput.selection input in
  if String.eqb category "slang" then
    resultOf
      (if truthy selection && (String.length selection <? 2)%nat
       then ["Slang term is too short. Please provide a meaningful slang expression."]
       else [])
      (if isValue (preference input UserPreferences.formality) "formal"
       then ["Slang expressions are typically informal. Consider setting formality to "
             ++ inQuotes "informal" ++ " for better results."]
       else [])
  else if String.eqb category "food" then
    resultOf []
      ((if negb (present (preference input UserPreferences.spiceLevel))
        then ["Consider specifying your spice tolerance for better food recommendations."]
        else [])
       ++ (if negb (present (preference input UserPreferences.dietary))
           then ["Specifying dietary preferences (veg/non-veg) will help provide more accurate recommendations."]
           else []))%list
  else if String.eqb category "festival" then
    resultOf
      (if truthy selection && (String.length selection <? 3)%nat
       then ["Festival name is too short. Please provide a complete festival name."]
       else [])
      []
  else if String.eqb category "emotion" then
    resultOf []
      (if truthy selection && negb (isValidEmotion selection)
       then ["Consider using common emotions like sad, happy, angry, tired, or sick for best results."]
       else [])
  else resultOf [] [].

(** Nothing in the [try] block throws. *)
Definition validateUserInput (input : UserInput.t) : ValidationResult :=
  let category := UserInput.category input in
  let selection := UserInput.selection input in
  let errors :=
    if negb (truthy category)
    then ["Category is required. Please select from: slang, food, festival, or emotion."]
    else if negb (inList category VALID_CATEGORIES)
    then [inQuotes category ++ " is not a valid category. Please choose from: "
          ++ join ", " VALID_CATEGORIES ++ "."]
    else [] in
  let errors :=
    (errors
     ++ (if negb (truthy selection)
         then ["Selection is required. Please make a choice for your selected category."]
         else if String.eqb (trim selection) ""
         then ["Selection cannot be empty. Please provide a valid selection."]
         else if (100 <? String.length selection)%nat
         then ["Selection is too long. Please keep it under 100 characters."]
         else []))%list in
  let warnings : list string := [] in
  let '(errors, warnings) :=
    match UserInput.preferences input with
    | Some preferences =>
        let prefValidation := validatePreferences preferences in
        ((errors ++ ValidationService.errors prefValidation)%list,
         (warnings ++ ValidationService.warnings prefValidation)%list)
    | None => (errors, warnings)
    end in
  let '(errors, warnings) :=
    if truthy category && inList category VALID_CATEGORIES then
      let categoryValidation := validateCategorySpecificInput input in
      ((errors ++ ValidationService.errors categoryValidation)%list,
       (warnings ++ ValidationService.warnings categoryValidation)%list)
    else (errors, warnings) in
  resultOf errors warnings.

Definition createValidationErrorResponse (input : UserInput.t)
    : CulturalError.t :=
  let validation := validateUserInput input in
  let message := "Please check your input: " in
  let message :=
    if (0 <? List.length (errors validation))%nat
    then message ++ join " " (errors validation) else message in
  let message :=
    if (0 <? List.length (warnings validation))%nat
    then message ++ " Note: " ++ join " " (warnings validation) else message in
  {| CulturalError.code := "VALIDATION_ERROR";
     CulturalError.message := trim message;
     CulturalError.category := Some (UserInput.category input);
     CulturalError.fallbackData :=
       Some [("validCategories", CulturalError.Texts VALID_CATEGORIES);
             ("validSpiceLevels", CulturalError.Texts VALID_SPICE_LEVELS);
             ("validDietaryPrefs", CulturalError.Texts VALID_DIETARY_PREFS);
             ("validRegions", CulturalError.Texts VALID_REGIONS)] |}.

Definition getSuggestions (input : UserInput.t) : list string :=
  let category := UserInput.category input in
  (if negb (truthy category) || negb (inList category VALID_CATEGORIES)
   then ["Try starting with a category: slang, food, festival, or emotion"]
   else [])
  ++ (if String.eqb category "food"
         && negb (present (preference input UserPreferences.spiceLevel))
      then ["Specify your spice tolerance (low, medium, high, extreme) for better recommendations"]
      else [])
  ++ (if String.eqb category "slang"
         && isValue (preference input UserPreferences.formality) "formal"
      then ["Most slang is informal - try setting formality to "
            ++ inQuotes "informal"]
      else [])
  ++ (if negb (present (preference input UserPreferences.region))
      then ["Consider specifying a region (coastal, guntur, rayalaseema) for more authentic responses"]
      else []).

Definition sanitizeInput (input : UserInput.t) : UserInput.t :=
  {| UserInput.category := UserInput.category input;
     UserInput.selection :=
       let cut := takeChars 100 (trim (UserInput.selection input)) in
       if truthy cut then cut else "";
     UserInput.preferences :=
       match UserInput.preferences input with
       | Some preferences =>
           Some {| UserPreferences.spiceLevel :=
                     UserPreferences.spiceLevel preferences;
                   UserPreferences.dietary := UserPreferences.dietary preferences;
                   UserPreferences.formality :=
                     UserPreferences.formality preferences;
                   UserPreferences.region := UserPreferences.region preferences |}
       | None => None
       end |}.

End ValidationService.

(* ===================================================================== *)
(** ** RegionalAdapterImpl.ts *)
(* ===================================================================== *)

Module RegionalAdapterImpl.

Import Js.

Definition coastalPhrases : list string :=
  ["Babu, "; "Amma, "; ", kada?"; ", le"; "Chala bagundi, "].
Definition gunturPhrases : list string :=
  ["Rey, "; "Mama, "; "! Pakka guarantee!"; ", abba!"; "Super spicy, "].
Definition rayalaseemaPhrases : list string :=
  ["Anna, "; "Ayya, "; ", chelli"; ", simple ga"; "Traditional ga, "].

(** The body the three tone functions share.  [applies] is the outcome of
    the test on the first random number and [draw] the second random draw. *)
Definition addPhrase (phrases : list string) (applies : bool) (draw : nat)
    (content : string) : string :=
  if applies then
    let phrase := ResponseFormatter.pick draw phrases in
    if endsWith phrase ", " then phrase ++ content else content ++ phrase
  else content.

(** [roll] is the value of the first [Math.random()]. *)
Definition applyCoastalTone (roll : float) (draw : nat) (content : string)
    : string :=
  addPhrase coastalPhrases (PrimFloat.ltb 0.7%float roll) draw content.

Definition applyGunturTone (roll : float) (draw : nat) (content : string)
    : string :=
  addPhrase gunturPhrases (PrimFloat.ltb 0.6%float roll) draw content.

Definition applyRayalaseemaTone (roll : float) (draw : nat) (content : string)
    : string :=
  addPhrase rayalaseemaPhrases (PrimFloat.ltb 0.7%float roll) draw content.

Definition adaptTone (roll : float) (draw : nat) (content region : string)
    : string :=
  if String.eqb region "coastal" then applyCoastalTone roll draw content
  else if String.eqb region "guntur" then applyGunturTone roll draw content
  else if String.eqb region "rayalaseema"
  then applyRayalaseemaTone roll draw content
  else content.

Record RegionalContext : Type := mkRegionalContext {
  tone : string;
  characteristics : list string;
  values : list string
}.

Definition contexts : list (string * RegionalContext) :=
  [ ("coastal",
     mkRegionalContext "gentle and soft"
       ["hospitable"; "seafood-loving"; "trade-oriented"; "moderate"]
       ["respect for elders"; "family bonds"; "cultural traditions";
        "education"]);
    ("guntur",
     mkRegionalContext "bold and direct"
       ["spice-loving"; "energetic"; "business-minded"; "straightforward"]
       ["honesty"; "hard work"; "entrepreneurship"; "boldness"]);
    ("rayalaseema",
     mkRegionalContext "rustic and traditional"
       ["agriculture-focused"; "simple"; "traditional"; "community-oriented"]
       ["simplicity"; "tradition"; "community support";
        "agricultural heritage"]) ].

(** [contexts[region]] *)
Definition getRegionalCulturalContext (region : string)
    : Member RegionalContext :=
  member contexts region.

End RegionalAdapterImpl.

(* ===================================================================== *)
(** ** ResponseGeneratorImpl.ts *)
(* ===================================================================== *)

Module ResponseGeneratorImpl.

Import Js.

(** [teluguVocabulary[category]]; the callers pass one of the four category
    literals. *)
Definition teluguVocabulary (category : ResponseFormatter.Category)
    : list string :=
  match category with
  | ResponseFormatter.cat_slang =>
      ["babu"; "amma"; "arey"; "baboi"; "chinnodu"; "pedda"; "mama"; "mami"]
  | ResponseFormatter.cat_food =>
      ["pappu"; "avakaya"; "rasam"; "biryani"; "punugulu"; "karam"; "pachadi";
       "gongura"]
  | ResponseFormatter.cat_festival =>
      ["panduga"; "prasadam"; "pooja"; "kalyanam"; "sankranti"; "ugadi"]
  | ResponseFormatter.cat_emotion =>
      ["santosham"; "badha"; "kopam"; "shantham"; "josh"; "lite"]
  end.

(** [list.splice(index, 1)]: the list without its element at [index]. *)
Fixpoint removeAt (index : nat) (l : list string) : list string :=
  match index, l with
  | _, [] => []
  | O, _ :: rest => rest
  | S k, x :: rest => x :: removeAt k rest
  end.

(** The [for] loop of [selectTeluguWords]: [i] is the loop counter,
    [remaining] is [count - i], and [draws i] stands for the random draw of
    iteration [i].  The loop test [i < Math.min(count, availableWords.length)]
    reads the length of the shrinking array each time. *)
Fixpoint selectLoop (availableWords : list string) (remaining i : nat)
    (draws : nat -> nat) : list string :=
  match remaining with
  | O => []
  | S remaining' =>
      if (i <? List.length availableWords)%nat then
        let randomIndex := draws i mod List.length availableWords in
        List.nth randomIndex availableWords EmptyString
          :: selectLoop (removeAt randomIndex availableWords) remaining' (S i)
               draws
      else []
  end.

Definition selectTeluguWords (category : ResponseFormatter.Category)
    (count : nat) (draws : nat -> nat) : list string :=
  selectLoop (teluguVocabulary category) count 0 draws.

Definition integrateTeluguWords (content : string) (teluguWords : list string)
    : string :=
  let integratedContent := content in
  if (0 <? List.length teluguWords)%nat
     && negb (List.existsb
                (fun word => includes (toLowerCase integratedContent) word)
                teluguWords)
  then
    match teluguWords with
    | firstWord :: _ =>
        if inList firstWord ["arey"; "baboi"]
        then capitalize firstWord ++ ", " ++ toLowerCase integratedContent
        else integratedContent ++ " That's how we say it, " ++ firstWord ++ "!"
    | [] => integratedContent
    end
  else integratedContent.

Definition cities : list string :=
  ["visakhapatnam"; "vijayawada"; "guntur"; "tirupati"; "vizag"].

Definition extractCityFromSelection (selection : string) : option string :=
  let lowerSelection := toLowerCase selection in
  match List.find (fun city => includes lowerSelection city) cities with
  | Some city => if truthy city then Some city else None
  | None => None
  end.

(** *** The four generators *)

(** The [forEach] over the regional variations: each one rendered, with a
    comma after all but the last. *)
Fixpoint eachVariation (render : RegionalVariation.t -> string)
    (variations : list RegionalVariation.t) : string :=
  match variations with
  | [] => EmptyString
  | variation :: rest =>
      render variation
      ++ (if (0 <? List.length rest)%nat then ", " else EmptyString)
      ++ eachVariation render rest
  end.

(** In the four generators nothing in the [try] block throws. *)
Definition generateSlangResponseWithFallback (db : CulturalDatabaseImpl.t)
    (intent : UserIntent.t) : string :=
  match CulturalDatabaseImpl.getSlangInfoWithFallback db
          (UserIntent.selection intent) with
  | CulturalDatabaseImpl.Fallback slangResult =>
      FallbackResponse.content slangResult
  | CulturalDatabaseImpl.Found slangInfo =>
      let response :=
        inQuotes (SlangInfo.term slangInfo) ++ " literally means "
        ++ inQuotes (SlangInfo.literalMeaning slangInfo) ++ ". " in
      let response :=
        response ++ "The emotional intent is "
        ++ toLowerCase (SlangInfo.emotionalIntent slangInfo) ++ ". " in
      let response :=
        response ++ "It's "
        ++ toLowerCase (SlangInfo.socialAppropriateness slangInfo) ++ ", " in
      let response :=
        response ++ "and it's definitely "
        ++ SlangInfo.formalityLevel slangInfo ++ " language. " in
      let response :=
        match SlangInfo.regionalVariations slangInfo with
        | Some variations =>
            if (0 <? List.length variations)%nat then
              response ++ "Different regions have their own touch - "
              ++ eachVariation
                   (fun variation =>
                      "in " ++ RegionalVariation.region variation
                      ++ ", they say "
                      ++ inQuotes (RegionalVariation.variation variation))
                   variations
              ++ ". "
            else response
        | None => response
        end in
      response ++ "That's how we express ourselves in Andhra culture!"
  end.

Definition generateFoodResponseWithFallback (db : CulturalDatabaseImpl.t)
    (intent : UserIntent.t) : string :=
  let city :=
    orDefault (extractCityFromSelection (UserIntent.selection intent))
      "visakhapatnam" in
  let foodPreferences :=
    {| CulturalDatabaseImpl.spiceLevel :=
         Some (orDefault
                 (UserPreferences.spiceLevel (UserIntent.preferences intent))
                 "medium");
       CulturalDatabaseImpl.dietary :=
         Some (orDefault
                 (UserPreferences.dietary (UserIntent.preferences intent))
                 "any");
       CulturalDatabaseImpl.timeOfDay :=
         UserIntent.timeOfDay (UserIntent.context intent) |} in
  match CulturalDatabaseImpl.getFoodInfoWithFallback db city foodPreferences with
  | CulturalDatabaseImpl.Fallback foodResult =>
      FallbackResponse.content foodResult
  | CulturalDatabaseImpl.Found foodOptions =>
      match foodOptions with
      | [] =>
          FallbackResponse.content
            (ErrorHandler.createFoodFallback city
               (UserPreferences.spiceLevel (UserIntent.preferences intent))
               (UserPreferences.dietary (UserIntent.preferences intent)))
      | selectedFood :: _ =>
          let response :=
            "For " ++ city ++ ", I'd recommend " ++ FoodInfo.name selectedFood
            ++ "! " in
          let response :=
            response ++ FoodInfo.description selectedFood ++ ". " in
          let bestTime := toLowerCase (FoodInfo.bestTime selectedFood) in
          let response :=
            if String.eqb bestTime "any"
            then response ++ "It's perfect for any time of day, "
            else response ++ "It's best enjoyed during "
                 ++ toLowerCase bestTime ++ ", " in
          let response :=
            response ++ "and the spice level is "
            ++ FoodInfo.spiceLevel selectedFood ++ ". " in
          let response :=
            match FoodInfo.culturalSignificance selectedFood with
            | Some significance =>
                if truthy significance then response ++ significance ++ ". "
                else response
            | None => response
            end in
          response ++ "This is authentic Andhra taste that locals love!"
      end
  end.

Definition generateFestivalResponseWithFallback (db : CulturalDatabaseImpl.t)
    (intent : UserIntent.t) : string :=
  match CulturalDatabaseImpl.getFestivalInfoWithFallback db
          (UserIntent.selection intent) with
  | CulturalDatabaseImpl.Fallback festivalResult =>
      FallbackResponse.content festivalResult
  | CulturalDatabaseImpl.Found festivalInfo =>
      let response :=
        FestivalInfo.name festivalInfo ++ " is all about "
        ++ toLowerCase (FestivalInfo.culturalMeaning festivalInfo) ++ ". " in
      let response :=
        response ++ "The emotional tone is "
        ++ toLowerCase (FestivalInfo.emotionalTone festivalInfo) ++ ". " in
      let response :=
        if (0 <? List.length (FestivalInfo.associatedFoods festivalInfo))%nat
        then
          response ++ "We prepare special foods like "
          ++ join ", " (FestivalInfo.associatedFoods festivalInfo) ++ ". "
          ++ FestivalInfo.foodSymbolism festivalInfo ++ ". "
        else response in
      let response :=
        match FestivalInfo.regionalVariations festivalInfo with
        | Some variations =>
            if (0 <? List.length variations)%nat then
              response ++ "Different regions celebrate it uniquely - "
              ++ eachVariation
                   (fun variation =>
                      RegionalVariation.region variation ++ " region "
                      ++ toLowerCase (RegionalVariation.variation variation))
                   variations
              ++ ". "
            else response
        | None => response
        end in
      response ++ "That's the beauty of Andhra festival traditions!"
  end.

(** [None] stands for a text that embeds a member inherited from the
    prototype (see [considerPreferences] and [explainEmotionalLogic]). *)
Definition generateEmotionResponseWithFallback (intent : UserIntent.t)
    : option string :=
  let recommendation :=
    EmotionFoodMapperImpl.mapEmotionToFood (UserIntent.selection intent) in
  match EmotionFoodMapperImpl.considerPreferences recommendation
          (UserIntent.preferences intent) with
  | None => None
  | Some adaptedRecommendation =>
      let response :=
        "When you're feeling " ++ UserIntent.selection intent ++ ", "
        ++ EmotionFoodMapperImpl.food adaptedRecommendation ++ " is perfect! " in
      let response :=
        response ++ EmotionFoodMapperImpl.reasoning adaptedRecommendation
        ++ ". " in
      let response :=
        response ++ EmotionFoodMapperImpl.culturalContext adaptedRecommendation
        ++ ". " in
      match EmotionFoodMapperImpl.explainEmotionalLogic
              (UserIntent.selection intent)
              (EmotionFoodMapperImpl.food adaptedRecommendation) with
      | Some emotionalLogic => Some (response ++ emotionalLogic)
      | None => None
      end
  end.

(** The [intent] argument is not read. *)
Definition generateFallbackResponse : string :=
  "I'd love to help you learn about Andhra culture! Try asking about our slang, street food, festivals, or emotion-based food recommendations.".

(** *** generateResponse *)

(** [draws] stands for the random draws of [selectTeluguWords].  Nothing in
    the [try] block throws.  [None] as for the emotion generator. *)
Definition generateResponse (db : CulturalDatabaseImpl.t)
    (intent : UserIntent.t) (draws : nat -> nat) : option CulturalResponse.t :=
  let category := UserIntent.category intent in
  let generated : option string * list string :=
    if String.eqb category "slang" then
      (Some (generateSlangResponseWithFallback db intent),
       selectTeluguWords ResponseFormatter.cat_slang 2 draws)
    else if String.eqb category "food" then
      (Some (generateFoodResponseWithFallback db intent),
       selectTeluguWords ResponseFormatter.cat_food 2 draws)
    else if String.eqb category "festival" then
      (Some (generateFestivalResponseWithFallback db intent),
       selectTeluguWords ResponseFormatter.cat_festival 2 draws)
    else if String.eqb category "emotion" then
      (generateEmotionResponseWithFallback intent,
       selectTeluguWords ResponseFormatter.cat_emotion 2 draws)
    else
      (Some generateFallbackResponse,
       selectTeluguWords ResponseFormatter.cat_slang 1 draws) in
  let teluguWords := snd generated in
  (fun content =>
     {| CulturalResponse.content := integrateTeluguWords content teluguWords;
        CulturalResponse.teluguWords := teluguWords;
        CulturalResponse.culturalTone := Some "warm and friendly";
        CulturalResponse.region :=
          UserIntent.contextRegion (UserIntent.context intent);
        CulturalResponse.category := category |})
    <$> fst generated.

(** *** applyRegionalContext *)

(** [roll] and [draw] are the random numbers of the tone adaptation.  Past
    the first test the response has a region when the argument has none.  A
    region outside the adapter's table has no context to read the tone of;
    a name the table inherits from the prototype gives a context without a
    tone. *)
Definition applyRegionalContext (response : CulturalResponse.t)
    (region : option string) (roll : float) (draw : nat)
    : Result CulturalResponse.t :=
  if negb (present region) && negb (present (CulturalResponse.region response))
  then Ok response
  else
    let targetRegion :=
      orDefault region (shown (CulturalResponse.region response)) in
    let adaptedContent :=
      RegionalAdapterImpl.adaptTone roll draw
        (CulturalResponse.content response) targetRegion in
    let adapted (tone : option string) :=
      {| CulturalResponse.content := adaptedContent;
         CulturalResponse.teluguWords := CulturalResponse.teluguWords response;
         CulturalResponse.culturalTone := tone;
         CulturalResponse.region := Some targetRegion;
         CulturalResponse.category := CulturalResponse.category response |} in
    match RegionalAdapterImpl.getRegionalCulturalContext targetRegion with
    | Own regionalContext =>
        Ok (adapted (Some (RegionalAdapterImpl.tone regionalContext)))
    | Inherited => Ok (adapted None)
    | Missing => Throw typeError
    end.

(** *** formatOutput *)

Definition asCategory (category : string) : option ResponseFormatter.Category :=
  if String.eqb category "slang" then Some ResponseFormatter.cat_slang
  else if String.eqb category "food" then Some ResponseFormatter.cat_food
  else if String.eqb category "festival" then Some ResponseFormatter.cat_festival
  else if String.eqb category "emotion" then Some ResponseFormatter.cat_emotion
  else None.

Definition asRegion (region : string) : option ResponseFormatter.Region :=
  if String.eqb region "coastal" then Some ResponseFormatter.coastal
  else if String.eqb region "guntur" then Some ResponseFormatter.guntur
  else if String.eqb region "rayalaseema" then Some ResponseFormatter.rayalaseema
  else None.

(** The response as the formatter's record.  The formatter's tables are
    keyed by the four categories and the three regions; a response with
    another category or region, or without a tone, has no such record. *)
Definition asFormatterResponse (response : CulturalResponse.t)
    : option ResponseFormatter.CulturalResponse :=
  match asCategory (CulturalResponse.category response),
        CulturalResponse.culturalTone response with
  | Some category, Some tone =>
      let typed (region : option ResponseFormatter.Region) :=
        {| ResponseFormatter.content := CulturalResponse.content response;
           ResponseFormatter.teluguWords :=
             CulturalResponse.teluguWords response;
           ResponseFormatter.culturalTone := tone;
           ResponseFormatter.region := region;
           ResponseFormatter.category := category |} in
      match CulturalResponse.region response with
      | None => Some (typed None)
      | Some region =>
          match asRegion region with
          | Some r => Some (typed (Some r))
          | None => None
          end
      end
  | _, _ => None
  end.

(** [None] stands for a response the formatter has no record for. *)
Definition formatOutput (drawOpening drawClosing : nat)
    (response : CulturalResponse.t) : option string :=
  ResponseFormatter.formatResponse drawOpening drawClosing
    <$> asFormatterResponse response.

End ResponseGeneratorImpl.

(* ===================================================================== *)
(** ** AndhraCulturalGuide.ts *)
(* ===================================================================== *)

Module AndhraCulturalGuide.

Import Js.

(** The [try] block cannot throw. *)
Definition getCategories : list string := DropdownInterfaceImpl.getCategories.

Definition getSubcategories (category : string) : Result (list string) :=
  match DropdownInterfaceImpl.getSubcategories category with
  | Ok options => Ok options
  | Throw _ =>
      Throw ("Unable to get subcategories for " ++ inQuotes category
             ++ ". Please select a valid category.")
  end.

(** The result object [{ isValid, error? }], the error being a message. *)
Record Verdict : Type := mkVerdict {
  isValid : bool;
  error : option string
}.

Definition validateSelection (category selection : string)
    (preferences : option UserPreferences.t) : Verdict :=
  let validationResult :=
    DropdownInterfaceImpl.validateSelection category selection preferences in
  match InputProcessorImpl.error validationResult with
  | Some error =>
      if negb (InputProcessorImpl.isValid validationResult)
      then {| isValid := false; error := Some (CulturalError.message error) |}
      else {| isValid := true; error := None |}
  | None => {| isValid := true; error := None |}
  end.

Definition looksGood : string :=
  "Your selection looks good! Try getting cultural guidance.".

Definition getErrorMessage (category selection : string)
    (preferences : option UserPreferences.t) : Result string :=
  if negb (truthy category) || negb (inList category getCategories)
  then Ok (DropdownInterfaceImpl.getCategoryErrorMessage category)
  else if negb (truthy selection) || String.eqb (trim selection) ""
  then DropdownInterfaceImpl.getSelectionErrorMessage category selection
  else
    match preferences with
    | Some given =>
        let preferenceErrors :=
          DropdownInterfaceImpl.getPreferencesErrorMessage given in
        if (0 <? List.length preferenceErrors)%nat
        then Ok (join " " preferenceErrors)
        else Ok looksGood
    | None => Ok looksGood
    end.

Definition popularOptions : list (string * list string) :=
  [ ("slang",
     ["greeting expressions"; "emotional expressions"; "casual conversation"]);
    ("food", ["street food"; "breakfast items"; "snacks"]);
    ("festival", ["Ugadi"; "Sankranti"; "Dussehra"]);
    ("emotion", ["happy"; "sad"; "tired"]) ].

(** [failedSelection] is optional.  [None] stands for a result that is no
    array: a member [popularOptions] inherits from the prototype. *)
Definition getSuggestions (category : string) (failedSelection : option string)
    : option (list string) :=
  match getSubcategories category with
  | Throw _ => Some []
  | Ok subcategories =>
      let similar :=
        match failedSelection with
        | Some failed =>
            if truthy failed then
              let lowerFailed := toLowerCase failed in
              List.filter
                (fun sub => includes (toLowerCase sub) lowerFailed
                            || includes lowerFailed (toLowerCase sub))
                subcategories
            else []
        | None => []
        end in
      if (0 <? List.length similar)%nat then Some (List.firstn 3 similar)
      else
        match member popularOptions category with
        | Own options => Some options
        | Missing => Some (List.firstn 3 subcategories)
        | Inherited => None
        end
  end.

Record ResponseQuality : Type := mkQuality {
  qualityValid : bool;
  qualityIssues : list string;
  qualitySuggestions : list string
}.

(** The [switch] over one issue: the suggestion it pushes, if any. *)
Definition suggestionFor (issue : string) : list string :=
  if String.eqb issue "Response should include Telugu vocabulary"
  then ["Add Telugu words like babu, amma, arey, or pappu for authenticity"]
  else if String.eqb issue "Response contains technical implementation details"
  then ["Remove technical terms and focus on cultural content"]
  else if String.eqb issue "Response should have warm, friendly tone"
  then ["Add warm expressions like " ++ inQuotes "Trust me" ++ " or "
        ++ inQuotes "You know what"]
  else if String.eqb issue "Response should end with proper punctuation"
  then ["End sentences with proper punctuation (. ! ?)"]
  else [].

Definition validateResponseQuality (response : string) : ResponseQuality :=
  let validation := ResponseFormatter.validateResponseFormat response in
  let suggestions :=
    if negb (ResponseFormatter.isValid validation)
    then List.concat (List.map suggestionFor (ResponseFormatter.issues validation))
    else [] in
  {| qualityValid := ResponseFormatter.isValid validation;
     qualityIssues := ResponseFormatter.issues validation;
     qualitySuggestions := suggestions |}.

(** [drawOpening] and [drawClosing] are the formatter's two random draws.
    The region is any string: the mock response carries [region as any].
    The cultural tone of the mock response is not read. *)
Definition formatCustomResponse (drawOpening drawClosing : nat)
    (content : string) (category : ResponseFormatter.Category)
    (region : option string) : Result string :=
  ResponseFormatter.formatResponseAny drawOpening drawClosing content ["babu"]
    category region.

(** *** getCulturalGuidance *)

(** [errorMessage] is the message of the caught error.  [None] as for
    [getSuggestions]. *)
Definition generateUserFriendlyError (category selection errorMessage : string)
    : option string :=
  if includes errorMessage "Invalid category" then
    Some ("I don't recognize " ++ inQuotes category
          ++ " as a cultural category. Try asking about slang, food, festivals, or emotions!")
  else if includes errorMessage "not available" then
    match getSuggestions category (Some selection) with
    | None => None
    | Some suggestions =>
        let response :=
          "I don't have information about " ++ inQuotes selection ++ " in "
          ++ category ++ ". " in
        if (0 <? List.length suggestions)%nat
        then Some (response ++ "How about trying: " ++ join ", " suggestions
                   ++ "?")
        else Some (response ++ "Try exploring other options in " ++ category
                   ++ "!")
    end
  else if includes errorMessage "validation" then
    Some "There seems to be an issue with your selection. Please check your category and preferences, then try again."
  else
    Some "Arey, I'm having trouble understanding your request! Please try selecting a category (slang, food, festival, or emotion) and make a choice from the available options.".

(** What one call reads from the clock and from the random generator. *)
Record Readings : Type := mkReadings {
  timestamp : Z;
  sessionId : string;
  currentHour : Z;
  wordDraws : nat -> nat;
  toneRoll : float;
  toneDraw : nat;
  drawOpening : nat;
  drawClosing : nat;
  drawError : nat
}.

Module Guidance.
(** The result object [{ response, error? }]. *)
Record t : Type := mk {
  response : string;
  error : option string
}.
End Guidance.

(** The store the constructor creates. *)
Definition culturalDatabase : CulturalDatabaseImpl.t :=
  CulturalDatabaseImpl.new None.

(** The [try] block: the formatted response, or the message of the error
    thrown.  [None] stands for a text outside this model: one that embeds a
    member inherited from the prototype, or the formatting of a response the
    formatter has no record for. *)
Definition guidanceAttempt (readings : Readings) (category selection : string)
    (preferences : option UserPreferences.t) : Result (option string) :=
  andThen (DropdownInterfaceImpl.processSelection category selection preferences)
    (fun userInput =>
  andThen (InputProcessorImpl.enrichInput userInput (timestamp readings)
             (sessionId readings))
    (fun enrichedInput =>
  andThen (InputProcessorImpl.inferIntent enrichedInput (currentHour readings))
    (fun userIntent =>
  match ResponseGeneratorImpl.generateResponse culturalDatabase userIntent
          (wordDraws readings) with
  | None => Ok None
  | Some culturalResponse =>
      let region := preferences ≫= UserPreferences.region in
      andThen (if present region
               then ResponseGeneratorImpl.applyRegionalContext culturalResponse
                      region (toneRoll readings) (toneDraw readings)
               else Ok culturalResponse)
        (fun finalResponse =>
           Ok (ResponseGeneratorImpl.formatOutput (drawOpening readings)
                 (drawClosing readings) finalResponse))
  end))).

(** [None] as for [guidanceAttempt]. *)
Definition getCulturalGuidance (readings : Readings)
    (category selection : string) (preferences : option UserPreferences.t)
    : option Guidance.t :=
  match guidanceAttempt readings category selection preferences with
  | Ok formattedResponse =>
      (fun response => {| Guidance.response := response;
                          Guidance.error := None |})
        <$> formattedResponse
  | Throw message =>
      match generateUserFriendlyError category selection message with
      | None => None
      | Some errorMessage =>
          (fun formattedError => {| Guidance.response := formattedError;
                                    Guidance.error := Some message |})
            <$> ResponseFormatter.formatErrorResponse (drawError readings)
                  errorMessage (Some category)
      end
  end.

End AndhraCulturalGuide.

(* ===================================================================== *)
(** ** Definitions used to state the properties *)
(* ===================================================================== *)

Module Statements.

Import Js.

Section Scores.
Import ErrorHandler.

(** The score of a candidate counted in tenths; it orders candidates the way
    the floating-point score does. *)
Definition tenths (target candidate : string) : Z :=
  ((if containsMatch (toLowerCase target) (toLowerCase candidate) then 8 else 0)
   + (if firstLetterMatch (toLowerCase target) (toLowerCase candidate) then 2 else 0)
   + (if lengthSimilar target candidate then 1 else 0))%Z.

End Scores.

Section Dishes.
Import CulturalDatabaseImpl.

(** The dishes the store files under a city: [cityFoods] in [getFoodInfo]. *)
Definition cityFoods (db : CulturalDatabaseImpl.t) (city : string)
    : list FoodInfo.t :=
  match foodData db !! toLowerCase city with
  | Some foods => foods
  | None => []
  end.

(** The dietary condition of the filter: its first two [if] statements. *)
Definition dietaryAllows (preferences : FoodPreferences) (food : FoodInfo.t)
    : bool :=
  if isPreference (dietary preferences) "veg" && hasChicken food then false
  else if isPreference (dietary preferences) "non-veg" && negb (hasChicken food)
  then hasChicken food
  else true.

End Dishes.

Definition NL : string := String LF EmptyString.

(** A document with one slang term and one dish and nothing else: it fails
    the completeness validation. *)
Definition incompleteDocument : string :=
  "🗣️ Andhra Slang Intelligence" ++ NL
  ++ ProductMdParser.quoted "Foo" ++ NL
  ++ "Literal: bar" ++ NL
  ++ "Emotion: baz" ++ NL
  ++ "🍗 Andhra Street Food Culture" ++ NL
  ++ "Visakhapatnam (Vizag)" ++ NL
  ++ "Punugulu → medium spice" ++ NL.

(** The word [w] (given in lower case) occurs in [s] as a whole word, in any
    letter case: the pattern [\bw\b] with flag [i]. *)
Fixpoint containsWordFrom (w : string) (prev : option ascii) (s : string) : bool :=
  match ResponseFormatter.wordAt [w] prev s with
  | Some _ => true
  | None =>
      match s with
      | EmptyString => false
      | String c s' => containsWordFrom w (Some c) s'
      end
  end.

Definition containsWord (w s : string) : bool := containsWordFrom w None s.

(** A slang section whose only term is described as informal. *)
Definition informalSlangSection : string :=
  ProductMdParser.quoted "Arey Baboi" ++ NL
  ++ "Literal: Oh my God" ++ NL
  ++ "Emotional meaning: Shock" ++ NL
  ++ "Usage: Informal only".

(** A final character that no step of [improveFlow] touches: neither
    whitespace nor a lower-case letter. *)
Definition stableEnd (s : string) (c : ascii) : Prop :=
  lastChar s = Some c /\ isSpace c = false /\ isLower c = false.

(** The sample documents of the repository's parser tests. *)
Definition slangSample : string :=
  NL ++ "🗣️ Andhra Slang Intelligence" ++ NL ++ NL
  ++ ProductMdParser.quoted "Arey Baboi" ++ NL
  ++ "Literal: Oh my God" ++ NL
  ++ "Emotional meaning: Shock / frustration / disbelief" ++ NL
  ++ "Usage: Informal" ++ NL
  ++ "Avoid in formal settings" ++ NL ++ "      ".

Definition foodSample : string :=
  NL ++ "🍗 Andhra Street Food Culture" ++ NL ++ NL
  ++ "Visakhapatnam (Vizag)" ++ NL
  ++ "Punugulu → medium spice" ++ NL
  ++ "Bongulo Chicken → high spice" ++ NL ++ "      ".

Definition festivalSample : string :=
  NL ++ "🎉 Festivals of Andhra Pradesh" ++ NL ++ NL
  ++ "Sankranti" ++ NL
  ++ "Harvest festival celebrating abundance" ++ NL
  ++ "Foods: Ariselu, Pongal" ++ NL
  ++ "Emotional tone: Family bonding" ++ NL ++ "      ".

Definition festivalWithoutTone : string :=
  NL ++ "🎉 Festivals of Andhra Pradesh" ++ NL ++ NL
  ++ "Ugadi" ++ NL
  ++ "New year celebration" ++ NL
  ++ "Foods: A, B" ++ NL.

Definition emotionSample : string :=
  NL ++ "❤️ Emotional Food Mapping" ++ NL ++ NL
  ++ "Sad → Pappu + Avakaya" ++ NL
  ++ "(Comfort, nostalgia)" ++ NL ++ NL
  ++ "Happy → Biryani" ++ NL
  ++ "(Celebration)" ++ NL ++ "      ".

Definition malformedSample : string :=
  NL ++ "🗣️ Andhra Slang Intelligence" ++ NL ++ NL
  ++ ProductMdParser.quoted "Incomplete Entry" ++ NL
  ++ "Missing required fields" ++ NL ++ "      ".

(** Every character of [s] satisfies [p]. *)
Fixpoint allChars (p : ascii -> bool) (s : string) : bool :=
  match s with
  | EmptyString => true
  | String c s' => p c && allChars p s'
  end.

(** The lower-case word [w] occurs in [s], letter case aside. *)
Definition hasWord (w s : string) : bool := includes (toLowerCase s) w.

(** No alternative holds the word, and every alternative ends with a word
    character. *)
Definition altsSafe (w : string) (alts : list string) : bool :=
  List.forallb
    (fun alt => negb (includes alt w) && truthy alt
                && ResponseFormatter.isWordOpt (lastChar alt))
    alts.

(** A word of lower-case letters that no removal pattern holds. *)
Definition keptWord (w : string) : bool :=
  truthy w && allChars isLower w
  && List.forallb (altsSafe w) ResponseFormatter.technicalTerms.

(** Every alternative starts with a lower-case letter. *)
Definition altsLetterLed (alts : list string) : bool :=
  List.forallb
    (fun alt => match alt with
                | String a _ => isLower a
                | EmptyString => false
                end) alts.

(** The fixed phrases the formatter can add. *)
Definition formatterPhrases : list string :=
  (ResponseFormatter.culturalGreetings ResponseFormatter.coastal
   ++ ResponseFormatter.culturalGreetings ResponseFormatter.guntur
   ++ ResponseFormatter.culturalGreetings ResponseFormatter.rayalaseema
   ++ ResponseFormatter.culturalClosings ResponseFormatter.cat_slang
   ++ ResponseFormatter.culturalClosings ResponseFormatter.cat_food
   ++ ResponseFormatter.culturalClosings ResponseFormatter.cat_festival
   ++ ResponseFormatter.culturalClosings ResponseFormatter.cat_emotion
   ++ ["That's what we call it,"; "We call it"; "in Telugu."])%list.

(** A term of lower-case letters that none of the fixed phrases holds. *)
Definition freshTerm (t : string) : bool :=
  truthy t && allChars isLower t
  && List.forallb (fun k => negb (hasWord t k)) formatterPhrases.

(** A response whose supplied word is a vocabulary word. *)
Definition sampleResponse : ResponseFormatter.CulturalResponse :=
  ResponseFormatter.mkResponse "Try the spicy food of Guntur" ["Babu"]
    "warm" (Some ResponseFormatter.guntur) ResponseFormatter.cat_food.

(** *** The words of a text *)

(** The word read so far, when a word ends. *)
Definition closeWord (cur : string) : list string :=
  match cur with
  | EmptyString => []
  | _ => [cur]
  end.

(** The words of a text: its maximal runs of word characters, written in
    lower case, in order.  [cur] is the part already read of the word in
    progress. *)
Fixpoint wordsFrom (cur s : string) : list string :=
  match s with
  | EmptyString => closeWord cur
  | String c s' =>
      if isWordChar c
      then wordsFrom (cur ++ String (lowerChar c) EmptyString) s'
      else (closeWord cur ++ wordsFrom EmptyString s')%list
  end.

Definition wordsOf (s : string) : list string := wordsFrom EmptyString s.

(** Every alternative starts with a lower-case letter and ends with a word
    character, so that a match covers whole words. *)
Definition altsWordBound (alts : list string) : bool :=
  altsLetterLed alts
  && List.forallb (fun alt => ResponseFormatter.isWordOpt (lastChar alt)) alts.

(** All the closing sentences of the formatter. *)
Definition allClosings : list string :=
  (ResponseFormatter.culturalClosings ResponseFormatter.cat_slang
   ++ ResponseFormatter.culturalClosings ResponseFormatter.cat_food
   ++ ResponseFormatter.culturalClosings ResponseFormatter.cat_festival
   ++ ResponseFormatter.culturalClosings ResponseFormatter.cat_emotion)%list.
(** The single words the remover strips: the alternatives of its five
    patterns, the phrase of two words apart. *)
Definition singleWordTerms : list string :=
  ["api"; "database"; "dataset"; "algorithm"; "model";
   "implementation"; "system"; "interface"; "component"; "module";
   "configuration"; "parameter"; "function"; "method"; "class";
   "server"; "client"; "endpoint"; "request"; "response";
   "json"; "xml"; "http"; "rest"; "graphql"].

(** *** Definitions used to state the further properties *)

Section Regions.
(** The name of a region, as the sources write it. *)
Definition regionName (region : ResponseFormatter.Region) : string :=
  match region with
  | ResponseFormatter.coastal => "coastal"
  | ResponseFormatter.guntur => "guntur"
  | ResponseFormatter.rayalaseema => "rayalaseema"
  end.
End Regions.

Section Texts.
Import Js.
(** The first character of [s] exists and is no whitespace. *)
Definition startsSolid (s : string) : bool :=
  match s with
  | String c _ => negb (isSpace c)
  | EmptyString => false
  end.

(** The message of an input error that names no reason. *)
Definition bare : string := "Invalid input provided.".
End Texts.

Section Admissible.
(** The preferences a selection may carry: none, or ones every validator
    accepts. *)
Definition admissible (preferences : option UserPreferences.t) : bool :=
  match preferences with
  | Some given => InputProcessorImpl.validatePreferences given
  | None => true
  end.
End Admissible.

Section StoreShape.
Import CulturalDatabaseImpl.
(** The preferences object [{}]. *)
Definition noPreferences : FoodPreferences := mkPreferences None None None.

(** Every array of the food map holds dishes that satisfy [P] and are filed
    under their own city. *)
Definition foodsAll (P : FoodInfo.t -> Prop)
    (m : gmap string (list FoodInfo.t)) : Prop :=
  forall k l f, m !! k = Some l -> In f l ->
    P f /\ Js.toLowerCase (FoodInfo.city f) = k.

(** Every record of a map satisfies [P] and is filed under its own name. *)
Definition recordsAll {A : Type} (key : A -> string) (P : A -> Prop)
    (m : gmap string A) : Prop :=
  forall k v, m !! k = Some v -> P v /\ Js.toLowerCase (key v) = k.

(** The four maps of a store hold valid records filed under their names. *)
Definition wellFormed (db : CulturalDatabaseImpl.t) : Prop :=
  recordsAll SlangInfo.term
    (fun r => DataValidator.validateSlangInfo r = true) (slangData db)
  /\ foodsAll (fun r => DataValidator.validateFoodInfo r = true) (foodData db)
  /\ recordsAll FestivalInfo.name
       (fun r => DataValidator.validateFestivalInfo r = true) (festivalData db)
  /\ recordsAll EmotionFoodMapping.emotion
       (fun r => DataValidator.validateEmotionFoodMapping r = true)
       (emotionFoodData db).
End StoreShape.

Section Headings.
(** The four section headings the parser looks for. *)
Definition sectionHeadings : list string :=
  ["🗣️ Andhra Slang Intelligence"; "🍗 Andhra Street Food Culture";
   "🎉 Festivals of Andhra Pradesh"; "❤️ Emotional Food Mapping"].
End Headings.

Section Moods.
(** The keys of the mood table. *)
Definition moods : list string := ["sad"; "sick"; "happy"; "angry"; "tired"].
End Moods.

Section MoodDishes.
Import Js EmotionFoodMapperImpl.
(** The dishes of the mood table and of the unknown-mood default. *)
Definition dishes : list string :=
  ["Pappu with Avakaya"; "Rasam"; "Biryani"; "Curd Rice"; "Coffee with Punugulu"].

(** The text [b] is [a] followed by something. *)
Definition extends (a b : string) : Prop := exists suffix, b = a ++ suffix.

(** The dish a recommendation names after the vegetarian adaptation. *)
Definition vegetarianDish (dish : string) : string :=
  match ownEntry vegAlternatives dish with
  | Some alternative => alternative
  | None => dish
  end.
End MoodDishes.

Section Settings.
Import Js EmotionFoodMapperImpl.
(** No character of [w] is whitespace. *)
Definition spaceFree (w : string) : bool :=
  allChars (fun c => negb (isSpace c)) w.

(** Every character of [s] is whitespace. *)
Definition blank (s : string) : bool := allChars isSpace s.

(** The first character of [s] exists and is whitespace. *)
Definition startsBlank (s : string) : bool :=
  match s with
  | String c _ => isSpace c
  | EmptyString => false
  end.

(** The words [applyHomeVsStreetLogic] looks for. *)
Definition settingWords : list string := (homeEmotions ++ streetEmotions)%list.

(** The text holds none of the setting words. *)
Definition quiet (s : string) : bool :=
  List.forallb (fun w => negb (includes s w)) settingWords.

(** The setting the source's two lists give a mood. *)
Definition settingOf (mood : string) : string :=
  if inList mood homeEmotions then "home"
  else if inList mood streetEmotions then "street"
  else "both".

(** A suffix the adaptation steps append: nothing, or a quiet text that
    starts with whitespace. *)
Definition quietTail (t : string) : Prop :=
  t = "" \/ (startsBlank t = true /\ quiet t = true).


(** The shape the adaptation steps keep: the context is the mapper's context
    followed by a quiet tail, and the reasoning is quiet. *)
Definition shaped (context0 : string) (r : FoodRecommendation) : Prop :=
  (exists tail, culturalContext r = context0 ++ tail
                /\ quietTail (toLowerCase tail))
  /\ quiet (toLowerCase (reasoning r)) = true.
End Settings.

End Statements.

Import Statements.

(* ===================================================================== *)
(** * Properties *)
(* ===================================================================== *)

(** ** Strings *)

Section StringFacts.

Import Js.

Lemma startsWith_empty (s : string) : startsWith s "" = true.
Proof. destruct s; reflexivity. Qed.

Lemma includes_empty (s : string) : includes s "" = true.
Proof. destruct s; reflexivity. Qed.

Lemma toLowerCase_length (s : string) :
  String.length (toLowerCase s) = String.length s.
Proof. induction s as [|c s IH]; simpl; [reflexivity | now rewrite IH]. Qed.

Lemma toLowerCase_nonempty (s : string) :
  s <> "" -> toLowerCase s <> "".
Proof. destruct s; simpl; [congruence | discriminate]. Qed.

Lemma append_assoc (a b c : string) : (a ++ b) ++ c = a ++ (b ++ c).
Proof.
  induction a as [|x a IH]; [reflexivity|].
  change (String x ((a ++ b) ++ c) = String x (a ++ (b ++ c))). now rewrite IH.
Qed.

Lemma append_nil_r (a : string) : a ++ "" = a.
Proof.
  induction a as [|x a IH]; [reflexivity|].
  change (String x (a ++ "") = String x a). now rewrite IH.
Qed.

Lemma lastChar_cons (c : ascii) (s : string) :
  s <> "" -> lastChar (String c s) = lastChar s.
Proof. destruct s; [congruence | reflexivity]. Qed.

Lemma lastChar_some_nonempty (s : string) (c : ascii) :
  lastChar s = Some c -> s <> "".
Proof. destruct s; simpl; [discriminate | discriminate]. Qed.

Lemma lastChar_app (a b : string) :
  b <> "" -> lastChar (a ++ b) = lastChar b.
Proof.
  intros Hb. induction a as [|c a IH]; [reflexivity|].
  change (String c a ++ b) with (String c (a ++ b)).
  rewrite lastChar_cons; [exact IH|].
  destruct a; simpl; [exact Hb | discriminate].
Qed.

End StringFacts.

(** ** The closest-match heuristic *)

Section ClosestMatch.

Import Js ErrorHandler.

Ltac score_cases :=
  intros; unfold matchScore, tenths;
  repeat match goal with
         | |- context [containsMatch ?a ?b] => destruct (containsMatch a b)
         | |- context [firstLetterMatch ?a ?b] => destruct (firstLetterMatch a b)
         | |- context [lengthSimilar ?a ?b] => destruct (lengthSimilar a b)
         end;
  vm_compute; reflexivity.

Lemma score_ltb (t a b : string) :
  PrimFloat.ltb (matchScore t a) (matchScore t b) = (tenths t a <? tenths t b)%Z.
Proof. score_cases. Qed.

Lemma score_leb (t a b : string) :
  PrimFloat.leb (matchScore t a) (matchScore t b) = (tenths t a <=? tenths t b)%Z.
Proof. score_cases. Qed.

Lemma score_positive (t a : string) :
  PrimFloat.ltb 0%float (matchScore t a) = (0 <? tenths t a)%Z.
Proof. score_cases. Qed.

Lemma score_threshold (t a : string) :
  PrimFloat.leb 0.3%float (matchScore t a) = (3 <=? tenths t a)%Z.
Proof. score_cases. Qed.

Lemma score_below (t a : string) :
  PrimFloat.ltb (matchScore t a) 0.3%float = (tenths t a <? 3)%Z.
Proof. score_cases. Qed.

Lemma score_sum (t c : string) :
  matchScore t c =
  ((if containsMatch (toLowerCase t) (toLowerCase c) then 0.8 else 0)
   + (if firstLetterMatch (toLowerCase t) (toLowerCase c) then 0.2 else 0)
   + (if lengthSimilar t c then 0.1 else 0))%float.
Proof. score_cases. Qed.

(** The loop on a list without exact match: either the best so far survives,
    or some candidate replaced it. *)
Lemma loop_without_exact (target : string) (cs : list string) :
  Forall (fun x => exactMatch target x = false) cs ->
  forall (bm : option string) (bs : float) (tb : Z),
    (forall x, PrimFloat.ltb bs (matchScore target x) = (tb <? tenths target x)%Z) ->
    (findClosestMatch_loop target cs bm bs = bm
     /\ Forall (fun x => ~ (tb < tenths target x /\ 3 <= tenths target x)%Z) cs)
    \/ (exists pre c post,
           cs = (pre ++ c :: post)%list
           /\ findClosestMatch_loop target cs bm bs = Some c
           /\ (tb < tenths target c)%Z /\ (3 <= tenths target c)%Z
           /\ Forall (fun x => (tenths target x < tenths target c)%Z) pre
           /\ Forall (fun x => (tenths target x <= tenths target c)%Z) post).
Proof.
  induction 1 as [|c0 rest Hc0 Hrest IH]; intros bm bs tb Hrep.
  - left. split; [reflexivity | constructor].
  - cbn [findClosestMatch_loop]. rewrite Hc0. cbv zeta.
    rewrite Hrep, score_threshold.
    destruct (tb <? tenths target c0)%Z eqn:Hlt;
      destruct (3 <=? tenths target c0)%Z eqn:Hge; cbn [andb].
    + apply Z.ltb_lt in Hlt. apply Z.leb_le in Hge.
      destruct (IH (Some c0) (matchScore target c0) (tenths target c0))
        as [[Hr Hall] | (pre & c & post & -> & Hr & Hlt' & Hge' & Hpre & Hpost)].
      { intros x. apply score_ltb. }
      * right. exists [], c0, rest. repeat split; try assumption; [constructor|].
        eapply Forall_impl; [exact Hall|]. cbn. intros x Hx. lia.
      * right. exists (c0 :: pre), c, post.
        repeat split; try assumption; [lia|]. constructor; [lia | assumption].
    + apply Z.leb_gt in Hge.
      destruct (IH bm bs tb Hrep)
        as [[Hr Hall] | (pre & c & post & -> & Hr & Hlt' & Hge' & Hpre & Hpost)].
      * left. split; [assumption|]. constructor; [lia | assumption].
      * right. exists (c0 :: pre), c, post.
        repeat split; try assumption. constructor; [lia | assumption].
    + apply Z.ltb_ge in Hlt.
      destruct (IH bm bs tb Hrep)
        as [[Hr Hall] | (pre & c & post & -> & Hr & Hlt' & Hge' & Hpre & Hpost)].
      * left. split; [assumption|]. constructor; [lia | assumption].
      * right. exists (c0 :: pre), c, post.
        repeat split; try assumption. constructor; [lia | assumption].
    + apply Z.ltb_ge in Hlt.
      destruct (IH bm bs tb Hrep)
        as [[Hr Hall] | (pre & c & post & -> & Hr & Hlt' & Hge' & Hpre & Hpost)].
      * left. split; [assumption|]. constructor; [lia | assumption].
      * right. exists (c0 :: pre), c, post.
        repeat split; try assumption. constructor; [lia | assumption].
Qed.

(** The loop returns the first exact match, whatever was scored before. *)
Lemma loop_exact (target : string) (cs : list string) (c : string) :
  List.find (exactMatch target) cs = Some c ->
  forall bm bs, findClosestMatch_loop target cs bm bs = Some c.
Proof.
  induction cs as [|c0 rest IH]; cbn [List.find findClosestMatch_loop];
    [discriminate|].
  intros Hfind bm bs. destruct (exactMatch target c0); [exact Hfind|].
  cbv zeta. destruct (_ && _); apply IH; exact Hfind.
Qed.

Lemma find_none_Forall {A : Type} (p : A -> bool) (l : list A) :
  List.find p l = None -> Forall (fun x => p x = false) l.
Proof.
  induction l as [|a l IH]; cbn [List.find]; [constructor|].
  destruct (p a) eqn:Hp; [discriminate|]. intros H. constructor; auto.
Qed.

(** The loop in terms of the embedded comparisons. *)
Lemma findClosestMatch_loop_result (target : string) (candidates : list string) :
  match List.find (exactMatch target) candidates with
  | Some c => findClosestMatch target candidates = Some c
  | None =>
      match findClosestMatch target candidates with
      | Some c =>
          exists pre post,
            candidates = (pre ++ c :: post)%list
            /\ PrimFloat.leb 0.3%float (matchScore target c) = true
            /\ Forall (fun x => PrimFloat.ltb (matchScore target x)
                                  (matchScore target c) = true) pre
            /\ Forall (fun x => PrimFloat.leb (matchScore target x)
                                  (matchScore target c) = true) post
      | None =>
          Forall (fun x => PrimFloat.ltb (matchScore target x) 0.3%float = true)
            candidates
      end
  end.
Proof.
  destruct (List.find (exactMatch target) candidates) as [c|] eqn:Hfind.
  - apply loop_exact. exact Hfind.
  - apply find_none_Forall in Hfind. unfold findClosestMatch.
    destruct (loop_without_exact target candidates Hfind None 0%float 0%Z)
      as [[Hr Hall] | (pre & c & post & Heq & Hr & Hlt & Hge & Hpre & Hpost)].
    { intros x. apply score_positive. }
    + rewrite Hr. eapply Forall_impl; [exact Hall|]. cbn. intros x Hx.
      rewrite score_below. apply Z.ltb_lt. lia.
    + rewrite Hr. exists pre, post. split; [exact Heq|].
      split; [rewrite score_threshold; apply Z.leb_le; exact Hge|].
      split; (eapply Forall_impl; [eassumption|]); cbn; intros x Hx.
      * rewrite score_ltb. apply Z.ltb_lt. exact Hx.
      * rewrite score_leb. apply Z.leb_le. exact Hx.
Qed.

Lemma option_ascii_eqb_decide (a b : option ascii) :
  option_ascii_eqb a b = bool_decide (a = b).
Proof.
  destruct a as [x|], b as [y|]; cbn [option_ascii_eqb];
    try (symmetry; apply bool_decide_eq_false; discriminate);
    [|symmetry; apply bool_decide_eq_true; reflexivity].
  destruct (Ascii.eqb x y) eqn:E.
  - apply Ascii.eqb_eq in E. subst. symmetry. apply bool_decide_eq_true.
    reflexivity.
  - apply Ascii.eqb_neq in E. symmetry. apply bool_decide_eq_false.
    intros H. injection H as H. contradiction.
Qed.

(** C6. The closest-match heuristic, stated on the strings themselves.  A
    candidate is exact when its lower-cased text is the lower-cased query.
    The score of a candidate is 0.8 when one lower-cased text contains the
    other, plus 0.2 when the two lower-cased texts have the same first
    character (or are both empty), plus 0.1 when the lengths are at most 2
    apart.  The first exact candidate is returned at once, whatever the
    scores before it; without an exact candidate the result is the first
    candidate of highest score when that score reaches 0.3 (every earlier
    candidate scores strictly less, no later one scores more), and null when
    no score reaches 0.3.  The query Ugadi against Sankranti, Ugadi, Vinayaka
    Chavithi gives Ugadi; an exact candidate wins over an earlier candidate
    that contains the query; equal first letters and a similar length
    together reach the threshold, a similar length alone does not. *)
Theorem findClosestMatch_spec (target : string) (candidates : list string) :
  let isExact (c : string) :=
    String.eqb (toLowerCase target) (toLowerCase c) in
  let score (c : string) :=
    ((if includes (toLowerCase c) (toLowerCase target)
         || includes (toLowerCase target) (toLowerCase c)
      then 0.8 else 0)
     + (if bool_decide (String.get 0 (toLowerCase target)
                        = String.get 0 (toLowerCase c))
        then 0.2 else 0)
     + (if (Z.abs (Z.of_nat (String.length target)
                   - Z.of_nat (String.length c)) <=? 2)%Z
        then 0.1 else 0))%float in
  (forall c, matchScore target c = score c)
  /\ match List.find isExact candidates with
     | Some c => findClosestMatch target candidates = Some c
     | None =>
         match findClosestMatch target candidates with
         | Some c =>
             exists pre post,
               candidates = (pre ++ c :: post)%list
               /\ PrimFloat.leb 0.3%float (score c) = true
               /\ Forall (fun x => PrimFloat.ltb (score x) (score c) = true) pre
               /\ Forall (fun x => PrimFloat.leb (score x) (score c) = true) post
         | None =>
             Forall (fun x => PrimFloat.ltb (score x) 0.3%float = true)
               candidates
         end
     end
  /\ findClosestMatch "Ugadi" ["Sankranti"; "Ugadi"; "Vinayaka Chavithi"]
     = Some "Ugadi"
  /\ findClosestMatch "ab" ["abc"; "ab"] = Some "ab"
  /\ findClosestMatch "cat" ["dog"; "cow"] = Some "cow"
  /\ findClosestMatch "cat" ["dog"] = None.
Proof.
  cbv zeta.
  assert (Hscore : forall c,
             matchScore target c
             = ((if includes (toLowerCase c) (toLowerCase target)
                    || includes (toLowerCase target) (toLowerCase c)
                 then 0.8 else 0)
                + (if bool_decide (String.get 0 (toLowerCase target)
                                   = String.get 0 (toLowerCase c))
                   then 0.2 else 0)
                + (if (Z.abs (Z.of_nat (String.length target)
                              - Z.of_nat (String.length c)) <=? 2)%Z
                   then 0.1 else 0))%float).
  { intros c. rewrite score_sum.
    unfold containsMatch, firstLetterMatch, lengthSimilar, charAt0.
    rewrite option_ascii_eqb_decide. reflexivity. }
  split; [exact Hscore|].
  split; [|repeat split; vm_compute; reflexivity].
  pose proof (findClosestMatch_loop_result target candidates) as H.
  change (List.find
            (fun c => String.eqb (toLowerCase target) (toLowerCase c))
            candidates)
    with (List.find (exactMatch target) candidates).
  destruct (List.find (exactMatch target) candidates) as [c|]; [exact H|].
  destruct (findClosestMatch target candidates) as [c|].
  - destruct H as (pre & post & Heq & Hge & Hpre & Hpost).
    exists pre, post. split; [exact Heq|].
    rewrite <- !Hscore. split; [exact Hge|].
    split; (eapply Forall_impl; [eassumption|]); cbn; intros x Hx;
      rewrite <- !Hscore; exact Hx.
  - eapply Forall_impl; [exact H|]. cbn. intros x Hx.
    rewrite <- Hscore. exact Hx.
Qed.

(** With the empty query a candidate of more than two characters is no exact
    match and scores 0.8. *)
Lemma empty_query_candidate (c : string) :
  2 < String.length c ->
  exactMatch "" c = false /\ matchScore "" c = 0.8%float.
Proof.
  intros Hlen. unfold exactMatch, matchScore, containsMatch, firstLetterMatch,
    lengthSimilar.
  cbn [toLowerCase]. rewrite includes_empty. cbn [orb].
  destruct c as [|a c]; [cbn in Hlen; lia|].
  split; [reflexivity|].
  cbn [toLowerCase charAt0 String.get option_ascii_eqb].
  replace (Z.abs (Z.of_nat (String.length "") - Z.of_nat (String.length (String a c)))
             <=? 2)%Z with false; [reflexivity|].
  symmetry. apply Z.leb_gt. cbn [String.length] in *. lia.
Qed.

Lemma empty_query_keeps_best (rest : list string) (best : string) :
  Forall (fun c => 2 < String.length c) rest ->
  findClosestMatch_loop "" rest (Some best) 0.8%float = Some best.
Proof.
  induction 1 as [|c rest Hc _ IH]; [reflexivity|].
  destruct (empty_query_candidate c Hc) as [Hex Hsc].
  cbn [findClosestMatch_loop]. rewrite Hex. cbv zeta. rewrite Hsc.
  replace (PrimFloat.ltb 0.8%float 0.8%float) with false by (vm_compute; reflexivity).
  cbn [andb]. exact IH.
Qed.

(** C10. On the empty query, a non-empty candidate list whose candidates all
    have more than two characters gives its first candidate: each candidate
    scores 0.8 and an equal later score does not replace the first. *)
Theorem findClosestMatch_empty_query (candidates : list string) :
  candidates <> [] ->
  Forall (fun c => 2 < String.length c) candidates ->
  findClosestMatch "" candidates = List.hd_error candidates
  /\ findClosestMatch "" candidates <> None
  /\ Forall (fun c => matchScore "" c = 0.8%float) candidates.
Proof.
  intros Hne Hall.
  assert (Hscores : Forall (fun c => matchScore "" c = 0.8%float) candidates).
  { eapply Forall_impl; [exact Hall|]. intros c Hc.
    apply (empty_query_candidate c Hc). }
  destruct candidates as [|first rest]; [congruence|].
  assert (Hres : findClosestMatch "" (first :: rest) = Some first).
  { inversion Hall as [|? ? Hfirst Hrest]; subst.
    destruct (empty_query_candidate first Hfirst) as [Hex Hsc].
    unfold findClosestMatch. cbn [findClosestMatch_loop].
    rewrite Hex. cbv zeta. rewrite Hsc.
    replace (PrimFloat.ltb 0%float 0.8%float && PrimFloat.leb 0.3%float 0.8%float)
      with true by (vm_compute; reflexivity).
    apply empty_query_keeps_best. exact Hrest. }
  rewrite Hres. repeat split; [discriminate | exact Hscores].
Qed.

Lemma findClosestMatch_empty_query_witness :
  knownFestivals <> []
  /\ Forall (fun c => 2 < String.length c) knownFestivals
  /\ findClosestMatch "" knownFestivals = List.hd_error knownFestivals
  /\ findClosestMatch "" knownFestivals <> None
  /\ Forall (fun c => matchScore "" c = 0.8%float) knownFestivals.
Proof.
  assert (Hne : knownFestivals <> []) by discriminate.
  assert (Hlen : Forall (fun c => 2 < String.length c) knownFestivals)
    by (unfold knownFestivals; repeat constructor; cbn; lia).
  split; [exact Hne|]. split; [exact Hlen|].
  exact (findClosestMatch_empty_query knownFestivals Hne Hlen).
Defined.

End ClosestMatch.

(** ** The mood mapper *)

Section MoodMapper.

Import Js EmotionFoodMapperImpl.

Lemma emotionMappings_unknown (k : string) :
  ~ In k ["sad"; "sick"; "happy"; "angry"; "tired"] ->
  emotionMappings !! k = None.
Proof.
  intros Hk. unfold emotionMappings, mapOf. cbn [List.fold_left fst snd].
  rewrite !lookup_insert_ne; [apply lookup_empty | ..];
    intros <-; apply Hk; cbn; tauto.
Qed.

(** C8. A mood whose lower-cased, trimmed form is none of the five table keys
    gets the fixed default: Pappu with Avakaya, spice level medium, with a
    reasoning and a cultural context that are not empty.  The function is
    total: there is nothing that could throw. *)
Theorem mapEmotionToFood_unknown (emotion : string) :
  ~ In (trim (toLowerCase emotion)) ["sad"; "sick"; "happy"; "angry"; "tired"] ->
  mapEmotionToFood emotion =
    {| food := "Pappu with Avakaya";
       reasoning := "When in doubt, comfort food like pappu always helps, ra!";
       culturalContext :=
         "In Andhra culture, pappu is the ultimate comfort food that soothes any emotion";
       spiceLevel := "medium" |}
  /\ food (mapEmotionToFood emotion) = "Pappu with Avakaya"
  /\ spiceLevel (mapEmotionToFood emotion) = "medium"
  /\ reasoning (mapEmotionToFood emotion) <> ""
  /\ culturalContext (mapEmotionToFood emotion) <> "".
Proof.
  intros Hk. unfold mapEmotionToFood. cbv zeta.
  rewrite (emotionMappings_unknown _ Hk). cbn.
  repeat split; discriminate.
Qed.

Lemma mapEmotionToFood_unknown_witness :
  ~ In (trim (toLowerCase "  Bored ")) ["sad"; "sick"; "happy"; "angry"; "tired"]
  /\ food (mapEmotionToFood "  Bored ") = "Pappu with Avakaya"
  /\ spiceLevel (mapEmotionToFood "  Bored ") = "medium"
  /\ reasoning (mapEmotionToFood "  Bored ") <> ""
  /\ culturalContext (mapEmotionToFood "  Bored ") <> "".
Proof.
  assert (Hk : ~ In (trim (toLowerCase "  Bored "))
                 ["sad"; "sick"; "happy"; "angry"; "tired"]).
  { vm_compute. intros H.
    repeat (destruct H as [H | H]; [discriminate H|]). exact H. }
  split; [exact Hk|].
  exact (proj2 (mapEmotionToFood_unknown "  Bored " Hk)).
Defined.

End MoodMapper.

(** ** The knowledge store *)

Section Store.

Import Js CulturalDatabaseImpl.

(** *** Loading *)

Lemma setAll_preserves {A : Type} (key : A -> string) (entries : list A)
    (m : gmap string A) (k : string) :
  is_Some (m !! k) -> is_Some (setAll key entries m !! k).
Proof.
  unfold setAll. revert m.
  induction entries as [|e entries IH]; intros m Hm; cbn [List.fold_left];
    [exact Hm|].
  apply IH. destruct (decide (toLowerCase (key e) = k)) as [->|Hne].
  - rewrite lookup_insert_eq. eauto.
  - rewrite lookup_insert_ne; assumption.
Qed.

Lemma setAll_member {A : Type} (key : A -> string) (entries : list A)
    (m : gmap string A) (e : A) :
  In e entries -> is_Some (setAll key entries m !! toLowerCase (key e)).
Proof.
  unfold setAll. revert m.
  induction entries as [|e0 entries IH]; intros m Hin; [destruct Hin|].
  cbn [List.fold_left]. destruct Hin as [->|Hin]; [|apply IH; exact Hin].
  apply (setAll_preserves key entries). rewrite lookup_insert_eq. eauto.
Qed.

Lemma inList_In (x : string) (l : list string) :
  inList x l = true -> In x l.
Proof.
  unfold inList. intros H. apply List.existsb_exists in H.
  destruct H as (y & Hy & Heq). apply String.eqb_eq in Heq. now subst.
Qed.

(** A complete data set names every required mood. *)
Lemma isComplete_emotion (data : ParsedCulturalData) (mood : string) :
  DataValidator.isComplete data = true ->
  In mood DataValidator.requiredEmotions ->
  exists e, In e (emotions data)
            /\ toLowerCase (EmotionFoodMapping.emotion e) = mood.
Proof.
  unfold DataValidator.isComplete, DataValidator.completenessErrors.
  cbv zeta. intros Hlen Hmood. apply Nat.eqb_eq in Hlen.
  apply List.length_zero_iff_nil in Hlen.
  do 4 (apply List.app_eq_nil in Hlen; destruct Hlen as [_ Hlen]).
  apply List.app_eq_nil in Hlen. destruct Hlen as [Hlen _].
  apply List.map_eq_nil in Hlen.
  assert (Hin : inList mood
                  (List.map (fun e => toLowerCase (EmotionFoodMapping.emotion e))
                     (emotions data)) = true).
  { destruct (inList mood _) eqn:Hi; [reflexivity|]. exfalso.
    assert (Hf : In mood
              (List.filter
                 (fun emotion => negb (inList emotion
                    (List.map (fun e => toLowerCase (EmotionFoodMapping.emotion e))
                       (emotions data))))
                 DataValidator.requiredEmotions)).
    { apply List.filter_In. split; [exact Hmood | now rewrite Hi]. }
    rewrite Hlen in Hf. destruct Hf. }
  apply inList_In in Hin. apply List.in_map_iff in Hin.
  destruct Hin as (e & He & Hine). exists e. split; assumption.
Qed.

(** Whatever the document, the store answers the mood tired. *)
Lemma tired_always_found (file : option string) :
  getEmotionFoodMapping (new file) "tired" <> None.
Proof.
  unfold getEmotionFoodMapping, new, loadCulturalData.
  cbn [isLoaded setLoaded negb emotionFoodData].
  change (toLowerCase "tired") with "tired".
  assert (Hhard : forall db, is_Some (emotionFoodData (loadHardcodedData db) !! "tired")).
  { intros db. cbn [loadHardcodedData emotionFoodData].
    apply (setAll_member EmotionFoodMapping.emotion emotionMappings _
             (EmotionFoodMapping.mk "tired" "Coffee with Punugulu"
                "Energy boost from caffeine combined with satisfying evening snack"
                "street")).
    cbn. tauto. }
  destruct file as [content|]; cbn [ProductMdParser.parseProductMd].
  - destruct (ProductMdParser.validateParsedData _) eqn:Hvalid.
    + destruct (isComplete_emotion _ "tired" Hvalid) as (e & He & Hkey);
        [cbn; tauto|].
      cbn [loadFromParsedData emotionFoodData]. rewrite <- Hkey.
      intros Hnone.
      pose proof (setAll_member EmotionFoodMapping.emotion _
                    (emotionFoodData initial) e He) as [v Hv].
      congruence.
    + intros Hnone. destruct (Hhard (loadFromParsedData initial
                                        (ProductMdParser.parseContent content)))
        as [v Hv]. congruence.
  - intros Hnone. destruct (Hhard initial) as [v Hv]. congruence.
Qed.

(** When the document cannot be read the store is the hardcoded set. *)
Lemma unreadable_document_gives_hardcoded : new None = hardcoded.
Proof. reflexivity. Qed.

(** *** Lookups of absent keys *)

(** C4, as amended.  A key absent from its map makes getSlangInfo,
    getFestivalInfo and getEmotionFoodMapping return null; a city absent from
    the food map makes getFoodInfo return the empty array.  The accessors
    are total. *)
Theorem lookup_absent_key (db : CulturalDatabaseImpl.t) (key : string)
    (preferences : FoodPreferences) :
  (slangData db !! toLowerCase key = None -> returnedBySlang db key = Null)
  /\ (festivalData db !! toLowerCase key = None ->
      returnedByFestival db key = Null)
  /\ (emotionFoodData db !! toLowerCase key = None ->
      returnedByEmotion db key = Null)
  /\ (foodData db !! toLowerCase key = None ->
      returnedByFood db key preferences = Array []).
Proof.
  unfold returnedBySlang, returnedByFestival, returnedByEmotion, returnedByFood,
    getSlangInfo, getFestivalInfo, getEmotionFoodMapping, getFoodInfo.
  repeat split; intros H; rewrite H; destruct (isLoaded db); reflexivity.
Qed.

Lemma lookup_absent_key_witness :
  slangData hardcoded !! toLowerCase "Atlantis" = None
  /\ festivalData hardcoded !! toLowerCase "Atlantis" = None
  /\ emotionFoodData hardcoded !! toLowerCase "Atlantis" = None
  /\ foodData hardcoded !! toLowerCase "Atlantis" = None
  /\ returnedBySlang hardcoded "Atlantis" = Null
  /\ returnedByFestival hardcoded "Atlantis" = Null
  /\ returnedByEmotion hardcoded "Atlantis" = Null
  /\ returnedByFood hardcoded "Atlantis" (mkPreferences None (Some "medium") None)
     = Array [].
Proof.
  assert (H1 : slangData hardcoded !! toLowerCase "Atlantis" = None)
    by (vm_compute; reflexivity).
  assert (H2 : festivalData hardcoded !! toLowerCase "Atlantis" = None)
    by (vm_compute; reflexivity).
  assert (H3 : emotionFoodData hardcoded !! toLowerCase "Atlantis" = None)
    by (vm_compute; reflexivity).
  assert (H4 : foodData hardcoded !! toLowerCase "Atlantis" = None)
    by (vm_compute; reflexivity).
  destruct (lookup_absent_key hardcoded "Atlantis"
              (mkPreferences None (Some "medium") None)) as (A1 & A2 & A3 & A4).
  repeat split; auto.
Defined.

(** C4, as stated, fails for dishes: the city Atlantis is absent from the
    store, and getFoodInfo returns an empty array, which is not null. *)
Lemma getFoodInfo_absent_city_not_null :
  foodData hardcoded !! toLowerCase "Atlantis" = None
  /\ returnedByFood hardcoded "Atlantis" (mkPreferences None (Some "medium") None)
     = Array []
  /\ returnedByFood hardcoded "Atlantis" (mkPreferences None (Some "medium") None)
     <> Null.
Proof.
  split; [vm_compute; reflexivity|]. split; [vm_compute; reflexivity|].
  discriminate.
Qed.

End Store.

(** ** Dish lookups *)

Section DishLookup.

Import Js CulturalDatabaseImpl.

Lemma filter_sublist {A : Type} (p q : A -> bool) (l : list A) :
  (forall x, p x = true -> q x = true) ->
  sublist (List.filter p l) (List.filter q l).
Proof.
  intros Hpq. induction l as [|a l IH]; cbn [List.filter]; [constructor|].
  destruct (p a) eqn:Hp.
  - rewrite (Hpq a Hp). now apply sublist_skip.
  - destruct (q a); [now apply sublist_cons | exact IH].
Qed.

Lemma sublist_In {A : Type} (l1 l2 : list A) :
  sublist l1 l2 -> forall x, In x l1 -> In x l2.
Proof.
  induction 1 as [|y l1 l2 _ IH|y l1 l2 _ IH]; intros x Hin.
  - exact Hin.
  - destruct Hin as [->|Hin]; [now left | right; now apply IH].
  - right. now apply IH.
Qed.

Lemma new_isLoaded (file : option string) : isLoaded (new file) = true.
Proof. reflexivity. Qed.

(** A dish that passes with spice level low passes with extreme. *)
Lemma foodFilter_low_extreme (d t : option string) (food : FoodInfo.t) :
  foodFilter (mkPreferences d (Some "low") t) food = true ->
  foodFilter (mkPreferences d (Some "extreme") t) food = true.
Proof.
  unfold foodFilter. cbn [dietary spiceLevel].
  destruct (isPreference d "veg" && hasChicken food); [discriminate|].
  destruct (isPreference d "non-veg" && negb (hasChicken food)); [auto|].
  cbv zeta. change (spiceLevels "low") with (Some 1%Z).
  change (spiceLevels "extreme") with (Some 4%Z).
  destruct (spiceLevels (FoodInfo.spiceLevel food)) as [rank|]; cbn [lessThan].
  - destruct (1 <? rank)%Z eqn:H1; [discriminate|].
    apply Z.ltb_ge in H1.
    replace (4 <? rank)%Z with false by (symmetry; apply Z.ltb_ge; lia).
    unfold timeAllows. cbn [timeOfDay]. auto.
  - unfold timeAllows. cbn [timeOfDay]. auto.
Qed.

(** C7. For every document the store is built from, every city and every
    dietary and time-of-day preference, the dishes returned for spice level
    low are a sublist (same dishes, same order) of those returned for
    extreme; so they are no more numerous and each of them is among the
    others. *)
Theorem spice_filter_monotone (file : option string) (city : string)
    (dietary timeOfDay : option string) :
  let low := getFoodInfo (new file) city (mkPreferences dietary (Some "low") timeOfDay) in
  let extreme :=
    getFoodInfo (new file) city (mkPreferences dietary (Some "extreme") timeOfDay) in
  sublist low extreme
  /\ List.length low <= List.length extreme
  /\ forall food, In food low -> In food extreme.
Proof.
  cbv zeta.
  assert (Hsub : sublist
            (getFoodInfo (new file) city (mkPreferences dietary (Some "low") timeOfDay))
            (getFoodInfo (new file) city
               (mkPreferences dietary (Some "extreme") timeOfDay))).
  { unfold getFoodInfo. rewrite new_isLoaded. cbn [negb].
    apply filter_sublist. apply foodFilter_low_extreme. }
  split; [exact Hsub|]. split.
  - apply sublist_length. exact Hsub.
  - apply sublist_In. exact Hsub.
Qed.

(** C9. When the requested spice level is absent or is none of low, medium,
    high, extreme, the rank comparison excludes no dish: for every document
    and every city the result is the city's dishes filtered by the dietary
    and the time-of-day conditions alone. *)
Theorem spice_filter_without_rank (file : option string) (city : string)
    (preferences : FoodPreferences) :
  (forall k, spiceLevel preferences = Some k ->
             ~ In k ["low"; "medium"; "high"; "extreme"]) ->
  getFoodInfo (new file) city preferences =
    List.filter
      (fun food => dietaryAllows preferences food && timeAllows preferences food)
      (cityFoods (new file) city).
Proof.
  intros Hk. unfold getFoodInfo, cityFoods. rewrite new_isLoaded. cbn [negb].
  apply List.filter_ext. intros food.
  unfold foodFilter, dietaryAllows.
  destruct (isPreference (dietary preferences) "veg" && hasChicken food);
    [reflexivity|].
  destruct (isPreference (dietary preferences) "non-veg" && negb (hasChicken food))
    eqn:Hnv.
  - apply andb_true_iff in Hnv. destruct Hnv as [_ Hc].
    apply negb_true_iff in Hc. rewrite Hc. reflexivity.
  - cbv zeta.
    assert (Hrank : match spiceLevel preferences with
                    | Some k => spiceLevels k
                    | None => None
                    end = None).
    { destruct (spiceLevel preferences) as [k|]; [|reflexivity].
      specialize (Hk k eq_refl). unfold spiceLevels.
      destruct (String.eqb_spec k "low") as [->|_]; [exfalso; apply Hk; cbn; tauto|].
      destruct (String.eqb_spec k "medium") as [->|_];
        [exfalso; apply Hk; cbn; tauto|].
      destruct (String.eqb_spec k "high") as [->|_];
        [exfalso; apply Hk; cbn; tauto|].
      destruct (String.eqb_spec k "extreme") as [->|_];
        [exfalso; apply Hk; cbn; tauto|].
      reflexivity. }
    rewrite Hrank. reflexivity.
Qed.

Lemma spice_filter_without_rank_witness :
  (forall k, spiceLevel (mkPreferences (Some "veg") (Some "mild") (Some "evening"))
             = Some k ->
             ~ In k ["low"; "medium"; "high"; "extreme"])
  /\ getFoodInfo (new None) "Visakhapatnam"
       (mkPreferences (Some "veg") (Some "mild") (Some "evening")) =
     List.filter
       (fun food =>
          dietaryAllows (mkPreferences (Some "veg") (Some "mild") (Some "evening")) food
          && timeAllows (mkPreferences (Some "veg") (Some "mild") (Some "evening")) food)
       (cityFoods (new None) "Visakhapatnam").
Proof.
  assert (Hk : forall k,
             spiceLevel (mkPreferences (Some "veg") (Some "mild") (Some "evening"))
             = Some k ->
             ~ In k ["low"; "medium"; "high"; "extreme"]).
  { cbn [spiceLevel]. intros k [= <-] H.
    repeat (destruct H as [H | H]; [discriminate H|]). exact H. }
  split; [exact Hk|].
  exact (spice_filter_without_rank None "Visakhapatnam" _ Hk).
Defined.

(** *** The fallback after a failed validation *)

(** C1 at a failing input.  The document [incompleteDocument] fails the
    completeness validation; the store built from it still answers the parsed
    term Foo, which the hardcoded set does not hold, and files the parsed
    dish before the hardcoded dishes of the same city: it is not the
    hardcoded set.  The mood tired is found. *)
Theorem fallback_keeps_parsed_data :
  ProductMdParser.validateParsedData
    (ProductMdParser.parseContent incompleteDocument) = false
  /\ getSlangInfo (new (Some incompleteDocument)) "Foo"
     = Some (SlangInfo.mk "Foo" "bar" "baz" "General use" "informal" (Some []))
  /\ getSlangInfo hardcoded "Foo" = None
  /\ List.map FoodInfo.name
       (getFoodInfo (new (Some incompleteDocument)) "Visakhapatnam"
          (mkPreferences None None None))
     = ["Punugulu"; "Punugulu"; "Bongulo Chicken"]
  /\ List.map FoodInfo.name
       (getFoodInfo hardcoded "Visakhapatnam" (mkPreferences None None None))
     = ["Punugulu"; "Bongulo Chicken"]
  /\ new (Some incompleteDocument) <> hardcoded
  /\ getEmotionFoodMapping (new (Some incompleteDocument)) "tired" <> None.
Proof.
  assert (H2 : getSlangInfo (new (Some incompleteDocument)) "Foo"
               = Some (SlangInfo.mk "Foo" "bar" "baz" "General use" "informal"
                         (Some [])))
    by (vm_compute; reflexivity).
  assert (H3 : getSlangInfo hardcoded "Foo" = None) by (vm_compute; reflexivity).
  split; [vm_compute; reflexivity|]. split; [exact H2|]. split; [exact H3|].
  split; [vm_compute; reflexivity|]. split; [vm_compute; reflexivity|].
  split; [|apply tired_always_found].
  intros Heq. rewrite Heq, H3 in H2. discriminate H2.
Qed.

End DishLookup.

(** ** The output formatter *)

Section Formatter.

Import Js ResponseFormatter.

Lemma lastChar_drop (n : nat) (s : string) (c : ascii) :
  lastChar (drop n s) = Some c -> lastChar s = Some c.
Proof.
  revert s. induction n as [|n IH]; intros s H.
  - destruct s; exact H.
  - destruct s as [|a s]; [exact H|]. cbn [drop] in H.
    specialize (IH s H). rewrite lastChar_cons; [exact IH|].
    eapply lastChar_some_nonempty. exact IH.
Qed.

Lemma endsWithChar_last (s : string) (c : ascii) :
  endsWithChar s c = true -> lastChar s = Some c.
Proof.
  unfold endsWithChar, option_ascii_eqb.
  destruct (lastChar s) as [x|]; [|discriminate].
  intros H. apply Ascii.eqb_eq in H. now subst.
Qed.

Lemma last_endsWithChar (s : string) (c : ascii) :
  lastChar s = Some c -> endsWithChar s c = true.
Proof.
  unfold endsWithChar, option_ascii_eqb. intros ->. apply Ascii.eqb_refl.
Qed.

(** A text that the closing pattern matches ends with [!] or [.]. *)
Lemma hasClosingFrom_last (s : string) (prev : option ascii) :
  hasClosingFrom prev s = true ->
  lastChar s = Some "!"%char \/ lastChar s = Some "."%char.
Proof.
  revert prev. induction s as [|a s IH]; intros prev H.
  - cbn [hasClosingFrom] in H. rewrite orb_false_r in H.
    unfold closingAt in H. apply andb_true_iff in H. destruct H as [_ H].
    vm_compute in H. discriminate.
  - cbn [hasClosingFrom] in H. apply orb_true_iff in H. destruct H as [H|H].
    + unfold closingAt in H. apply andb_true_iff in H. destruct H as [_ H].
      apply List.existsb_exists in H. destruct H as (alt & _ & H).
      apply andb_true_iff in H. destruct H as [_ H].
      unfold closingTail in H. apply andb_true_iff in H. destruct H as [_ H].
      apply orb_true_iff in H.
      destruct H as [H|H]; apply endsWithChar_last in H;
        apply lastChar_drop in H; auto.
    + specialize (IH _ H).
      assert (Hne : s <> "") by (destruct IH as [E|E];
                                  eapply lastChar_some_nonempty; exact E).
      rewrite lastChar_cons; assumption.
Qed.

Lemma pick_closing_last (draw : nat) (category : Category) :
  lastChar (pick draw (culturalClosings category)) = Some "!"%char.
Proof.
  unfold pick.
  assert (Hlen : List.length (culturalClosings category) = 3)
    by (destruct category; reflexivity).
  rewrite Hlen. pose proof (Nat.mod_upper_bound draw 3 ltac:(lia)) as Hb.
  destruct (draw mod 3) as [|[|[|n]]]; [..|lia]; destruct category; reflexivity.
Qed.

(** After step 4 the text ends with [!] or [.]. *)
Lemma addCulturalClosing_last (draw : nat) (content : string)
    (category : Category) :
  lastChar (addCulturalClosing draw content category) = Some "!"%char
  \/ lastChar (addCulturalClosing draw content category) = Some "."%char.
Proof.
  unfold addCulturalClosing.
  destruct (hasClosing content) eqn:Hc; cbn [negb].
  - apply (hasClosingFrom_last content None). exact Hc.
  - left. cbv zeta.
    pose proof (pick_closing_last draw category) as Hp.
    rewrite lastChar_app.
    + change (" " ++ pick draw (culturalClosings category))
        with (String " " (pick draw (culturalClosings category))).
      rewrite lastChar_cons; [exact Hp|].
      eapply lastChar_some_nonempty; exact Hp.
    + discriminate.
Qed.

Lemma collapseSpaces_end (s : string) (c : ascii) (inRun : bool) :
  lastChar s = Some c -> isSpace c = false ->
  lastChar (collapseSpaces s inRun) = Some c.
Proof.
  intros Hl Hc. revert inRun.
  induction s as [|a s IH]; intros inRun; [discriminate|].
  destruct s as [|b s].
  - cbn in Hl. injection Hl as ->. cbn [collapseSpaces]. rewrite Hc. reflexivity.
  - assert (Hs : lastChar (String b s) = Some c) by exact Hl.
    specialize (IH Hs).
    assert (Hne : forall r, collapseSpaces (String b s) r <> "")
      by (intros r; eapply lastChar_some_nonempty; apply IH).
    change (collapseSpaces (String a (String b s)) inRun)
      with (if isSpace a
            then if inRun then collapseSpaces (String b s) true
                 else String " " (collapseSpaces (String b s) true)
            else String a (collapseSpaces (String b s) false)).
    destruct (isSpace a); [destruct inRun|];
      rewrite ?lastChar_cons; auto.
Qed.

Lemma dropSpaceBeforePunct_end (s : string) (c : ascii) :
  lastChar s = Some c -> isSpace c = false ->
  lastChar (dropSpaceBeforePunct s) = Some c.
Proof.
  intros Hl Hc. induction s as [|a s IH]; [discriminate|].
  destruct s as [|b s].
  - cbn in Hl. injection Hl as ->. cbn [dropSpaceBeforePunct]. rewrite Hc.
    reflexivity.
  - assert (Hs : lastChar (String b s) = Some c) by exact Hl.
    specialize (IH Hs).
    assert (Hne : dropSpaceBeforePunct (String b s) <> "")
      by (eapply lastChar_some_nonempty; apply IH).
    change (dropSpaceBeforePunct (String a (String b s)))
      with (if isSpace a && punctAhead (String b s)
            then dropSpaceBeforePunct (String b s)
            else String a (dropSpaceBeforePunct (String b s))).
    destruct (isSpace a && punctAhead (String b s));
      rewrite ?lastChar_cons; auto.
Qed.

Lemma spaceAfterPunct_end (s : string) (c : ascii) :
  lastChar s = Some c -> lastChar (spaceAfterPunct s) = Some c.
Proof.
  intros Hl. induction s as [|a s IH]; [discriminate|].
  destruct s as [|b s]; [exact Hl|].
  assert (Hs : lastChar (String b s) = Some c) by exact Hl.
  specialize (IH Hs).
  assert (Hne : spaceAfterPunct (String b s) <> "")
    by (eapply lastChar_some_nonempty; apply IH).
  change (spaceAfterPunct (String a (String b s)))
    with (if isPunct a && isUpper b
          then String a (String " " (spaceAfterPunct (String b s)))
          else String a (spaceAfterPunct (String b s))).
  destruct (isPunct a && isUpper b); rewrite !lastChar_cons; auto; discriminate.
Qed.

Lemma takeWhile_dropWhile_length (p : ascii -> bool) (s : string) :
  String.length (takeWhile p s) + String.length (dropWhile p s) = String.length s.
Proof.
  induction s as [|a s IH]; [reflexivity|]. cbn [takeWhile dropWhile].
  destruct (p a); cbn [String.length]; lia.
Qed.

Lemma lastChar_dropWhile (p : ascii -> bool) (s : string) :
  dropWhile p s <> "" -> lastChar s = lastChar (dropWhile p s).
Proof.
  induction s as [|a s IH]; [reflexivity|]. cbn [dropWhile].
  destruct (p a); [|reflexivity]. intros Hne.
  rewrite lastChar_cons; [apply IH; exact Hne|].
  intros ->. apply Hne. reflexivity.
Qed.

Lemma capitalizeAfter_end (p : ascii) (s : string) (c : ascii) :
  forall skip,
    skip < String.length s ->
    lastChar s = Some c -> isLower c = false ->
    lastChar (capitalizeAfter p s skip) = Some c.
Proof.
  induction s as [|a s IH]; intros skip Hskip Hl Hc; [discriminate|].
  cbn [String.length] in Hskip.
  destruct skip as [|k].
  - destruct s as [|b s].
    { cbn in Hl. injection Hl as ->. cbn. destruct (Ascii.eqb c p); reflexivity. }
    assert (Hs : lastChar (String b s) = Some c) by exact Hl.
    assert (Hplain : lastChar (String a (capitalizeAfter p (String b s) 0)) = Some c).
    { rewrite lastChar_cons.
      - apply IH; [cbn; lia | exact Hs | exact Hc].
      - eapply lastChar_some_nonempty. apply IH; [cbn; lia | exact Hs | exact Hc]. }
    cbn [capitalizeAfter]. destruct (Ascii.eqb a p) eqn:Hap; [|exact Hplain].
    destruct (dropWhile isSpace (String b s)) as [|l rest] eqn:Hdw; [exact Hplain|].
    destruct (isLower l) eqn:Hlow; [|exact Hplain].
    pose proof (takeWhile_dropWhile_length isSpace (String b s)) as Hlen.
    rewrite Hdw in Hlen. cbn [String.length] in Hlen.
    assert (Hlast : lastChar (String b s) = lastChar (String l rest)).
    { rewrite <- Hdw. apply lastChar_dropWhile. rewrite Hdw. discriminate. }
    assert (Hrest : rest <> "").
    { intros ->. rewrite Hs in Hlast. cbn in Hlast. injection Hlast as <-.
      congruence. }
    assert (Hk : String.length (takeWhile isSpace (String b s)) + 1
                 < String.length (String b s)).
    { destruct rest; [congruence|]. cbn [String.length] in Hlen |- *. lia. }
    assert (Hrec : lastChar
                     (capitalizeAfter p (String b s)
                        (String.length (takeWhile isSpace (String b s)) + 1))
                   = Some c)
      by (apply IH; [exact Hk | exact Hs | exact Hc]).
    rewrite !lastChar_cons; try discriminate; [exact Hrec|].
    eapply lastChar_some_nonempty; exact Hrec.
  - cbn [capitalizeAfter].
    assert (Hne : s <> "") by (destruct s; [cbn in Hskip; lia | discriminate]).
    apply IH; [lia | rewrite <- Hl; symmetry; now apply lastChar_cons | exact Hc].
Qed.

Lemma trimEnd_end (s : string) (c : ascii) :
  lastChar s = Some c -> isSpace c = false -> lastChar (trimEnd s) = Some c.
Proof.
  intros Hl Hc. induction s as [|a s IH]; [discriminate|].
  destruct s as [|b s].
  - cbn in Hl. injection Hl as ->. cbn [trimEnd]. rewrite Hc. reflexivity.
  - assert (Hs : lastChar (String b s) = Some c) by exact Hl.
    specialize (IH Hs).
    change (trimEnd (String a (String b s)))
      with (match trimEnd (String b s) with
            | EmptyString =>
                if isSpace a then EmptyString else String a EmptyString
            | t => String a t
            end).
    destruct (trimEnd (String b s)) as [|x t] eqn:Ht; [discriminate|].
    rewrite lastChar_cons; [exact IH | discriminate].
Qed.

Lemma trimStart_end (s : string) (c : ascii) :
  lastChar s = Some c -> isSpace c = false -> lastChar (trimStart s) = Some c.
Proof.
  intros Hl Hc. induction s as [|a s IH]; [discriminate|].
  cbn [trimStart]. destruct (isSpace a) eqn:Ha; [|exact Hl].
  destruct s as [|b s].
  - cbn in Hl. injection Hl as ->. congruence.
  - apply IH. exact Hl.
Qed.

Lemma capitalize_end (s : string) (c : ascii) :
  lastChar s = Some c -> isLower c = false -> lastChar (capitalize s) = Some c.
Proof.
  intros Hl Hc. destruct s as [|a s]; [discriminate|]. cbn [capitalize].
  destruct s as [|b s].
  - cbn in Hl. injection Hl as ->. unfold upperChar. rewrite Hc. reflexivity.
  - exact Hl.
Qed.

Lemma improveFlow_end (s : string) (c : ascii) :
  stableEnd s c -> lastChar (improveFlow s) = Some c.
Proof.
  intros (Hl & Hsp & Hlow). unfold improveFlow. cbv zeta.
  apply capitalize_end; [|exact Hlow].
  unfold trim. apply trimEnd_end; [|exact Hsp].
  apply trimStart_end; [|exact Hsp].
  assert (H1 : lastChar (spaceAfterPunct
                           (dropSpaceBeforePunct (collapseSpaces s false)))
               = Some c).
  { apply spaceAfterPunct_end. apply dropSpaceBeforePunct_end; [|exact Hsp].
    apply collapseSpaces_end; assumption. }
  assert (Hpos : forall t, lastChar t = Some c -> 0 < String.length t)
    by (intros t Ht; destruct t; [discriminate | cbn; lia]).
  assert (H2 : lastChar (capitalizeAfter "." (spaceAfterPunct
                 (dropSpaceBeforePunct (collapseSpaces s false))) 0) = Some c)
    by (apply capitalizeAfter_end; auto).
  assert (H3 : lastChar (capitalizeAfter "!" (capitalizeAfter "." (spaceAfterPunct
                 (dropSpaceBeforePunct (collapseSpaces s false))) 0) 0) = Some c)
    by (apply capitalizeAfter_end; auto).
  apply capitalizeAfter_end; auto.
Qed.

(** Whatever the content, the supplied words, the region, the category and
    the two random draws, the formatted text ends with a full stop or an
    exclamation mark, hence with one of the three marks. *)
Lemma formatResponse_ends_with_mark (drawOpening drawClosing : nat)
    (response : CulturalResponse) :
  (lastChar (formatResponse drawOpening drawClosing response) = Some "."%char
   \/ lastChar (formatResponse drawOpening drawClosing response) = Some "!"%char)
  /\ endsWithMark (formatResponse drawOpening drawClosing response) = true.
Proof.
  assert (H : lastChar (formatResponse drawOpening drawClosing response)
              = Some "."%char
              \/ lastChar (formatResponse drawOpening drawClosing response)
                 = Some "!"%char).
  { unfold formatResponse. cbv zeta.
    destruct (addCulturalClosing_last drawClosing
                (removeTechnicalTerms
                   (ensureTeluguIntegration
                      (addCulturalOpening drawOpening (content response)
                         (region response))
                      (teluguWords response)))
                (category response)) as [E|E].
    - right. apply improveFlow_end. repeat split; [exact E | reflexivity..].
    - left. apply improveFlow_end. repeat split; [exact E | reflexivity..]. }
  split; [exact H|]. unfold endsWithMark.
  destruct H as [E|E]; rewrite (last_endsWithChar _ _ E); cbn;
    rewrite ?orb_true_r; reflexivity.
Qed.

(** *** Step 2 integrates a supplied word *)

Lemma toLowerCase_app (a b : string) :
  toLowerCase (a ++ b) = toLowerCase a ++ toLowerCase b.
Proof.
  induction a as [|c a IH]; [reflexivity|].
  change (toLowerCase (String c (a ++ b))
          = String (lowerChar c) (toLowerCase a ++ toLowerCase b)).
  cbn [toLowerCase]. f_equal. exact IH.
Qed.

Lemma lowerChar_upperChar (c : ascii) : lowerChar (upperChar c) = lowerChar c.
Proof. destruct c as [[] [] [] [] [] [] [] []]; reflexivity. Qed.

Lemma toLowerCase_capitalize (w : string) :
  toLowerCase (capitalize w) = toLowerCase w.
Proof.
  destruct w as [|c w]; [reflexivity|].
  cbn [capitalize toLowerCase]. now rewrite lowerChar_upperChar.
Qed.

Lemma prefix_app (w b : string) : String.prefix w (w ++ b) = true.
Proof.
  induction w as [|c w IH]; [destruct b; reflexivity|].
  change (String c w ++ b) with (String c (w ++ b)). cbn [String.prefix].
  destruct (ascii_dec c c); [exact IH | congruence].
Qed.

Lemma includes_prefix (w b : string) : includes (w ++ b) w = true.
Proof.
  destruct (w ++ b) eqn:E; cbn [includes]; unfold startsWith;
    rewrite <- E, prefix_app; reflexivity.
Qed.

Lemma includes_app_r (a b w : string) :
  includes b w = true -> includes (a ++ b) w = true.
Proof.
  intros H. induction a as [|c a IH]; [exact H|].
  change (String c a ++ b) with (String c (a ++ b)).
  cbn [includes]. rewrite IH. apply orb_true_r.
Qed.

(** When words are supplied, the text after step 2 holds one of them (letter
    case aside); which word is never compared with the fixed vocabulary. *)
Lemma ensureTeluguIntegration_supplied (content : string)
    (teluguWords : list string) :
  teluguWords <> [] ->
  List.existsb
    (fun w => includes
                (toLowerCase (ensureTeluguIntegration content teluguWords))
                (toLowerCase w))
    teluguWords = true.
Proof.
  intros Hne. destruct teluguWords as [|word rest]; [congruence|].
  unfold ensureTeluguIntegration. cbv zeta.
  destruct (List.existsb
              (fun w => includes (toLowerCase content) (toLowerCase w))
              (word :: rest)) eqn:Hhas; cbn [negb]; cbv iota; [exact Hhas|].
  clear Hhas. cbn [List.existsb]. apply orb_true_iff. left.
  destruct (inList (toLowerCase word) ["arey"; "baboi"]); cbv iota.
  - rewrite toLowerCase_app, toLowerCase_capitalize. apply includes_prefix.
  - destruct (inList (toLowerCase word) ["babu"; "amma"]); cbv iota.
    + rewrite !toLowerCase_app. do 2 apply includes_app_r. apply includes_prefix.
    + rewrite !toLowerCase_app. do 2 apply includes_app_r. apply includes_prefix.
Qed.

(** *** Vocabulary words are kept *)

Lemma hasWord_unfold (w : string) (c : ascii) (s : string) :
  hasWord w (String c s) = startsWithCI (String c s) w || hasWord w s.
Proof. reflexivity. Qed.

Lemma hasWord_cons (w : string) (c : ascii) (s : string) :
  hasWord w s = true -> hasWord w (String c s) = true.
Proof. intros H. rewrite hasWord_unfold, H. apply orb_true_r. Qed.

Lemma startsWithCI_hasWord (w s : string) :
  startsWithCI s w = true -> hasWord w s = true.
Proof.
  unfold hasWord, startsWithCI. intros H.
  destruct (toLowerCase s); cbn [includes]; rewrite H; reflexivity.
Qed.

Lemma hasWord_app_r (w a b : string) :
  hasWord w b = true -> hasWord w (a ++ b) = true.
Proof. unfold hasWord. rewrite toLowerCase_app. apply includes_app_r. Qed.

Lemma prefix_app_l (w a b : string) :
  String.prefix w a = true -> String.prefix w (a ++ b) = true.
Proof.
  revert a. induction w as [|x w IH]; intros a H;
    [destruct (a ++ b); reflexivity|].
  destruct a as [|c a]; [discriminate|].
  change (String c a ++ b) with (String c (a ++ b)).
  cbn [String.prefix] in *. destruct (ascii_dec x c); [now apply IH | discriminate].
Qed.

Lemma includes_app_l (a b w : string) :
  includes a w = true -> includes (a ++ b) w = true.
Proof.
  induction a as [|c a IH]; intros H.
  - cbn [includes] in H. rewrite orb_false_r in H. unfold startsWith in H.
    destruct w; [apply includes_empty | discriminate].
  - change (String c a ++ b) with (String c (a ++ b)).
    cbn [includes] in *. apply orb_true_iff in H. apply orb_true_iff.
    destruct H as [H|H]; [left | right; now apply IH].
    unfold startsWith in *.
    change (String c (a ++ b)) with (String c a ++ b). now apply prefix_app_l.
Qed.

Lemma hasWord_app_l (w a b : string) :
  hasWord w a = true -> hasWord w (a ++ b) = true.
Proof. unfold hasWord. rewrite toLowerCase_app. apply includes_app_l. Qed.

Lemma lowerChar_idem (c : ascii) : lowerChar (lowerChar c) = lowerChar c.
Proof. destruct c as [[] [] [] [] [] [] [] []]; reflexivity. Qed.

Lemma toLowerCase_idem (s : string) : toLowerCase (toLowerCase s) = toLowerCase s.
Proof.
  induction s as [|c s IH]; [reflexivity|].
  cbn [toLowerCase]. now rewrite lowerChar_idem, IH.
Qed.

Lemma hasWord_toLowerCase (w s : string) :
  hasWord w (toLowerCase s) = hasWord w s.
Proof. unfold hasWord. now rewrite toLowerCase_idem. Qed.

(** A character whose lower case is a lower-case letter is a letter: it is
    neither whitespace nor one of the marks. *)
Lemma lower_letter (c : ascii) :
  isLower (lowerChar c) = true ->
  isLetter c = true /\ isWordChar c = true /\ isSpace c = false
  /\ isPunct c = false.
Proof. destruct c as [[] [] [] [] [] [] [] []]; cbn; intros H; try discriminate H; repeat split. Qed.

(** The first character of a text that starts, letter case aside, with a
    word of lower-case letters. *)
Lemma startsWithCI_cons (c : ascii) (s : string) (x : ascii) (w : string) :
  startsWithCI (String c s) (String x w)
  = (if ascii_dec x (lowerChar c) then startsWithCI s w else false).
Proof. reflexivity. Qed.

Lemma startsWithCI_nil (s : string) : startsWithCI s "" = true.
Proof. unfold startsWithCI. apply startsWith_empty. Qed.

Lemma startsWithCI_inv (s : string) (x : ascii) (w : string) :
  startsWithCI s (String x w) = true ->
  exists c s', s = String c s' /\ lowerChar c = x /\ startsWithCI s' w = true.
Proof.
  destruct s as [|c s']; [discriminate|]. rewrite startsWithCI_cons.
  destruct (ascii_dec x (lowerChar c)) as [->|]; [|discriminate].
  intros H. now exists c, s'.
Qed.

Lemma hasWord_empty (w : string) : w <> "" -> hasWord w "" = false.
Proof. destruct w; [congruence | reflexivity]. Qed.

(** An occurrence of a word of letters does not start at a character that is
    not a letter. *)
Lemma hasWord_skip (w : string) (c : ascii) (s : string) :
  w <> "" -> allChars isLower w = true -> isLetter c = false ->
  hasWord w (String c s) = hasWord w s.
Proof.
  intros Hne Hw Hc. rewrite hasWord_unfold.
  destruct w as [|x w]; [congruence|]. rewrite startsWithCI_cons.
  destruct (ascii_dec x (lowerChar c)) as [->|]; [|reflexivity].
  cbn [allChars] in Hw. apply andb_true_iff in Hw. destruct Hw as [Hx _].
  apply lower_letter in Hx. destruct Hx as [Hx _]. congruence.
Qed.

Lemma space_not_letter (c : ascii) : isSpace c = true -> isLetter c = false.
Proof. destruct c as [[] [] [] [] [] [] [] []]; cbn; intros H; try discriminate H; reflexivity. Qed.

Lemma hasWord_dropWhile_space (w s : string) :
  w <> "" -> allChars isLower w = true ->
  hasWord w (dropWhile isSpace s) = hasWord w s.
Proof.
  intros Hne Hw. induction s as [|c s IH]; [reflexivity|].
  cbn [dropWhile]. destruct (isSpace c) eqn:Hc; [|reflexivity].
  rewrite IH. symmetry. apply hasWord_skip; auto using space_not_letter.
Qed.

Section WordPreserved.

Variable w : string.
Hypothesis w_nonempty : w <> "".
Hypothesis w_letters : allChars isLower w = true.

(** *** collapseSpaces *)

Lemma collapseSpaces_verbatim (v : string) :
  allChars isLower v = true ->
  forall s inRun,
    startsWithCI s v = true -> startsWithCI (collapseSpaces s inRun) v = true.
Proof.
  induction v as [|x v IH]; intros Hv s inRun H; [apply startsWithCI_nil|].
  apply startsWithCI_inv in H. destruct H as (c & s' & -> & Hc & H).
  cbn [allChars] in Hv. apply andb_true_iff in Hv. destruct Hv as [Hx Hv].
  rewrite <- Hc in Hx. apply lower_letter in Hx. destruct Hx as (_ & _ & Hsp & _).
  cbn [collapseSpaces]. rewrite Hsp. rewrite startsWithCI_cons.
  destruct (ascii_dec x (lowerChar c)); [|congruence]. now apply IH.
Qed.

Lemma collapseSpaces_word (s : string) :
  forall inRun,
    hasWord w s = true -> hasWord w (collapseSpaces s inRun) = true.
Proof.
  induction s as [|c s IH]; intros inRun H;
    [now rewrite hasWord_empty in H|].
  rewrite hasWord_unfold in H. apply orb_true_iff in H. destruct H as [H|H].
  - apply startsWithCI_hasWord. now apply collapseSpaces_verbatim.
  - cbn [collapseSpaces]. destruct (isSpace c); [destruct inRun|];
      auto using hasWord_cons.
Qed.

(** *** dropSpaceBeforePunct *)

Lemma dropSpaceBeforePunct_verbatim (v : string) :
  allChars isLower v = true ->
  forall s,
    startsWithCI s v = true -> startsWithCI (dropSpaceBeforePunct s) v = true.
Proof.
  induction v as [|x v IH]; intros Hv s H; [apply startsWithCI_nil|].
  apply startsWithCI_inv in H. destruct H as (c & s' & -> & Hc & H).
  cbn [allChars] in Hv. apply andb_true_iff in Hv. destruct Hv as [Hx Hv].
  rewrite <- Hc in Hx. apply lower_letter in Hx. destruct Hx as (_ & _ & Hsp & _).
  cbn [dropSpaceBeforePunct]. rewrite Hsp. cbn [andb]. rewrite startsWithCI_cons.
  destruct (ascii_dec x (lowerChar c)); [|congruence]. now apply IH.
Qed.

Lemma dropSpaceBeforePunct_word (s : string) :
  hasWord w s = true -> hasWord w (dropSpaceBeforePunct s) = true.
Proof.
  induction s as [|c s IH]; intros H; [now rewrite hasWord_empty in H|].
  rewrite hasWord_unfold in H. apply orb_true_iff in H. destruct H as [H|H].
  - apply startsWithCI_hasWord. now apply dropSpaceBeforePunct_verbatim.
  - cbn [dropSpaceBeforePunct]. destruct (isSpace c && punctAhead s);
      auto using hasWord_cons.
Qed.

(** *** spaceAfterPunct *)

Lemma spaceAfterPunct_cons (c : ascii) (s : string) :
  isPunct c = false -> spaceAfterPunct (String c s) = String c (spaceAfterPunct s).
Proof. intros Hc. destruct s; cbn [spaceAfterPunct]; rewrite ?Hc; reflexivity. Qed.

Lemma spaceAfterPunct_verbatim (v : string) :
  allChars isLower v = true ->
  forall s,
    startsWithCI s v = true -> startsWithCI (spaceAfterPunct s) v = true.
Proof.
  induction v as [|x v IH]; intros Hv s H; [apply startsWithCI_nil|].
  apply startsWithCI_inv in H. destruct H as (c & s' & -> & Hc & H).
  cbn [allChars] in Hv. apply andb_true_iff in Hv. destruct Hv as [Hx Hv].
  rewrite <- Hc in Hx. apply lower_letter in Hx. destruct Hx as (_ & _ & _ & Hp).
  rewrite spaceAfterPunct_cons by exact Hp. rewrite startsWithCI_cons.
  destruct (ascii_dec x (lowerChar c)); [|congruence]. now apply IH.
Qed.

Lemma spaceAfterPunct_word (s : string) :
  hasWord w s = true -> hasWord w (spaceAfterPunct s) = true.
Proof.
  induction s as [|c s IH]; intros H; [now rewrite hasWord_empty in H|].
  rewrite hasWord_unfold in H. apply orb_true_iff in H. destruct H as [H|H].
  - apply startsWithCI_hasWord. now apply spaceAfterPunct_verbatim.
  - specialize (IH H). destruct s as [|d s]; [now rewrite hasWord_empty in H|].
    change (spaceAfterPunct (String c (String d s)))
      with (if isPunct c && isUpper d
            then String c (String " " (spaceAfterPunct (String d s)))
            else String c (spaceAfterPunct (String d s))).
    destruct (isPunct c && isUpper d); auto using hasWord_cons.
Qed.

(** *** trim and capitalize *)

Lemma trimStart_word (s : string) :
  hasWord w s = true -> hasWord w (trimStart s) = true.
Proof.
  induction s as [|c s IH]; intros H; [exact H|].
  cbn [trimStart]. destruct (isSpace c) eqn:Hc; [|exact H].
  apply IH. rewrite <- H. symmetry.
  apply hasWord_skip; auto using space_not_letter.
Qed.

Lemma trimEnd_cons (c : ascii) (s : string) :
  isSpace c = false -> trimEnd (String c s) = String c (trimEnd s).
Proof. intros Hc. cbn [trimEnd]. destruct (trimEnd s); [now rewrite Hc | reflexivity]. Qed.

Lemma trimEnd_cons_nonempty (c : ascii) (s : string) :
  trimEnd s <> "" -> trimEnd (String c s) = String c (trimEnd s).
Proof. intros Hne. cbn [trimEnd]. destruct (trimEnd s); [congruence | reflexivity]. Qed.

Lemma trimEnd_verbatim (v : string) :
  allChars isLower v = true ->
  forall s, startsWithCI s v = true -> startsWithCI (trimEnd s) v = true.
Proof.
  induction v as [|x v IH]; intros Hv s H; [apply startsWithCI_nil|].
  apply startsWithCI_inv in H. destruct H as (c & s' & -> & Hc & H).
  cbn [allChars] in Hv. apply andb_true_iff in Hv. destruct Hv as [Hx Hv].
  rewrite <- Hc in Hx. apply lower_letter in Hx. destruct Hx as (_ & _ & Hsp & _).
  rewrite trimEnd_cons by exact Hsp. rewrite startsWithCI_cons.
  destruct (ascii_dec x (lowerChar c)); [|congruence]. now apply IH.
Qed.

Lemma trimEnd_word (s : string) :
  hasWord w s = true -> hasWord w (trimEnd s) = true.
Proof.
  induction s as [|c s IH]; intros H; [now rewrite hasWord_empty in H|].
  rewrite hasWord_unfold in H. apply orb_true_iff in H. destruct H as [H|H].
  - apply startsWithCI_hasWord. now apply trimEnd_verbatim.
  - specialize (IH H). rewrite trimEnd_cons_nonempty.
    + now apply hasWord_cons.
    + intros E. rewrite E, hasWord_empty in IH by exact w_nonempty. discriminate.
Qed.

Lemma trim_word (s : string) :
  hasWord w s = true -> hasWord w (trim s) = true.
Proof. intros H. unfold trim. now apply trimEnd_word, trimStart_word. Qed.

Lemma capitalize_word (s : string) :
  hasWord w (capitalize s) = hasWord w s.
Proof. unfold hasWord. now rewrite toLowerCase_capitalize. Qed.

(** *** capitalizeAfter *)

Lemma capitalizeAfter_skip (p : ascii) (s : string) :
  forall skip,
    capitalizeAfter p s skip = capitalizeAfter p (drop skip s) 0.
Proof.
  induction s as [|c s IH]; intros [|k]; try reflexivity.
  cbn [capitalizeAfter drop]. apply IH.
Qed.

Lemma drop_takeWhile (q : ascii -> bool) (s : string) :
  drop (String.length (takeWhile q s)) s = dropWhile q s.
Proof.
  induction s as [|c s IH]; [reflexivity|].
  cbn [takeWhile dropWhile]. destruct (q c); [exact IH | reflexivity].
Qed.

Lemma dropWhile_length (q : ascii -> bool) (s : string) :
  String.length (dropWhile q s) <= String.length s.
Proof.
  induction s as [|c s IH]; [reflexivity|].
  cbn [dropWhile]. destruct (q c); cbn [String.length]; lia.
Qed.

Lemma capitalizeAfter_verbatim (p : ascii) (v : string) :
  isLetter p = false ->
  allChars isLower v = true ->
  forall s,
    startsWithCI s v = true -> startsWithCI (capitalizeAfter p s 0) v = true.
Proof.
  intros Hp. induction v as [|x v IH]; intros Hv s H; [apply startsWithCI_nil|].
  apply startsWithCI_inv in H. destruct H as (c & s' & -> & Hc & H).
  cbn [allChars] in Hv. apply andb_true_iff in Hv. destruct Hv as [Hx Hv].
  rewrite <- Hc in Hx. apply lower_letter in Hx. destruct Hx as (Hl & _).
  cbn [capitalizeAfter].
  destruct (Ascii.eqb_spec c p) as [->|_]; [congruence|].
  rewrite startsWithCI_cons.
  destruct (ascii_dec x (lowerChar c)); [|congruence]. now apply IH.
Qed.

Lemma capitalizeAfter_word (p : ascii) :
  isLetter p = false ->
  forall n s,
    String.length s <= n ->
    hasWord w s = true -> hasWord w (capitalizeAfter p s 0) = true.
Proof.
  intros Hp. induction n as [|n IH]; intros s Hlen H.
  - destruct s; [now rewrite hasWord_empty in H | cbn in Hlen; lia].
  - destruct s as [|c s]; [now rewrite hasWord_empty in H|].
    cbn [String.length] in Hlen.
    rewrite hasWord_unfold in H. apply orb_true_iff in H. destruct H as [H|H].
    { apply startsWithCI_hasWord. now apply capitalizeAfter_verbatim. }
    assert (Hplain : hasWord w (String c (capitalizeAfter p s 0)) = true)
      by (apply hasWord_cons, IH; [lia | exact H]).
    cbn [capitalizeAfter]. destruct (Ascii.eqb c p); [|exact Hplain].
    destruct (dropWhile isSpace s) as [|l r] eqn:Hdw; [exact Hplain|].
    destruct (isLower l) eqn:Hl; [|exact Hplain].
    rewrite capitalizeAfter_skip.
    replace (drop (String.length (takeWhile isSpace s) + 1) s) with r.
    2:{ rewrite Nat.add_comm. cbn [Nat.add].
        assert (Hd : forall k t, drop (S k) t = drop 1 (drop k t)).
        { induction k as [|k IHk]; intros [|a t]; try reflexivity.
          cbn [drop]. destruct t; [destruct k; reflexivity|].
          apply (IHk (String a0 t)). }
        rewrite Hd, drop_takeWhile, Hdw. reflexivity. }
    rewrite <- (hasWord_dropWhile_space w s w_nonempty w_letters), Hdw in H.
    pose proof (dropWhile_length isSpace s) as Hr. rewrite Hdw in Hr.
    cbn [String.length] in Hr.
    do 2 apply hasWord_cons.
    rewrite hasWord_unfold in H. apply orb_true_iff in H. destruct H as [H|H].
    + apply startsWithCI_hasWord.
      destruct w as [|x v] eqn:Ew; [congruence|].
      apply startsWithCI_inv in H. destruct H as (l' & r' & E & Hx & H).
      injection E as <- <-. rewrite startsWithCI_cons, lowerChar_upperChar.
      destruct (ascii_dec x (lowerChar l)); [|congruence].
      apply capitalizeAfter_verbatim; [exact Hp | | exact H].
      cbn [allChars] in w_letters. apply andb_true_iff in w_letters. tauto.
    + apply hasWord_cons, IH; [lia | exact H].
Qed.

(** *** removeWords *)

Lemma removeWords_skip (alts : list string) (s : string) :
  forall skip prev,
    exists prev',
      removeWords alts prev s skip = removeWords alts prev' (drop skip s) 0.
Proof.
  induction s as [|c s IH]; intros [|k] prev; try (now exists prev).
  cbn [removeWords drop]. apply IH.
Qed.

Lemma removeWords_verbatim (alts : list string) (v : string) :
  allChars isLower v = true ->
  forall s prev,
    isWordOpt prev = true ->
    startsWithCI s v = true ->
    startsWithCI (removeWords alts prev s 0) v = true.
Proof.
  induction v as [|x v IH]; intros Hv s prev Hprev H; [apply startsWithCI_nil|].
  apply startsWithCI_inv in H. destruct H as (c & s' & -> & Hc & H).
  cbn [allChars] in Hv. apply andb_true_iff in Hv. destruct Hv as [Hx Hv].
  rewrite <- Hc in Hx. apply lower_letter in Hx. destruct Hx as (_ & Hwc & _).
  cbn [removeWords]. unfold wordAt, wordBoundary.
  cbn [charAt0 String.get isWordOpt]. rewrite Hprev, Hwc. cbn [xorb].
  rewrite startsWithCI_cons.
  destruct (ascii_dec x (lowerChar c)); [|congruence].
  apply IH; auto.
Qed.

Lemma prefix_app_cases (v x y : string) :
  String.prefix v (x ++ y) = true ->
  String.prefix v x = true
  \/ exists c y', y = String c y' /\ hasChar c v = true.
Proof.
  revert v. induction x as [|b x IH]; intros v H.
  - change ("" ++ y) with y in H. destruct v as [|a v]; [left; reflexivity|].
    destruct y as [|c y']; [discriminate|]. cbn [String.prefix] in H.
    destruct (ascii_dec a c) as [->|]; [|discriminate].
    right. exists c, y'. split; [reflexivity|].
    cbn [hasChar]. now rewrite Ascii.eqb_refl.
  - destruct v as [|a v]; [left; reflexivity|].
    change (String b x ++ y) with (String b (x ++ y)) in H.
    cbn [String.prefix] in *. destruct (ascii_dec a b) as [->|]; [|discriminate].
    destruct (IH v H) as [Hl | (c & y' & -> & Hc)]; [now left|].
    right. exists c, y'. split; [reflexivity|].
    cbn [hasChar]. rewrite Hc. apply orb_true_r.
Qed.

Lemma includes_app_cases (v x y : string) :
  includes (x ++ y) v = true ->
  includes x v = true \/ includes y v = true
  \/ exists c y', y = String c y' /\ hasChar c v = true.
Proof.
  induction x as [|b x IH]; intros H; [right; left; exact H|].
  change (String b x ++ y) with (String b (x ++ y)) in H.
  cbn [includes] in H. apply orb_true_iff in H. destruct H as [H|H].
  - unfold startsWith in H. change (String b (x ++ y)) with (String b x ++ y) in H.
    apply prefix_app_cases in H. destruct H as [H|H]; [left | right; right; exact H].
    cbn [includes]. unfold startsWith. rewrite H. reflexivity.
  - destruct (IH H) as [Hx | [Hy | Hc]]; [left | right; left; exact Hy
                                          | right; right; exact Hc].
    cbn [includes]. rewrite Hx. apply orb_true_r.
Qed.

Lemma hasChar_allChars (q : ascii -> bool) (c : ascii) (v : string) :
  allChars q v = true -> hasChar c v = true -> q c = true.
Proof.
  induction v as [|a v IH]; [discriminate|]. cbn [allChars hasChar].
  intros Hq Hc. apply andb_true_iff in Hq. destruct Hq as [Ha Hq].
  apply orb_true_iff in Hc. destruct Hc as [Hc|Hc]; [|now apply IH].
  apply Ascii.eqb_eq in Hc. now subst.
Qed.

Lemma prefix_split (a t : string) :
  String.prefix a t = true -> t = a ++ drop (String.length a) t.
Proof.
  revert t. induction a as [|x a IH]; intros t H; [destruct t; reflexivity|].
  destruct t as [|c t]; [discriminate|]. cbn [String.prefix] in H.
  destruct (ascii_dec x c) as [->|]; [|discriminate].
  cbn [String.length drop]. change (String c a ++ drop (String.length a) t)
    with (String c (a ++ drop (String.length a) t)).
  f_equal. now apply IH.
Qed.

Lemma drop_toLowerCase (n : nat) (s : string) :
  drop n (toLowerCase s) = toLowerCase (drop n s).
Proof.
  revert s. induction n as [|n IH]; intros [|c s]; try reflexivity.
  cbn [toLowerCase drop]. apply IH.
Qed.

Lemma drop_length (n : nat) (s : string) :
  String.length (drop n s) <= String.length s - n \/ n = 0.
Proof.
  revert s. induction n as [|n IH]; intros s; [now right|]. left.
  destruct s as [|c s]; [cbn; lia|]. cbn [drop String.length].
  destruct (IH s) as [H| ->]; [lia|]. destruct s; cbn; lia.
Qed.

Lemma removeWords_word (alts : list string) :
  altsSafe w alts = true ->
  forall n s prev,
    String.length s <= n ->
    hasWord w s = true -> hasWord w (removeWords alts prev s 0) = true.
Proof.
  intros Hsafe. induction n as [|n IH]; intros s prev Hlen H.
  - destruct s; [now rewrite hasWord_empty in H | cbn in Hlen; lia].
  - destruct s as [|c s]; [now rewrite hasWord_empty in H|].
    cbn [String.length] in Hlen. cbn [removeWords].
    destruct (wordAt alts prev (String c s)) as [m|] eqn:Hat.
    + (* a removed match: the word lies after it *)
      unfold wordAt in Hat.
      destruct (wordBoundary prev (charAt0 (String c s))); [|discriminate].
      destruct (List.find (altThenBoundary (String c s)) alts) as [alt|] eqn:Hfind;
        [|discriminate].
      injection Hat as <-.
      apply List.find_some in Hfind. destruct Hfind as [Hin Hmatch].
      unfold altsSafe in Hsafe. rewrite List.forallb_forall in Hsafe.
      specialize (Hsafe alt Hin).
      apply andb_true_iff in Hsafe. destruct Hsafe as [Hsafe Hlast].
      apply andb_true_iff in Hsafe. destruct Hsafe as [Hnot Hne].
      apply negb_true_iff in Hnot.
      unfold altThenBoundary in Hmatch. apply andb_true_iff in Hmatch.
      destruct Hmatch as [Hpre Hbound].
      destruct alt as [|a0 alt']; [discriminate Hne|].
      set (alt := String a0 alt') in *.
      destruct (removeWords_skip alts s (String.length alt - 1) (Some c))
        as [prev' ->].
      replace (drop (String.length alt - 1) s)
        with (drop (String.length alt) (String c s))
        by (unfold alt; cbn [String.length drop Nat.sub];
            rewrite ?Nat.sub_0_r; reflexivity).
      assert (Hshort : String.length (drop (String.length alt) (String c s)) <= n).
      { destruct (drop_length (String.length alt) (String c s)) as [Hd|Hd];
          [cbn [String.length] in Hd; unfold alt in *; cbn [String.length] in *; lia
          | unfold alt in Hd; discriminate Hd]. }
      apply IH; [exact Hshort|].
      unfold startsWithCI, startsWith in Hpre. apply prefix_split in Hpre.
      unfold hasWord in H. rewrite Hpre in H.
      apply includes_app_cases in H.
      destruct H as [H | [H | (c' & y' & Hy & Hc')]].
      * congruence.
      * unfold hasWord. now rewrite <- drop_toLowerCase.
      * exfalso. rewrite drop_toLowerCase in Hy.
        destruct (drop (String.length alt) (String c s)) as [|d rest] eqn:Hd;
          [discriminate Hy|].
        cbn [toLowerCase] in Hy. injection Hy as Hd' _.
        pose proof (hasChar_allChars isLower c' w w_letters Hc') as Hlow.
        rewrite <- Hd' in Hlow. apply lower_letter in Hlow.
        destruct Hlow as (_ & Hwc & _).
        unfold wordBoundary in Hbound. cbn [charAt0 String.get isWordOpt] in Hbound.
        rewrite Hlast, Hwc in Hbound. discriminate Hbound.
    + rewrite hasWord_unfold in H. apply orb_true_iff in H. destruct H as [H|H].
      * apply startsWithCI_hasWord.
        destruct w as [|x v] eqn:Ew; [congruence|].
        apply startsWithCI_inv in H. destruct H as (c0 & s0 & E & Hx & H).
        injection E as <- <-. rewrite startsWithCI_cons.
        destruct (ascii_dec x (lowerChar c)); [|congruence].
        cbn [allChars] in w_letters. apply andb_true_iff in w_letters.
        destruct w_letters as [Hxl Hv].
        apply removeWords_verbatim; [exact Hv | | exact H].
        cbn [isWordOpt]. rewrite <- Hx in Hxl. apply lower_letter in Hxl. tauto.
      * apply hasWord_cons, IH; [lia | exact H].
Qed.

End WordPreserved.

(** *** The whole pipeline *)

Lemma keptWord_inv (w : string) :
  keptWord w = true ->
  w <> "" /\ allChars isLower w = true
  /\ List.forallb (altsSafe w) technicalTerms = true.
Proof.
  unfold keptWord. intros H. apply andb_true_iff in H. destruct H as [H H3].
  apply andb_true_iff in H. destruct H as [H1 H2].
  repeat split; try assumption. intros ->. discriminate H1.
Qed.

Lemma vocabulary_kept : List.forallb keptWord vocabulary = true.
Proof. vm_compute. reflexivity. Qed.

Lemma removeTechnicalTerms_word (w s : string) :
  keptWord w = true ->
  hasWord w s = true -> hasWord w (removeTechnicalTerms s) = true.
Proof.
  intros Hk H. destruct (keptWord_inv w Hk) as (Hne & Hl & Hsafe).
  unfold removeTechnicalTerms. cbv zeta.
  apply trim_word; [assumption..|].
  apply dropSpaceBeforePunct_word; [assumption..|].
  apply collapseSpaces_word; [assumption..|].
  revert s H. induction technicalTerms as [|alts rest IH]; intros s H; [exact H|].
  cbn [List.fold_left]. cbn [List.forallb] in Hsafe.
  apply andb_true_iff in Hsafe. destruct Hsafe as [Ha Hrest].
  apply IH; [exact Hrest|].
  apply (removeWords_word w Hne Hl alts Ha (String.length s)); [lia | exact H].
Qed.

Lemma addCulturalClosing_word (w : string) (draw : nat) (s : string)
    (category : Category) :
  hasWord w s = true -> hasWord w (addCulturalClosing draw s category) = true.
Proof.
  intros H. unfold addCulturalClosing.
  destruct (negb (hasClosing s)); [|exact H]. cbv zeta.
  destruct (negb (endsWithMark s)); repeat apply hasWord_app_l; exact H.
Qed.

Lemma mark_not_letter (p : ascii) : isPunct p = true -> isLetter p = false.
Proof. destruct p as [[] [] [] [] [] [] [] []]; cbn; intros H; try discriminate H; reflexivity. Qed.

Lemma improveFlow_word (w s : string) :
  keptWord w = true ->
  hasWord w s = true -> hasWord w (improveFlow s) = true.
Proof.
  intros Hk H. destruct (keptWord_inv w Hk) as (Hne & Hl & _).
  unfold improveFlow. cbv zeta. rewrite capitalize_word.
  apply trim_word; [assumption..|].
  repeat (eapply capitalizeAfter_word;
          [assumption | assumption | reflexivity | apply Nat.le_refl |]).
  apply spaceAfterPunct_word; [assumption..|].
  apply dropSpaceBeforePunct_word; [assumption..|].
  apply collapseSpaces_word; assumption.
Qed.

Lemma addCulturalOpening_word (w : string) (draw : nat) (s : string)
    (region : option Region) :
  hasWord w s = true -> hasWord w (addCulturalOpening draw s region) = true.
Proof.
  intros H. unfold addCulturalOpening.
  destruct (negb (hasOpening s)); [|exact H]. cbv zeta.
  do 2 apply hasWord_app_r. now rewrite hasWord_toLowerCase.
Qed.

Lemma ensureTeluguIntegration_word (w s : string) (teluguWords : list string) :
  hasWord w s = true ->
  hasWord w (ensureTeluguIntegration s teluguWords) = true.
Proof.
  intros H. unfold ensureTeluguIntegration.
  destruct teluguWords as [|word rest]; [exact H|]. cbv zeta.
  destruct (negb _); [|exact H].
  destruct (inList (toLowerCase word) ["arey"; "baboi"]).
  - do 2 apply hasWord_app_r. now rewrite hasWord_toLowerCase.
  - destruct (inList (toLowerCase word) ["babu"; "amma"]);
      apply hasWord_app_l; exact H.
Qed.

(** A kept word present after step 2 is present in the formatted text. *)
Lemma formatted_keeps_word (w : string) (drawClosing : nat) (s : string)
    (category : Category) :
  keptWord w = true ->
  hasWord w s = true ->
  hasWord w (improveFlow
               (addCulturalClosing drawClosing (removeTechnicalTerms s) category))
  = true.
Proof.
  intros Hk H. apply improveFlow_word; [exact Hk|].
  apply addCulturalClosing_word. now apply removeTechnicalTerms_word.
Qed.

Lemma hasTeluguWord_intro (w s : string) :
  In w vocabulary -> hasWord w s = true -> hasTeluguWord s = true.
Proof.
  intros Hin H. unfold hasTeluguWord. apply List.existsb_exists.
  exists w. split; [exact Hin | exact H].
Qed.

Lemma vocabulary_keptWord (w : string) : In w vocabulary -> keptWord w = true.
Proof.
  intros Hin. pose proof vocabulary_kept as H.
  rewrite List.forallb_forall in H. now apply H.
Qed.

Lemma formatResponse_vocabulary (drawOpening drawClosing : nat)
    (response : CulturalResponse) :
  hasTeluguWord (content response) = true
  \/ (teluguWords response <> []
      /\ Forall (fun x => In (toLowerCase x) vocabulary) (teluguWords response)) ->
  hasTeluguWord (formatResponse drawOpening drawClosing response) = true.
Proof.
  intros [H | [Hne Hall]]; unfold formatResponse; cbv zeta.
  - unfold hasTeluguWord in H. apply List.existsb_exists in H.
    destruct H as (w & Hin & H).
    apply (hasTeluguWord_intro w); [exact Hin|].
    apply formatted_keeps_word; [now apply vocabulary_keptWord|].
    apply ensureTeluguIntegration_word, addCulturalOpening_word. exact H.
  - pose proof (ensureTeluguIntegration_supplied
                  (addCulturalOpening drawOpening (content response)
                     (region response))
                  (teluguWords response) Hne) as H.
    apply List.existsb_exists in H. destruct H as (x & Hx & H).
    rewrite Forall_forall in Hall. specialize (Hall x).
    assert (Hin : In (toLowerCase x) vocabulary)
      by (apply Hall; now apply list_elem_of_In).
    apply (hasTeluguWord_intro (toLowerCase x)); [exact Hin|].
    apply formatted_keeps_word; [now apply vocabulary_keptWord | exact H].
Qed.

(** *** Denylisted terms are not introduced *)

Lemma startsWithCI_letter (s : string) (x : ascii) (v : string) :
  isLower x = true ->
  startsWithCI s (String x v) = true ->
  exists c s', s = String c s' /\ lowerChar c = x /\ isLetter c = true
               /\ startsWithCI s' v = true.
Proof.
  intros Hx H. apply startsWithCI_inv in H. destruct H as (c & s' & -> & Hc & H).
  exists c, s'. repeat split; try assumption.
  rewrite <- Hc in Hx. now apply lower_letter in Hx.
Qed.

Lemma letter_facts (c : ascii) :
  isLetter c = true ->
  isSpace c = false /\ isPunct c = false /\ isWordChar c = true.
Proof. destruct c as [[] [] [] [] [] [] [] []]; cbn; intros H; try discriminate H; repeat split. Qed.

Section WordReflected.

Variable t : string.
Hypothesis t_nonempty : t <> "".
Hypothesis t_letters : allChars isLower t = true.

Lemma hasWord_head_inv (c : ascii) (s : string) :
  hasWord t (String c s) = true ->
  (isLetter c = true
   /\ exists x v, t = String x v /\ lowerChar c = x /\ startsWithCI s v = true
                  /\ allChars isLower v = true)
  \/ hasWord t s = true.
Proof.
  rewrite hasWord_unfold. intros H. apply orb_true_iff in H.
  destruct H as [H|H]; [left | now right].
  destruct t as [|x v] eqn:Et; [congruence|].
  cbn [allChars] in t_letters. apply andb_true_iff in t_letters.
  destruct t_letters as [Hx Hv].
  apply (startsWithCI_letter _ _ _ Hx) in H.
  destruct H as (c' & s' & E & Hc & Hl & H). injection E as <- <-.
  split; [exact Hl|]. now exists x, v.
Qed.

Lemma hasWord_head_intro (c : ascii) (s : string) (x : ascii) (v : string) :
  t = String x v -> lowerChar c = x -> startsWithCI s v = true ->
  hasWord t (String c s) = true.
Proof.
  intros -> Hc H. apply startsWithCI_hasWord. rewrite startsWithCI_cons.
  destruct (ascii_dec x (lowerChar c)); [exact H | congruence].
Qed.

(** *** collapseSpaces *)

Lemma collapseSpaces_verbatim_rev (v : string) :
  allChars isLower v = true ->
  forall s,
    startsWithCI (collapseSpaces s false) v = true -> startsWithCI s v = true.
Proof.
  induction v as [|x v IH]; intros Hv s H; [apply startsWithCI_nil|].
  cbn [allChars] in Hv. apply andb_true_iff in Hv. destruct Hv as [Hx Hv].
  apply (startsWithCI_letter _ _ _ Hx) in H.
  destruct H as (c0 & r & E & Hc & Hl & H).
  destruct s as [|c s]; [discriminate E|]. cbn [collapseSpaces] in E.
  destruct (isSpace c) eqn:Hsp.
  - injection E as <- _. discriminate Hl.
  - injection E as <- <-. rewrite startsWithCI_cons.
    destruct (ascii_dec x (lowerChar c)); [|congruence]. now apply IH.
Qed.

Lemma collapseSpaces_reflects (s : string) :
  forall inRun,
    hasWord t (collapseSpaces s inRun) = true -> hasWord t s = true.
Proof.
  induction s as [|c s IH]; intros inRun H; [exact H|].
  cbn [collapseSpaces] in H. destruct (isSpace c) eqn:Hsp.
  - apply hasWord_cons. destruct inRun; [now apply (IH true)|].
    rewrite hasWord_skip in H by auto. now apply (IH true).
  - apply hasWord_head_inv in H.
    destruct H as [(_ & x & v & Et & Hc & H & Hv) | H].
    + apply (hasWord_head_intro _ _ x v); auto.
      now apply collapseSpaces_verbatim_rev.
    + apply hasWord_cons. now apply (IH false).
Qed.

(** *** dropSpaceBeforePunct *)

Lemma punctAhead_head (s : string) :
  punctAhead s = true ->
  exists p r, dropSpaceBeforePunct s = String p r /\ isLetter p = false.
Proof.
  unfold punctAhead. induction s as [|d s IH]; [discriminate|].
  cbn [dropWhile dropSpaceBeforePunct]. destruct (isSpace d) eqn:Hd.
  - intros H. unfold punctAhead. rewrite H. cbn [andb]. now apply IH.
  - intros H. cbn [andb]. exists d, (dropSpaceBeforePunct s).
    split; [reflexivity | now apply mark_not_letter].
Qed.

Lemma dropSpaceBeforePunct_verbatim_rev (v : string) :
  allChars isLower v = true ->
  forall s,
    startsWithCI (dropSpaceBeforePunct s) v = true -> startsWithCI s v = true.
Proof.
  induction v as [|x v IH]; intros Hv s H; [apply startsWithCI_nil|].
  cbn [allChars] in Hv. apply andb_true_iff in Hv. destruct Hv as [Hx Hv].
  apply (startsWithCI_letter _ _ _ Hx) in H.
  destruct H as (c0 & r & E & Hc & Hl & H).
  destruct s as [|c s]; [discriminate E|]. cbn [dropSpaceBeforePunct] in E.
  destruct (isSpace c && punctAhead s) eqn:Hdrop.
  - apply andb_true_iff in Hdrop. destruct Hdrop as [_ Hp].
    apply punctAhead_head in Hp. destruct Hp as (p & r' & Ep & Hnl).
    rewrite Ep in E. injection E as <- _. congruence.
  - injection E as <- <-. rewrite startsWithCI_cons.
    destruct (ascii_dec x (lowerChar c)); [|congruence]. now apply IH.
Qed.

Lemma dropSpaceBeforePunct_reflects (s : string) :
  hasWord t (dropSpaceBeforePunct s) = true -> hasWord t s = true.
Proof.
  induction s as [|c s IH]; intros H; [exact H|].
  cbn [dropSpaceBeforePunct] in H. destruct (isSpace c && punctAhead s).
  - apply hasWord_cons. now apply IH.
  - apply hasWord_head_inv in H.
    destruct H as [(_ & x & v & Et & Hc & H & Hv) | H].
    + apply (hasWord_head_intro _ _ x v); auto.
      now apply dropSpaceBeforePunct_verbatim_rev.
    + apply hasWord_cons. now apply IH.
Qed.

(** *** spaceAfterPunct *)

Lemma spaceAfterPunct_verbatim_rev (v : string) :
  allChars isLower v = true ->
  forall s,
    startsWithCI (spaceAfterPunct s) v = true -> startsWithCI s v = true.
Proof.
  induction v as [|x v IH]; intros Hv s H; [apply startsWithCI_nil|].
  cbn [allChars] in Hv. apply andb_true_iff in Hv. destruct Hv as [Hx Hv].
  apply (startsWithCI_letter _ _ _ Hx) in H.
  destruct H as (c0 & r & E & Hc & Hl & H).
  destruct s as [|c s]; [discriminate E|].
  assert (Hc0 : c0 = c).
  { destruct s; cbn [spaceAfterPunct] in E;
      [|destruct (isPunct c && isUpper _)]; now injection E. }
  subst c0. destruct (letter_facts c Hl) as (_ & Hp & _).
  rewrite spaceAfterPunct_cons in E by exact Hp. injection E as <-.
  rewrite startsWithCI_cons.
  destruct (ascii_dec x (lowerChar c)); [|congruence]. now apply IH.
Qed.

Lemma spaceAfterPunct_reflects (s : string) :
  hasWord t (spaceAfterPunct s) = true -> hasWord t s = true.
Proof.
  induction s as [|c s IH]; intros H; [exact H|].
  destruct (isPunct c) eqn:Hp.
  - apply hasWord_cons. apply IH.
    destruct s as [|d s].
    { change (spaceAfterPunct (String c "")) with (String c "") in H.
      rewrite hasWord_skip in H by auto using mark_not_letter. exact H. }
    change (spaceAfterPunct (String c (String d s)))
      with (if isPunct c && isUpper d
            then String c (String " " (spaceAfterPunct (String d s)))
            else String c (spaceAfterPunct (String d s))) in H.
    destruct (isPunct c && isUpper d);
      rewrite !hasWord_skip in H by auto using mark_not_letter; exact H.
  - rewrite spaceAfterPunct_cons in H by exact Hp.
    apply hasWord_head_inv in H.
    destruct H as [(_ & x & v & Et & Hc & H & Hv) | H].
    + apply (hasWord_head_intro _ _ x v); auto.
      now apply spaceAfterPunct_verbatim_rev.
    + apply hasWord_cons. now apply IH.
Qed.

(** *** capitalizeAfter *)

Lemma capitalizeAfter_verbatim_rev (p : ascii) (v : string) :
  isLetter p = false ->
  allChars isLower v = true ->
  forall s,
    startsWithCI (capitalizeAfter p s 0) v = true -> startsWithCI s v = true.
Proof.
  intros Hp. induction v as [|x v IH]; intros Hv s H; [apply startsWithCI_nil|].
  cbn [allChars] in Hv. apply andb_true_iff in Hv. destruct Hv as [Hx Hv].
  apply (startsWithCI_letter _ _ _ Hx) in H.
  destruct H as (c0 & r & E & Hc & Hl & H).
  destruct s as [|c s]; [discriminate E|]. cbn [capitalizeAfter] in E.
  assert (Hplain : String c (capitalizeAfter p s 0) = String c0 r ->
                   startsWithCI (String c s) (String x v) = true).
  { intros E'. injection E' as <- <-. rewrite startsWithCI_cons.
    destruct (ascii_dec x (lowerChar c)); [|congruence]. now apply IH. }
  destruct (Ascii.eqb_spec c p) as [->|_]; [|now apply Hplain].
  destruct (dropWhile isSpace s) as [|l r']; [now apply Hplain|].
  destruct (isLower l); [|now apply Hplain].
  injection E as <- _. congruence.
Qed.

Lemma capitalizeAfter_reflects (p : ascii) :
  isLetter p = false ->
  forall n s,
    String.length s <= n ->
    hasWord t (capitalizeAfter p s 0) = true -> hasWord t s = true.
Proof.
  intros Hp. induction n as [|n IH]; intros s Hlen H.
  - destruct s; [exact H | cbn in Hlen; lia].
  - destruct s as [|c s]; [exact H|]. cbn [String.length] in Hlen.
    assert (Hplain : hasWord t (String c (capitalizeAfter p s 0)) = true ->
                     hasWord t (String c s) = true).
    { intros H'. apply hasWord_head_inv in H'.
      destruct H' as [(_ & x & v & Et & Hc & H' & Hv) | H'].
      - apply (hasWord_head_intro _ _ x v); auto.
        now apply (capitalizeAfter_verbatim_rev p).
      - apply hasWord_cons, IH; [lia | exact H']. }
    cbn [capitalizeAfter] in H.
    destruct (Ascii.eqb_spec c p) as [->|_]; [|now apply Hplain].
    destruct (dropWhile isSpace s) as [|l r] eqn:Hdw; [now apply Hplain|].
    destruct (isLower l) eqn:Hl; [|now apply Hplain].
    rewrite capitalizeAfter_skip in H.
    assert (Hr : drop (String.length (takeWhile isSpace s) + 1) s = r).
    { rewrite Nat.add_comm. cbn [Nat.add].
      assert (Hd : forall k u, drop (S k) u = drop 1 (drop k u)).
      { induction k as [|k IHk]; intros [|a u]; try reflexivity.
        cbn [drop]. destruct u; [destruct k; reflexivity|].
        apply (IHk (String a0 u)). }
      rewrite Hd, drop_takeWhile, Hdw. reflexivity. }
    rewrite Hr in H.
    rewrite !hasWord_skip in H by auto.
    apply hasWord_cons.
    rewrite <- (hasWord_dropWhile_space t s t_nonempty t_letters), Hdw.
    pose proof (dropWhile_length isSpace s) as Hlr. rewrite Hdw in Hlr.
    cbn [String.length] in Hlr.
    apply hasWord_head_inv in H.
    destruct H as [(_ & x & v & Et & Hc & H & Hv) | H].
    + apply (hasWord_head_intro _ _ x v); auto.
      * now rewrite lowerChar_upperChar in Hc.
      * now apply (capitalizeAfter_verbatim_rev p).
    + apply hasWord_cons, IH; [lia | exact H].
Qed.

(** *** trim *)

Lemma trimStart_reflects (s : string) :
  hasWord t (trimStart s) = true -> hasWord t s = true.
Proof.
  induction s as [|c s IH]; intros H; [exact H|].
  cbn [trimStart] in H. destruct (isSpace c); [|exact H].
  apply hasWord_cons. now apply IH.
Qed.

Lemma trimEnd_prefix (s : string) : exists tail, s = trimEnd s ++ tail.
Proof.
  induction s as [|c s (tail & IH)]; [now exists ""|].
  cbn [trimEnd]. destruct (trimEnd s) as [|a u] eqn:E.
  - destruct (isSpace c); [now exists (String c s) | now exists s].
  - exists tail. change (String c (String a u) ++ tail)
      with (String c (String a u ++ tail)). now rewrite <- IH.
Qed.

Lemma trim_reflects (s : string) :
  hasWord t (trim s) = true -> hasWord t s = true.
Proof.
  unfold trim. intros H. apply trimStart_reflects.
  destruct (trimEnd_prefix (trimStart s)) as [tail E]. rewrite E.
  now apply hasWord_app_l.
Qed.

(** *** removeWords *)

Lemma wordAt_after_word (alts : list string) (prev : option ascii) (s : string) :
  altsLetterLed alts = true ->
  isWordOpt prev = true ->
  wordAt alts prev s = None.
Proof.
  intros Hled Hprev. unfold wordAt, wordBoundary. rewrite Hprev.
  destruct (isWordOpt (charAt0 s)) eqn:Hcur; cbn [xorb]; [reflexivity|].
  destruct (List.find (altThenBoundary s) alts) as [alt|] eqn:Hfind;
    [|reflexivity].
  exfalso. apply List.find_some in Hfind. destruct Hfind as [Hin Hm].
  unfold altsLetterLed in Hled. rewrite List.forallb_forall in Hled.
  specialize (Hled alt Hin). destruct alt as [|a alt']; [discriminate|].
  unfold altThenBoundary in Hm. apply andb_true_iff in Hm. destruct Hm as [Hm _].
  apply (startsWithCI_letter _ _ _ Hled) in Hm.
  destruct Hm as (c & s' & -> & _ & Hl & _).
  cbn [charAt0 String.get isWordOpt] in Hcur.
  destruct (letter_facts c Hl) as (_ & _ & Hw). congruence.
Qed.

Lemma removeWords_verbatim_rev (alts : list string) (v : string) :
  altsLetterLed alts = true ->
  allChars isLower v = true ->
  forall s prev,
    isWordOpt prev = true ->
    startsWithCI (removeWords alts prev s 0) v = true ->
    startsWithCI s v = true.
Proof.
  intros Hled. induction v as [|x v IH]; intros Hv s prev Hprev H;
    [apply startsWithCI_nil|].
  cbn [allChars] in Hv. apply andb_true_iff in Hv. destruct Hv as [Hx Hv].
  apply (startsWithCI_letter _ _ _ Hx) in H.
  destruct H as (c0 & r & E & Hc & Hl & H).
  destruct s as [|c s]; [discriminate E|]. cbn [removeWords] in E.
  rewrite (wordAt_after_word alts prev _ Hled Hprev) in E.
  injection E as <- <-. rewrite startsWithCI_cons.
  destruct (ascii_dec x (lowerChar c)); [|congruence].
  apply (IH Hv s (Some c)); [|exact H].
  cbn [isWordOpt]. now destruct (letter_facts c Hl) as (_ & _ & Hw).
Qed.

Lemma hasWord_drop (n : nat) (s : string) :
  hasWord t (drop n s) = true -> hasWord t s = true.
Proof.
  revert s. induction n as [|n IH]; intros s H; [now destruct s|].
  destruct s as [|c s]; [exact H|]. cbn [drop] in H.
  apply hasWord_cons. now apply IH.
Qed.

Lemma removeWords_reflects (alts : list string) :
  altsLetterLed alts = true ->
  forall n s prev,
    String.length s <= n ->
    hasWord t (removeWords alts prev s 0) = true -> hasWord t s = true.
Proof.
  intros Hled. induction n as [|n IH]; intros s prev Hlen H.
  - destruct s; [exact H | cbn in Hlen; lia].
  - destruct s as [|c s]; [exact H|]. cbn [String.length] in Hlen.
    cbn [removeWords] in H.
    destruct (wordAt alts prev (String c s)) as [m|].
    + destruct (removeWords_skip alts s (m - 1) (Some c)) as [prev' E].
      rewrite E in H. apply hasWord_cons. apply (hasWord_drop (m - 1)).
      apply (IH _ prev'); [|exact H].
      destruct (drop_length (m - 1) s) as [Hd|Hd]; [lia|].
      rewrite Hd. destruct s; cbn [drop]; lia.
    + apply hasWord_head_inv in H.
      destruct H as [(Hl & x & v & Et & Hc & H & Hv) | H].
      * apply (hasWord_head_intro _ _ x v); auto.
        apply (removeWords_verbatim_rev alts v Hled Hv s (Some c)); [|exact H].
        cbn [isWordOpt]. now destruct (letter_facts c Hl) as (_ & _ & Hw).
      * apply hasWord_cons, (IH _ (Some c)); [lia | exact H].
Qed.

(** *** Texts put side by side *)

Lemma prefix_app_cross (v x y : string) :
  String.prefix v (x ++ y) = true ->
  String.prefix v x = true
  \/ (x = "" /\ String.prefix v y = true)
  \/ ((exists a, lastChar x = Some a /\ hasChar a v = true)
      /\ exists c y', y = String c y' /\ hasChar c v = true).
Proof.
  revert v. induction x as [|b x IH]; intros v H; [right; left; now split|].
  destruct v as [|a v]; [left; reflexivity|].
  change (String b x ++ y) with (String b (x ++ y)) in H.
  cbn [String.prefix] in *. destruct (ascii_dec a b) as [->|]; [|discriminate].
  destruct (IH v H) as [Hl | [[-> Hy] | ((a' & Ha' & Hin) & (c & y' & -> & Hc))]].
  - now left.
  - destruct v as [|c v]; [left; reflexivity|]. right. right.
    destruct y as [|c' y']; [discriminate|]. cbn [String.prefix] in Hy.
    destruct (ascii_dec c c') as [->|]; [|discriminate]. split.
    + exists b. split; [reflexivity|]. cbn [hasChar]. now rewrite Ascii.eqb_refl.
    + exists c', y'. split; [reflexivity|]. cbn [hasChar].
      rewrite Ascii.eqb_refl. apply orb_true_r.
  - right. right. split.
    + exists a'. split.
      * rewrite lastChar_cons; [exact Ha'|]. now destruct x.
      * cbn [hasChar]. rewrite Hin. apply orb_true_r.
    + exists c, y'. split; [reflexivity|]. cbn [hasChar]. rewrite Hc.
      apply orb_true_r.
Qed.

Lemma includes_app_cross (v x y : string) :
  includes (x ++ y) v = true ->
  includes x v = true \/ includes y v = true
  \/ ((exists a, lastChar x = Some a /\ hasChar a v = true)
      /\ exists c y', y = String c y' /\ hasChar c v = true).
Proof.
  induction x as [|b x IH]; intros H; [right; left; exact H|].
  change (String b x ++ y) with (String b (x ++ y)) in H.
  cbn [includes] in H. apply orb_true_iff in H. destruct H as [H|H].
  - unfold startsWith in H. change (String b (x ++ y)) with (String b x ++ y) in H.
    apply prefix_app_cross in H.
    destruct H as [H | [[E _] | H]]; [left | discriminate E | right; right; exact H].
    cbn [includes]. unfold startsWith. rewrite H. reflexivity.
  - destruct (IH H) as [Hx | [Hy | ((a & Ha & Hin) & Hc)]].
    + left. cbn [includes]. rewrite Hx. apply orb_true_r.
    + right. left. exact Hy.
    + right. right. split; [|exact Hc]. exists a. split; [|exact Hin].
      rewrite lastChar_cons; [exact Ha|]. now destruct x.
Qed.

(** Two texts separated by a character that is not a letter. *)
Lemma hasWord_app_sep (a : string) (c : ascii) (b : string) :
  isLetter c = false ->
  hasWord t (a ++ String c b) = true ->
  hasWord t a = true \/ hasWord t b = true.
Proof.
  intros Hc H. unfold hasWord in H. rewrite toLowerCase_app in H.
  apply includes_app_cross in H.
  destruct H as [H | [H | (_ & c' & y' & E & Hin)]].
  - now left.
  - right. change (includes (toLowerCase (String c b)) t)
      with (hasWord t (String c b)) in H.
    now rewrite hasWord_skip in H.
  - exfalso. cbn [toLowerCase] in E. injection E as <- _.
    pose proof (hasChar_allChars isLower _ t t_letters Hin) as Hlow.
    apply lower_letter in Hlow. destruct Hlow as [Hl _]. congruence.
Qed.

End WordReflected.

Lemma freshTerm_inv (t : string) :
  freshTerm t = true ->
  t <> "" /\ allChars isLower t = true
  /\ forall k, In k formatterPhrases -> hasWord t k = false.
Proof.
  unfold freshTerm. intros H. apply andb_true_iff in H. destruct H as [H H3].
  apply andb_true_iff in H. destruct H as [H1 H2].
  split; [intros ->; discriminate H1|]. split; [exact H2|].
  intros k Hk. rewrite List.forallb_forall in H3.
  apply negb_true_iff. now apply H3.
Qed.

Lemma denylist_fresh :
  List.forallb (fun term => freshTerm (toLowerCase term)) denylist = true.
Proof. vm_compute. reflexivity. Qed.

Lemma technicalTerms_letterLed :
  List.forallb altsLetterLed technicalTerms = true.
Proof. vm_compute. reflexivity. Qed.

Lemma pick_In (draw : nat) (l : list string) :
  l <> [] -> In (pick draw l) l.
Proof.
  intros Hne. unfold pick. apply List.nth_In.
  apply Nat.mod_upper_bound. destruct l; [congruence | discriminate].
Qed.

Lemma greeting_phrase (draw : nat) (region : option Region) :
  In (pick draw match region with
                | Some r => culturalGreetings r
                | None => culturalGreetings coastal
                end) formatterPhrases.
Proof.
  unfold formatterPhrases.
  destruct region as [[]|]; rewrite !List.in_app_iff;
    [left | right; left | right; right; left | left];
    apply pick_In; discriminate.
Qed.

Lemma closing_phrase (draw : nat) (category : Category) :
  In (pick draw (culturalClosings category)) formatterPhrases.
Proof.
  unfold formatterPhrases. rewrite !List.in_app_iff.
  destruct category;
    [do 3 right; left | do 4 right; left | do 5 right; left | do 6 right; left];
    apply pick_In; discriminate.
Qed.

Section Introduced.

Variable t : string.
Hypothesis t_nonempty : t <> "".
Hypothesis t_letters : allChars isLower t = true.
Hypothesis t_phrases : forall k, In k formatterPhrases -> hasWord t k = false.

Lemma removeTechnicalTerms_reflects (s : string) :
  hasWord t (removeTechnicalTerms s) = true -> hasWord t s = true.
Proof.
  unfold removeTechnicalTerms. cbv zeta. intros H.
  apply trim_reflects, dropSpaceBeforePunct_reflects, collapseSpaces_reflects in H;
    try assumption.
  pose proof technicalTerms_letterLed as Hled.
  revert s H. induction technicalTerms as [|alts rest IH]; intros s H; [exact H|].
  cbn [List.fold_left] in H. cbn [List.forallb] in Hled.
  apply andb_true_iff in Hled. destruct Hled as [Ha Hrest].
  apply (IH Hrest) in H.
  apply (removeWords_reflects t t_nonempty t_letters alts Ha (String.length s) s None);
    [lia | exact H].
Qed.

Lemma improveFlow_reflects (s : string) :
  hasWord t (improveFlow s) = true -> hasWord t s = true.
Proof.
  unfold improveFlow. cbv zeta. rewrite capitalize_word. intros H.
  apply trim_reflects in H; try assumption.
  do 3 (eapply capitalizeAfter_reflects in H;
        [| assumption | assumption | reflexivity | apply Nat.le_refl]).
  apply spaceAfterPunct_reflects, dropSpaceBeforePunct_reflects,
    collapseSpaces_reflects in H; assumption.
Qed.

Lemma addCulturalClosing_reflects (draw : nat) (s : string) (category : Category) :
  hasWord t (addCulturalClosing draw s category) = true -> hasWord t s = true.
Proof.
  unfold addCulturalClosing. destruct (negb (hasClosing s)); [|auto]. cbv zeta.
  pose proof (t_phrases _ (closing_phrase draw category)) as Hclosing.
  set (closing := pick draw (culturalClosings category)) in *.
  intros H.
  assert (Hsep : forall a, hasWord t (a ++ " " ++ closing) = true ->
                           hasWord t a = true).
  { intros a Ha. change (" " ++ closing) with (String " " closing) in Ha.
    apply hasWord_app_sep in Ha; try assumption; [|reflexivity].
    destruct Ha as [Ha|Ha]; [exact Ha | congruence]. }
  destruct (negb (endsWithMark s)); apply Hsep in H; [|exact H].
  change (s ++ ".") with (s ++ String "." "") in H.
  apply hasWord_app_sep in H; try assumption; [|reflexivity].
  destruct H as [H|H]; [exact H|]. now rewrite hasWord_empty in H.
Qed.

Lemma ensureTeluguIntegration_reflects (s : string) (teluguWords : list string) :
  hasWord t (ensureTeluguIntegration s teluguWords) = true ->
  hasWord t s = true \/ exists word, In word teluguWords /\ hasWord t word = true.
Proof.
  unfold ensureTeluguIntegration.
  destruct teluguWords as [|word rest]; [now left|]. cbv zeta.
  destruct (negb _); [|now left].
  assert (Hword : hasWord t word = true ->
                  exists x, In x (word :: rest) /\ hasWord t x = true)
    by (intros Hw; exists word; split; [now left | exact Hw]).
  destruct (inList (toLowerCase word) ["arey"; "baboi"]).
  { intros H. change (", " ++ toLowerCase s) with (String "," (" " ++ toLowerCase s)) in H.
    apply hasWord_app_sep in H; try assumption; [|reflexivity].
    destruct H as [H|H].
    - right. apply Hword. now rewrite capitalize_word in H.
    - left. change (" " ++ toLowerCase s) with (String " " (toLowerCase s)) in H.
      rewrite hasWord_skip, hasWord_toLowerCase in H by auto. exact H. }
  destruct (inList (toLowerCase word) ["babu"; "amma"]); intros H.
  - change (" That's what we call it, " ++ word ++ "!")
      with (String " " ("That's what we call it," ++ String " " (word ++ String "!" "")))
      in H.
    apply hasWord_app_sep in H; try assumption; [|reflexivity].
    destruct H as [H|H]; [now left|].
    apply hasWord_app_sep in H; try assumption; [|reflexivity].
    destruct H as [H|H];
      [rewrite t_phrases in H; [discriminate | unfold formatterPhrases;
         rewrite !List.in_app_iff; do 7 right; cbn; tauto]|].
    apply hasWord_app_sep in H; try assumption; [|reflexivity].
    destruct H as [H|H]; [right; now apply Hword | now rewrite hasWord_empty in H].
  - change (" We call it " ++ word ++ " in Telugu.")
      with (String " " ("We call it" ++ String " " (word ++ String " " "in Telugu.")))
      in H.
    apply hasWord_app_sep in H; try assumption; [|reflexivity].
    destruct H as [H|H]; [now left|].
    apply hasWord_app_sep in H; try assumption; [|reflexivity].
    destruct H as [H|H];
      [rewrite t_phrases in H; [discriminate | unfold formatterPhrases;
         rewrite !List.in_app_iff; do 7 right; cbn; tauto]|].
    apply hasWord_app_sep in H; try assumption; [|reflexivity].
    destruct H as [H|H]; [right; now apply Hword|].
    rewrite t_phrases in H; [discriminate|].
    unfold formatterPhrases. rewrite !List.in_app_iff. do 7 right. cbn. tauto.
Qed.

Lemma addCulturalOpening_reflects (draw : nat) (s : string)
    (region : option Region) :
  hasWord t (addCulturalOpening draw s region) = true -> hasWord t s = true.
Proof.
  unfold addCulturalOpening. destruct (negb (hasOpening s)); [|auto]. cbv zeta.
  pose proof (t_phrases _ (greeting_phrase draw region)) as Hgreet.
  intros H.
  change (", " ++ toLowerCase s) with (String "," (" " ++ toLowerCase s)) in H.
  apply hasWord_app_sep in H; try assumption; [|reflexivity].
  destruct H as [H|H]; [congruence|].
  change (" " ++ toLowerCase s) with (String " " (toLowerCase s)) in H.
  rewrite hasWord_skip, hasWord_toLowerCase in H by auto. exact H.
Qed.

(** A fresh term found in the formatted text was in the content or in a
    supplied word. *)
Lemma formatResponse_reflects (drawOpening drawClosing : nat)
    (response : CulturalResponse) :
  hasWord t (formatResponse drawOpening drawClosing response) = true ->
  hasWord t (content response) = true
  \/ exists word, In word (teluguWords response) /\ hasWord t word = true.
Proof.
  unfold formatResponse. cbv zeta. intros H.
  apply improveFlow_reflects, addCulturalClosing_reflects,
    removeTechnicalTerms_reflects, ensureTeluguIntegration_reflects in H.
  destruct H as [H|H]; [left | now right].
  now apply addCulturalOpening_reflects in H.
Qed.

End Introduced.

Lemma hasTechnicalTerms_intro (term s : string) :
  In term denylist -> hasWord (toLowerCase term) s = true ->
  hasTechnicalTerms s = true.
Proof.
  intros Hin H. unfold hasTechnicalTerms. apply List.existsb_exists.
  exists term. split; [exact Hin | exact H].
Qed.

Lemma formatResponse_introduces_no_term (drawOpening drawClosing : nat)
    (response : CulturalResponse) :
  hasTechnicalTerms (content response) = false ->
  Forall (fun word => hasTechnicalTerms word = false) (teluguWords response) ->
  hasTechnicalTerms (formatResponse drawOpening drawClosing response) = false.
Proof.
  intros Hcontent Hwords.
  destruct (hasTechnicalTerms (formatResponse drawOpening drawClosing response))
    eqn:Hout; [exfalso | reflexivity].
  unfold hasTechnicalTerms in Hout. apply List.existsb_exists in Hout.
  destruct Hout as (term & Hin & Hout).
  pose proof denylist_fresh as Hfresh. rewrite List.forallb_forall in Hfresh.
  specialize (Hfresh term Hin).
  destruct (freshTerm_inv _ Hfresh) as (Hne & Hletters & Hphrases).
  apply (formatResponse_reflects (toLowerCase term) Hne Hletters Hphrases) in Hout.
  destruct Hout as [H | (word & Hword & H)].
  - rewrite (hasTechnicalTerms_intro term _ Hin H) in Hcontent. discriminate.
  - rewrite Forall_forall in Hwords.
    specialize (Hwords word ltac:(now apply list_elem_of_In)).
    change (hasTechnicalTerms word = false) in Hwords.
    rewrite (hasTechnicalTerms_intro term _ Hin H) in Hwords. discriminate.
Qed.

(** *** Whole words *)

Section WholeWords.

Lemma space_not_word (c : ascii) : isSpace c = true -> isWordChar c = false.
Proof. destruct c as [[] [] [] [] [] [] [] []]; vm_compute; congruence. Qed.

Lemma punct_not_word (c : ascii) : isPunct c = true -> isWordChar c = false.
Proof. destruct c as [[] [] [] [] [] [] [] []]; vm_compute; congruence. Qed.

Lemma word_lowerChar (c : ascii) : isWordChar (lowerChar c) = isWordChar c.
Proof. destruct c as [[] [] [] [] [] [] [] []]; reflexivity. Qed.

Lemma word_upperChar (c : ascii) : isWordChar (upperChar c) = isWordChar c.
Proof. destruct c as [[] [] [] [] [] [] [] []]; reflexivity. Qed.

Lemma lower_is_word (c : ascii) : isLower c = true -> isWordChar c = true.
Proof. destruct c as [[] [] [] [] [] [] [] []]; vm_compute; congruence. Qed.

Lemma wordsFrom_word_cons (cur : string) (c : ascii) (s : string) :
  isWordChar c = true ->
  wordsFrom cur (String c s) = wordsFrom (cur ++ String (lowerChar c) "") s.
Proof. intros H. cbn [wordsFrom]. now rewrite H. Qed.

Lemma wordsFrom_sep_cons (cur : string) (c : ascii) (s : string) :
  isWordChar c = false ->
  wordsFrom cur (String c s) = (closeWord cur ++ wordsFrom "" s)%list.
Proof. intros H. cbn [wordsFrom]. now rewrite H. Qed.

Lemma wordsFrom_sep (cur s : string) :
  isWordOpt (charAt0 s) = false ->
  wordsFrom cur s = (closeWord cur ++ wordsFrom "" s)%list.
Proof.
  destruct s as [|c s]; intros H.
  - cbn. now rewrite app_nil_r.
  - cbn in H. rewrite !wordsFrom_sep_cons by exact H. reflexivity.
Qed.

Lemma wordsFrom_app_sep (s t : string) :
  isWordOpt (charAt0 t) = false ->
  forall cur, wordsFrom cur (s ++ t) = (wordsFrom cur s ++ wordsFrom "" t)%list.
Proof.
  intros Ht. induction s as [|c s IH]; intros cur.
  - cbn [append wordsFrom]. now apply wordsFrom_sep.
  - change (String c s ++ t) with (String c (s ++ t)). cbn [wordsFrom].
    destruct (isWordChar c); rewrite IH; [reflexivity|].
    now rewrite app_assoc.
Qed.

Lemma wordsFrom_word (w t : string) :
  allChars isWordChar w = true ->
  forall cur, wordsFrom cur (w ++ t) = wordsFrom (cur ++ toLowerCase w) t.
Proof.
  induction w as [|c w IH]; intros Hw cur.
  - cbn. now rewrite append_nil_r.
  - cbn [allChars] in Hw. apply andb_true_iff in Hw. destruct Hw as [Hc Hw].
    change (String c w ++ t) with (String c (w ++ t)).
    rewrite wordsFrom_word_cons by exact Hc. rewrite (IH Hw).
    cbn [toLowerCase]. f_equal. rewrite append_assoc. reflexivity.
Qed.

Lemma wordsFrom_after (pre rest : string) :
  isWordOpt (lastChar pre) = false ->
  forall cur,
    (pre = "" -> cur = "") ->
    exists front, wordsFrom cur (pre ++ rest) = (front ++ wordsFrom "" rest)%list.
Proof.
  induction pre as [|c pre IH]; intros Hlast cur Hcur.
  - exists []. rewrite (Hcur eq_refl). reflexivity.
  - change (String c pre ++ rest) with (String c (pre ++ rest)).
    destruct pre as [|d pre].
    + cbn [lastChar isWordOpt] in Hlast. cbn [append].
      rewrite wordsFrom_sep_cons by exact Hlast. now exists (closeWord cur).
    + rewrite lastChar_cons in Hlast by discriminate.
      cbn [wordsFrom]. destruct (isWordChar c).
      * apply (IH Hlast). discriminate.
      * destruct (IH Hlast "") as [front E]; [discriminate|].
        exists (closeWord cur ++ front)%list. rewrite E. now rewrite app_assoc.
Qed.

Lemma word_is_listed (pre w post : string) :
  w <> "" -> allChars isWordChar w = true ->
  isWordOpt (lastChar pre) = false ->
  isWordOpt (charAt0 post) = false ->
  In (toLowerCase w) (wordsOf (pre ++ w ++ post)).
Proof.
  intros Hne Hw Hpre Hpost. unfold wordsOf.
  destruct (wordsFrom_after pre (w ++ post) Hpre "") as [front E]; [reflexivity|].
  rewrite E. apply in_or_app. right.
  rewrite (wordsFrom_word w post Hw). cbn [append].
  rewrite (wordsFrom_sep _ post Hpost). apply in_or_app. left.
  destruct (toLowerCase w) eqn:El; [|now left].
  destruct w; [congruence | discriminate].
Qed.

(** The steps after the removal keep the words of a text. *)

Lemma collapseSpaces_words (s : string) :
  forall inRun cur,
    (inRun = true -> cur = "") ->
    wordsFrom cur (collapseSpaces s inRun) = wordsFrom cur s.
Proof.
  induction s as [|c s IH]; intros inRun cur Hrun; [reflexivity|].
  cbn [collapseSpaces]. destruct (isSpace c) eqn:Hs.
  - pose proof (space_not_word c Hs) as Hw.
    rewrite (wordsFrom_sep_cons cur c s Hw). destruct inRun.
    + rewrite (Hrun eq_refl). rewrite IH by reflexivity. reflexivity.
    + rewrite wordsFrom_sep_cons by reflexivity. now rewrite IH.
  - cbn [wordsFrom]. destruct (isWordChar c); rewrite IH; congruence.
Qed.

Lemma punctAhead_sep (s : string) :
  punctAhead s = true -> isWordOpt (charAt0 s) = false.
Proof.
  unfold punctAhead. destruct s as [|c s]; [reflexivity|].
  cbn [dropWhile charAt0 String.get isWordOpt].
  destruct (isSpace c) eqn:Hs; [intros _; now apply space_not_word|].
  apply punct_not_word.
Qed.

Lemma dropSpaceBeforePunct_words (s : string) :
  forall cur, wordsFrom cur (dropSpaceBeforePunct s) = wordsFrom cur s.
Proof.
  induction s as [|c s IH]; intros cur; [reflexivity|].
  cbn [dropSpaceBeforePunct].
  destruct (isSpace c && punctAhead s) eqn:Hd.
  - apply andb_true_iff in Hd. destruct Hd as [Hs Hp].
    rewrite (wordsFrom_sep_cons cur c s (space_not_word c Hs)).
    rewrite IH. apply wordsFrom_sep. now apply punctAhead_sep.
  - cbn [wordsFrom]. destruct (isWordChar c); now rewrite IH.
Qed.

Lemma trimStart_words (s : string) :
  wordsFrom "" (trimStart s) = wordsFrom "" s.
Proof.
  induction s as [|c s IH]; [reflexivity|]. cbn [trimStart].
  destruct (isSpace c) eqn:Hs; [|reflexivity].
  rewrite (wordsFrom_sep_cons "" c s (space_not_word c Hs)). exact IH.
Qed.

Lemma trimEnd_words (s : string) :
  forall cur, wordsFrom cur (trimEnd s) = wordsFrom cur s.
Proof.
  induction s as [|c s IH]; intros cur; [reflexivity|].
  cbn [trimEnd]. destruct (trimEnd s) as [|d t] eqn:Et.
  - destruct (isSpace c) eqn:Hs.
    + rewrite (wordsFrom_sep_cons cur c s (space_not_word c Hs)).
      rewrite <- IH. cbn. now rewrite app_nil_r.
    + cbn [wordsFrom]. destruct (isWordChar c); now rewrite <- IH.
  - cbn [wordsFrom]. destruct (isWordChar c); now rewrite <- IH.
Qed.

Lemma trim_words (s : string) : wordsOf (trim s) = wordsOf s.
Proof. unfold wordsOf, trim. rewrite trimEnd_words. apply trimStart_words. Qed.

Lemma spaceAfterPunct_words (s : string) :
  forall cur, wordsFrom cur (spaceAfterPunct s) = wordsFrom cur s.
Proof.
  induction s as [|c s IH]; intros cur; [reflexivity|].
  destruct s as [|d s]; [reflexivity|].
  change (spaceAfterPunct (String c (String d s)))
    with (if isPunct c && isUpper d
          then String c (String " "%char (spaceAfterPunct (String d s)))
          else String c (spaceAfterPunct (String d s))).
  destruct (isPunct c && isUpper d) eqn:Hp.
  - apply andb_true_iff in Hp. destruct Hp as [Hp _].
    rewrite !(wordsFrom_sep_cons cur c _ (punct_not_word c Hp)).
    rewrite (wordsFrom_sep_cons "" " "%char) by reflexivity.
    now rewrite IH.
  - cbn [wordsFrom]. destruct (isWordChar c); now rewrite IH.
Qed.

Lemma capitalize_words (s : string) : wordsOf (capitalize s) = wordsOf s.
Proof.
  destruct s as [|c s]; [reflexivity|]. unfold wordsOf.
  cbn [capitalize wordsFrom]. rewrite word_upperChar, lowerChar_upperChar.
  reflexivity.
Qed.


Lemma capitalizeAfter_words (p : ascii) :
  isWordChar p = false ->
  forall s skip curOut curIn,
    match skip with
    | O => curOut = curIn
    | S k =>
        curIn = ""
        /\ exists l rest,
             isLower l = true
             /\ dropWhile isSpace s = String l rest
             /\ String.length (takeWhile isSpace s) = k
             /\ curOut = String (lowerChar l) ""
    end ->
    wordsFrom curOut (capitalizeAfter p s skip) = wordsFrom curIn s.
Proof.
  intros Hp. induction s as [|c s IH]; intros skip curOut curIn H.
  - destruct skip as [|k]; [now subst|].
    destruct H as (_ & l & rest & _ & Hd & _). discriminate Hd.
  - destruct skip as [|k].
    + subst curOut. cbn [capitalizeAfter].
      destruct (Ascii.eqb c p) eqn:E.
      * apply Ascii.eqb_eq in E. subst c.
        rewrite (wordsFrom_sep_cons curIn p s Hp).
        destruct (dropWhile isSpace s) as [|l rest] eqn:Ed.
        { rewrite (wordsFrom_sep_cons curIn p _ Hp). now rewrite (IH 0 "" ""). }
        destruct (isLower l) eqn:Hl.
        { rewrite (wordsFrom_sep_cons curIn p _ Hp).
          rewrite (wordsFrom_sep_cons "" " "%char) by reflexivity.
          rewrite wordsFrom_word_cons
            by (rewrite word_upperChar; now apply lower_is_word).
          rewrite lowerChar_upperChar. cbn [closeWord append app].
          rewrite Nat.add_1_r. f_equal.
          apply IH. split; [reflexivity|]. exists l, rest. auto. }
        { rewrite (wordsFrom_sep_cons curIn p _ Hp). now rewrite (IH 0 "" ""). }
      * cbn [wordsFrom]. destruct (isWordChar c); now rewrite (IH 0 _ _ eq_refl).
    + destruct H as (-> & l & rest & Hl & Hd & Hlen & ->).
      cbn [capitalizeAfter]. cbn [dropWhile takeWhile] in Hd, Hlen.
      destruct (isSpace c) eqn:Hs.
      * rewrite (wordsFrom_sep_cons "" c s (space_not_word c Hs)).
        cbn [String.length] in Hlen. subst k. cbn [closeWord app].
        apply IH. split; [reflexivity|]. exists l, rest. auto.
      * injection Hd as -> ->. cbn [String.length] in Hlen. subst k.
        rewrite (wordsFrom_word_cons "" l rest (lower_is_word l Hl)).
        cbn [append]. now apply IH.
Qed.

Lemma improveFlow_words (s : string) : wordsOf (improveFlow s) = wordsOf s.
Proof.
  unfold improveFlow. cbv zeta. rewrite capitalize_words, trim_words.
  unfold wordsOf.
  rewrite (capitalizeAfter_words "?"%char eq_refl _ 0 "" "" eq_refl).
  rewrite (capitalizeAfter_words "!"%char eq_refl _ 0 "" "" eq_refl).
  rewrite (capitalizeAfter_words "."%char eq_refl _ 0 "" "" eq_refl).
  rewrite spaceAfterPunct_words, dropSpaceBeforePunct_words.
  apply collapseSpaces_words. discriminate.
Qed.

Lemma addCulturalClosing_words (draw : nat) (content : string)
    (category : Category) (w : string) :
  In w (wordsOf (addCulturalClosing draw content category)) ->
  In w (wordsOf content)
  \/ In w (wordsOf (pick draw (culturalClosings category))).
Proof.
  unfold addCulturalClosing, wordsOf.
  destruct (negb (hasClosing content)); [|now left]. cbv zeta.
  rewrite wordsFrom_app_sep by reflexivity.
  intros H. apply in_app_or in H. destruct H as [H|H]; [left | right; exact H].
  destruct (negb (endsWithMark content)); [|exact H].
  rewrite wordsFrom_app_sep in H by reflexivity.
  apply in_app_or in H. destruct H as [H|H]; [exact H | destruct H].
Qed.

Lemma closings_hold_no_alternative :
  List.forallb
    (fun phrase =>
       List.forallb
         (fun w => negb (inList w (List.concat technicalTerms)))
         (wordsOf phrase))
    allClosings = true.
Proof. vm_compute. reflexivity. Qed.

Lemma closing_words_kept (draw : nat) (category : Category) (w : string) :
  In w (wordsOf (pick draw (culturalClosings category))) ->
  ~ In w (List.concat technicalTerms).
Proof.
  intros Hw Hin.
  pose proof closings_hold_no_alternative as H.
  rewrite List.forallb_forall in H.
  assert (Hp : In (pick draw (culturalClosings category)) allClosings).
  { unfold allClosings. rewrite !List.in_app_iff.
    destruct category; [left | right; left | right; right; left | right; right; right];
      apply pick_In; discriminate. }
  specialize (H _ Hp). rewrite List.forallb_forall in H.
  specialize (H w Hw). apply negb_true_iff in H.
  assert (Ht : inList w (List.concat technicalTerms) = true).
  { unfold inList. apply List.existsb_exists. exists w.
    split; [exact Hin | apply String.eqb_refl]. }
  congruence.
Qed.


(** The removal of whole words. *)

Lemma takeWhile_dropWhile (q : ascii -> bool) (s : string) :
  takeWhile q s ++ dropWhile q s = s.
Proof.
  induction s as [|c s IH]; [reflexivity|]. cbn [takeWhile dropWhile].
  destruct (q c); [|reflexivity].
  change (String c (takeWhile q s ++ dropWhile q s) = String c s).
  now rewrite IH.
Qed.

Lemma takeWhile_all (q : ascii -> bool) (s : string) :
  allChars q (takeWhile q s) = true.
Proof.
  induction s as [|c s IH]; [reflexivity|]. cbn [takeWhile].
  destruct (q c) eqn:E; [|reflexivity]. cbn [allChars]. now rewrite E.
Qed.

Lemma dropWhile_head (q : ascii -> bool) (s : string) (c : ascii) :
  charAt0 (dropWhile q s) = Some c -> q c = false.
Proof.
  induction s as [|d s IH]; [discriminate|]. cbn [dropWhile].
  destruct (q d) eqn:E; [exact IH|]. cbn. intros H. injection H as <-. exact E.
Qed.

Lemma word_run_last (r : string) :
  r <> "" -> allChars isWordChar r = true ->
  isWordOpt (lastChar (toLowerCase r)) = true.
Proof.
  induction r as [|c r IH]; [congruence|]. intros _ H.
  cbn [allChars] in H. apply andb_true_iff in H. destruct H as [Hc Hr].
  cbn [toLowerCase]. destruct r as [|d r].
  - cbn. now rewrite word_lowerChar.
  - rewrite lastChar_cons by discriminate. apply IH; [discriminate | exact Hr].
Qed.

Lemma wordAt_some (alts : list string) (prev : option ascii) (s : string)
    (n : nat) :
  wordAt alts prev s = Some n ->
  wordBoundary prev (charAt0 s) = true
  /\ exists alt, In alt alts /\ altThenBoundary s alt = true
                 /\ n = String.length alt.
Proof.
  unfold wordAt. destruct (wordBoundary prev (charAt0 s)); [|discriminate].
  destruct (List.find (altThenBoundary s) alts) as [alt|] eqn:Hfind;
    [|discriminate].
  intros H. injection H as <-. apply List.find_some in Hfind.
  split; [reflexivity|]. exists alt. tauto.
Qed.

Lemma altsWordBound_inv (alts : list string) (alt : string) :
  altsWordBound alts = true -> In alt alts ->
  altsLetterLed alts = true
  /\ (exists x v, alt = String x v /\ isLower x = true)
  /\ isWordOpt (lastChar alt) = true.
Proof.
  unfold altsWordBound. intros H Hin. apply andb_true_iff in H.
  destruct H as [Hled Hend]. split; [exact Hled|].
  unfold altsLetterLed in Hled. rewrite List.forallb_forall in Hled, Hend.
  specialize (Hled alt Hin). specialize (Hend alt Hin).
  split; [|exact Hend]. destruct alt as [|x v]; [discriminate|]. now exists x, v.
Qed.

(** A match starts at the first letter of a word and ends with the last
    character of a word. *)
Lemma match_covers_words (alts : list string) (prev : option ascii)
    (c : ascii) (s : string) (n : nat) :
  altsWordBound alts = true ->
  wordAt alts prev (String c s) = Some n ->
  isWordChar c = true /\ isWordOpt prev = false
  /\ exists v, startsWithCI s v = true /\ n = S (String.length v)
               /\ isWordOpt (lastChar (String (lowerChar c) v)) = true
               /\ isWordOpt (charAt0 (drop (String.length v) s)) = false.
Proof.
  intros Halts H. apply wordAt_some in H.
  destruct H as (Hb & alt & Hin & Hm & ->).
  destruct (altsWordBound_inv alts alt Halts Hin) as (_ & (x & v & -> & Hx) & Hl).
  unfold altThenBoundary in Hm. apply andb_true_iff in Hm.
  destruct Hm as [Hm Hafter].
  apply startsWithCI_inv in Hm. destruct Hm as (c' & s' & E & Hc & Hm).
  injection E as <- <-. rewrite <- Hc in Hx.
  destruct (lower_letter c Hx) as (_ & Hw & _).
  unfold wordBoundary in Hb. cbn [charAt0 String.get isWordOpt] in Hb.
  rewrite Hw in Hb. split; [exact Hw|].
  split; [destruct (isWordOpt prev); [discriminate Hb | reflexivity]|].
  exists v. split; [exact Hm|]. split; [reflexivity|].
  rewrite Hc. split; [exact Hl|].
  unfold wordBoundary in Hafter. rewrite Hl in Hafter.
  cbn [String.length drop] in Hafter.
  destruct (isWordOpt (charAt0 (drop (String.length v) s)));
    [discriminate Hafter | reflexivity].
Qed.

(** Where a word starts that is one of the alternatives, there is a match. *)
Lemma word_start_matches (alts : list string) (prev : option ascii)
    (c : ascii) (s : string) (a : string) :
  isWordOpt prev = false -> isWordChar c = true -> In a alts ->
  a = toLowerCase (takeWhile isWordChar (String c s)) ->
  wordAt alts prev (String c s) <> None.
Proof.
  intros Hprev Hc Hin Ea. unfold wordAt, wordBoundary. rewrite Hprev.
  cbn [charAt0 String.get isWordOpt]. rewrite Hc. cbn [xorb].
  destruct (List.find (altThenBoundary (String c s)) alts) eqn:Hfind;
    [discriminate|].
  exfalso. pose proof (List.find_none _ _ Hfind a Hin) as Hno.
  assert (Hyes : altThenBoundary (String c s) a = true); [|congruence].
  set (t := String c s) in *.
  assert (Hrun : takeWhile isWordChar t <> "").
  { unfold t. cbn [takeWhile]. rewrite Hc. discriminate. }
  unfold altThenBoundary. apply andb_true_iff. split.
  - unfold startsWithCI, startsWith.
    rewrite <- (takeWhile_dropWhile isWordChar t) at 1.
    rewrite toLowerCase_app, <- Ea. apply prefix_app.
  - rewrite Ea, toLowerCase_length, drop_takeWhile. unfold wordBoundary.
    rewrite (word_run_last _ Hrun (takeWhile_all isWordChar t)).
    destruct (charAt0 (dropWhile isWordChar t)) as [d|] eqn:Ed; [|reflexivity].
    cbn [isWordOpt]. now rewrite (dropWhile_head _ _ _ Ed).
Qed.

Lemma removeWords_words (alts : list string) :
  altsWordBound alts = true ->
  forall s prev skip curOut curIn,
    (skip = 0 /\ curOut = curIn
     /\ (curIn = "" <-> isWordOpt prev = false)
     /\ (curIn <> "" ->
         forall a, In a alts ->
                   a <> curIn ++ toLowerCase (takeWhile isWordChar s)))
    \/ (curOut = ""
        /\ exists pc v,
             prev = Some pc /\ startsWithCI s v = true
             /\ String.length v = skip
             /\ isWordOpt (lastChar (String (lowerChar pc) v)) = true
             /\ isWordOpt (charAt0 (drop skip s)) = false) ->
    forall w,
      In w (wordsFrom curOut (removeWords alts prev s skip)) ->
      In w (wordsFrom curIn s) /\ ~ In w alts.
Proof.
  intros Halts.
  assert (Hled : altsLetterLed alts = true).
  { unfold altsWordBound in Halts. apply andb_true_iff in Halts. tauto. }
  induction s as [|c s IH]; intros prev skip curOut curIn Hinv w Hw.
  - cbn [removeWords] in Hw.
    destruct Hinv as [(-> & -> & Hiff & Hthird) | (-> & _)]; [|destruct Hw].
    cbn [wordsFrom] in *. split; [exact Hw|].
    destruct curIn as [|x cur]; [destruct Hw|].
    destruct Hw as [<-|[]]. intros Hin.
    apply (Hthird ltac:(discriminate) _ Hin). cbn. now rewrite append_nil_r.
  - destruct Hinv as [(-> & -> & Hiff & Hthird)
                     | (-> & pc & v & -> & Hv & Hlen & Hlast & Hnext)].
    + cbn [removeWords] in Hw.
      destruct (wordAt alts prev (String c s)) as [n|] eqn:Hat.
      * destruct (match_covers_words alts prev c s n Halts Hat)
          as (Hc & Hprev & v & Hv & -> & Hlast & Hnext).
        apply Hiff in Hprev. subst curIn.
        cbn [Nat.sub] in Hw. rewrite Nat.sub_0_r in Hw.
        rewrite (wordsFrom_word_cons "" c s Hc).
        apply (IH (Some c) (String.length v) ""); [|exact Hw].
        right. split; [reflexivity|]. exists c, v. auto.
      * destruct (isWordChar c) eqn:Hc.
        { rewrite (wordsFrom_word_cons _ c _ Hc) in Hw.
          rewrite (wordsFrom_word_cons _ c _ Hc).
          apply (IH (Some c) 0 (curIn ++ String (lowerChar c) "")
                   (curIn ++ String (lowerChar c) "")); [|exact Hw].
          left. split; [reflexivity|]. split; [reflexivity|].
          split.
          - cbn [isWordOpt]. rewrite Hc.
            split; [destruct curIn; discriminate | discriminate].
          - intros _ a Hin Ea.
            destruct curIn as [|x cur].
            + apply (word_start_matches alts prev c s a); auto.
              * now apply Hiff.
              * cbn [takeWhile]. rewrite Hc. exact Ea.
            + apply (Hthird ltac:(discriminate) a Hin).
              cbn [takeWhile]. rewrite Hc. cbn [toLowerCase].
              rewrite Ea, append_assoc. reflexivity. }
        { rewrite (wordsFrom_sep_cons _ c _ Hc) in Hw.
          rewrite (wordsFrom_sep_cons _ c _ Hc).
          apply in_app_or in Hw. destruct Hw as [Hw|Hw].
          - split; [apply in_or_app; now left|].
            destruct curIn as [|x cur]; [destruct Hw|].
            destruct Hw as [<-|[]]. intros Hin.
            apply (Hthird ltac:(discriminate) _ Hin).
            cbn [takeWhile]. rewrite Hc. cbn. now rewrite append_nil_r.
          - destruct (IH (Some c) 0 "" "") with (w := w) as [H1 H2];
              [|exact Hw|].
            + left. split; [reflexivity|]. split; [reflexivity|].
              split; [|congruence]. cbn [isWordOpt]. rewrite Hc. tauto.
            + split; [apply in_or_app; now right | exact H2]. }
    + destruct skip as [|k].
      * destruct v; [|discriminate Hlen].
        cbn [lastChar isWordOpt] in Hlast. rewrite word_lowerChar in Hlast.
        cbn [drop charAt0 String.get isWordOpt] in Hnext.
        cbn [removeWords] in Hw.
        rewrite (wordAt_after_word alts (Some pc) _ Hled Hlast) in Hw.
        rewrite (wordsFrom_sep_cons _ c _ Hnext) in Hw.
        rewrite (wordsFrom_sep_cons _ c _ Hnext). cbn [closeWord app] in Hw.
        destruct (IH (Some c) 0 "" "") with (w := w) as [H1 H2];
          [|exact Hw|].
        { left. split; [reflexivity|]. split; [reflexivity|].
          split; [|congruence]. cbn [isWordOpt]. rewrite Hnext. tauto. }
        split; [apply in_or_app; now right | exact H2].
      * destruct v as [|y v]; [discriminate Hlen|].
        cbn [String.length] in Hlen. injection Hlen as Hlen.
        apply startsWithCI_inv in Hv. destruct Hv as (c' & s' & E & Hy & Hv).
        injection E as <- <-. cbn [removeWords] in Hw.
        rewrite lastChar_cons in Hlast by discriminate. rewrite <- Hy in Hlast.
        cbn [drop] in Hnext.
        destruct (IH (Some c) k ""
                    (if isWordChar c then curIn ++ String (lowerChar c) ""
                     else "")) with (w := w) as [H1 H2]; [|exact Hw|].
        { right. split; [reflexivity|]. exists c, v. auto. }
        split; [|exact H2]. cbn [wordsFrom].
        destruct (isWordChar c); [exact H1 | apply in_or_app; now right].
Qed.


Lemma technicalTerms_wordBound :
  List.forallb altsWordBound technicalTerms = true.
Proof. vm_compute. reflexivity. Qed.

Lemma removal_passes_words (lists : list (list string)) :
  List.forallb altsWordBound lists = true ->
  forall s w,
    In w (wordsOf
            (List.fold_left (fun acc alts => removeWords alts None acc 0)
               lists s)) ->
    In w (wordsOf s) /\ ~ In w (List.concat lists).
Proof.
  induction lists as [|alts rest IH]; intros Hall s w Hw.
  - split; [exact Hw | intros []].
  - cbn [List.forallb] in Hall. apply andb_true_iff in Hall.
    destruct Hall as [Halts Hrest]. cbn [List.fold_left] in Hw.
    destruct (IH Hrest _ w Hw) as [H1 H2].
    destruct (removeWords_words alts Halts s None 0 "" "") with (w := w)
      as [H3 H4]; [|exact H1|].
    { left. split; [reflexivity|]. split; [reflexivity|].
      split; [tauto | congruence]. }
    split; [exact H3|]. cbn [List.concat]. intros Hin.
    apply in_app_or in Hin. tauto.
Qed.

Lemma removeTechnicalTerms_words (content w : string) :
  In w (wordsOf (removeTechnicalTerms content)) ->
  ~ In w (List.concat technicalTerms).
Proof.
  unfold removeTechnicalTerms. cbv zeta. rewrite trim_words. unfold wordsOf.
  rewrite dropSpaceBeforePunct_words, collapseSpaces_words by discriminate.
  intros H. now apply (removal_passes_words _ technicalTerms_wordBound) in H.
Qed.

Lemma formatted_words_kept (drawClosing : nat) (opened : string)
    (category : Category) (w : string) :
  In w (wordsOf
          (improveFlow
             (addCulturalClosing drawClosing (removeTechnicalTerms opened)
                category))) ->
  ~ In w (List.concat technicalTerms).
Proof.
  rewrite improveFlow_words. intros H.
  apply addCulturalClosing_words in H. destruct H as [H|H].
  - now apply removeTechnicalTerms_words in H.
  - now apply closing_words_kept in H.
Qed.

Lemma allChars_word_lower (w : string) :
  allChars isWordChar (toLowerCase w) = allChars isWordChar w.
Proof.
  induction w as [|c w IH]; [reflexivity|]. cbn [toLowerCase allChars].
  now rewrite word_lowerChar, IH.
Qed.

Lemma singleWordTerms_checked :
  List.forallb
    (fun t => truthy t && allChars isWordChar t
              && inList t (List.concat technicalTerms))
    singleWordTerms = true.
Proof. vm_compute. reflexivity. Qed.

Lemma singleWordTerm_inv (w : string) :
  In (toLowerCase w) singleWordTerms ->
  w <> "" /\ allChars isWordChar w = true
  /\ In (toLowerCase w) (List.concat technicalTerms).
Proof.
  intros Hin. pose proof singleWordTerms_checked as H.
  rewrite List.forallb_forall in H. specialize (H _ Hin).
  apply andb_true_iff in H. destruct H as [H H3].
  apply andb_true_iff in H. destruct H as [H1 H2].
  rewrite allChars_word_lower in H2.
  split; [intros ->; discriminate H1|]. split; [exact H2|].
  apply inList_In. exact H3.
Qed.

Lemma singleWordTerms_spec (t : string) :
  In t singleWordTerms
  <-> In t (List.concat technicalTerms) /\ t <> "training data".
Proof.
  split.
  - intros H. cbn [In singleWordTerms] in H.
    repeat (destruct H as [<-|H];
            [split; [vm_compute; tauto | discriminate]|]).
    destruct H.
  - intros [H Hne]. cbn in H.
    repeat (destruct H as [<-|H];
            [first [congruence | vm_compute; tauto]|]).
    destruct H.
Qed.

(** No word the remover strips stands in the text as a whole word. *)
Lemma no_stripped_word_alone (out pre w post : string) :
  (forall t, In t (wordsOf out) -> ~ In t (List.concat technicalTerms)) ->
  out = pre ++ w ++ post ->
  In (toLowerCase w) singleWordTerms ->
  (exists c, lastChar pre = Some c /\ isWordChar c = true)
  \/ (exists c, String.get 0 post = Some c /\ isWordChar c = true).
Proof.
  intros Hout -> Hin.
  destruct (singleWordTerm_inv w Hin) as (Hne & Hw & Hterm).
  destruct (lastChar pre) as [a|] eqn:Ea.
  - destruct (isWordChar a) eqn:Hwa; [left; now exists a|].
    destruct (String.get 0 post) as [b|] eqn:Eb.
    + destruct (isWordChar b) eqn:Hwb; [right; now exists b|].
      exfalso. apply (Hout (toLowerCase w)); [|exact Hterm].
      apply word_is_listed; auto.
      * rewrite Ea. exact Hwa.
      * unfold charAt0. rewrite Eb. exact Hwb.
    + exfalso. apply (Hout (toLowerCase w)); [|exact Hterm].
      apply word_is_listed; auto.
      * rewrite Ea. exact Hwa.
      * unfold charAt0. now rewrite Eb.
  - destruct (String.get 0 post) as [b|] eqn:Eb.
    + destruct (isWordChar b) eqn:Hwb; [right; now exists b|].
      exfalso. apply (Hout (toLowerCase w)); [|exact Hterm].
      apply word_is_listed; auto.
      * now rewrite Ea.
      * unfold charAt0. rewrite Eb. exact Hwb.
    + exfalso. apply (Hout (toLowerCase w)); [|exact Hterm].
      apply word_is_listed; auto.
      * now rewrite Ea.
      * unfold charAt0. now rewrite Eb.
Qed.

Lemma formatResponse_strips_whole_words (drawOpening drawClosing : nat)
    (response : CulturalResponse) (pre w post : string) :
  formatResponse drawOpening drawClosing response = pre ++ w ++ post ->
  In (toLowerCase w) singleWordTerms ->
  (exists c, lastChar pre = Some c /\ isWordChar c = true)
  \/ (exists c, String.get 0 post = Some c /\ isWordChar c = true).
Proof.
  apply no_stripped_word_alone. unfold formatResponse. cbv zeta.
  intros t. apply formatted_words_kept.
Qed.

Lemma lastChar_split (s : string) (c : ascii) :
  lastChar s = Some c -> exists body, s = body ++ String c "".
Proof.
  induction s as [|d s IH]; [discriminate|]. destruct s as [|e s].
  - cbn. intros H. injection H as ->. now exists "".
  - rewrite lastChar_cons by discriminate. intros H.
    destruct (IH H) as [body E]. exists (String d body).
    change (String d (String e s) = String d (body ++ String c "")).
    f_equal. exact E.
Qed.

End WholeWords.

(** C2, as amended.  Whatever the content, the supplied words, the region,
    the category and the two random draws: the formatted text ends with a
    full stop or an exclamation mark; it holds a word of the fixed
    vocabulary when the content holds one already, or when words are supplied
    and each of them is, letter case aside, a word of the vocabulary; no
    single word the remover strips (every alternative of its five patterns,
    the two-word phrase apart) stands in it as a whole word, in any letter
    case: wherever such a word occurs, a word character comes right before
    or right after it; and it holds none of the validator's denylisted
    terms, not even inside a longer word, when neither the content nor a
    supplied word holds one.  Two texts are evaluated. *)
Theorem formatResponse_policy (drawOpening drawClosing : nat)
    (response : CulturalResponse) :
  let out := formatResponse drawOpening drawClosing response in
  (exists body, out = body ++ "." \/ out = body ++ "!")
  /\ (hasTeluguWord (content response) = true
      \/ (teluguWords response <> []
          /\ Forall (fun x => In (toLowerCase x) vocabulary)
               (teluguWords response)) ->
      hasTeluguWord out = true)
  /\ (forall pre w post,
        out = pre ++ w ++ post ->
        In (toLowerCase w) singleWordTerms ->
        (exists c, lastChar pre = Some c /\ isWordChar c = true)
        \/ (exists c, String.get 0 post = Some c /\ isWordChar c = true))
  /\ (forall t,
        In t singleWordTerms
        <-> In t (List.concat technicalTerms) /\ t <> "training data")
  /\ (hasTechnicalTerms (content response) = false ->
      Forall (fun word => hasTechnicalTerms word = false) (teluguWords response) ->
      hasTechnicalTerms out = false)
  /\ formatResponse 0 0
       (mkResponse "The API returns JSON from the Database" [] "warm"
          (Some coastal) cat_food)
     = "Trust me, the returns from the. This is authentic Andhra taste that locals love!"
  /\ removeTechnicalTerms "The API, the SYSTEM and a Json file"
     = "The, the and a file".
Proof.
  cbv zeta. split.
  { destruct (formatResponse_ends_with_mark drawOpening drawClosing response)
      as [[H|H] _]; apply lastChar_split in H; destruct H as [body H];
      exists body; [left | right]; exact H. }
  split; [apply formatResponse_vocabulary|].
  split; [intros pre w post; apply formatResponse_strips_whole_words|].
  split; [apply singleWordTerms_spec|].
  split; [apply formatResponse_introduces_no_term|].
  split; vm_compute; reflexivity.
Qed.

Lemma formatResponse_policy_witness :
  (teluguWords sampleResponse <> []
   /\ Forall (fun x => In (toLowerCase x) vocabulary) (teluguWords sampleResponse))
  /\ hasTechnicalTerms (content sampleResponse) = false
  /\ Forall (fun word => hasTechnicalTerms word = false) (teluguWords sampleResponse)
  /\ (exists body,
        formatResponse 1 2 sampleResponse = body ++ "."
        \/ formatResponse 1 2 sampleResponse = body ++ "!")
  /\ hasTeluguWord (formatResponse 1 2 sampleResponse) = true
  /\ hasTechnicalTerms (formatResponse 1 2 sampleResponse) = false
  /\ formatResponse 0 0
       (mkResponse "Rapid service" [] "warm" (Some coastal) cat_food)
     = "Trust me, r" ++ "api"
       ++ "d service. This is authentic Andhra taste that locals love!"
  /\ In (toLowerCase "api") singleWordTerms
  /\ ((exists c, lastChar "Trust me, r" = Some c /\ isWordChar c = true)
      \/ (exists c,
            String.get 0
              "d service. This is authentic Andhra taste that locals love!"
            = Some c
            /\ isWordChar c = true)).
Proof.
  assert (Hwords : teluguWords sampleResponse <> []
                   /\ Forall (fun x => In (toLowerCase x) vocabulary)
                        (teluguWords sampleResponse)).
  { split; [discriminate|]. constructor; [vm_compute; tauto | constructor]. }
  assert (Hcontent : hasTechnicalTerms (content sampleResponse) = false)
    by (vm_compute; reflexivity).
  assert (Hclean : Forall (fun word => hasTechnicalTerms word = false)
                     (teluguWords sampleResponse))
    by (repeat constructor).
  assert (Hout : formatResponse 0 0
                   (mkResponse "Rapid service" [] "warm" (Some coastal) cat_food)
                 = "Trust me, r" ++ "api"
                   ++ "d service. This is authentic Andhra taste that locals love!")
    by (vm_compute; reflexivity).
  assert (Hterm : In (toLowerCase "api") singleWordTerms)
    by (vm_compute; tauto).
  pose proof (formatResponse_policy 1 2 sampleResponse) as H.
  cbv zeta in H. destruct H as (Hc & Ha & _ & _ & Hb & _).
  pose proof (formatResponse_policy 0 0
                (mkResponse "Rapid service" [] "warm" (Some coastal) cat_food))
    as H.
  cbv zeta in H. destruct H as (_ & _ & Hw & _).
  split; [exact Hwords|]. split; [exact Hcontent|]. split; [exact Hclean|].
  split; [exact Hc|].
  split; [apply Ha; right; exact Hwords|].
  split; [apply Hb; assumption|].
  split; [exact Hout|]. split; [exact Hterm|].
  exact (Hw _ _ _ Hout Hterm).
Defined.

(** C2, as stated, fails.  For the first content below, no supplied word
    and the first greeting and closing, the formatted text holds no word of
    the vocabulary, and it holds the denylisted terms training and training
    data.  For the second content the formatted text holds the denylisted
    term API inside the word rapid, which the whole-word removal keeps. *)
Lemma formatResponse_policy_counterexample :
  let out :=
    formatResponse 0 0
      (mkResponse "training API data" [] "warm" (Some coastal) cat_slang) in
  let kept :=
    formatResponse 0 0
      (mkResponse "Rapid service" [] "warm" (Some coastal) cat_food) in
  out = "Trust me, training data. That's how we express ourselves in Andhra culture!"
  /\ hasTeluguWord out = false
  /\ hasTechnicalTerms out = true
  /\ includes (toLowerCase out) "training data" = true
  /\ kept = "Trust me, rapid service. This is authentic Andhra taste that locals love!"
  /\ hasTechnicalTerms kept = true
  /\ includes (toLowerCase kept) (toLowerCase "API") = true.
Proof. vm_compute. repeat split; reflexivity. Qed.

End Formatter.

(** ** The document parser *)

Section Parser.

Import Js ProductMdParser.

Lemma parseSlangTerms_valid (content : string) (terms : list string) :
  Forall (fun r => DataValidator.validateSlangInfo r = true)
    (parseSlangTerms content terms).
Proof.
  induction terms as [|term rest IH]; cbn [parseSlangTerms]; [constructor|].
  destruct (parseSlangTerm content term) as [slangInfo|]; [|exact IH].
  destruct (DataValidator.validateSlangInfo slangInfo) eqn:Hv; [|exact IH].
  constructor; assumption.
Qed.

Lemma parseFoodLines_valid (lines : list string) :
  forall currentCity,
    Forall (fun r => DataValidator.validateFoodInfo r = true)
      (parseFoodLines lines currentCity).
Proof.
  induction lines as [|line rest IH]; intros currentCity;
    cbn [parseFoodLines]; [constructor|].
  destruct (isFoodHeader line); [apply IH|].
  destruct (isCityHeader line); [apply IH|].
  destruct (includes line arrow && truthy currentCity); [|apply IH].
  destruct (parseFoodLine line currentCity) as [foodInfo|]; [|apply IH].
  destruct (DataValidator.validateFoodInfo foodInfo) eqn:Hv; [|apply IH].
  constructor; [exact Hv | apply IH].
Qed.

Lemma flushFestival_valid (currentFestival : string) (festivalData : FestivalData) :
  Forall (fun r => DataValidator.validateFestivalInfo r = true)
    (flushFestival currentFestival festivalData).
Proof.
  unfold flushFestival.
  destruct (fd_culturalMeaning festivalData) as [culturalMeaning|];
    [|constructor].
  destruct (fd_associatedFoods festivalData) as [associatedFoods|];
    [|constructor].
  destruct (truthy currentFestival && truthy culturalMeaning); [|constructor].
  cbv zeta.
  match goal with
  | |- context [DataValidator.validateFestivalInfo ?f] =>
      destruct (DataValidator.validateFestivalInfo f) eqn:Hv
  end; repeat constructor. exact Hv.
Qed.

Lemma parseFestivalLines_valid (lines : list string) :
  forall currentFestival festivalData,
    Forall (fun r => DataValidator.validateFestivalInfo r = true)
      (parseFestivalLines lines currentFestival festivalData).
Proof.
  induction lines as [|line rest IH]; intros currentFestival festivalData;
    cbn [parseFestivalLines]; [apply flushFestival_valid|].
  destruct (includes line "🎉" || includes line "Festivals"); [apply IH|].
  destruct (isFestivalName line).
  - apply Forall_app. split; [apply flushFestival_valid | apply IH].
  - destruct (truthy currentFestival); apply IH.
Qed.

Lemma parseEmotionLines_valid (lines : list string) :
  Forall (fun r => DataValidator.validateEmotionFoodMapping r = true)
    (parseEmotionLines lines).
Proof.
  induction lines as [|line rest IH]; cbn [parseEmotionLines]; [constructor|].
  destruct (isEmotionHeader line); [exact IH|].
  destruct (includes line arrow); [|exact IH].
  destruct (parseEmotionLine line (List.hd_error rest)) as [mapping|]; [|exact IH].
  destruct (DataValidator.validateEmotionFoodMapping mapping) eqn:Hv; [|exact IH].
  constructor; assumption.
Qed.

(** C3. Whatever the document text, every record of each of the four
    collections the parser returns passes its record validator: the parser
    emits no invalid record. *)
Theorem parser_emits_valid_records (content : string) :
  Forall (fun r => DataValidator.validateSlangInfo r = true)
    (slang (parseContent content))
  /\ Forall (fun r => DataValidator.validateFoodInfo r = true)
       (food (parseContent content))
  /\ Forall (fun r => DataValidator.validateFestivalInfo r = true)
       (festivals (parseContent content))
  /\ Forall (fun r => DataValidator.validateEmotionFoodMapping r = true)
       (emotions (parseContent content)).
Proof.
  unfold parseContent. cbv zeta. cbn [slang food festivals emotions].
  split; [apply parseSlangTerms_valid|].
  split; [apply parseFoodLines_valid|].
  split; [apply parseFestivalLines_valid | apply parseEmotionLines_valid].
Qed.

(** The parser does emit records: the validity statement is not vacuous. *)
Example parser_emits_records :
  List.length (slang (parseContent incompleteDocument)) = 1
  /\ List.length (food (parseContent incompleteDocument)) = 1.
Proof. vm_compute. split; reflexivity. Qed.

(** *** Slang terms *)

(** What the code does with a sub-block: the formality is formal exactly when
    the lower-cased sub-block text holds the letters formal anywhere, and a
    record is produced only when the extracted meaning and emotional intent
    are not empty. *)
Lemma slangFromBlock_rule (term termContent : string) :
  match slangFromBlock term termContent with
  | Some r =>
      SlangInfo.formalityLevel r =
        (if includes (toLowerCase termContent) "formal" then "formal"
         else "informal")
      /\ SlangInfo.literalMeaning r <> "" /\ SlangInfo.emotionalIntent r <> ""
  | None =>
      trimmedOrEmpty (firstLabelled ["literal:"; "meaning:"] 0 termContent) = ""
      \/ trimmedOrEmpty
           (firstLabelled ["emotional meaning:"; "emotion:"] 0 termContent) = ""
  end.
Proof.
  unfold slangFromBlock. cbv zeta.
  destruct (trimmedOrEmpty (firstLabelled ["literal:"; "meaning:"] 0 termContent))
    as [|a m] eqn:Hm; cbn [truthy negb orb]; [left; reflexivity|].
  destruct (trimmedOrEmpty
              (firstLabelled ["emotional meaning:"; "emotion:"] 0 termContent))
    as [|b e] eqn:He; cbn [truthy negb]; [right; reflexivity|].
  cbn. repeat split; discriminate.
Qed.

(** A term whose extracted meaning or emotional intent is empty is
    discarded. *)
Lemma slangFromBlock_discards (term termContent : string) :
  trimmedOrEmpty (firstLabelled ["literal:"; "meaning:"] 0 termContent) = ""
  \/ trimmedOrEmpty
       (firstLabelled ["emotional meaning:"; "emotion:"] 0 termContent) = "" ->
  slangFromBlock term termContent = None.
Proof.
  unfold slangFromBlock. cbv zeta. intros [H|H]; rewrite H; cbn [truthy negb orb].
  - reflexivity.
  - rewrite orb_true_r. reflexivity.
Qed.

(** C5 at a failing input.  The sub-block of the term Arey Baboi says
    Informal only and nowhere holds the word formal, yet the record the
    parser builds has formality level formal: the test looks for the letters
    formal in the lower-cased text and finds them inside informal.  The
    hardcoded record of the same term, with the same usage text, is
    informal. *)
Theorem informal_block_classified_formal :
  termContentOf informalSlangSection "Arey Baboi"
  = Some (NL ++ "Literal: Oh my God" ++ NL ++ "Emotional meaning: Shock" ++ NL
          ++ "Usage: Informal only")
  /\ containsWord "formal"
       (NL ++ "Literal: Oh my God" ++ NL ++ "Emotional meaning: Shock" ++ NL
        ++ "Usage: Informal only") = false
  /\ parseSlangSection informalSlangSection
     = [SlangInfo.mk "Arey Baboi" "Oh my God" "Shock" "Informal only" "formal"
          (Some [])]
  /\ CulturalDatabaseImpl.getSlangInfo CulturalDatabaseImpl.hardcoded "Arey Baboi"
     = Some (SlangInfo.mk "Arey Baboi" "Oh my God"
               "Shock / frustration / disbelief" "Informal only" "informal"
               (Some [])).
Proof. vm_compute. repeat split; reflexivity. Qed.

End Parser.

(** ** Scenarios of the repository's own tests, replayed on the embedding *)

Section Scenarios.

Import Js ProductMdParser.

Example slang_sample_parses :
  slang (parseContent slangSample)
  = [SlangInfo.mk "Arey Baboi" "Oh my God" "Shock / frustration / disbelief"
       "Informal; Avoid in formal settings" "formal" (Some [])].
Proof. vm_compute. reflexivity. Qed.

Example food_sample_parses :
  food (parseContent foodSample)
  = [FoodInfo.mk "Punugulu" "Visakhapatnam" "medium" "Evening" "medium spice"
       (Some "Traditional Visakhapatnam specialty");
     FoodInfo.mk "Bongulo Chicken" "Visakhapatnam" "high" "Evening" "high spice"
       (Some "Traditional Visakhapatnam specialty")].
Proof. vm_compute. reflexivity. Qed.

Example festival_sample_parses :
  festivals (parseContent festivalSample)
  = [FestivalInfo.mk "Sankranti" "Harvest festival celebrating abundance"
       ["Ariselu"; "Pongal"]
       "Traditional foods representing the spirit of Sankranti"
       "Family bonding" None].
Proof. vm_compute. reflexivity. Qed.

Example festival_default_tone :
  List.map FestivalInfo.emotionalTone (festivals (parseContent festivalWithoutTone))
  = ["Celebratory"].
Proof. vm_compute. reflexivity. Qed.

Example emotion_sample_parses :
  emotions (parseContent emotionSample)
  = [EmotionFoodMapping.mk "sad" "Pappu + Avakaya" "Comfort, nostalgia" "home";
     EmotionFoodMapping.mk "happy" "Biryani" "Celebration" "both"].
Proof. vm_compute. reflexivity. Qed.

Example malformed_sample_parses :
  slang (parseContent malformedSample) = [].
Proof. vm_compute. reflexivity. Qed.

Example mood_sad :
  EmotionFoodMapperImpl.food (EmotionFoodMapperImpl.mapEmotionToFood "sad")
  = "Pappu with Avakaya"
  /\ EmotionFoodMapperImpl.spiceLevel (EmotionFoodMapperImpl.mapEmotionToFood "SaD")
     = "medium"
  /\ includes
       (toLowerCase
          (EmotionFoodMapperImpl.reasoning
             (EmotionFoodMapperImpl.mapEmotionToFood "sad"))) "comfort" = true.
Proof. vm_compute. repeat split; reflexivity. Qed.

Example guntur_low_and_extreme :
  List.map FoodInfo.name
    (CulturalDatabaseImpl.getFoodInfo CulturalDatabaseImpl.hardcoded "guntur"
       (CulturalDatabaseImpl.mkPreferences (Some "any") (Some "extreme") None))
  = ["Mirchi Bajji"; "Gongura Pachadi"]
  /\ CulturalDatabaseImpl.getFoodInfo CulturalDatabaseImpl.hardcoded "guntur"
       (CulturalDatabaseImpl.mkPreferences (Some "any") (Some "low") None)
     = [].
Proof. vm_compute. split; reflexivity. Qed.

End Scenarios.

(* ===================================================================== *)
(** * Further properties of the code *)
(* ===================================================================== *)

Section MoreStrings.
Import Js.

Lemma append_length (a b : string) :
  String.length (a ++ b) = String.length a + String.length b.
Proof.
  induction a as [|x a IH]; [reflexivity|].
  change (S (String.length (a ++ b)) = S (String.length a + String.length b)).
  now rewrite IH.
Qed.

Lemma trimEnd_solid_length (p r : string) (c : ascii) :
  isSpace c = false ->
  String.length p < String.length (trimEnd (p ++ String c r)).
Proof.
  intros Hc. induction p as [|x p IH].
  - change (0 < String.length (trimEnd (String c r))).
    cbn [trimEnd]. rewrite Hc. destruct (trimEnd r); cbn; lia.
  - change (S (String.length p)
            < String.length (trimEnd (String x (p ++ String c r)))).
    cbn [trimEnd]. destruct (trimEnd (p ++ String c r)) eqn:E.
    + cbn in IH. lia.
    + cbn [String.length] in *. lia.
Qed.

Lemma trim_solid_length (p x : string) :
  startsSolid p = true -> startsSolid x = true ->
  String.length p < String.length (trim (p ++ x)).
Proof.
  intros Hp Hx. destruct p as [|a p]; [discriminate|].
  destruct x as [|c r]; [discriminate|].
  cbn [startsSolid] in Hp, Hx.
  apply negb_true_iff in Hp. apply negb_true_iff in Hx.
  unfold trim.
  change (String a p ++ String c r) with (String a (p ++ String c r)).
  cbn [trimStart]. rewrite Hp.
  change (String a (p ++ String c r)) with (String a p ++ String c r).
  apply trimEnd_solid_length. exact Hx.
Qed.

End MoreStrings.

(** Case analysis on [inList x l = true] for a literal list [l]. *)
Ltac each_member H :=
  apply inList_In in H; cbn [In] in H;
  repeat (destruct H as [H|H]; [subst|]); [..|contradiction].

(** Two texts that differ at a character both have. *)
Ltac differ :=
  let H := fresh in intros H; vm_compute in H; discriminate.

Section Preferences.
Import Js.

Lemma preferences_bool_errors (preferences : UserPreferences.t) :
  InputProcessorImpl.validatePreferences preferences = true
  <-> ErrorHandler.validatePreferences preferences = [].
Proof.
  unfold InputProcessorImpl.validatePreferences, ErrorHandler.validatePreferences,
    ErrorHandler.validSpiceLevels, ErrorHandler.validDietary,
    ErrorHandler.validFormality, ErrorHandler.validRegions.
  cbv zeta.
  destruct (rejected (UserPreferences.spiceLevel preferences) _);
    destruct (rejected (UserPreferences.dietary preferences) _);
    destruct (rejected (UserPreferences.formality preferences) _);
    destruct (rejected (UserPreferences.region preferences) _);
    cbn; split; intros H; first [reflexivity | discriminate].
Qed.

(** X1.  The five preference validators agree.  ErrorHandler.validatePreferences
    returns no error, DropdownInterfaceImpl.validatePreferences does not
    throw, getPreferencesErrorMessage returns no message and
    ValidationService.validatePreferences reports valid, each of them exactly
    when InputProcessorImpl.validatePreferences returns true. *)
Theorem preference_validators_agree (preferences : UserPreferences.t) :
  let valid := InputProcessorImpl.validatePreferences preferences in
  (ErrorHandler.validatePreferences preferences = [] <-> valid = true)
  /\ (DropdownInterfaceImpl.validatePreferences preferences = None
      <-> valid = true)
  /\ (DropdownInterfaceImpl.getPreferencesErrorMessage preferences = []
      <-> valid = true)
  /\ ValidationService.isValid
       (ValidationService.validatePreferences preferences) = valid.
Proof.
  cbv zeta. split; [symmetry; apply preferences_bool_errors|].
  unfold InputProcessorImpl.validatePreferences,
    DropdownInterfaceImpl.validatePreferences,
    DropdownInterfaceImpl.getPreferencesErrorMessage,
    ValidationService.validatePreferences, ValidationService.resultOf,
    ValidationService.VALID_SPICE_LEVELS, ValidationService.VALID_DIETARY_PREFS,
    ValidationService.VALID_FORMALITY_LEVELS, ValidationService.VALID_REGIONS.
  cbv zeta.
  destruct (rejected (UserPreferences.spiceLevel preferences) _);
    destruct (rejected (UserPreferences.dietary preferences) _);
    destruct (rejected (UserPreferences.formality preferences) _);
    destruct (rejected (UserPreferences.region preferences) _);
    cbn; (split; [|split]); try reflexivity;
    split; intros H; first [reflexivity | discriminate].
Qed.

End Preferences.

Section InputErrors.
Import Js.

Lemma startsSolid_app (a b : string) :
  startsSolid a = true -> startsSolid (a ++ b) = true.
Proof. destruct a; [discriminate|]. intros H. exact H. Qed.

Lemma longer_not_bare (x : string) :
  startsSolid x = true -> trim ("Invalid input provided. " ++ x) <> bare.
Proof.
  intros Hx Heq.
  pose proof (trim_solid_length "Invalid input provided. " x eq_refl Hx) as Hlen.
  rewrite Heq in Hlen. vm_compute in Hlen. lia.
Qed.

Lemma preference_errors_shown (preferences : UserPreferences.t) :
  (0 <? List.length (ErrorHandler.validatePreferences preferences))%nat
  = negb (InputProcessorImpl.validatePreferences preferences).
Proof.
  destruct (InputProcessorImpl.validatePreferences preferences) eqn:E.
  - apply preferences_bool_errors in E. rewrite E. reflexivity.
  - destruct (ErrorHandler.validatePreferences preferences) eqn:E'; [|reflexivity].
    apply preferences_bool_errors in E'. congruence.
Qed.

Lemma input_error_message (input : UserInput.t) :
  CulturalError.message (ErrorHandler.createInputValidationError input) = bare
  <-> InputProcessorImpl.validateInput input = true.
Proof.
  destruct input as [category selection preferences].
  unfold ErrorHandler.createInputValidationError, InputProcessorImpl.validateInput,
    InputProcessorImpl.validCategories.
  cbn [UserInput.category UserInput.selection UserInput.preferences
       CulturalError.message].
  cbv zeta.
  destruct (truthy category) eqn:Hc; cbn [negb orb andb].
  2:{ split; [|discriminate]. intros H. exfalso.
      destruct (_ || _); destruct preferences as [p|];
        try rewrite preference_errors_shown in H;
        try destruct (InputProcessorImpl.validatePreferences p);
        cbn [negb] in H; rewrite ?append_assoc in H;
        revert H; apply longer_not_bare; reflexivity. }
  destruct (inList category _) eqn:Hl; cbn [negb].
  2:{ split; [|discriminate]. intros H. exfalso.
      destruct (_ || _); destruct preferences as [p|];
        try rewrite preference_errors_shown in H;
        try destruct (InputProcessorImpl.validatePreferences p);
        cbn [negb] in H; rewrite ?append_assoc in H;
        revert H; apply longer_not_bare; reflexivity. }
  destruct (negb (truthy selection) || String.eqb (trim selection) "") eqn:Hs.
  { split; [|discriminate]. intros H. exfalso.
    destruct preferences as [p|];
      try rewrite preference_errors_shown in H;
      try destruct (InputProcessorImpl.validatePreferences p);
      cbn [negb] in H; rewrite ?append_assoc in H;
      revert H; apply longer_not_bare; reflexivity. }
  destruct preferences as [p|]; [|split; reflexivity].
  rewrite preference_errors_shown.
  destruct (InputProcessorImpl.validatePreferences p); cbn [negb];
    [split; reflexivity|].
  split; [|discriminate]. intros H. exfalso.
  revert H; apply longer_not_bare; reflexivity.
Qed.

(** X2.  createInputValidationError names a reason exactly for the inputs that
    validateInput rejects: its message is the bare sentence
    [Invalid input provided.] if and only if InputProcessorImpl.validateInput
    accepts the input. *)
Theorem input_error_names_a_reason (input : UserInput.t) :
  CulturalError.message (ErrorHandler.createInputValidationError input) = bare
  <-> InputProcessorImpl.validateInput input = true.
Proof. apply input_error_message. Qed.

End InputErrors.


Section Dropdown.
Import Js DropdownInterfaceImpl.

Lemma In_inList (x : string) (l : list string) : In x l -> inList x l = true.
Proof.
  unfold inList. intros H. apply List.existsb_exists. exists x.
  split; [exact H | apply String.eqb_refl].
Qed.

Lemma inList_false_not_In (x : string) (l : list string) :
  inList x l = false -> ~ In x l.
Proof. intros H Hin. apply In_inList in Hin. congruence. Qed.

Lemma offered_is_trimmed (category selection : string) (options : list string) :
  member subcategories category = Own options ->
  inList selection options = true ->
  truthy selection = true /\ trim selection = selection.
Proof.
  intros Hm Hs. unfold member in Hm.
  destruct (ownEntry subcategories category) as [l|] eqn:Ho;
    [|destruct (inList category objectPrototypeNames); discriminate].
  injection Hm as ->.
  cbn [ownEntry subcategories] in Ho.
  repeat match type of Ho with
         | (if ?b then _ else _) = _ => destruct b
         end; try discriminate; injection Ho as <-;
    each_member Hs; split; vm_compute; reflexivity.
Qed.

Lemma valid_category_member (category : string) :
  isValidCategory category = true ->
  exists options, member subcategories category = Own options.
Proof.
  intros H. unfold isValidCategory, categories in H.
  each_member H; eexists; vm_compute; reflexivity.
Qed.

Lemma dropdown_preferences (preferences : UserPreferences.t) :
  validatePreferences preferences = None
  <-> InputProcessorImpl.validatePreferences preferences = true.
Proof.
  unfold InputProcessorImpl.validatePreferences, validatePreferences.
  cbv zeta.
  repeat match goal with
         | |- context [rejected ?v ?l] => destruct (rejected v l)
         end;
    split; intros H; first [reflexivity | discriminate].
Qed.

Lemma processSelection_char (category selection : string)
    (preferences : option UserPreferences.t) (input : UserInput.t) :
  processSelection category selection preferences = Ok input
  <-> (exists options,
          getSubcategories category = Ok options /\ In selection options)
      /\ admissible preferences = true
      /\ input = UserInput.mk category selection preferences.
Proof.
  unfold processSelection, getSubcategories.
  destruct (isValidCategory category) eqn:Hc; cbn [negb].
  2:{ split; [discriminate|]. intros [(options & H & _) _]. discriminate. }
  destruct (valid_category_member category Hc) as [options Hm]. rewrite Hm.
  destruct (inList selection options) eqn:Hs; cbn [negb].
  - destruct (offered_is_trimmed category selection options Hm Hs) as [Ht Htrim].
    rewrite Ht, Htrim. cbn [negb orb].
    replace (String.eqb selection "") with false
      by (destruct selection; [discriminate | reflexivity]).
    apply inList_In in Hs.
    destruct preferences as [given|]; cbn [admissible].
    + destruct (validatePreferences given) as [message|] eqn:Hp.
      * split; [discriminate|]. intros (_ & Hv & _).
        apply dropdown_preferences in Hv. congruence.
      * apply dropdown_preferences in Hp.
        split.
        -- intros H. injection H as <-.
           split; [exists options; split; [reflexivity | exact Hs]|].
           split; [exact Hp | reflexivity].
        -- intros (_ & _ & ->). reflexivity.
    + split.
      * intros H. injection H as <-.
        split; [exists options; split; [reflexivity | exact Hs]|].
        split; reflexivity.
      * intros (_ & _ & ->). reflexivity.
  - split.
    + destruct (negb (truthy selection) || String.eqb (trim selection) "");
        discriminate.
    + intros [(options' & H & Hin) _]. injection H as <-.
      apply In_inList in Hin. congruence.
Qed.

(** X3.  processSelection returns, rather than throws, exactly when the selection
    is one of the options getSubcategories offers for the category and the
    preferences, if any, pass validation; the input it returns holds the
    category, the selection and the preferences as given. *)
Theorem processSelection_accepts_offered (category selection : string)
    (preferences : option UserPreferences.t) (input : UserInput.t) :
  processSelection category selection preferences = Ok input
  <-> (exists options,
          getSubcategories category = Ok options /\ In selection options)
      /\ admissible preferences = true
      /\ input = UserInput.mk category selection preferences.
Proof. apply processSelection_char. Qed.

Lemma offered_passes_processor (category selection : string)
    (preferences : option UserPreferences.t) (options : list string) :
  getSubcategories category = Ok options -> In selection options ->
  admissible preferences = true ->
  InputProcessorImpl.validateInput (UserInput.mk category selection preferences)
  = true
  /\ trim selection = selection.
Proof.
  intros Hg Hin Hp. unfold getSubcategories in Hg.
  destruct (isValidCategory category) eqn:Hc; [|discriminate].
  cbn [negb] in Hg.
  destruct (member subcategories category) as [l| |] eqn:Hm; try discriminate.
  injection Hg as ->.
  destruct (offered_is_trimmed category selection options Hm (In_inList _ _ Hin))
    as [Ht Htrim].
  split; [|exact Htrim].
  unfold InputProcessorImpl.validateInput.
  cbn [UserInput.category UserInput.selection UserInput.preferences].
  unfold isValidCategory, categories in Hc.
  unfold InputProcessorImpl.validCategories. rewrite Hc.
  replace (truthy category) with true
    by (each_member Hc; reflexivity).
  rewrite Ht, Htrim. cbn [negb orb].
  replace (String.eqb selection "") with false
    by (destruct selection; [discriminate | reflexivity]).
  destruct preferences; [exact Hp | reflexivity].
Qed.

(** X4.  An input that processSelection returns passes validateInput, so
    enrichInput and inferIntent do not throw on it; the intent holds the
    category and the selection unchanged, the given preferences (the empty
    object when none were given) and the inferred context. *)
Theorem accepted_selection_flows (category selection : string)
    (preferences : option UserPreferences.t) (input : UserInput.t)
    (timestamp currentHour : Z) (sessionId : string) :
  processSelection category selection preferences = Ok input ->
  let enriched := InputProcessorImpl.mkEnriched input timestamp sessionId in
  let given :=
    match preferences with
    | Some given => given
    | None => UserPreferences.empty
    end in
  InputProcessorImpl.validateInput input = true
  /\ InputProcessorImpl.enrichInput input timestamp sessionId = Ok enriched
  /\ InputProcessorImpl.inferIntent enriched currentHour
     = Ok (UserIntent.mk category selection given
             (InputProcessorImpl.inferContext given currentHour)).
Proof.
  intros H. apply processSelection_char in H.
  destruct H as ((options & Hg & Hin) & Hp & ->).
  destruct (offered_passes_processor category selection preferences options
              Hg Hin Hp) as [Hv Htrim].
  cbv zeta. split; [exact Hv|].
  unfold InputProcessorImpl.enrichInput, InputProcessorImpl.inferIntent.
  cbn [InputProcessorImpl.input]. rewrite Hv. cbn [negb].
  split; [reflexivity|].
  cbn [UserInput.category UserInput.selection UserInput.preferences].
  rewrite Htrim. reflexivity.
Qed.

Lemma accepted_selection_flows_witness :
  processSelection "festival" "Ugadi" None
  = Ok (UserInput.mk "festival" "Ugadi" None)
  /\ InputProcessorImpl.inferIntent
       (InputProcessorImpl.mkEnriched (UserInput.mk "festival" "Ugadi" None)
          0%Z "session")
       18%Z
     = Ok (UserIntent.mk "festival" "Ugadi" UserPreferences.empty
             (UserIntent.mkContext None (Some "evening"))).
Proof.
  split; [reflexivity|].
  exact (proj2 (proj2 (accepted_selection_flows "festival" "Ugadi" None
                         (UserInput.mk "festival" "Ugadi" None) 0%Z 18%Z "session"
                         eq_refl))).
Defined.

(** X5.  DropdownInterfaceImpl.validateSelection reports valid exactly when
    processSelection returns.  A verdict with an error is invalid, the error
    has the code INVALID_INPUT, and its message is the bare sentence
    [Invalid input provided.] exactly when InputProcessorImpl.validateInput
    accepts the input: a well-formed selection that is not offered is
    rejected without a reason. *)
Theorem validateSelection_spec (category selection : string)
    (preferences : option UserPreferences.t) :
  let verdict := validateSelection category selection preferences in
  (InputProcessorImpl.isValid verdict = true
   <-> exists input, processSelection category selection preferences = Ok input)
  /\ match InputProcessorImpl.error verdict with
     | None => InputProcessorImpl.isValid verdict = true
     | Some error =>
         InputProcessorImpl.isValid verdict = false
         /\ CulturalError.code error = ErrorHandler.INVALID_INPUT
         /\ (CulturalError.message error = "Invalid input provided."
             <-> InputProcessorImpl.validateInput
                   (UserInput.mk category selection preferences) = true)
     end.
Proof.
  cbv zeta. unfold validateSelection.
  destruct (processSelection category selection preferences) as [input|message];
    cbn [InputProcessorImpl.isValid InputProcessorImpl.error].
  - split; [|reflexivity]. split; [intros _; eexists; reflexivity | reflexivity].
  - split.
    + split; [discriminate | intros [input H]; discriminate].
    + split; [reflexivity|]. split; [reflexivity|].
      replace (if truthy selection then selection else "") with selection
        by (destruct selection; reflexivity).
      apply input_error_message.
Qed.

End Dropdown.

Section Validation.
Import Js ValidationService.

Lemma trimStart_solid (s : string) :
  trimStart s = "" \/ startsSolid (trimStart s) = true.
Proof.
  induction s as [|c s IH]; [left; reflexivity|].
  cbn [trimStart]. destruct (isSpace c) eqn:Hc; [exact IH|].
  right. cbn [startsSolid]. rewrite Hc. reflexivity.
Qed.

Lemma trimEnd_solid (c : ascii) (r : string) :
  isSpace c = false -> exists r', trimEnd (String c r) = String c r'.
Proof.
  intros Hc. cbn [trimEnd]. rewrite Hc.
  destruct (trimEnd r); eexists; reflexivity.
Qed.

Lemma trim_solid (s : string) : trim s = "" \/ startsSolid (trim s) = true.
Proof.
  unfold trim. destruct (trimStart_solid s) as [H|H].
  - rewrite H. left. reflexivity.
  - destruct (trimStart s) as [|c r]; [discriminate|].
    cbn [startsSolid] in H. apply negb_true_iff in H.
    destruct (trimEnd_solid c r H) as [r' ->].
    right. cbn [startsSolid]. rewrite H. reflexivity.
Qed.

Lemma solid_trim_nonempty (s : string) :
  startsSolid s = true -> String.eqb (trim s) "" = false.
Proof.
  destruct s as [|c r]; [discriminate|]. cbn [startsSolid]. intros H.
  apply negb_true_iff in H. unfold trim. cbn [trimStart]. rewrite H.
  destruct (trimEnd_solid c r H) as [r' ->]. reflexivity.
Qed.

Lemma takeChars_length (n : nat) (s : string) :
  String.length (takeChars n s) <= n.
Proof.
  revert s. induction n as [|n IH]; intros [|c s]; cbn; try lia.
  specialize (IH s). lia.
Qed.

Lemma takeChars_solid (n : nat) (s : string) :
  startsSolid s = true -> startsSolid (takeChars (S n) s) = true.
Proof. destruct s; [discriminate|]. intros H. exact H. Qed.

Lemma same_preferences (preferences : option UserPreferences.t) :
  match preferences with
  | Some given =>
      Some {| UserPreferences.spiceLevel := UserPreferences.spiceLevel given;
              UserPreferences.dietary := UserPreferences.dietary given;
              UserPreferences.formality := UserPreferences.formality given;
              UserPreferences.region := UserPreferences.region given |}
  | None => None
  end = preferences.
Proof. destruct preferences as [[]|]; reflexivity. Qed.

(** X6.  sanitizeInput does not change what validateInput answers; the sanitized
    selection has at most 100 characters and is empty or starts with a
    character that is no whitespace; the category and the preferences are
    kept. *)
Theorem sanitizeInput_keeps_verdict (input : UserInput.t) :
  let clean := sanitizeInput input in
  InputProcessorImpl.validateInput clean = InputProcessorImpl.validateInput input
  /\ String.length (UserInput.selection clean) <= 100
  /\ (UserInput.selection clean = ""
      \/ startsSolid (UserInput.selection clean) = true)
  /\ UserInput.category clean = UserInput.category input
  /\ UserInput.preferences clean = UserInput.preferences input.
Proof.
  destruct input as [category selection preferences]. cbv zeta.
  unfold sanitizeInput.
  cbn [UserInput.category UserInput.selection UserInput.preferences].
  rewrite same_preferences.
  set (cut := takeChars 100 (trim selection)).
  replace (if truthy cut then cut else "") with cut by (destruct cut; reflexivity).
  assert (Hcut : (cut = "" /\ trim selection = "")
                 \/ (startsSolid cut = true /\ startsSolid (trim selection) = true)).
  { subst cut. destruct (trim_solid selection) as [H|H].
    - left. rewrite H. split; reflexivity.
    - right. split; [apply takeChars_solid|]; exact H. }
  split; [|split; [apply takeChars_length|split; [tauto|split; reflexivity]]].
  unfold InputProcessorImpl.validateInput.
  cbn [UserInput.category UserInput.selection UserInput.preferences].
  destruct (negb (truthy category) || negb (inList category _)); [reflexivity|].
  destruct Hcut as [[Hc Ht]|[Hc Ht]].
  - rewrite Hc, Ht. cbn. rewrite orb_true_r. reflexivity.
  - rewrite (solid_trim_nonempty cut Hc).
    assert (Hs : String.eqb (trim selection) "" = false)
      by (destruct (trim selection); [discriminate | reflexivity]).
    rewrite Hs.
    replace (truthy cut) with true by (destruct cut; [discriminate | reflexivity]).
    replace (truthy selection) with true
      by (destruct selection; [discriminate | reflexivity]).
    reflexivity.
Qed.

End Validation.

Section ValidationVerdict.
Import Js ValidationService.

Lemma service_preferences (preferences : UserPreferences.t) :
  Nat.eqb (List.length (errors (validatePreferences preferences))) 0
  = InputProcessorImpl.validatePreferences preferences.
Proof.
  unfold InputProcessorImpl.validatePreferences, validatePreferences, resultOf,
    VALID_SPICE_LEVELS, VALID_DIETARY_PREFS, VALID_FORMALITY_LEVELS, VALID_REGIONS.
  cbv zeta. cbn [errors].
  destruct (rejected (UserPreferences.spiceLevel preferences) _);
    destruct (rejected (UserPreferences.dietary preferences) _);
    destruct (rejected (UserPreferences.formality preferences) _);
    destruct (rejected (UserPreferences.region preferences) _);
    reflexivity.
Qed.

Lemma no_errors_app (a b : list string) :
  Nat.eqb (List.length (a ++ b)) 0
  = Nat.eqb (List.length a) 0 && Nat.eqb (List.length b) 0.
Proof. destruct a; reflexivity. Qed.

(** X7.  ValidationService.validateUserInput reports valid exactly when
    InputProcessorImpl.validateInput accepts the input, the selection has at
    most 100 characters, a slang selection has at least 2 and a festival
    selection at least 3. *)
Theorem validateUserInput_verdict (input : UserInput.t) :
  let size := String.length (UserInput.selection input) in
  isValid (validateUserInput input)
  = InputProcessorImpl.validateInput input
    && (size <=? 100)%nat
    && negb (String.eqb (UserInput.category input) "slang" && (size <? 2)%nat)
    && negb (String.eqb (UserInput.category input) "festival" && (size <? 3)%nat).
Proof.
  destruct input as [category selection preferences]. cbv zeta.
  unfold validateUserInput, InputProcessorImpl.validateInput,
    InputProcessorImpl.validCategories, VALID_CATEGORIES.
  cbn [UserInput.category UserInput.selection UserInput.preferences].
  cbv zeta.
  destruct (truthy category) eqn:Hc; cbn [negb orb andb].
  2:{ destruct preferences; cbn; rewrite ?no_errors_app; reflexivity. }
  destruct (inList category _) eqn:Hl; cbn [negb orb andb].
  2:{ destruct preferences; cbn; rewrite ?no_errors_app; reflexivity. }
  destruct (truthy selection) eqn:Hs; cbn [negb orb andb].
  2:{ destruct preferences; cbn; rewrite ?no_errors_app; reflexivity. }
  destruct (String.eqb (trim selection) "") eqn:Ht.
  { destruct preferences; cbn; rewrite ?no_errors_app; reflexivity. }
  rewrite (Nat.leb_antisym 100 (String.length selection)).
  assert (Hspec :
    Nat.eqb (List.length
               (errors (validateCategorySpecificInput
                          (UserInput.mk category selection preferences)))) 0
    = negb (String.eqb category "slang" && (String.length selection <? 2)%nat)
      && negb (String.eqb category "festival"
               && (String.length selection <? 3)%nat)).
  { unfold validateCategorySpecificInput.
    cbn [UserInput.category UserInput.selection]. cbv zeta. rewrite Hs.
    each_member Hl; cbn [String.eqb Ascii.eqb Bool.eqb andb negb];
      destruct (String.length selection <? 2)%nat;
      destruct (String.length selection <? 3)%nat; reflexivity. }
  destruct preferences as [given|].
  - unfold resultOf at 1. cbn [isValid].
    rewrite !no_errors_app, service_preferences, Hspec.
    destruct (100 <? String.length selection)%nat; cbn [negb andb List.length Nat.eqb];
      destruct (InputProcessorImpl.validatePreferences given); reflexivity.
  - unfold resultOf at 1. cbn [isValid].
    rewrite !no_errors_app, Hspec.
    destruct (100 <? String.length selection)%nat; reflexivity.
Qed.

End ValidationVerdict.

Section StoreContents.
Import Js CulturalDatabaseImpl.

Lemma setAll_recordsAll {A : Type} (key : A -> string) (P : A -> Prop)
    (entries : list A) (m : gmap string A) :
  Forall P entries -> recordsAll key P m -> recordsAll key P (setAll key entries m).
Proof.
  unfold setAll. revert m.
  induction entries as [|e entries IH]; intros m Hall Hm; cbn [List.fold_left];
    [exact Hm|].
  inversion Hall as [|? ? He Hrest]; subst. apply IH; [exact Hrest|].
  intros k v Hk. destruct (decide (toLowerCase (key e) = k)) as [<-|Hne].
  - rewrite lookup_insert_eq in Hk. injection Hk as <-. split; [exact He | reflexivity].
  - rewrite lookup_insert_ne in Hk by exact Hne. apply Hm. exact Hk.
Qed.

Lemma pushFood_lookup (m : gmap string (list FoodInfo.t)) (food : FoodInfo.t)
    (k : string) :
  pushFood m food !! k
  = if decide (toLowerCase (FoodInfo.city food) = k)
    then Some ((match m !! k with Some l => l | None => [] end) ++ [food])%list
    else m !! k.
Proof.
  unfold pushFood. cbv zeta.
  destruct (m !! toLowerCase (FoodInfo.city food)) as [l|] eqn:Hl.
  - rewrite Hl. destruct (decide _) as [<-|Hne].
    + rewrite lookup_insert_eq, Hl. reflexivity.
    + rewrite lookup_insert_ne by exact Hne. reflexivity.
  - rewrite lookup_insert_eq. destruct (decide _) as [<-|Hne].
    + rewrite lookup_insert_eq, Hl. reflexivity.
    + rewrite !lookup_insert_ne by exact Hne. reflexivity.
Qed.

Lemma groupFoods_foodsAll (P : FoodInfo.t -> Prop) (entries : list FoodInfo.t)
    (m : gmap string (list FoodInfo.t)) :
  Forall P entries -> foodsAll P m -> foodsAll P (groupFoods entries m).
Proof.
  unfold groupFoods. revert m.
  induction entries as [|e entries IH]; intros m Hall Hm; cbn [List.fold_left];
    [exact Hm|].
  inversion Hall as [|? ? He Hrest]; subst. apply IH; [exact Hrest|].
  intros k l f Hk Hf. rewrite pushFood_lookup in Hk.
  destruct (decide _) as [<-|Hne].
  - injection Hk as <-. apply List.in_app_or in Hf. destruct Hf as [Hf|Hf].
    + destruct (m !! toLowerCase (FoodInfo.city e)) as [l0|] eqn:Hl0;
        [|destruct Hf]. eapply Hm; eassumption.
    + destruct Hf as [<-|[]]. split; [exact He | reflexivity].
  - eapply Hm; eassumption.
Qed.

End StoreContents.

Section StoreInvariant.
Import Js CulturalDatabaseImpl.

Lemma parsed_valid (content : string) :
  let data := ProductMdParser.parseContent content in
  Forall (fun r => DataValidator.validateSlangInfo r = true) (slang data)
  /\ Forall (fun r => DataValidator.validateFoodInfo r = true) (food data)
  /\ Forall (fun r => DataValidator.validateFestivalInfo r = true) (festivals data)
  /\ Forall (fun r => DataValidator.validateEmotionFoodMapping r = true)
       (emotions data).
Proof.
  unfold ProductMdParser.parseContent. cbv zeta. cbn [slang food festivals emotions].
  split; [apply parseSlangTerms_valid|].
  split; [apply parseFoodLines_valid|].
  split; [apply parseFestivalLines_valid | apply parseEmotionLines_valid].
Qed.

Lemma hardcoded_valid :
  Forall (fun r => DataValidator.validateSlangInfo r = true) slangEntries
  /\ Forall (fun r => DataValidator.validateFoodInfo r = true) foodEntries
  /\ Forall (fun r => DataValidator.validateFestivalInfo r = true) festivalEntries
  /\ Forall (fun r => DataValidator.validateEmotionFoodMapping r = true)
       emotionMappings.
Proof. repeat split; repeat constructor. Qed.

Lemma initial_wellFormed : wellFormed initial.
Proof.
  unfold wellFormed, recordsAll, foodsAll. cbn.
  repeat split; intros;
    match goal with H : ∅ !! _ = Some _ |- _ => rewrite lookup_empty in H end;
    discriminate.
Qed.

Lemma loadHardcodedData_wellFormed (db : CulturalDatabaseImpl.t) :
  wellFormed db -> wellFormed (loadHardcodedData db).
Proof.
  intros (Hs & Hf & Hv & He).
  destruct hardcoded_valid as (Vs & Vf & Vv & Ve).
  unfold wellFormed, loadHardcodedData.
  cbn [slangData foodData festivalData emotionFoodData].
  split; [apply setAll_recordsAll; assumption|].
  split; [apply groupFoods_foodsAll; assumption|].
  split; apply setAll_recordsAll; assumption.
Qed.

Lemma loadFromParsedData_wellFormed (db : CulturalDatabaseImpl.t)
    (content : string) :
  wellFormed db ->
  wellFormed (loadFromParsedData db (ProductMdParser.parseContent content)).
Proof.
  intros (Hs & Hf & Hv & He).
  destruct (parsed_valid content) as (Vs & Vf & Vv & Ve).
  unfold wellFormed, loadFromParsedData.
  cbn [slangData foodData festivalData emotionFoodData].
  split; [apply setAll_recordsAll; assumption|].
  split; [apply groupFoods_foodsAll; assumption|].
  split; apply setAll_recordsAll; assumption.
Qed.

Lemma new_wellFormed (file : option string) : wellFormed (new file).
Proof.
  unfold new, loadCulturalData.
  assert (H : forall db, wellFormed db -> wellFormed (setLoaded db))
    by (intros db Hdb; exact Hdb).
  apply H. destruct file as [content|]; cbn [ProductMdParser.parseProductMd].
  - destruct (ProductMdParser.validateParsedData _).
    + apply loadFromParsedData_wellFormed, initial_wellFormed.
    + apply loadHardcodedData_wellFormed, loadFromParsedData_wellFormed,
        initial_wellFormed.
  - apply loadHardcodedData_wellFormed, initial_wellFormed.
Qed.

(** X8.  Whatever file the store is built from, every record a lookup returns
    passes the DataValidator check of its kind and is filed under its own
    name: the lower-cased term, festival name, emotion or city of the record
    is the lower-cased query. *)
Theorem store_serves_valid_records (file : option string) (query : string)
    (preferences : FoodPreferences) :
  let db := new file in
  match getSlangInfo db query with
  | Some r => DataValidator.validateSlangInfo r = true
              /\ toLowerCase (SlangInfo.term r) = toLowerCase query
  | None => True
  end
  /\ match getFestivalInfo db query with
     | Some r => DataValidator.validateFestivalInfo r = true
                 /\ toLowerCase (FestivalInfo.name r) = toLowerCase query
     | None => True
     end
  /\ match getEmotionFoodMapping db query with
     | Some r => DataValidator.validateEmotionFoodMapping r = true
                 /\ toLowerCase (EmotionFoodMapping.emotion r) = toLowerCase query
     | None => True
     end
  /\ Forall (fun r => DataValidator.validateFoodInfo r = true
                      /\ toLowerCase (FoodInfo.city r) = toLowerCase query)
       (getFoodInfo db query preferences).
Proof.
  cbv zeta. destruct (new_wellFormed file) as (Hs & Hf & Hv & He).
  unfold getSlangInfo, getFestivalInfo, getEmotionFoodMapping, getFoodInfo.
  rewrite new_isLoaded. cbn [negb].
  split; [destruct (slangData (new file) !! toLowerCase query) eqn:E;
          [eapply Hs; exact E | exact I]|].
  split; [destruct (festivalData (new file) !! toLowerCase query) eqn:E;
          [eapply Hv; exact E | exact I]|].
  split; [destruct (emotionFoodData (new file) !! toLowerCase query) eqn:E;
          [eapply He; exact E | exact I]|].
  cbv zeta. apply Forall_forall. intros f Hin.
  apply list_elem_of_In in Hin. apply List.filter_In in Hin. destruct Hin as [Hin _].
  destruct (foodData (new file) !! toLowerCase query) as [l|] eqn:E;
    [|destruct Hin].
  eapply Hf; eassumption.
Qed.

End StoreInvariant.

Section StoreRoundTrip.
Import Js CulturalDatabaseImpl.

Lemma noPreferences_filter (food : FoodInfo.t) : foodFilter noPreferences food = true.
Proof. reflexivity. Qed.

Lemma getFoodInfo_noPreferences (db : CulturalDatabaseImpl.t) (city : string) :
  isLoaded db = true -> getFoodInfo db city noPreferences = cityFoods db city.
Proof.
  intros H. unfold getFoodInfo, cityFoods. rewrite H. cbn [negb]. cbv zeta.
  induction (match foodData db !! toLowerCase city with
             | Some foods => foods | None => [] end) as [|f l IH];
    [reflexivity|].
  cbn [List.filter]. rewrite noPreferences_filter, IH. reflexivity.
Qed.

(** Arrays of the food map only grow under [groupFoods]. *)
Lemma groupFoods_grows (entries : list FoodInfo.t)
    (m : gmap string (list FoodInfo.t)) (k : string) (l : list FoodInfo.t) :
  m !! k = Some l ->
  exists l', groupFoods entries m !! k = Some l' /\ forall f, In f l -> In f l'.
Proof.
  unfold groupFoods. revert m l.
  induction entries as [|e entries IH]; intros m l Hk; cbn [List.fold_left].
  - exists l. split; [exact Hk | auto].
  - destruct (IH (pushFood m e)
                (if decide (toLowerCase (FoodInfo.city e) = k)
                 then (l ++ [e])%list else l)) as (l' & Hl' & Hsub).
    { rewrite pushFood_lookup, Hk. destruct (decide _); reflexivity. }
    exists l'. split; [exact Hl'|]. intros f Hf. apply Hsub.
    destruct (decide _); [apply List.in_or_app; left|]; exact Hf.
Qed.

Lemma groupFoods_member (entries : list FoodInfo.t)
    (m : gmap string (list FoodInfo.t)) (f : FoodInfo.t) :
  In f entries ->
  exists l, groupFoods entries m !! toLowerCase (FoodInfo.city f) = Some l
            /\ In f l.
Proof.
  unfold groupFoods. revert m.
  induction entries as [|e entries IH]; intros m Hin; [destruct Hin|].
  cbn [List.fold_left]. destruct Hin as [->|Hin]; [|apply IH; exact Hin].
  destruct (groupFoods_grows entries (pushFood m f) (toLowerCase (FoodInfo.city f))
              ((match m !! toLowerCase (FoodInfo.city f) with
                | Some l => l | None => [] end) ++ [f])%list) as (l' & Hl' & Hsub).
  { rewrite pushFood_lookup. destruct (decide _); [reflexivity | congruence]. }
  exists l'. split; [exact Hl'|]. apply Hsub, List.in_or_app. right. left.
  reflexivity.
Qed.

Lemma cityFoods_member (db : CulturalDatabaseImpl.t) (f : FoodInfo.t)
    (l : list FoodInfo.t) :
  foodData db !! toLowerCase (FoodInfo.city f) = Some l -> In f l ->
  In f (cityFoods db (FoodInfo.city f)).
Proof. intros Hl Hin. unfold cityFoods. rewrite Hl. exact Hin. Qed.

(** The records of a parsed document stay in the store the constructor
    builds, whether or not the hardcoded set is loaded over them. *)
Lemma parsed_food_kept (content : string) (f : FoodInfo.t) :
  In f (food (ProductMdParser.parseContent content)) ->
  In f (cityFoods (new (Some content)) (FoodInfo.city f)).
Proof.
  intros Hin. unfold new, loadCulturalData.
  cbn [ProductMdParser.parseProductMd].
  destruct (groupFoods_member (food (ProductMdParser.parseContent content))
              (foodData initial) f Hin) as (l & Hl & Hf).
  destruct (ProductMdParser.validateParsedData _).
  - eapply cityFoods_member; [|exact Hf]. exact Hl.
  - destruct (groupFoods_grows foodEntries _ _ _ Hl) as (l' & Hl' & Hsub).
    eapply cityFoods_member; [|apply Hsub; exact Hf]. exact Hl'.
Qed.

Lemma parsed_record_kept {A : Type} (key : A -> string) (entries extra : list A)
    (m : gmap string A) (e : A) (keep : bool) :
  In e entries ->
  is_Some ((if keep then setAll key entries m
            else setAll key extra (setAll key entries m))
           !! toLowerCase (key e)).
Proof.
  intros Hin. destruct keep; [apply setAll_member; exact Hin|].
  apply setAll_preserves, setAll_member. exact Hin.
Qed.

(** X9.  From document to store and back: every record the parser extracts from
    the document is answered by the lookup of its kind under its own name.
    A dish is among the dishes of its city when no preference is given; a
    slang, festival or emotion lookup returns a record of the same
    lower-cased name. *)
Theorem parsed_records_are_served (content : string) :
  let db := new (Some content) in
  let data := ProductMdParser.parseContent content in
  Forall (fun r => exists r', getSlangInfo db (SlangInfo.term r) = Some r'
                              /\ toLowerCase (SlangInfo.term r')
                                 = toLowerCase (SlangInfo.term r))
    (slang data)
  /\ Forall (fun r => In r (getFoodInfo db (FoodInfo.city r) noPreferences))
       (food data)
  /\ Forall (fun r => exists r', getFestivalInfo db (FestivalInfo.name r) = Some r'
                                 /\ toLowerCase (FestivalInfo.name r')
                                    = toLowerCase (FestivalInfo.name r))
       (festivals data)
  /\ Forall (fun r => exists r',
                 getEmotionFoodMapping db (EmotionFoodMapping.emotion r) = Some r'
                 /\ toLowerCase (EmotionFoodMapping.emotion r')
                    = toLowerCase (EmotionFoodMapping.emotion r))
       (emotions data).
Proof.
  cbv zeta.
  destruct (new_wellFormed (Some content)) as (Hs & _ & Hv & He).
  unfold getSlangInfo, getFestivalInfo, getEmotionFoodMapping.
  rewrite new_isLoaded. cbn [negb].
  split; [|split; [|split]]; apply Forall_forall; intros r Hin;
    apply list_elem_of_In in Hin.
  - assert (Hsome : is_Some (slangData (new (Some content))
                             !! toLowerCase (SlangInfo.term r))).
    { unfold new, loadCulturalData. cbn [ProductMdParser.parseProductMd].
      destruct (ProductMdParser.validateParsedData _);
        cbn [setLoaded slangData loadFromParsedData loadHardcodedData].
      - apply (parsed_record_kept SlangInfo.term _ [] _ r true Hin).
      - apply (parsed_record_kept SlangInfo.term _ slangEntries _ r false Hin). }
    destruct Hsome as [r' Hr']. exists r'. split; [exact Hr'|].
    eapply Hs. exact Hr'.
  - rewrite getFoodInfo_noPreferences by apply new_isLoaded.
    apply parsed_food_kept. exact Hin.
  - assert (Hsome : is_Some (festivalData (new (Some content))
                             !! toLowerCase (FestivalInfo.name r))).
    { unfold new, loadCulturalData. cbn [ProductMdParser.parseProductMd].
      destruct (ProductMdParser.validateParsedData _);
        cbn [setLoaded festivalData loadFromParsedData loadHardcodedData].
      - apply (parsed_record_kept FestivalInfo.name _ [] _ r true Hin).
      - apply (parsed_record_kept FestivalInfo.name _ festivalEntries _ r false Hin). }
    destruct Hsome as [r' Hr']. exists r'. split; [exact Hr'|].
    eapply Hv. exact Hr'.
  - assert (Hsome : is_Some (emotionFoodData (new (Some content))
                             !! toLowerCase (EmotionFoodMapping.emotion r))).
    { unfold new, loadCulturalData. cbn [ProductMdParser.parseProductMd].
      destruct (ProductMdParser.validateParsedData _);
        cbn [setLoaded emotionFoodData loadFromParsedData loadHardcodedData].
      - apply (parsed_record_kept EmotionFoodMapping.emotion _ [] _ r true Hin).
      - apply (parsed_record_kept EmotionFoodMapping.emotion _ emotionMappings
                 _ r false Hin). }
    destruct Hsome as [r' Hr']. exists r'. split; [exact Hr'|].
    eapply He. exact Hr'.
Qed.

End StoreRoundTrip.

Section RequiredKeys.
Import Js CulturalDatabaseImpl.

(** A complete data set has a dish for every required city. *)
Lemma isComplete_city (data : ParsedCulturalData) (city : string) :
  DataValidator.isComplete data = true ->
  In city DataValidator.requiredCities ->
  exists f, In f (food data) /\ toLowerCase (FoodInfo.city f) = city.
Proof.
  unfold DataValidator.isComplete, DataValidator.completenessErrors.
  cbv zeta. intros Hlen Hcity. apply Nat.eqb_eq in Hlen.
  apply List.length_zero_iff_nil in Hlen.
  do 5 (apply List.app_eq_nil in Hlen; destruct Hlen as [_ Hlen]).
  apply List.map_eq_nil in Hlen.
  assert (Hin : inList city
                  (List.map (fun f => toLowerCase (FoodInfo.city f)) (food data))
                = true).
  { destruct (inList city _) eqn:Hi; [reflexivity|]. exfalso.
    assert (Hf : In city
              (List.filter
                 (fun city => negb (inList city
                    (List.map (fun f => toLowerCase (FoodInfo.city f)) (food data))))
                 DataValidator.requiredCities)).
    { apply List.filter_In. split; [exact Hcity | now rewrite Hi]. }
    rewrite Hlen in Hf. destruct Hf. }
  apply inList_In in Hin. apply List.in_map_iff in Hin.
  destruct Hin as (f & Hf & Hinf). exists f. split; assumption.
Qed.

Lemma hardcoded_has_emotion (mood : string) :
  In mood DataValidator.requiredEmotions ->
  exists e, In e emotionMappings
            /\ toLowerCase (EmotionFoodMapping.emotion e) = mood.
Proof.
  intros H.
  assert (Hall : List.forallb
            (fun mood =>
               List.existsb
                 (fun e => String.eqb (toLowerCase (EmotionFoodMapping.emotion e))
                             mood) emotionMappings)
            DataValidator.requiredEmotions = true) by reflexivity.
  rewrite List.forallb_forall in Hall. specialize (Hall mood H).
  apply List.existsb_exists in Hall. destruct Hall as (e & He & Heq).
  exists e. split; [exact He | apply String.eqb_eq; exact Heq].
Qed.

Lemma hardcoded_has_city (city : string) :
  In city DataValidator.requiredCities ->
  exists f, In f foodEntries /\ toLowerCase (FoodInfo.city f) = city.
Proof.
  intros H.
  assert (Hall : List.forallb
            (fun city =>
               List.existsb
                 (fun f => String.eqb (toLowerCase (FoodInfo.city f)) city)
                 foodEntries)
            DataValidator.requiredCities = true) by reflexivity.
  rewrite List.forallb_forall in Hall. specialize (Hall city H).
  apply List.existsb_exists in Hall. destruct Hall as (f & Hf & Heq).
  exists f. split; [exact Hf | apply String.eqb_eq; exact Heq].
Qed.

Lemma required_lowercase (key : string) :
  In key DataValidator.requiredEmotions \/ In key DataValidator.requiredCities ->
  toLowerCase key = key.
Proof.
  cbn [In DataValidator.requiredEmotions DataValidator.requiredCities].
  intros H. repeat (destruct H as [H|H]); subst; try reflexivity; destruct H.
Qed.

(** X10.  Whatever file the store is built from, each required emotion has a
    mapping and each required city has at least one dish when no preference
    is given. *)
Theorem required_keys_always_answered (file : option string) :
  Forall (fun mood => getEmotionFoodMapping (new file) mood <> None)
    DataValidator.requiredEmotions
  /\ Forall (fun city => getFoodInfo (new file) city noPreferences <> [])
       DataValidator.requiredCities.
Proof.
  split; apply Forall_forall; intros key Hkey; apply list_elem_of_In in Hkey.
  - unfold getEmotionFoodMapping. rewrite new_isLoaded. cbn [negb].
    rewrite (required_lowercase key (or_introl Hkey)).
    assert (Hsome : is_Some (emotionFoodData (new file) !! key));
      [|destruct Hsome as [v Hv]; congruence].
    destruct (hardcoded_has_emotion key Hkey) as (h & Hh & Hhk).
    unfold new, loadCulturalData.
    destruct file as [content|]; cbn [ProductMdParser.parseProductMd].
    + destruct (ProductMdParser.validateParsedData _) eqn:Hvalid;
        cbn [setLoaded emotionFoodData loadFromParsedData loadHardcodedData].
      * destruct (isComplete_emotion _ key Hvalid Hkey) as (e & He & Hek).
        rewrite <- Hek. apply setAll_member. exact He.
      * rewrite <- Hhk. apply setAll_member. exact Hh.
    + cbn [setLoaded emotionFoodData loadHardcodedData].
      rewrite <- Hhk. apply setAll_member. exact Hh.
  - rewrite getFoodInfo_noPreferences by apply new_isLoaded.
    unfold cityFoods. rewrite (required_lowercase key (or_intror Hkey)).
    assert (Hsome : exists l f, foodData (new file) !! key = Some l /\ In f l);
      [|destruct Hsome as (l & f & -> & Hf); intros ->; destruct Hf].
    destruct (hardcoded_has_city key Hkey) as (h & Hh & Hhk).
    unfold new, loadCulturalData.
    destruct file as [content|]; cbn [ProductMdParser.parseProductMd].
    + destruct (ProductMdParser.validateParsedData _) eqn:Hvalid;
        cbn [setLoaded foodData loadFromParsedData loadHardcodedData].
      * destruct (isComplete_city _ key Hvalid Hkey) as (f & Hf & Hfk).
        rewrite <- Hfk.
        destruct (groupFoods_member _ (foodData initial) f Hf) as (l & Hl & Hin).
        exists l, f. split; assumption.
      * rewrite <- Hhk.
        destruct (groupFoods_member foodEntries
                    (groupFoods (food (ProductMdParser.parseContent content))
                       (foodData initial)) h Hh) as (l & Hl & Hin).
        exists l, h. split; assumption.
    + cbn [setLoaded foodData loadHardcodedData]. rewrite <- Hhk.
      destruct (groupFoods_member foodEntries (foodData initial) h Hh)
        as (l & Hl & Hin).
      exists l, h. split; assumption.
Qed.

End RequiredKeys.

Section RespectsPreferences.
Import Js CulturalDatabaseImpl.

Lemma valid_food_ranked (food : FoodInfo.t) :
  DataValidator.validateFoodInfo food = true ->
  exists rank, spiceLevels (FoodInfo.spiceLevel food) = Some rank.
Proof.
  unfold DataValidator.validateFoodInfo. intros H.
  apply andb_true_iff in H. destruct H as [H _].
  apply andb_true_iff in H. destruct H as [_ H].
  apply inList_In in H. cbn [In] in H.
  repeat (destruct H as [H|H]; [rewrite <- H; eexists; reflexivity|]).
  destruct H.
Qed.

(** X11.  Every dish getFoodInfo returns respects the preferences: its name holds
    no chicken for veg and holds chicken for non-veg; when the requested
    spice level has a rank, the dish has a rank and it is not above; when a
    time of day is requested, the table lists times for it and the best time
    of the dish contains one of them. *)
Theorem getFoodInfo_respects_preferences (file : option string) (city : string)
    (preferences : FoodPreferences) (food : FoodInfo.t) :
  In food (getFoodInfo (new file) city preferences) ->
  (dietary preferences = Some "veg" -> hasChicken food = false)
  /\ (dietary preferences = Some "non-veg" -> hasChicken food = true)
  /\ (forall level rank,
        spiceLevel preferences = Some level -> spiceLevels level = Some rank ->
        exists foodRank,
          spiceLevels (FoodInfo.spiceLevel food) = Some foodRank
          /\ (foodRank <= rank)%Z)
  /\ (forall time,
        timeOfDay preferences = Some time -> time <> "" ->
        exists validTimes validTime,
          timeMapping (toLowerCase time) = Some validTimes
          /\ In validTime validTimes
          /\ includes (toLowerCase (FoodInfo.bestTime food))
               (toLowerCase validTime) = true).
Proof.
  intros Hin.
  assert (Hvalid : DataValidator.validateFoodInfo food = true).
  { destruct (new_wellFormed file) as (_ & Hf & _).
    unfold getFoodInfo in Hin. rewrite new_isLoaded in Hin. cbn [negb] in Hin.
    apply List.filter_In in Hin. destruct Hin as [Hin _].
    destruct (foodData (new file) !! toLowerCase city) as [l|] eqn:E;
      [|destruct Hin].
    eapply Hf; eassumption. }
  unfold getFoodInfo in Hin. rewrite new_isLoaded in Hin. cbn [negb] in Hin.
  apply List.filter_In in Hin. destruct Hin as [_ Hfilter].
  unfold foodFilter in Hfilter.
  destruct preferences as [dietary spice time]. cbn [CulturalDatabaseImpl.dietary
    CulturalDatabaseImpl.spiceLevel CulturalDatabaseImpl.timeOfDay] in *.
  split; [|split; [|split]].
  - intros ->. cbn [isPreference] in Hfilter.
    change (String.eqb "veg" "veg") with true in Hfilter. cbn [andb] in Hfilter.
    destruct (hasChicken food); [discriminate | reflexivity].
  - intros ->. cbn [isPreference] in Hfilter.
    change (String.eqb "non-veg" "veg") with false in Hfilter.
    change (String.eqb "non-veg" "non-veg") with true in Hfilter.
    cbn [andb] in Hfilter.
    destruct (hasChicken food); [reflexivity | discriminate].
  - intros level rank -> Hrank.
    destruct (valid_food_ranked food Hvalid) as [foodRank HfoodRank].
    exists foodRank. split; [exact HfoodRank|].
    destruct (isPreference dietary "veg" && hasChicken food); [discriminate|].
    destruct (isPreference dietary "non-veg" && negb (hasChicken food)) eqn:Hnv.
    { apply andb_true_iff in Hnv. destruct Hnv as [_ Hnv].
      rewrite Hfilter in Hnv. discriminate. }
    cbv zeta in Hfilter. rewrite Hrank, HfoodRank in Hfilter.
    cbn [lessThan] in Hfilter.
    destruct (rank <? foodRank)%Z eqn:Hlt; [discriminate|].
    apply Z.ltb_ge in Hlt. exact Hlt.
  - intros t -> Hne.
    destruct (isPreference dietary "veg" && hasChicken food); [discriminate|].
    destruct (isPreference dietary "non-veg" && negb (hasChicken food)) eqn:Hnv.
    { apply andb_true_iff in Hnv. destruct Hnv as [_ Hnv].
      rewrite Hfilter in Hnv. discriminate. }
    cbv zeta in Hfilter.
    destruct (lessThan _ _); [discriminate|].
    unfold timeAllows in Hfilter. cbn [CulturalDatabaseImpl.timeOfDay] in Hfilter.
    replace (truthy t) with true in Hfilter
      by (destruct t; [congruence | reflexivity]).
    cbv zeta in Hfilter.
    destruct (timeMapping (toLowerCase t)) as [validTimes|].
    + destruct (List.existsb _ validTimes) eqn:Hex; [|discriminate].
      apply List.existsb_exists in Hex. destruct Hex as (validTime & Hv & Hinc).
      exists validTimes, validTime. repeat split; assumption.
    + discriminate.
Qed.

Lemma getFoodInfo_respects_preferences_witness :
  let preferences := mkPreferences (Some "veg") (Some "medium") (Some "Evening") in
  let food := FoodInfo.mk "Punugulu" "Visakhapatnam" "medium" "Evening"
                "Deep-fried lentil balls, crispy outside and soft inside"
                (Some "Popular evening snack near beach areas") in
  In food (getFoodInfo (new None) "Visakhapatnam" preferences)
  /\ hasChicken food = false.
Proof.
  cbv zeta. split; [vm_compute; tauto|].
  refine (proj1 (getFoodInfo_respects_preferences None "Visakhapatnam"
                   (mkPreferences (Some "veg") (Some "medium") (Some "Evening"))
                   _ _) eq_refl).
  vm_compute. tauto.
Defined.

End RespectsPreferences.

Section NoHeadings.
Import Js ProductMdParser CulturalDatabaseImpl.

Lemma afterFirst_absent (marker s : string) :
  includes s marker = false -> afterFirst marker s = None.
Proof.
  induction s as [|c s IH]; cbn [includes afterFirst]; intros H;
    apply orb_false_iff in H; destruct H as [H1 H2]; rewrite H1;
    [reflexivity | apply IH; exact H2].
Qed.

(** X12.  A document that contains none of the four section headings parses to
    four empty lists, and the store built from it is exactly the hardcoded
    store. *)
Theorem document_without_headings (content : string) :
  Forall (fun heading => includes content heading = false) sectionHeadings ->
  parseContent content = mkParsed [] [] [] []
  /\ new (Some content) = hardcoded.
Proof.
  intros H. unfold sectionHeadings in H.
  repeat match goal with
         | H : Forall _ (_ :: _) |- _ =>
             let H1 := fresh "H" in
             apply Forall_cons in H; destruct H as [H1 H]
         end.
  assert (Hparse : parseContent content = mkParsed [] [] [] []).
  { unfold parseContent, extractSections, section. cbv zeta.
    rewrite !afterFirst_absent by assumption. reflexivity. }
  split; [exact Hparse|].
  unfold new, loadCulturalData. cbn [parseProductMd]. rewrite Hparse.
  reflexivity.
Qed.

Lemma document_without_headings_witness :
  Forall (fun heading => includes "Andhra notes" heading = false) sectionHeadings
  /\ new (Some "Andhra notes") = hardcoded.
Proof.
  split; [repeat constructor|].
  refine (proj2 (document_without_headings "Andhra notes" _)).
  repeat constructor.
Defined.

End NoHeadings.

Section MoodExplanations.
Import Js EmotionFoodMapperImpl.

Lemma moods_decide (key : string) : In key moods \/ ~ In key moods.
Proof.
  destruct (inList key moods) eqn:H.
  - left. apply inList_In. exact H.
  - right. apply inList_false_not_In. exact H.
Qed.

Lemma known_mood (key : string) (mapping : Mapping) :
  emotionMappings !! key = Some mapping -> In key moods.
Proof.
  intros H. destruct (moods_decide key) as [Hin|Hout]; [exact Hin|].
  rewrite (emotionMappings_unknown key Hout) in H. discriminate.
Qed.

Lemma moods_known (key : string) :
  In key moods -> is_Some (emotionMappings !! key).
Proof.
  intros Hin. cbn [In moods] in Hin.
  repeat (destruct Hin as [<-|Hin]; [vm_compute; eexists; reflexivity|]).
  destruct Hin.
Qed.


(** X13.  explainEmotionalLogic always returns a text: the explanation stored for
    the mood when the mood is one of the five table keys and the food is,
    letter case aside, the food mapped to that mood, and the balance sentence
    otherwise.  The tradition sentence of its last line is never returned. *)
Theorem explainEmotionalLogic_spec (emotion food : string) :
  let key := trim (toLowerCase emotion) in
  let matched :=
    match emotionMappings !! key with
    | Some mapping =>
        String.eqb (toLowerCase (m_food mapping)) (toLowerCase food)
    | None => false
    end in
  (exists text,
      explainEmotionalLogic emotion food = Some text
      /\ (if matched then ownEntry explanations key = Some text
          else text = balanceSentence emotion))
  /\ (forall anyEmotion,
        explainEmotionalLogic emotion food <> Some (traditionSentence anyEmotion))
  /\ (matched = true <->
      In key moods
      /\ toLowerCase food
         = toLowerCase (EmotionFoodMapperImpl.food (mapEmotionToFood emotion))).
Proof.
  cbv zeta. unfold explainEmotionalLogic, mapEmotionToFood. cbv zeta.
  destruct (emotionMappings !! trim (toLowerCase emotion)) as [mapping|] eqn:Hm.
  - pose proof (known_mood _ _ Hm) as Hin.
    cbn [EmotionFoodMapperImpl.food].
    destruct (String.eqb (toLowerCase (m_food mapping)) (toLowerCase food)) eqn:He;
      cbn [negb].
    + assert (Hown : exists text,
                 member explanations (trim (toLowerCase emotion)) = Own text
                 /\ ownEntry explanations (trim (toLowerCase emotion)) = Some text
                 /\ truthy text = true
                 /\ String.prefix "This c" text = false).
      { revert Hin. generalize (trim (toLowerCase emotion)). intros key Hin.
        cbn [In moods] in Hin.
        repeat (destruct Hin as [<-|Hin];
                [eexists; split; [vm_compute; reflexivity|];
                 split; [vm_compute; reflexivity|]; split; reflexivity|]).
        destruct Hin. }
      destruct Hown as (text & -> & Hown & Ht & Hp). rewrite Ht.
      split; [exists text; split; [reflexivity | exact Hown]|].
      split.
      * intros anyEmotion H. injection H as H.
        apply (f_equal (String.prefix "This c")) in H. rewrite Hp in H.
        vm_compute in H. discriminate.
      * split; [intros _|reflexivity].
        split; [exact Hin|]. apply String.eqb_eq in He. symmetry. exact He.
    + split; [eexists; split; reflexivity|].
      split; [intros anyEmotion; differ|].
      split; [discriminate|]. intros [_ H]. rewrite H in He.
      rewrite String.eqb_refl in He. discriminate.
  - split; [eexists; split; reflexivity|].
    split; [intros anyEmotion; differ|].
    split; [discriminate|]. intros [Hin _].
    apply moods_known in Hin. destruct Hin as [v Hv]. congruence.
Qed.

End MoodExplanations.


Section MoodPreferences.
Import Js EmotionFoodMapperImpl.

Lemma extends_refl (a : string) : extends a a.
Proof. exists "". symmetry. apply append_nil_r. Qed.

Lemma extends_app (a b : string) : extends a (a ++ b).
Proof. exists b. reflexivity. Qed.

Lemma extends_trans (a b c : string) : extends a b -> extends b c -> extends a c.
Proof.
  intros [x ->] [y ->]. exists (x ++ y). apply append_assoc.
Qed.

Lemma mapEmotionToFood_dish (emotion : string) :
  In (food (mapEmotionToFood emotion)) dishes
  /\ In (spiceLevel (mapEmotionToFood emotion)) ["low"; "medium"; "high"].
Proof.
  unfold mapEmotionToFood. cbv zeta.
  destruct (emotionMappings !! trim (toLowerCase emotion)) as [mapping|] eqn:Hm;
    [|cbn; tauto].
  pose proof (known_mood _ _ Hm) as Hin. revert Hm Hin.
  generalize (trim (toLowerCase emotion)). intros key Hm Hin.
  cbn [In moods] in Hin.
  repeat (destruct Hin as [<-|Hin];
          [vm_compute in Hm; injection Hm as <-; cbn; tauto|]).
  destruct Hin.
Qed.

Lemma accepted_value (value : string) (admitted : list string) :
  rejected (Some value) admitted = false -> truthy value = true ->
  inList value admitted = true.
Proof.
  unfold rejected. intros H Ht. rewrite Ht in H. cbn [andb] in H.
  apply negb_false_iff in H. exact H.
Qed.

Lemma adaptForVegetarian_spec (r : FoodRecommendation) :
  In (food r) dishes ->
  exists r', adaptForVegetarian r = Some r'
             /\ food r' = vegetarianDish (food r)
             /\ extends (reasoning r) (reasoning r')
             /\ culturalContext r' = culturalContext r
             /\ spiceLevel r' = spiceLevel r.
Proof.
  intros Hin. unfold adaptForVegetarian, vegetarianDish.
  destruct r as [dish why context spice]. cbn [food reasoning culturalContext
    spiceLevel] in *.
  cbn [In dishes] in Hin.
  repeat (destruct Hin as [<-|Hin];
          [vm_compute member; cbn [truthy];
           eexists; split; [reflexivity|];
           cbn [food reasoning culturalContext spiceLevel];
           split; [reflexivity|];
           split; [first [apply extends_refl | apply extends_app]|];
           split; reflexivity|]).
  destruct Hin.
Qed.

Lemma adaptForSpiceLevel_spec (r : FoodRecommendation) (preferredSpice : string) :
  inList preferredSpice ["low"; "medium"; "high"; "extreme"] = true ->
  exists r', adaptForSpiceLevel r preferredSpice = Some r'
             /\ spiceLevel r' = preferredSpice
             /\ extends (food r) (food r')
             /\ extends (reasoning r) (reasoning r')
             /\ culturalContext r' = culturalContext r.
Proof.
  intros Hin. unfold adaptForSpiceLevel.
  destruct (String.eqb (spiceLevel r) preferredSpice) eqn:He.
  - apply String.eqb_eq in He. exists r. split; [reflexivity|].
    split; [exact He|]. split; [apply extends_refl|].
    split; [apply extends_refl | reflexivity].
  - cbv zeta. each_member Hin; vm_compute member;
      (eexists; split; [reflexivity|];
       cbn [food reasoning culturalContext spiceLevel];
       split; [reflexivity|]; split; [apply extends_app|];
       split; [apply extends_app | reflexivity]).
Qed.

Lemma adaptForRegion_spec (r : FoodRecommendation) (region : string) :
  inList region ["coastal"; "guntur"; "rayalaseema"] = true ->
  exists r', adaptForRegion r region = Some r'
             /\ spiceLevel r' = spiceLevel r
             /\ extends (food r) (food r')
             /\ reasoning r' = reasoning r
             /\ extends (culturalContext r) (culturalContext r').
Proof.
  intros Hin. unfold adaptForRegion.
  each_member Hin; vm_compute member; cbn [truthy];
    (eexists; split; [reflexivity|];
     cbn [food reasoning culturalContext spiceLevel];
     split; [reflexivity|]; split; [apply extends_app|];
     split; [reflexivity | apply extends_app]).
Qed.

Lemma applyHomeVsStreetLogic_spec (r : FoodRecommendation)
    (preferences : UserPreferences.t) :
  let r' := applyHomeVsStreetLogic r preferences in
  spiceLevel r' = spiceLevel r /\ food r' = food r
  /\ extends (reasoning r) (reasoning r')
  /\ extends (culturalContext r) (culturalContext r').
Proof.
  cbv zeta. unfold applyHomeVsStreetLogic. cbv zeta.
  destruct (String.eqb (preferredSetting r) "home");
    [|destruct (String.eqb (preferredSetting r) "street")];
    cbn [food reasoning culturalContext spiceLevel];
    (split; [reflexivity|]; split; [reflexivity|];
     split; first [apply extends_app | apply extends_refl]).
Qed.

(** The three optional adaptation steps, in the order [considerPreferences]
    applies them to a recommendation of the mapper. *)
Lemma considerPreferences_steps (r0 : FoodRecommendation)
    (preferences : UserPreferences.t) :
  InputProcessorImpl.validatePreferences preferences = true ->
  In (food r0) dishes ->
  exists r1 r2 r3,
    (if isValue (UserPreferences.dietary preferences) "veg"
     then adaptForVegetarian r0 = Some r1 else r1 = r0)
    /\ (if present (UserPreferences.spiceLevel preferences)
        then exists s, UserPreferences.spiceLevel preferences = Some s
                       /\ inList s ["low"; "medium"; "high"; "extreme"] = true
                       /\ adaptForSpiceLevel r1 s = Some r2
        else r2 = r1)
    /\ (if present (UserPreferences.region preferences)
        then exists g, UserPreferences.region preferences = Some g
                       /\ inList g ["coastal"; "guntur"; "rayalaseema"] = true
                       /\ adaptForRegion r2 g = Some r3
        else r3 = r2)
    /\ considerPreferences r0 preferences
       = Some (applyHomeVsStreetLogic r3 preferences).
Proof.
  intros Hvalid Hdish.
  unfold InputProcessorImpl.validatePreferences in Hvalid. cbv zeta in Hvalid.
  destruct (rejected (UserPreferences.spiceLevel preferences) _) eqn:Hspice;
    [discriminate|].
  destruct (rejected (UserPreferences.dietary preferences) _); [discriminate|].
  destruct (rejected (UserPreferences.formality preferences) _); [discriminate|].
  destruct (rejected (UserPreferences.region preferences) _) eqn:Hregion;
    [discriminate|].
  clear Hvalid. unfold considerPreferences. cbv zeta.
  assert (H1 : exists r1,
             if isValue (UserPreferences.dietary preferences) "veg"
             then adaptForVegetarian r0 = Some r1 else r1 = r0).
  { destruct (isValue (UserPreferences.dietary preferences) "veg").
    - destruct (adaptForVegetarian_spec r0 Hdish) as (r1 & E & _).
      exists r1. exact E.
    - exists r0. reflexivity. }
  destruct H1 as (r1 & H1). exists r1.
  assert (E1 : (if isValue (UserPreferences.dietary preferences) "veg"
                then Some r0 ≫= adaptForVegetarian else Some r0) = Some r1).
  { destruct (isValue (UserPreferences.dietary preferences) "veg");
      [exact H1 | congruence]. }
  rewrite E1. clear E1.
  destruct (UserPreferences.spiceLevel preferences) as [s|] eqn:Es;
    cbn [present]; [destruct (truthy s) eqn:Hts|].
  - pose proof (accepted_value _ _ Hspice Hts) as Hs.
    destruct (adaptForSpiceLevel_spec r1 s Hs) as (r2 & E2 & _).
    cbn [mbind option_bind]. rewrite E2. exists r2.
    destruct (UserPreferences.region preferences) as [g|] eqn:Eg;
      cbn [present]; [destruct (truthy g) eqn:Htg|].
    + pose proof (accepted_value _ _ Hregion Htg) as Hg.
      destruct (adaptForRegion_spec r2 g Hg) as (r3 & E3 & _).
      cbn [mbind option_bind]. rewrite E3. exists r3.
      split; [exact H1|]. split; [exists s; auto|].
      split; [exists g; auto | reflexivity].
    + exists r2. split; [exact H1|]. split; [exists s; auto|].
      split; reflexivity.
    + exists r2. split; [exact H1|]. split; [exists s; auto|].
      split; reflexivity.
  - exists r1.
    destruct (UserPreferences.region preferences) as [g|] eqn:Eg;
      cbn [present]; [destruct (truthy g) eqn:Htg|].
    + pose proof (accepted_value _ _ Hregion Htg) as Hg.
      destruct (adaptForRegion_spec r1 g Hg) as (r3 & E3 & _).
      cbn [mbind option_bind]. rewrite E3. exists r3.
      split; [exact H1|]. split; [reflexivity|].
      split; [exists g; auto | reflexivity].
    + exists r1. split; [exact H1|]. repeat split; reflexivity.
    + exists r1. split; [exact H1|]. repeat split; reflexivity.
  - exists r1.
    destruct (UserPreferences.region preferences) as [g|] eqn:Eg;
      cbn [present]; [destruct (truthy g) eqn:Htg|].
    + pose proof (accepted_value _ _ Hregion Htg) as Hg.
      destruct (adaptForRegion_spec r1 g Hg) as (r3 & E3 & _).
      cbn [mbind option_bind]. rewrite E3. exists r3.
      split; [exact H1|]. split; [reflexivity|].
      split; [exists g; auto | reflexivity].
    + exists r1. split; [exact H1|]. repeat split; reflexivity.
    + exists r1. split; [exact H1|]. repeat split; reflexivity.
Qed.

(** X14.  For validated preferences considerPreferences returns a recommendation
    whose spice level is the requested one (the mapper's when none is
    requested), whose dish starts with the mapper's dish (with its vegetarian
    alternative for veg), and whose reasoning and cultural context start with
    the mapper's. *)
Theorem considerPreferences_honours (emotion : string)
    (preferences : UserPreferences.t) :
  InputProcessorImpl.validatePreferences preferences = true ->
  let recommendation := mapEmotionToFood emotion in
  let dish :=
    if isValue (UserPreferences.dietary preferences) "veg"
    then vegetarianDish (food recommendation) else food recommendation in
  exists adapted,
    considerPreferences recommendation preferences = Some adapted
    /\ spiceLevel adapted
       = orDefault (UserPreferences.spiceLevel preferences)
           (spiceLevel recommendation)
    /\ extends dish (food adapted)
    /\ extends (reasoning recommendation) (reasoning adapted)
    /\ extends (culturalContext recommendation) (culturalContext adapted).
Proof.
  intros Hvalid. cbv zeta.
  destruct (mapEmotionToFood_dish emotion) as [Hdish _].
  set (r0 := mapEmotionToFood emotion) in *.
  destruct (considerPreferences_steps r0 preferences Hvalid Hdish)
    as (r1 & r2 & r3 & H1 & H2 & H3 & ->).
  assert (S1 : spiceLevel r1 = spiceLevel r0
               /\ food r1 = (if isValue (UserPreferences.dietary preferences) "veg"
                             then vegetarianDish (food r0) else food r0)
               /\ extends (reasoning r0) (reasoning r1)
               /\ culturalContext r1 = culturalContext r0).
  { destruct (isValue (UserPreferences.dietary preferences) "veg").
    - destruct (adaptForVegetarian_spec r0 Hdish) as (r & E & Hf & Hr & Hc & Hs).
      rewrite H1 in E. injection E as <-. repeat split; assumption.
    - subst r1. repeat split; try reflexivity. apply extends_refl. }
  destruct S1 as (Hs1 & Hf1 & Hr1 & Hc1).
  assert (S2 : spiceLevel r2
               = orDefault (UserPreferences.spiceLevel preferences) (spiceLevel r0)
               /\ extends (food r1) (food r2)
               /\ extends (reasoning r1) (reasoning r2)
               /\ culturalContext r2 = culturalContext r1).
  { destruct (present (UserPreferences.spiceLevel preferences)) eqn:Hp.
    - destruct H2 as (s & Es & Hs & E).
      destruct (adaptForSpiceLevel_spec r1 s Hs) as (r & E' & Hsp & Hf & Hr & Hc).
      rewrite E in E'. injection E' as <-. rewrite Es in Hp |- *.
      cbn [present] in Hp. cbn [orDefault]. rewrite Hp.
      repeat split; assumption.
    - subst r2.
      replace (orDefault (UserPreferences.spiceLevel preferences) (spiceLevel r0))
        with (spiceLevel r0)
        by (destruct (UserPreferences.spiceLevel preferences) as [s|];
            [cbn [present] in Hp; cbn [orDefault]; rewrite Hp|]; reflexivity).
      repeat split; try assumption; try reflexivity; apply extends_refl. }
  destruct S2 as (Hs2 & Hf2 & Hr2 & Hc2).
  assert (S3 : spiceLevel r3 = spiceLevel r2
               /\ extends (food r2) (food r3)
               /\ reasoning r3 = reasoning r2
               /\ extends (culturalContext r2) (culturalContext r3)).
  { destruct (present (UserPreferences.region preferences)).
    - destruct H3 as (g & Eg & Hg & E).
      destruct (adaptForRegion_spec r2 g Hg) as (r & E' & Hsp & Hf & Hr & Hc).
      rewrite E in E'. injection E' as <-. repeat split; assumption.
    - subst r3. repeat split; try reflexivity; apply extends_refl. }
  destruct S3 as (Hs3 & Hf3 & Hr3 & Hc3).
  destruct (applyHomeVsStreetLogic_spec r3 preferences) as (Hs4 & Hf4 & Hr4 & Hc4).
  eexists. split; [reflexivity|].
  split; [congruence|].
  split; [rewrite Hf4, <- Hf1; eapply extends_trans; eassumption|].
  split.
  - eapply extends_trans; [exact Hr1|].
    eapply extends_trans; [exact Hr2|]. rewrite <- Hr3. exact Hr4.
  - eapply extends_trans; [|exact Hc4]. rewrite <- Hc1, <- Hc2. exact Hc3.
Qed.

Lemma considerPreferences_honours_witness :
  let preferences :=
    UserPreferences.mk (Some "low") (Some "veg") None (Some "guntur") in
  InputProcessorImpl.validatePreferences preferences = true
  /\ exists adapted,
       considerPreferences (mapEmotionToFood "Happy") preferences = Some adapted
       /\ spiceLevel adapted = "low"
       /\ extends "Veg Biryani with paneer" (food adapted).
Proof.
  cbv zeta. split; [reflexivity|].
  destruct (considerPreferences_honours "Happy"
              (UserPreferences.mk (Some "low") (Some "veg") None (Some "guntur"))
              eq_refl) as (adapted & H & Hs & Hf & _).
  exists adapted. split; [exact H|]. split; [exact Hs | exact Hf].
Defined.

End MoodPreferences.

Section WordsAcrossSpaces.
Import Js.

Lemma prefix_before_space (w x y : string) (sp : ascii) :
  isSpace sp = true -> spaceFree w = true ->
  String.prefix w (x ++ String sp y) = String.prefix w x.
Proof.
  intros Hsp. revert x. induction w as [|c w IH]; intros x Hw.
  - destruct x; reflexivity.
  - cbn [spaceFree allChars] in Hw. apply andb_true_iff in Hw.
    destruct Hw as [Hc Hw]. apply negb_true_iff in Hc.
    destruct x as [|d x].
    + change ("" ++ String sp y) with (String sp y). cbn [String.prefix].
      destruct (ascii_dec c sp) as [->|Hne]; [congruence | reflexivity].
    + change (String d x ++ String sp y) with (String d (x ++ String sp y)).
      cbn [String.prefix]. destruct (ascii_dec c d); [|reflexivity].
      apply IH. exact Hw.
Qed.

Lemma includes_nil (w : string) : w <> "" -> includes "" w = false.
Proof. destruct w; [congruence | reflexivity]. Qed.

Lemma includes_skip_space (sp : ascii) (y w : string) :
  isSpace sp = true -> spaceFree w = true -> w <> "" ->
  includes (String sp y) w = includes y w.
Proof.
  intros Hsp Hw Hne. cbn [includes]. unfold startsWith.
  destruct w as [|c w]; [congruence|].
  cbn [spaceFree allChars] in Hw. apply andb_true_iff in Hw.
  destruct Hw as [Hc _]. apply negb_true_iff in Hc.
  cbn [String.prefix]. destruct (ascii_dec c sp) as [->|_]; [congruence|].
  reflexivity.
Qed.

Lemma includes_across_space (x y w : string) (sp : ascii) :
  isSpace sp = true -> spaceFree w = true -> w <> "" ->
  includes (x ++ String sp y) w = includes x w || includes y w.
Proof.
  intros Hsp Hw Hne. induction x as [|d x IH].
  - change ("" ++ String sp y) with (String sp y).
    rewrite includes_skip_space, includes_nil by assumption. reflexivity.
  - change (String d x ++ String sp y) with (String d (x ++ String sp y)).
    cbn [includes]. unfold startsWith.
    change (String d (x ++ String sp y)) with (String d x ++ String sp y).
    rewrite prefix_before_space by assumption. rewrite IH.
    rewrite orb_assoc. reflexivity.
Qed.

Lemma includes_join (x y w : string) :
  startsBlank y = true -> spaceFree w = true -> w <> "" ->
  includes (x ++ y) w = includes x w || includes y w.
Proof.
  intros Hy Hw Hne. destruct y as [|sp y]; [discriminate|]. cbn in Hy.
  rewrite includes_across_space, includes_skip_space by assumption.
  reflexivity.
Qed.

Lemma includes_skip_blank (a y w : string) :
  blank a = true -> spaceFree w = true -> w <> "" ->
  includes (a ++ y) w = includes y w.
Proof.
  intros Ha Hw Hne. induction a as [|sp a IH]; [reflexivity|].
  cbn [blank allChars] in Ha. apply andb_true_iff in Ha. destruct Ha as [Hsp Ha].
  change (String sp a ++ y) with (String sp (a ++ y)).
  rewrite includes_skip_space by assumption. apply IH. exact Ha.
Qed.

Lemma blank_or_starts (b y : string) :
  blank b = true -> startsBlank y = true -> startsBlank (b ++ y) = true.
Proof.
  intros Hb Hy. destruct b as [|sp b]; [exact Hy|].
  cbn [blank allChars] in Hb. apply andb_true_iff in Hb. destruct Hb as [Hsp _].
  exact Hsp.
Qed.

(** A word free of whitespace occurs in a text padded by whitespace exactly
    when it occurs in one of its three parts. *)
Lemma includes_padded (x a k b y w : string) :
  blank a = true -> blank b = true -> startsBlank y = true ->
  spaceFree w = true -> w <> "" ->
  includes ((x ++ " ") ++ (a ++ k ++ b) ++ y) w
  = includes x w || includes k w || includes y w.
Proof.
  intros Ha Hb Hy Hw Hne.
  rewrite append_assoc.
  change (" " ++ (a ++ k ++ b) ++ y) with (String " "%char ((a ++ k ++ b) ++ y)).
  rewrite includes_across_space by (try reflexivity; assumption).
  rewrite !append_assoc.
  rewrite includes_skip_blank by assumption.
  rewrite includes_join by (try apply blank_or_starts; assumption).
  rewrite includes_skip_blank by assumption.
  rewrite orb_assoc. reflexivity.
Qed.

Lemma trimStart_decompose (s : string) :
  exists a, s = a ++ trimStart s /\ blank a = true.
Proof.
  induction s as [|c s (a & Hs & Ha)]; [exists ""; split; reflexivity|].
  cbn [trimStart]. destruct (isSpace c) eqn:Hc.
  - exists (String c a). split.
    + change (String c a ++ trimStart s) with (String c (a ++ trimStart s)).
      rewrite <- Hs. reflexivity.
    + cbn [blank allChars]. rewrite Hc. exact Ha.
  - exists "". split; reflexivity.
Qed.

Lemma trimEnd_decompose (s : string) :
  exists b, s = trimEnd s ++ b /\ blank b = true.
Proof.
  induction s as [|c s (b & Hs & Hb)]; [exists ""; split; reflexivity|].
  cbn [trimEnd]. destruct (trimEnd s) as [|d t] eqn:Ht.
  - destruct (isSpace c) eqn:Hc.
    + exists (String c b). split.
      * change ("" ++ String c b) with (String c b).
        change ("" ++ b) with b in Hs. rewrite <- Hs. reflexivity.
      * cbn [blank allChars]. rewrite Hc. exact Hb.
    + exists b. split; [|exact Hb].
      change (String c "" ++ b) with (String c ("" ++ b)). rewrite <- Hs.
      reflexivity.
  - exists b. split; [|exact Hb].
    change (String c (String d t) ++ b) with (String c (String d t ++ b)).
    rewrite <- Hs. reflexivity.
Qed.

Lemma trim_decompose (s : string) :
  exists a b, s = a ++ trim s ++ b /\ blank a = true /\ blank b = true.
Proof.
  destruct (trimStart_decompose s) as (a & Hs & Ha).
  destruct (trimEnd_decompose (trimStart s)) as (b & Ht & Hb).
  exists a, b. split; [|split; assumption].
  unfold trim. rewrite <- Ht. exact Hs.
Qed.

End WordsAcrossSpaces.

Section HomeOrStreet.
Import Js EmotionFoodMapperImpl.

Lemma settingWords_plain (w : string) :
  In w settingWords -> spaceFree w = true /\ w <> "".
Proof.
  intros H. cbn in H.
  repeat (destruct H as [<-|H]; [split; [reflexivity | discriminate]|]).
  destruct H.
Qed.

Lemma quiet_spec (s : string) :
  quiet s = true <-> forall w, In w settingWords -> includes s w = false.
Proof.
  unfold quiet. rewrite List.forallb_forall. split; intros H w Hw.
  - apply negb_true_iff. apply H. exact Hw.
  - apply negb_true_iff. apply H. exact Hw.
Qed.

Lemma quiet_app (x y : string) :
  quiet x = true -> quiet y = true -> startsBlank y = true ->
  quiet (x ++ y) = true.
Proof.
  rewrite !quiet_spec. intros Hx Hy Hb w Hw.
  destruct (settingWords_plain w Hw) as [Hfree Hne].
  rewrite includes_join by assumption. rewrite Hx, Hy by assumption.
  reflexivity.
Qed.

Lemma quietTail_app (t u : string) :
  quietTail t -> startsBlank u = true -> quiet u = true -> quietTail (t ++ u).
Proof.
  intros [->|[Hb Hq]] Hu Hqu; right.
  - split; assumption.
  - split; [destruct t; [discriminate | exact Hb]|].
    apply quiet_app; assumption.
Qed.

Lemma shaped_vegetarian (context0 : string) (r r' : FoodRecommendation) :
  shaped context0 r -> adaptForVegetarian r = Some r' -> shaped context0 r'.
Proof.
  intros [Hc Hr] H. unfold adaptForVegetarian in H.
  destruct (member vegAlternatives (food r)) as [v| |]; [|discriminate|].
  - destruct (truthy v); injection H as <-; [|split; assumption].
    split; [exact Hc|]. cbn [reasoning]. rewrite toLowerCase_app.
    apply quiet_app; [exact Hr | reflexivity | reflexivity].
  - injection H as <-. split; assumption.
Qed.

Lemma shaped_spice (context0 : string) (r r' : FoodRecommendation)
    (preferredSpice : string) :
  inList preferredSpice ["low"; "medium"; "high"; "extreme"] = true ->
  shaped context0 r -> adaptForSpiceLevel r preferredSpice = Some r' ->
  shaped context0 r'.
Proof.
  intros Hin [Hc Hr] H. unfold adaptForSpiceLevel in H.
  destruct (String.eqb (spiceLevel r) preferredSpice);
    [injection H as <-; split; assumption|].
  cbv zeta in H.
  each_member Hin; vm_compute member in H; injection H as <-;
    (split; [exact Hc|]; cbn [reasoning]; rewrite toLowerCase_app;
     apply quiet_app; [exact Hr | reflexivity | reflexivity]).
Qed.

Lemma shaped_region (context0 : string) (r r' : FoodRecommendation)
    (region : string) :
  inList region ["coastal"; "guntur"; "rayalaseema"] = true ->
  shaped context0 r -> adaptForRegion r region = Some r' -> shaped context0 r'.
Proof.
  intros Hin [(tail & Hc & Ht) Hr] H. unfold adaptForRegion in H.
  each_member Hin; vm_compute member in H; cbn [truthy] in H; injection H as <-;
    (split; [|exact Hr]; cbn [culturalContext]; rewrite Hc;
     eexists; split; [apply append_assoc|];
     rewrite toLowerCase_app; apply quietTail_app;
     [exact Ht | reflexivity | reflexivity]).
Qed.

Lemma quiet_space (t : string) : quiet t = true -> quiet (" " ++ t) = true.
Proof.
  rewrite !quiet_spec. intros H w Hw.
  destruct (settingWords_plain w Hw) as [Hfree Hne].
  change (" " ++ t) with (String " "%char t).
  rewrite includes_skip_space by (try reflexivity; assumption).
  apply H. exact Hw.
Qed.

(** What follows the mood in the text the setting is read from. *)
Lemma after_mood_quiet (tail why : string) :
  quietTail tail -> quiet why = true ->
  startsBlank (tail ++ " " ++ why) = true /\ quiet (tail ++ " " ++ why) = true.
Proof.
  intros [->|[Hb Hq]] Hw.
  - split; [reflexivity | apply quiet_space; exact Hw].
  - split; [destruct tail; [discriminate | exact Hb]|].
    apply quiet_app; [exact Hq | apply quiet_space; exact Hw | reflexivity].
Qed.

Lemma existsb_same {A : Type} (f g : A -> bool) (l : list A) :
  (forall x, In x l -> f x = g x) -> List.existsb f l = List.existsb g l.
Proof.
  induction l as [|a l IH]; intros H; [reflexivity|]. cbn [List.existsb].
  rewrite (H a) by (left; reflexivity). rewrite IH; [reflexivity|].
  intros x Hx. apply H. right. exact Hx.
Qed.

(** The setting read from a text in which only the part [mood] may hold a
    setting word. *)
Lemma preferredSetting_of (r : FoodRecommendation) (text mood : string) :
  toLowerCase (culturalContext r) ++ " " ++ toLowerCase (reasoning r) = text ->
  (forall w, In w settingWords -> includes text w = includes mood w) ->
  preferredSetting r
  = if List.existsb (fun w => includes mood w) homeEmotions then "home"
    else if List.existsb (fun w => includes mood w) streetEmotions then "street"
    else "both".
Proof.
  intros Htext Hsame. unfold preferredSetting. cbv zeta. rewrite Htext.
  rewrite (existsb_same (fun emotion => includes text emotion)
             (fun w => includes mood w) homeEmotions)
    by (intros w Hw; apply Hsame; apply List.in_or_app; left; exact Hw).
  rewrite (existsb_same (fun emotion => includes text emotion)
             (fun w => includes mood w) streetEmotions)
    by (intros w Hw; apply Hsame; apply List.in_or_app; right; exact Hw).
  reflexivity.
Qed.

Lemma shaped_steps (context0 : string) (r0 r1 r2 r3 : FoodRecommendation)
    (preferences : UserPreferences.t) :
  shaped context0 r0 ->
  (if isValue (UserPreferences.dietary preferences) "veg"
   then adaptForVegetarian r0 = Some r1 else r1 = r0) ->
  (if present (UserPreferences.spiceLevel preferences)
   then exists s, UserPreferences.spiceLevel preferences = Some s
                  /\ inList s ["low"; "medium"; "high"; "extreme"] = true
                  /\ adaptForSpiceLevel r1 s = Some r2
   else r2 = r1) ->
  (if present (UserPreferences.region preferences)
   then exists g, UserPreferences.region preferences = Some g
                  /\ inList g ["coastal"; "guntur"; "rayalaseema"] = true
                  /\ adaptForRegion r2 g = Some r3
   else r3 = r2) ->
  shaped context0 r3.
Proof.
  intros H0 H1 H2 H3.
  assert (S1 : shaped context0 r1).
  { destruct (isValue _ _); [eapply shaped_vegetarian; eassumption | congruence]. }
  assert (S2 : shaped context0 r2).
  { destruct (present (UserPreferences.spiceLevel preferences));
      [|congruence].
    destruct H2 as (s & _ & Hs & E). eapply shaped_spice; eassumption. }
  destruct (present (UserPreferences.region preferences)); [|congruence].
  destruct H3 as (g & _ & Hg & E). eapply shaped_region; eassumption.
Qed.

(** X15.  For validated preferences the setting applyHomeVsStreetLogic picks at
    the end of considerPreferences depends on the mood alone: home for sad,
    sick and angry, street for happy and tired, both otherwise.  The texts
    the adaptation steps add never change it. *)
Theorem home_or_street_by_mood (emotion : string)
    (preferences : UserPreferences.t) :
  InputProcessorImpl.validatePreferences preferences = true ->
  exists before,
    considerPreferences (mapEmotionToFood emotion) preferences
    = Some (applyHomeVsStreetLogic before preferences)
    /\ preferredSetting before = settingOf (trim (toLowerCase emotion)).
Proof.
  intros Hvalid.
  destruct (mapEmotionToFood_dish emotion) as [Hdish _].
  destruct (considerPreferences_steps _ preferences Hvalid Hdish)
    as (r1 & r2 & r3 & H1 & H2 & H3 & E).
  exists r3. split; [exact E|]. clear E.
  destruct (trim_decompose (toLowerCase emotion)) as (a & b & Hlow & Ha & Hb).
  revert Hdish H1 H2 H3 Hlow. unfold mapEmotionToFood. cbv zeta.
  destruct (emotionMappings !! trim (toLowerCase emotion)) as [mapping|] eqn:Hm.
  - pose proof (known_mood _ _ Hm) as Hin. revert Hm Hin.
    generalize (trim (toLowerCase emotion)). intros key Hm Hin.
    intros _ H1 H2 H3 Hlow.
    assert (Hshape : forall dish x,
      toLowerCase ("In Andhra culture, food is emotional medicine - " ++ dish
                   ++ " is perfect for when you're feeling") = x ->
      quiet x = true ->
      forall r, shaped ("In Andhra culture, food is emotional medicine - " ++ dish
                        ++ " is perfect for when you're feeling " ++ emotion) r ->
      forall w, In w settingWords ->
        includes (toLowerCase (culturalContext r) ++ " "
                  ++ toLowerCase (reasoning r)) w
        = includes key w).
    { intros dish x Ex Hx r [(tail & Hc & Ht) Hr] w Hw.
      destruct (settingWords_plain w Hw) as [Hfree Hne].
      destruct (after_mood_quiet _ _ Ht Hr) as [Hsb Hsq].
      rewrite Hc.
      replace ("In Andhra culture, food is emotional medicine - " ++ dish
               ++ " is perfect for when you're feeling " ++ emotion)
        with ((("In Andhra culture, food is emotional medicine - " ++ dish
                ++ " is perfect for when you're feeling") ++ " ") ++ emotion)
        by (rewrite !append_assoc; reflexivity).
      revert Ex.
      set (P := "In Andhra culture, food is emotional medicine - " ++ dish
                ++ " is perfect for when you're feeling").
      intros Ex.
      rewrite (toLowerCase_app ((P ++ " ") ++ emotion) tail),
        (toLowerCase_app (P ++ " ") emotion), (toLowerCase_app P " "), Ex, Hlow.
      change (toLowerCase " ") with " ".
      rewrite (append_assoc ((x ++ " ") ++ a ++ key ++ b)).
      rewrite (append_assoc (x ++ " ") (a ++ key ++ b)).
      rewrite includes_padded by assumption.
      rewrite quiet_spec in Hx, Hsq. rewrite Hx, Hsq by assumption.
      rewrite orb_false_r. reflexivity. }
    cbn [In moods] in Hin.
    repeat (destruct Hin as [<-|Hin];
      [vm_compute in Hm; injection Hm as <-;
       cbn [m_food m_reasoning m_spiceLevel] in *;
       match type of H1 with
       | context [adaptForVegetarian ?r0] =>
           let S0 := fresh "S0" in
           let S3 := fresh "S3" in
           assert (S0 : shaped (culturalContext r0) r0)
             by (split; [exists ""; split;
                         [symmetry; apply append_nil_r | left; reflexivity]
                        | reflexivity]);
           pose proof (shaped_steps _ r0 r1 r2 r3 preferences S0 H1 H2 H3) as S3;
           cbn [culturalContext] in S3;
           rewrite (preferredSetting_of r3 _ _ eq_refl
                      (Hshape (food r0) _ eq_refl eq_refl r3 S3))
       end;
       reflexivity|]).
    destruct Hin.
  - intros _ H1 H2 H3 _.
    assert (Hout : ~ In (trim (toLowerCase emotion)) moods).
    { intros Hin. apply moods_known in Hin. destruct Hin as [v Hv]. congruence. }
    assert (Hset : settingOf (trim (toLowerCase emotion)) = "both").
    { unfold settingOf.
      destruct (inList _ homeEmotions) eqn:Hh;
        [exfalso; apply Hout; apply inList_In in Hh; cbn in Hh |- *; tauto|].
      destruct (inList _ streetEmotions) eqn:Hs;
        [exfalso; apply Hout; apply inList_In in Hs; cbn in Hs |- *; tauto|].
      reflexivity. }
    rewrite Hset.
    match type of H1 with
    | context [adaptForVegetarian ?r0] =>
        assert (S0 : shaped (culturalContext r0) r0)
          by (split; [exists ""; split; [reflexivity | left; reflexivity]
                     | reflexivity]);
        pose proof (shaped_steps _ r0 r1 r2 r3 preferences S0 H1 H2 H3)
          as [(tail & Hc & Ht) Hr]
    end.
    cbn [culturalContext] in Hc.
    rewrite (preferredSetting_of r3 _ "" eq_refl); [reflexivity|].
    intros w Hw. destruct (settingWords_plain w Hw) as [Hfree Hne].
    destruct (after_mood_quiet _ _ Ht Hr) as [Hsb Hsq].
    rewrite Hc, toLowerCase_app, append_assoc.
    rewrite includes_join by assumption.
    rewrite quiet_spec in Hsq. rewrite Hsq by assumption.
    rewrite orb_false_r, (includes_nil w Hne).
    apply (proj1 (quiet_spec _)); [reflexivity | exact Hw].
Qed.

Lemma home_or_street_by_mood_witness :
  let preferences :=
    UserPreferences.mk (Some "extreme") None None (Some "guntur") in
  InputProcessorImpl.validatePreferences preferences = true
  /\ exists before,
       considerPreferences (mapEmotionToFood " Tired ") preferences
       = Some (applyHomeVsStreetLogic before preferences)
       /\ preferredSetting before = "street".
Proof.
  cbv zeta. split; [reflexivity|].
  exact (home_or_street_by_mood " Tired "
           (UserPreferences.mk (Some "extreme") None None (Some "guntur"))
           eq_refl).
Defined.

End HomeOrStreet.

Section Guide.
Import Js AndhraCulturalGuide.

(** X16.  validateResponseQuality returns the formatter's issues with one
    suggestion for each, and reports valid exactly when there is no issue,
    which is exactly when there is no suggestion. *)
Theorem validateResponseQuality_suggestions (response : string) :
  let quality := validateResponseQuality response in
  List.length (qualitySuggestions quality) = List.length (qualityIssues quality)
  /\ (qualityValid quality = true <-> qualityIssues quality = [])
  /\ (qualityValid quality = true <-> qualitySuggestions quality = [])
  /\ qualityIssues quality
     = ResponseFormatter.issues (ResponseFormatter.validateResponseFormat response).
Proof.
  cbv zeta. unfold validateResponseQuality, ResponseFormatter.validateResponseFormat.
  cbv zeta. cbn [qualitySuggestions qualityIssues qualityValid
                 ResponseFormatter.isValid ResponseFormatter.issues].
  destruct (ResponseFormatter.hasTeluguWord response);
    destruct (ResponseFormatter.hasTechnicalTerms response);
    destruct (ResponseFormatter.hasWarmth response);
    destruct (ResponseFormatter.hasEndMark response);
    vm_compute; (split; [reflexivity|]);
    (split; [split; intros H; first [reflexivity | discriminate]|]);
    (split; [split; intros H; first [reflexivity | discriminate] | reflexivity]).
Qed.

Lemma dropdown_errors (preferences : UserPreferences.t) :
  (0 <? List.length (DropdownInterfaceImpl.getPreferencesErrorMessage preferences))%nat
  = negb (InputProcessorImpl.validatePreferences preferences).
Proof.
  unfold InputProcessorImpl.validatePreferences,
    DropdownInterfaceImpl.getPreferencesErrorMessage.
  cbv zeta.
  destruct (rejected (UserPreferences.spiceLevel preferences) _);
    destruct (rejected (UserPreferences.dietary preferences) _);
    destruct (rejected (UserPreferences.formality preferences) _);
    destruct (rejected (UserPreferences.region preferences) _);
    reflexivity.
Qed.

Lemma first_error_solid (preferences : UserPreferences.t) :
  InputProcessorImpl.validatePreferences preferences = false ->
  String.prefix "Y"
    (join " " (DropdownInterfaceImpl.getPreferencesErrorMessage preferences))
  = false.
Proof.
  unfold InputProcessorImpl.validatePreferences,
    DropdownInterfaceImpl.getPreferencesErrorMessage.
  cbv zeta.
  destruct (rejected (UserPreferences.spiceLevel preferences) _);
    destruct (rejected (UserPreferences.dietary preferences) _);
    destruct (rejected (UserPreferences.formality preferences) _);
    destruct (rejected (UserPreferences.region preferences) _);
    intros H; try discriminate; reflexivity.
Qed.

(** X17.  getErrorMessage answers that the selection looks good exactly when
    InputProcessorImpl.validateInput accepts the same category, selection and
    preferences. *)
Theorem getErrorMessage_looks_good (category selection : string)
    (preferences : option UserPreferences.t) :
  getErrorMessage category selection preferences = Ok looksGood
  <-> InputProcessorImpl.validateInput
        (UserInput.mk category selection preferences) = true.
Proof.
  unfold getErrorMessage, InputProcessorImpl.validateInput, getCategories,
    DropdownInterfaceImpl.getCategories, DropdownInterfaceImpl.categories,
    InputProcessorImpl.validCategories.
  cbn [UserInput.category UserInput.selection UserInput.preferences].
  destruct (negb (truthy category)
            || negb (inList category ["slang"; "food"; "festival"; "emotion"]))
    eqn:Hc.
  { split; [|discriminate]. unfold DropdownInterfaceImpl.getCategoryErrorMessage.
    destruct (negb (truthy category) || String.eqb (trim category) ""); differ. }
  destruct (negb (truthy selection) || String.eqb (trim selection) "") eqn:Hs.
  { split; [|discriminate].
    unfold DropdownInterfaceImpl.getSelectionErrorMessage,
      DropdownInterfaceImpl.getCategoryErrorMessage.
    destruct (DropdownInterfaceImpl.isValidCategory category).
    - cbn [negb]. destruct (member _ _); try discriminate.
      rewrite Hs. differ.
    - cbn [negb].
      destruct (negb (truthy category) || String.eqb (trim category) ""); differ. }
  destruct preferences as [given|]; [|split; reflexivity].
  cbv zeta. rewrite dropdown_errors.
  destruct (InputProcessorImpl.validatePreferences given) eqn:Hp; cbn [negb];
    [split; reflexivity|].
  split; [|discriminate]. intros H. injection H as H.
  apply first_error_solid in Hp. rewrite H in Hp. discriminate.
Qed.

End Guide.

Section Suggestions.
Import Js AndhraCulturalGuide.

Lemma firstn_In_inv {A : Type} (n : nat) (l : list A) (x : A) :
  In x (List.firstn n l) -> In x l.
Proof.
  revert l. induction n as [|n IH]; intros [|a l] H; cbn in *; try tauto.
  destruct H as [H|H]; [left; exact H | right; apply IH; exact H].
Qed.

Lemma firstn_short {A : Type} (n : nat) (l : list A) :
  List.length (List.firstn n l) <= n.
Proof.
  revert l. induction n as [|n IH]; intros [|a l]; cbn; try lia.
  specialize (IH l). lia.
Qed.

Lemma firstn_nonempty {A : Type} (n : nat) (l : list A) :
  (0 <? List.length l)%nat = true -> List.firstn (S n) l <> [].
Proof. destruct l; [discriminate | discriminate]. Qed.

(** X18.  getSuggestions returns at most three suggestions, each of which
    processSelection accepts for the category; the list is empty exactly when
    the category is none of the four. *)
Theorem suggestions_are_offered (category : string)
    (failedSelection : option string) :
  exists suggestions,
    getSuggestions category failedSelection = Some suggestions
    /\ List.length suggestions <= 3
    /\ Forall (fun option =>
                 DropdownInterfaceImpl.processSelection category option None
                 = Ok (UserInput.mk category option None)) suggestions
    /\ (suggestions = []
        <-> DropdownInterfaceImpl.isValidCategory category = false).
Proof.
  unfold getSuggestions, getSubcategories, DropdownInterfaceImpl.getSubcategories.
  destruct (DropdownInterfaceImpl.isValidCategory category) eqn:Hc; cbn [negb].
  2:{ exists []. split; [reflexivity|]. split; [cbn; lia|].
      split; [constructor|]. split; reflexivity. }
  pose proof Hc as Hc'.
  unfold DropdownInterfaceImpl.isValidCategory, DropdownInterfaceImpl.categories
    in Hc'.
  assert (Hoffered : forall options option,
             member DropdownInterfaceImpl.subcategories category = Own options ->
             In option options ->
             DropdownInterfaceImpl.processSelection category option None
             = Ok (UserInput.mk category option None)).
  { intros options option Hm Hin. apply processSelection_char.
    split; [|split; reflexivity].
    exists options. split; [|exact Hin].
    unfold DropdownInterfaceImpl.getSubcategories. rewrite Hc, Hm. reflexivity. }
  destruct (valid_category_member category Hc) as [options Hm].
  rewrite Hm. cbv zeta.
  set (similar := match failedSelection with
                  | Some failed => _
                  | None => []
                  end).
  assert (Hsim : forall x, In x similar -> In x options).
  { intros x Hx. subst similar. destruct failedSelection as [failed|];
      [|destruct Hx].
    destruct (truthy failed); [|destruct Hx].
    apply List.filter_In in Hx. tauto. }
  destruct (0 <? List.length similar)%nat eqn:Hlen.
  - exists (List.firstn 3 similar). split; [reflexivity|].
    split; [apply firstn_short|].
    split.
    + apply Forall_forall. intros x Hx. apply list_elem_of_In in Hx.
      apply (Hoffered options); [exact Hm|]. apply Hsim.
      eapply firstn_In_inv. exact Hx.
    + split; [intros H; exfalso; revert H; apply firstn_nonempty; exact Hlen
             | discriminate].
  - assert (Hpop : exists popular,
               member popularOptions category = Own popular
               /\ List.length popular <= 3 /\ popular <> []
               /\ forall x, In x popular -> In x options).
    { clear Hoffered Hsim. revert Hm.
      each_member Hc'; vm_compute; intros Hm; injection Hm as <-;
        (eexists; split; [reflexivity|]; split; [cbn; lia|];
         split; [discriminate|]; cbn; tauto). }
    destruct Hpop as (popular & -> & Hshort & Hne & Hsub).
    exists popular. split; [reflexivity|]. split; [exact Hshort|].
    split.
    + apply Forall_forall. intros x Hx. apply list_elem_of_In in Hx.
      apply (Hoffered options); [exact Hm|]. apply Hsub. exact Hx.
    + split; [intros H; congruence | discriminate].
Qed.

End Suggestions.

Section ErrorResponses.
Import Js ResponseFormatter.

Lemma pick_opener (draw : nat) : In (pick draw culturalErrorOpeners) culturalErrorOpeners.
Proof.
  unfold pick. apply List.nth_In. cbn [culturalErrorOpeners List.length].
  apply Nat.mod_upper_bound. discriminate.
Qed.

Lemma getCategorySuggestions_cases (category : string) :
  (inList category objectPrototypeNames = true
   /\ getCategorySuggestions category = None)
  \/ (exists suggestion,
         getCategorySuggestions category = Some suggestion
         /\ lastChar suggestion = Some "!"%char).
Proof.
  unfold getCategorySuggestions, member.
  cbn [ownEntry suggestions].
  repeat match goal with
         | |- context [if String.eqb category ?k then _ else _] =>
             destruct (String.eqb category k);
             [right; eexists; split; reflexivity|]
         end.
  destruct (inList category objectPrototypeNames); [left; split; reflexivity|].
  right. eexists. split; reflexivity.
Qed.

Lemma formatErrorResponse_cases (draw : nat) (errorMessage : string)
    (category : option string) :
  (exists name, category = Some name
                /\ inList name objectPrototypeNames = true
                /\ formatErrorResponse draw errorMessage category = None)
  \/ (exists opener advice,
         In opener culturalErrorOpeners
         /\ formatErrorResponse draw errorMessage category
            = Some (opener ++ ", " ++ toLowerCase errorMessage ++ " " ++ advice)
         /\ lastChar advice = Some "!"%char
         /\ endsWithMark (opener ++ ", " ++ toLowerCase errorMessage ++ " "
                          ++ advice) = true).
Proof.
  unfold formatErrorResponse. cbv zeta.
  assert (Hend : forall opener advice,
             lastChar advice = Some "!"%char ->
             endsWithMark (opener ++ ", " ++ toLowerCase errorMessage ++ " "
                           ++ advice) = true).
  { intros opener advice H. unfold endsWithMark, endsWithChar.
    replace (opener ++ ", " ++ toLowerCase errorMessage ++ " " ++ advice)
      with ((opener ++ ", " ++ toLowerCase errorMessage ++ " ") ++ advice)
      by (rewrite !append_assoc; reflexivity).
    rewrite lastChar_app by (intros ->; discriminate).
    rewrite H. reflexivity. }
  assert (Hdefault : exists opener advice,
             In opener culturalErrorOpeners
             /\ Some ((pick draw culturalErrorOpeners ++ ", "
                       ++ toLowerCase errorMessage)
                      ++ " Try asking about slang, food, festivals, or emotions - I'm here to help with Andhra culture!")
                = Some (opener ++ ", " ++ toLowerCase errorMessage ++ " " ++ advice)
             /\ lastChar advice = Some "!"%char
             /\ endsWithMark (opener ++ ", " ++ toLowerCase errorMessage ++ " "
                              ++ advice) = true).
  { exists (pick draw culturalErrorOpeners),
      "Try asking about slang, food, festivals, or emotions - I'm here to help with Andhra culture!".
    split; [apply pick_opener|].
    split; [rewrite !append_assoc; reflexivity|].
    split; [reflexivity | apply Hend; reflexivity]. }
  destruct category as [name|]; [|right; exact Hdefault].
  destruct (truthy name); [|right; exact Hdefault].
  destruct (getCategorySuggestions_cases name) as [[Hin ->]|(advice & -> & Hlast)].
  - left. exists name. repeat split; [exact Hin].
  - right. exists (pick draw culturalErrorOpeners), advice.
    split; [apply pick_opener|].
    split; [cbn [fmap option_fmap option_map]; rewrite !append_assoc; reflexivity|].
    split; [exact Hlast | apply Hend; exact Hlast].
Qed.

(** X19.  formatErrorResponse returns one of the three openers, a comma, the
    lower-cased error message and an advice that ends with an exclamation
    mark, so the text ends with a mark.  The one exception is a category
    that names a member every object inherits from its prototype: the advice
    is then no text. *)
Theorem formatErrorResponse_shape (draw : nat) (errorMessage : string)
    (category : option string) :
  (exists name, category = Some name
                /\ inList name objectPrototypeNames = true
                /\ formatErrorResponse draw errorMessage category = None)
  \/ (exists opener advice,
         In opener culturalErrorOpeners
         /\ formatErrorResponse draw errorMessage category
            = Some (opener ++ ", " ++ toLowerCase errorMessage ++ " " ++ advice)
         /\ lastChar advice = Some "!"%char
         /\ endsWithMark (opener ++ ", " ++ toLowerCase errorMessage ++ " "
                          ++ advice) = true).
Proof. apply formatErrorResponse_cases. Qed.

End ErrorResponses.

Section WordSelection.
Import Js ResponseGeneratorImpl.

Lemma removeAt_length (k : nat) (l : list string) :
  k < List.length l -> List.length (removeAt k l) = List.length l - 1.
Proof.
  revert l. induction k as [|k IH]; intros [|x l] H; cbn in *; try lia.
  rewrite IH by lia. lia.
Qed.

Lemma removeAt_In (k : nat) (l : list string) (x : string) :
  In x (removeAt k l) -> In x l.
Proof.
  revert l. induction k as [|k IH]; intros [|y l] H; cbn in *; try tauto.
  destruct H as [H|H]; [left; exact H | right; apply IH; exact H].
Qed.

Lemma removeAt_NoDup (k : nat) (l : list string) :
  List.NoDup l -> List.NoDup (removeAt k l).
Proof.
  revert l. induction k as [|k IH]; intros [|y l] H; cbn; try assumption.
  - inversion H; assumption.
  - inversion H as [|? ? Hy Hl]; subst. constructor; [|apply IH; exact Hl].
    intros Hin. apply Hy. eapply removeAt_In. exact Hin.
Qed.

Lemma removeAt_drops (k : nat) (l : list string) :
  List.NoDup l -> k < List.length l ->
  ~ In (List.nth k l EmptyString) (removeAt k l).
Proof.
  revert l. induction k as [|k IH]; intros [|y l] H Hk; cbn in *; try lia.
  - inversion H; assumption.
  - inversion H as [|? ? Hy Hl]; subst. intros [Heq|Hin].
    + apply Hy. rewrite Heq. apply List.nth_In. lia.
    + revert Hin. apply IH; [exact Hl | lia].
Qed.

Lemma selectLoop_spec (remaining : nat) :
  forall (availableWords : list string) (i : nat) (draws : nat -> nat),
    let selected := selectLoop availableWords remaining i draws in
    Forall (fun w => In w availableWords) selected
    /\ (List.NoDup availableWords -> List.NoDup selected)
    /\ List.length selected
       = Nat.min remaining ((List.length availableWords - i + 1) / 2).
Proof.
  induction remaining as [|remaining IH]; intros availableWords i draws; cbv zeta.
  - cbn [selectLoop]. split; [constructor|]. split; [constructor | reflexivity].
  - cbn [selectLoop]. destruct (i <? List.length availableWords)%nat eqn:Hlt.
    + apply Nat.ltb_lt in Hlt. cbv zeta.
      set (k := draws i mod List.length availableWords).
      assert (Hk : k < List.length availableWords)
        by (apply Nat.mod_upper_bound; lia).
      destruct (IH (removeAt k availableWords) (S i) draws) as (Hin & Hnd & Hlen).
      split; [|split].
      * constructor; [apply List.nth_In; exact Hk|].
        eapply Forall_impl; [exact Hin|]. cbn. intros w Hw.
        eapply removeAt_In. exact Hw.
      * intros H. constructor; [|apply Hnd, removeAt_NoDup; exact H].
        intros Hsel.
        apply (removeAt_drops k availableWords H Hk).
        rewrite Forall_forall in Hin. apply list_elem_of_In in Hsel.
        apply Hin in Hsel. exact Hsel.
      * cbn [List.length]. rewrite Hlen, removeAt_length by exact Hk.
        assert (E : (List.length availableWords - i + 1) / 2
                    = S ((List.length availableWords - 1 - S i + 1) / 2)).
        { destruct (Nat.eq_dec (List.length availableWords) (S i)) as [Heq|Hne].
          - rewrite Heq. replace (S i - i + 1) with 2 by lia.
            replace (S i - 1 - S i + 1) with 1 by lia. reflexivity.
          - replace (List.length availableWords - i + 1)
              with ((List.length availableWords - 1 - S i + 1) + 1 * 2) by lia.
            rewrite Nat.div_add by discriminate. lia. }
        rewrite E. lia.
    + apply Nat.ltb_ge in Hlt. split; [constructor|].
      split; [constructor|]. cbn [List.length].
      replace (List.length availableWords - i + 1) with 1 by lia.
      reflexivity.
Qed.

Lemma vocabulary_NoDup (category : ResponseFormatter.Category) :
  List.NoDup (teluguVocabulary category).
Proof.
  destruct category; cbn [teluguVocabulary];
    repeat (constructor; [cbn; intros H;
                          repeat (destruct H as [H|H]; [discriminate|]);
                          exact H|]);
    constructor.
Qed.

Lemma selectTeluguWords_facts (category : ResponseFormatter.Category)
    (count : nat) (draws : nat -> nat) :
  let selected := selectTeluguWords category count draws in
  let available := List.length (teluguVocabulary category) in
  List.NoDup selected
  /\ Forall (fun word => In word (teluguVocabulary category)) selected
  /\ List.length selected = Nat.min count ((available + 1) / 2)
  /\ (count <= 3 -> List.length selected = count).
Proof.
  cbv zeta. unfold selectTeluguWords.
  destruct (selectLoop_spec count (teluguVocabulary category) 0 draws)
    as (Hin & Hnd & Hlen).
  rewrite Nat.sub_0_r in Hlen.
  split; [apply Hnd, vocabulary_NoDup|]. split; [exact Hin|].
  split; [exact Hlen|]. intros Hc. rewrite Hlen.
  destruct category; cbn; lia.
Qed.

(** X20.  selectTeluguWords returns distinct words of the vocabulary of the
    category.  Their number is the smaller of count and half the vocabulary
    size rounded up, because the loop bound shrinks with the list; it is
    count for a count up to 3. *)
Theorem selectTeluguWords_spec (category : ResponseFormatter.Category)
    (count : nat) (draws : nat -> nat) :
  let selected := selectTeluguWords category count draws in
  let available := List.length (teluguVocabulary category) in
  List.NoDup selected
  /\ Forall (fun word => In word (teluguVocabulary category)) selected
  /\ List.length selected = Nat.min count ((available + 1) / 2)
  /\ (count <= 3 -> List.length selected = count).
Proof. apply selectTeluguWords_facts. Qed.

Lemma selectTeluguWords_spec_witness :
  List.length (selectTeluguWords ResponseFormatter.cat_food 2 (fun i => 5 + i)) = 2
  /\ selectTeluguWords ResponseFormatter.cat_festival 6 (fun _ => 0)
     = ["panduga"; "prasadam"; "pooja"].
Proof.
  split; [|reflexivity].
  apply (proj2 (proj2 (proj2 (selectTeluguWords_spec ResponseFormatter.cat_food 2
                                (fun i => 5 + i))))).
  lia.
Defined.

End WordSelection.

Section WordIntegration.
Import Js ResponseGeneratorImpl.

Lemma prefix_lower_word (w s : string) :
  String.prefix w (toLowerCase s) = true -> toLowerCase w = w.
Proof.
  revert s. induction w as [|c w IH]; intros s H; [reflexivity|].
  destruct s as [|a s]; [discriminate|].
  cbn [toLowerCase String.prefix] in H.
  destruct (ascii_dec c (lowerChar a)) as [->|]; [|discriminate].
  cbn [toLowerCase]. rewrite lowerChar_idem, (IH s H). reflexivity.
Qed.

Lemma includes_lower_word (w s : string) :
  includes (toLowerCase s) w = true -> toLowerCase w = w.
Proof.
  induction s as [|a s IH]; cbn [toLowerCase includes]; unfold startsWith;
    intros H; apply orb_true_iff in H; destruct H as [H|H].
  - apply (prefix_lower_word w ""). exact H.
  - discriminate.
  - apply (prefix_lower_word w (String a s)). exact H.
  - apply IH. exact H.
Qed.

Lemma integrateTeluguWords_word (content : string)
    (teluguWords : list string) :
  teluguWords <> [] ->
  exists word, In word teluguWords
    /\ includes (toLowerCase (integrateTeluguWords content teluguWords))
         (toLowerCase word) = true.
Proof.
  intros Hne. unfold integrateTeluguWords. cbv zeta.
  destruct teluguWords as [|firstWord others]; [congruence|].
  cbn [List.length Nat.ltb Nat.leb andb].
  destruct (List.existsb _ (firstWord :: others)) eqn:Hsome; cbn [negb].
  - apply List.existsb_exists in Hsome. destruct Hsome as (word & Hin & Hword).
    exists word. split; [exact Hin|].
    rewrite (includes_lower_word word content Hword). exact Hword.
  - exists firstWord. split; [left; reflexivity|].
    destruct (inList firstWord ["arey"; "baboi"]).
    + rewrite toLowerCase_app, toLowerCase_capitalize. apply includes_prefix.
    + rewrite !toLowerCase_app. apply includes_app_r, includes_app_r.
      apply includes_prefix.
Qed.

(** X21.  For a word list that is not empty, the text integrateTeluguWords returns
    contains one of the words, letter case aside. *)
Theorem integrateTeluguWords_holds_a_word (content : string)
    (teluguWords : list string) :
  teluguWords <> [] ->
  exists word, In word teluguWords
    /\ includes (toLowerCase (integrateTeluguWords content teluguWords))
         (toLowerCase word) = true.
Proof. apply integrateTeluguWords_word. Qed.

Lemma integrateTeluguWords_holds_a_word_witness :
  exists word, In word ["pappu"; "karam"]
    /\ includes (toLowerCase (integrateTeluguWords "Try the dosa" ["pappu"; "karam"]))
         (toLowerCase word) = true.
Proof.
  apply (integrateTeluguWords_holds_a_word "Try the dosa" ["pappu"; "karam"]).
  discriminate.
Defined.

End WordIntegration.

Section CustomResponses.
Import Js ResponseFormatter AndhraCulturalGuide.

Lemma hasEndMark_of_last (s : string) :
  lastChar s = Some "."%char \/ lastChar s = Some "!"%char ->
  hasEndMark s = true.
Proof.
  intros H. unfold hasEndMark, trim, endsWithMark.
  destruct H as [H|H];
    apply trimStart_end in H; try reflexivity;
    apply trimEnd_end in H; try reflexivity;
    rewrite (last_endsWithChar _ _ H); rewrite ?orb_true_r; reflexivity.
Qed.

(** Steps 2 to 5 of the formatter on the mock response. *)
Lemma custom_steps_end (drawClosing : nat) (opened : string)
    (category : Category) :
  hasEndMark
    (improveFlow
       (addCulturalClosing drawClosing
          (removeTechnicalTerms (ensureTeluguIntegration opened ["babu"]))
          category)) = true.
Proof.
  apply hasEndMark_of_last.
  destruct (addCulturalClosing_last drawClosing
              (removeTechnicalTerms (ensureTeluguIntegration opened ["babu"]))
              category) as [E|E].
  - right. apply improveFlow_end. repeat split; [exact E | reflexivity..].
  - left. apply improveFlow_end. repeat split; [exact E | reflexivity..].
Qed.

Lemma custom_steps_word (drawClosing : nat) (opened : string)
    (category : Category) :
  hasTeluguWord
    (improveFlow
       (addCulturalClosing drawClosing
          (removeTechnicalTerms (ensureTeluguIntegration opened ["babu"]))
          category)) = true.
Proof.
  pose proof (ensureTeluguIntegration_supplied opened ["babu"]
                ltac:(discriminate)) as H.
  cbn [List.existsb] in H. rewrite orb_false_r in H.
  apply (hasTeluguWord_intro "babu"); [cbn; tauto|].
  apply formatted_keeps_word; [apply vocabulary_keptWord; cbn; tauto|].
  exact H.
Qed.

Lemma custom_steps_clean (drawClosing : nat) (opened : string)
    (category : Category) :
  hasTechnicalTerms opened = false ->
  hasTechnicalTerms
    (improveFlow
       (addCulturalClosing drawClosing
          (removeTechnicalTerms (ensureTeluguIntegration opened ["babu"]))
          category)) = false.
Proof.
  intros Hopened.
  match goal with |- ?lhs = false => destruct lhs eqn:Hout end;
    [exfalso | reflexivity].
  unfold hasTechnicalTerms in Hout. apply List.existsb_exists in Hout.
  destruct Hout as (term & Hin & Hout).
  pose proof denylist_fresh as Hfresh. rewrite List.forallb_forall in Hfresh.
  specialize (Hfresh term Hin).
  destruct (freshTerm_inv _ Hfresh) as (Hne & Hletters & Hphrases).
  change (hasWord (toLowerCase term)
            (improveFlow
               (addCulturalClosing drawClosing
                  (removeTechnicalTerms
                     (ensureTeluguIntegration opened ["babu"]))
                  category)) = true) in Hout.
  apply (improveFlow_reflects _ Hne Hletters) in Hout.
  apply (addCulturalClosing_reflects _ Hne Hletters Hphrases) in Hout.
  apply (removeTechnicalTerms_reflects _ Hne Hletters) in Hout.
  apply (ensureTeluguIntegration_reflects _ Hne Hletters Hphrases) in Hout.
  destruct Hout as [H | (word & Hword & H)].
  - rewrite (hasTechnicalTerms_intro term _ Hin H) in Hopened. discriminate.
  - destruct Hword as [<-|[]].
    pose proof (hasTechnicalTerms_intro term _ Hin H) as Hbabu.
    vm_compute in Hbabu. discriminate.
Qed.

Lemma opened_clean (opened content : string) :
  opened = content
  \/ (exists greeting,
         (In greeting formatterPhrases \/ greeting = "undefined")
         /\ opened = greeting ++ ", " ++ toLowerCase content) ->
  hasTechnicalTerms content = false -> hasTechnicalTerms opened = false.
Proof.
  intros [->|(greeting & Hgreeting & ->)] Hcontent; [exact Hcontent|].
  match goal with |- ?lhs = false => destruct lhs eqn:Hout end;
    [exfalso | reflexivity].
  unfold hasTechnicalTerms in Hout. apply List.existsb_exists in Hout.
  destruct Hout as (term & Hin & Hout).
  pose proof denylist_fresh as Hfresh. rewrite List.forallb_forall in Hfresh.
  specialize (Hfresh term Hin).
  destruct (freshTerm_inv _ Hfresh) as (Hne & Hletters & Hphrases).
  change (hasWord (toLowerCase term)
            (greeting ++ ", " ++ toLowerCase content) = true) in Hout.
  change (", " ++ toLowerCase content)
    with (String "," (" " ++ toLowerCase content)) in Hout.
  apply hasWord_app_sep in Hout; try assumption; [|reflexivity].
  destruct Hout as [H|H].
  - destruct Hgreeting as [Hphrase | ->].
    + rewrite (Hphrases _ Hphrase) in H. discriminate.
    + clear -Hin H. cbn [In denylist] in Hin.
      repeat (destruct Hin as [<-|Hin]; [vm_compute in H; discriminate|]).
      destruct Hin.
  - change (" " ++ toLowerCase content)
      with (String " " (toLowerCase content)) in H.
    rewrite hasWord_skip, hasWord_toLowerCase in H by auto.
    rewrite (hasTechnicalTerms_intro term _ Hin H) in Hcontent. discriminate.
Qed.

(** What step 1 gives on a region that is any string. *)
Lemma addCulturalOpeningAny_cases (draw : nat) (content : string)
    (region : option string) :
  (exists typed,
      addCulturalOpeningAny draw content region
      = Ok (addCulturalOpening draw content typed)
      /\ (present region = false -> typed = None)
      /\ (forall r, region = Some (regionName r) -> typed = Some r))
  \/ (hasOpening content = false
      /\ exists name,
           region = Some name /\ name <> ""
           /\ ~ In name ["coastal"; "guntur"; "rayalaseema"]
           /\ ((In name objectPrototypeNames
                /\ addCulturalOpeningAny draw content region
                   = Ok ("undefined" ++ ", " ++ toLowerCase content))
               \/ (~ In name objectPrototypeNames
                   /\ addCulturalOpeningAny draw content region
                      = Throw typeError))).
Proof.
  unfold addCulturalOpeningAny, addCulturalOpening.
  destruct (hasOpening content) eqn:Hopen; cbn [negb].
  { left. exists match region with
                 | Some name =>
                     if String.eqb name "coastal" then Some coastal
                     else if String.eqb name "guntur" then Some guntur
                     else if String.eqb name "rayalaseema" then Some rayalaseema
                     else None
                 | None => None
                 end.
    split; [reflexivity|]. split.
    - destruct region as [name|]; [|reflexivity]. cbn [present].
      intros Hfalsy. destruct name; [reflexivity | discriminate].
    - intros r ->. destruct r; reflexivity. }
  cbv zeta.
  destruct region as [name|]; [|left; exists None; repeat split; discriminate].
  destruct (truthy name) eqn:Htruthy.
  2:{ left. exists None. split; [reflexivity|]. split; [reflexivity|].
      intros r Hr. injection Hr as ->. destruct r; discriminate. }
  unfold member. cbn [ownEntry greetingsTable].
  destruct (String.eqb name "coastal") eqn:E1.
  { apply String.eqb_eq in E1. subst. left. exists (Some coastal).
    split; [reflexivity|]. split; [discriminate|].
    intros r Hr. injection Hr as Hr. destruct r; first [reflexivity | discriminate]. }
  destruct (String.eqb name "guntur") eqn:E2.
  { apply String.eqb_eq in E2. subst. left. exists (Some guntur).
    split; [reflexivity|]. split; [discriminate|].
    intros r Hr. injection Hr as Hr. destruct r; first [reflexivity | discriminate]. }
  destruct (String.eqb name "rayalaseema") eqn:E3.
  { apply String.eqb_eq in E3. subst. left. exists (Some rayalaseema).
    split; [reflexivity|]. split; [discriminate|].
    intros r Hr. injection Hr as Hr. destruct r; first [reflexivity | discriminate]. }
  right. split; [reflexivity|]. exists name. split; [reflexivity|].
  split; [intros ->; discriminate|].
  apply String.eqb_neq in E1, E2, E3.
  split; [cbn; intros [H|[H|[H|[]]]]; congruence|].
  destruct (inList name objectPrototypeNames) eqn:Hproto.
  - left. split; [apply inList_In; exact Hproto | reflexivity].
  - right. split; [apply inList_false_not_In; exact Hproto | reflexivity].
Qed.

Lemma addCulturalOpeningAny_throws (draw : nat) (content name : string) :
  hasOpening content = false -> name <> "" ->
  ~ In name ["coastal"; "guntur"; "rayalaseema"] ->
  ~ In name objectPrototypeNames ->
  addCulturalOpeningAny draw content (Some name) = Throw typeError.
Proof.
  intros Hopen Hne Hregion Hproto. unfold addCulturalOpeningAny.
  rewrite Hopen. cbn [negb]. cbv zeta.
  replace (truthy name) with true by (destruct name; [congruence | reflexivity]).
  unfold member. cbn [ownEntry greetingsTable].
  destruct (String.eqb name "coastal") eqn:E1;
    [apply String.eqb_eq in E1; subst name; exfalso; apply Hregion; cbn; auto|].
  destruct (String.eqb name "guntur") eqn:E2;
    [apply String.eqb_eq in E2; subst name; exfalso; apply Hregion; cbn; auto|].
  destruct (String.eqb name "rayalaseema") eqn:E3;
    [apply String.eqb_eq in E3; subst name; exfalso; apply Hregion; cbn; auto|].
  destruct (inList name objectPrototypeNames) eqn:Hin; [|reflexivity].
  exfalso. apply Hproto. apply inList_In. exact Hin.
Qed.

(** What validateResponseQuality says of a text that holds a vocabulary
    word and ends with a mark. *)
Lemma quality_of_formatted (text : string) :
  hasTeluguWord text = true -> hasEndMark text = true ->
  let quality := validateResponseQuality text in
  ~ In issueTelugu (qualityIssues quality)
  /\ ~ In issuePunctuation (qualityIssues quality)
  /\ (hasTechnicalTerms text = false ->
      qualityValid quality = hasWarmth text
      /\ qualityIssues quality = if hasWarmth text then [] else [issueWarmth]).
Proof.
  intros Hword Hend. cbv zeta.
  unfold validateResponseQuality, validateResponseFormat. cbv zeta.
  cbn [isValid issues qualityIssues qualityValid].
  rewrite Hword, Hend. cbn [negb app].
  split; [|split].
  - destruct (hasTechnicalTerms text), (negb (hasWarmth text)); cbn;
      intros H; repeat (destruct H as [H|H]; [discriminate H|]); exact H.
  - destruct (hasTechnicalTerms text), (negb (hasWarmth text)); cbn;
      intros H; repeat (destruct H as [H|H]; [discriminate H|]); exact H.
  - intros ->. destruct (hasWarmth text); split; reflexivity.
Qed.

Lemma formatCustomResponse_result (drawOpening drawClosing : nat)
    (content : string) (category : Category) (region : option string) :
  let result :=
    formatCustomResponse drawOpening drawClosing content category region in
  let mock (typed : option Region) :=
    mkResponse content ["babu"] "warm and friendly" typed category in
  ((exists message, result = Throw message)
   <-> hasOpening content = false
       /\ exists name,
            region = Some name /\ name <> ""
            /\ ~ In name ["coastal"; "guntur"; "rayalaseema"]
            /\ ~ In name objectPrototypeNames)
  /\ (present region = false ->
      result = Ok (formatResponse drawOpening drawClosing (mock None)))
  /\ (forall r,
        region = Some (regionName r) ->
        result = Ok (formatResponse drawOpening drawClosing (mock (Some r))))
  /\ (forall text,
        result = Ok text ->
        let quality := validateResponseQuality text in
        hasTeluguWord text = true
        /\ hasEndMark text = true
        /\ ~ In issueTelugu (qualityIssues quality)
        /\ ~ In issuePunctuation (qualityIssues quality)
        /\ (hasTechnicalTerms content = false ->
            hasTechnicalTerms text = false
            /\ qualityValid quality = hasWarmth text
            /\ qualityIssues quality
               = if hasWarmth text then [] else [issueWarmth])).
Proof.
  cbv zeta. unfold formatCustomResponse, formatResponseAny.
  assert (Hfacts : forall opened text,
             opened = content
             \/ (exists greeting,
                    (In greeting formatterPhrases \/ greeting = "undefined")
                    /\ opened = greeting ++ ", " ++ toLowerCase content) ->
             Ok (improveFlow
                   (addCulturalClosing drawClosing
                      (removeTechnicalTerms
                         (ensureTeluguIntegration opened ["babu"]))
                      category)) = Ok text ->
             hasTeluguWord text = true
             /\ hasEndMark text = true
             /\ ~ In issueTelugu (qualityIssues (validateResponseQuality text))
             /\ ~ In issuePunctuation
                    (qualityIssues (validateResponseQuality text))
             /\ (hasTechnicalTerms content = false ->
                 hasTechnicalTerms text = false
                 /\ qualityValid (validateResponseQuality text) = hasWarmth text
                 /\ qualityIssues (validateResponseQuality text)
                    = if hasWarmth text then [] else [issueWarmth])).
  { intros opened text Hopened Htext. injection Htext as <-.
    pose proof (custom_steps_word drawClosing opened category) as Hword.
    pose proof (custom_steps_end drawClosing opened category) as Hend.
    destruct (quality_of_formatted _ Hword Hend) as (H1 & H2 & H3).
    split; [exact Hword|]. split; [exact Hend|]. split; [exact H1|].
    split; [exact H2|]. intros Hclean.
    pose proof (custom_steps_clean drawClosing opened category
                  (opened_clean opened content Hopened Hclean)) as Hout.
    split; [exact Hout | exact (H3 Hout)]. }
  assert (Hthrows : hasOpening content = false
                    /\ (exists name,
                           region = Some name /\ name <> ""
                           /\ ~ In name ["coastal"; "guntur"; "rayalaseema"]
                           /\ ~ In name objectPrototypeNames) ->
                    addCulturalOpeningAny drawOpening content region
                    = Throw typeError).
  { intros (Hopen & name & -> & Hne & Hregion & Hproto).
    apply addCulturalOpeningAny_throws; assumption. }
  destruct (addCulturalOpeningAny_cases drawOpening content region)
    as [(typed & Hopened & Hnone & Hsome)
       | (Hopen & name & Hname & Hne & Hregion
          & [[Hproto Hopened] | [Hproto Hopened]])].
  - rewrite Hopened. cbn [andThen]. cbv zeta.
    split; [split; [intros [message H]; discriminate|]|].
    { intros H. apply Hthrows in H. congruence. }
    split; [intros H; rewrite (Hnone H); reflexivity|].
    split; [intros r H; rewrite (Hsome r H); reflexivity|].
    intros text. apply Hfacts. unfold addCulturalOpening.
    destruct (negb (hasOpening content)); [|left; reflexivity].
    right. eexists. split; [left; apply greeting_phrase | reflexivity].
  - rewrite Hopened. cbn [andThen]. cbv zeta.
    split; [split; [intros [message H]; discriminate|]|].
    { intros H. apply Hthrows in H. congruence. }
    split; [intros H; subst region; cbn [present] in H;
            destruct name; [congruence | discriminate]|].
    split; [intros r H; exfalso; rewrite Hname in H; injection H as ->;
            apply Hregion; destruct r; cbn; tauto|].
    intros text. apply Hfacts. right. exists "undefined".
    split; [right; reflexivity | reflexivity].
  - rewrite Hopened. cbn [andThen].
    split; [split; [intros _|intros _; eexists; reflexivity]|].
    { split; [exact Hopen|]. exists name. repeat split; assumption. }
    split; [intros H; subst region; cbn [present] in H;
            destruct name; [congruence | discriminate]|].
    split; [intros r H; exfalso; rewrite Hname in H; injection H as ->;
            apply Hregion; destruct r; cbn; tauto|].
    intros text H. discriminate.
Qed.

Lemma formatCustomResponse_samples :
  formatCustomResponse 0 0 "Try the dosa" cat_food (Some "north")
  = Throw typeError
  /\ formatCustomResponse 0 0 "Trust me, try the dosa" cat_food (Some "north")
     = Ok "Trust me, try the dosa That's what we call it, babu!"
  /\ formatCustomResponse 0 0 "Try the dosa" cat_food (Some "toString")
     = Ok "Undefined, try the dosa That's what we call it, babu!"
  /\ formatCustomResponse 0 0 "Try the dosa" cat_food (Some "guntur")
     = Ok "Pakka guarantee, try the dosa That's what we call it, babu!"
  /\ formatCustomResponse 0 0 "Try the dosa" cat_food None
     = Ok "Trust me, try the dosa That's what we call it, babu!".
Proof. vm_compute. repeat split; reflexivity. Qed.

(** X22.  formatCustomResponse takes the region as any string.  It throws
    exactly when the content has no cultural opening and the region is a
    string that is not empty, is none of the three regions and names no
    member inherited from the prototype: the greetings looked up are then
    undefined.  Without a region, and for each of the three regions, it
    returns what formatResponse returns on the mock response.  Whenever it
    returns, the text holds a word of the formatter's vocabulary and ends
    with a mark, so validateResponseQuality reports neither the vocabulary
    issue nor the punctuation issue on it; when the content holds no
    denylisted term the text holds none either, and the only issue possible
    is the missing warm tone.  Three calls are
    evaluated: an unknown region throws, unless the content already opens
    with a greeting, and the region toString greets with the text
    undefined. *)
Theorem formatCustomResponse_quality (drawOpening drawClosing : nat)
    (content : string) (category : Category) (region : option string) :
  let result :=
    formatCustomResponse drawOpening drawClosing content category region in
  let mock (typed : option Region) :=
    mkResponse content ["babu"] "warm and friendly" typed category in
  ((exists message, result = Throw message)
   <-> hasOpening content = false
       /\ exists name,
            region = Some name /\ name <> ""
            /\ ~ In name ["coastal"; "guntur"; "rayalaseema"]
            /\ ~ In name objectPrototypeNames)
  /\ (present region = false ->
      result = Ok (formatResponse drawOpening drawClosing (mock None)))
  /\ (forall r,
        region = Some (regionName r) ->
        result = Ok (formatResponse drawOpening drawClosing (mock (Some r))))
  /\ (forall text,
        result = Ok text ->
        let quality := validateResponseQuality text in
        hasTeluguWord text = true
        /\ hasEndMark text = true
        /\ ~ In issueTelugu (qualityIssues quality)
        /\ ~ In issuePunctuation (qualityIssues quality)
        /\ (hasTechnicalTerms content = false ->
            hasTechnicalTerms text = false
            /\ qualityValid quality = hasWarmth text
            /\ qualityIssues quality
               = if hasWarmth text then [] else [issueWarmth]))
  /\ formatCustomResponse 0 0 "Try the dosa" cat_food (Some "north")
     = Throw typeError
  /\ formatCustomResponse 0 0 "Trust me, try the dosa" cat_food (Some "north")
     = Ok "Trust me, try the dosa That's what we call it, babu!"
  /\ formatCustomResponse 0 0 "Try the dosa" cat_food (Some "toString")
     = Ok "Undefined, try the dosa That's what we call it, babu!".
Proof.
  cbv zeta.
  pose proof (formatCustomResponse_result drawOpening drawClosing content
                category region) as H.
  cbv zeta in H. destruct H as (A & B & C & D).
  destruct formatCustomResponse_samples as (S1 & S2 & S3 & _).
  split; [exact A|]. split; [exact B|]. split; [exact C|].
  split; [exact D|]. split; [exact S1|]. split; [exact S2 | exact S3].
Qed.

End CustomResponses.

Section DropdownResolution.
Import Js DropdownInterfaceImpl CulturalDatabaseImpl ResponseGeneratorImpl.

(** X23.  What the guide's own store holds for the options processSelection
    accepts.  No slang option is a slang term of the store, so the lookup
    answers with the slang fallback; no food option names a city, so
    extractCityFromSelection returns null; of the festival options exactly
    Ugadi, Sankranti and Vinayaka Chavithi are found. *)
Theorem dropdown_selections_resolve (category selection : string)
    (preferences : option UserPreferences.t) (input : UserInput.t) :
  processSelection category selection preferences = Ok input ->
  (category = "slang" ->
   getSlangInfoWithFallback (new None) selection
   = Fallback (ErrorHandler.createSlangFallback selection))
  /\ (category = "food" -> extractCityFromSelection selection = None)
  /\ (category = "festival" ->
      ((exists info, getFestivalInfoWithFallback (new None) selection = Found info)
       <-> In selection ["Ugadi"; "Sankranti"; "Vinayaka Chavithi"])).
Proof.
  intros H. apply processSelection_char in H.
  destruct H as ((options & Hsub & Hin) & _ & _).
  split; [|split]; intros ->; vm_compute in Hsub; injection Hsub as <-;
    cbn [In] in Hin.
  - repeat (destruct Hin as [<-|Hin]; [vm_compute; reflexivity|]).
    destruct Hin.
  - repeat (destruct Hin as [<-|Hin]; [vm_compute; reflexivity|]).
    destruct Hin.
  - repeat (destruct Hin as [<-|Hin];
            [first [ split; [intros _; cbn; tauto|];
                     intros _; vm_compute; eexists; reflexivity
                   | split; [intros [info Hinfo]; vm_compute in Hinfo;
                             discriminate|];
                     cbn; intros Hx;
                     repeat (destruct Hx as [Hx|Hx]; [discriminate Hx|]);
                     destruct Hx ]|]).
    destruct Hin.
Qed.

Lemma dropdown_selections_resolve_witness :
  getSlangInfoWithFallback (new None) "family terms"
  = Fallback (ErrorHandler.createSlangFallback "family terms").
Proof.
  apply (dropdown_selections_resolve "slang" "family terms" None
           (UserInput.mk "slang" "family terms" None)); reflexivity.
Defined.

End DropdownResolution.

Section GuidancePipeline.
Import Js ResponseGeneratorImpl AndhraCulturalGuide.

Lemma explainEmotionalLogic_some (emotion food : string) :
  exists text, EmotionFoodMapperImpl.explainEmotionalLogic emotion food = Some text.
Proof.
  unfold EmotionFoodMapperImpl.explainEmotionalLogic. cbv zeta.
  destruct (EmotionFoodMapperImpl.emotionMappings !! trim (toLowerCase emotion))
    as [mapping|] eqn:Hm; [|eexists; reflexivity].
  destruct (negb _); [eexists; reflexivity|].
  pose proof (known_mood _ _ Hm) as Hin. revert Hin.
  generalize (trim (toLowerCase emotion)). intros key Hin.
  cbn [In moods] in Hin.
  repeat (destruct Hin as [<-|Hin]; [vm_compute; eexists; reflexivity|]).
  destruct Hin.
Qed.

Lemma generateResponse_some (db : CulturalDatabaseImpl.t) (intent : UserIntent.t)
    (draws : nat -> nat) :
  InputProcessorImpl.validatePreferences (UserIntent.preferences intent) = true ->
  exists response,
    generateResponse db intent draws = Some response
    /\ CulturalResponse.culturalTone response = Some "warm and friendly"
    /\ CulturalResponse.region response
       = UserIntent.contextRegion (UserIntent.context intent)
    /\ CulturalResponse.category response = UserIntent.category intent.
Proof.
  intros Hvalid. unfold generateResponse. cbv zeta.
  repeat match goal with
         | |- context [if String.eqb (UserIntent.category intent) ?k then _ else _] =>
             destruct (String.eqb (UserIntent.category intent) k);
             [cbn [fst snd fmap option_fmap option_map]; eexists;
              split; [reflexivity|]; repeat split|]
         end.
  destruct (String.eqb (UserIntent.category intent) "emotion").
  - unfold generateEmotionResponseWithFallback. cbv zeta.
    destruct (considerPreferences_steps
                (EmotionFoodMapperImpl.mapEmotionToFood (UserIntent.selection intent))
                (UserIntent.preferences intent) Hvalid
                (proj1 (mapEmotionToFood_dish (UserIntent.selection intent))))
      as (r1 & r2 & r3 & _ & _ & _ & ->).
    destruct (explainEmotionalLogic_some (UserIntent.selection intent)
                (EmotionFoodMapperImpl.food
                   (EmotionFoodMapperImpl.applyHomeVsStreetLogic r3
                      (UserIntent.preferences intent)))) as [text ->].
    cbn [fst snd fmap option_fmap option_map]. eexists.
    split; [reflexivity|]. repeat split.
  - cbn [fst snd fmap option_fmap option_map]. eexists.
    split; [reflexivity|]. repeat split.
Qed.

Lemma applyRegionalContext_region (response : CulturalResponse.t)
    (region : string) (roll : float) (draw : nat) :
  truthy region = true ->
  inList region ["coastal"; "guntur"; "rayalaseema"] = true ->
  exists adapted tone,
    applyRegionalContext response (Some region) roll draw = Ok adapted
    /\ CulturalResponse.culturalTone adapted = Some tone
    /\ CulturalResponse.region adapted = Some region
    /\ CulturalResponse.category adapted = CulturalResponse.category response.
Proof.
  intros Ht Hin. unfold applyRegionalContext. cbn [present orDefault].
  rewrite Ht. cbn [negb andb]. cbv zeta.
  unfold RegionalAdapterImpl.getRegionalCulturalContext.
  each_member Hin; vm_compute member; eexists; eexists;
    (split; [reflexivity|]); repeat split.
Qed.

Lemma formatOutput_some (drawOpening drawClosing : nat)
    (response : CulturalResponse.t) (tone : string) :
  DropdownInterfaceImpl.isValidCategory (CulturalResponse.category response)
  = true ->
  CulturalResponse.culturalTone response = Some tone ->
  match CulturalResponse.region response with
  | Some region => inList region ["coastal"; "guntur"; "rayalaseema"] = true
  | None => True
  end ->
  exists typed,
    formatOutput drawOpening drawClosing response
    = Some (ResponseFormatter.formatResponse drawOpening drawClosing typed).
Proof.
  intros Hc Htone Hregion. unfold formatOutput, asFormatterResponse.
  rewrite Htone.
  assert (Hcat : exists c, asCategory (CulturalResponse.category response) = Some c).
  { unfold DropdownInterfaceImpl.isValidCategory,
      DropdownInterfaceImpl.categories in Hc.
    revert Hc. generalize (CulturalResponse.category response). intros c Hc.
    each_member Hc; eexists; reflexivity. }
  destruct Hcat as [c ->]. cbv zeta.
  destruct (CulturalResponse.region response) as [region|];
    [|eexists; reflexivity].
  assert (Hreg : exists r, asRegion region = Some r)
    by (each_member Hregion; eexists; reflexivity).
  destruct Hreg as [r ->]. eexists. reflexivity.
Qed.

Lemma getSuggestions_some (category : string) (failedSelection : option string) :
  exists suggestions, getSuggestions category failedSelection = Some suggestions.
Proof.
  unfold getSuggestions, getSubcategories, DropdownInterfaceImpl.getSubcategories.
  destruct (DropdownInterfaceImpl.isValidCategory category) eqn:Hc; cbn [negb];
    [|eexists; reflexivity].
  destruct (valid_category_member category Hc) as [options Hm]. rewrite Hm.
  cbv zeta. destruct (0 <? _)%nat; [eexists; reflexivity|].
  unfold DropdownInterfaceImpl.isValidCategory, DropdownInterfaceImpl.categories
    in Hc.
  clear Hm. each_member Hc; vm_compute member; eexists; reflexivity.
Qed.

Lemma generateUserFriendlyError_some (category selection errorMessage : string) :
  exists text,
    generateUserFriendlyError category selection errorMessage = Some text.
Proof.
  unfold generateUserFriendlyError.
  destruct (includes errorMessage "Invalid category"); [eexists; reflexivity|].
  destruct (includes errorMessage "not available");
    [|destruct (includes errorMessage "validation"); eexists; reflexivity].
  destruct (getSuggestions_some category (Some selection)) as [suggestions ->].
  cbv zeta. destruct (0 <? _)%nat; eexists; reflexivity.
Qed.

Lemma formatErrorResponse_prototype (draw : nat) (errorMessage category : string) :
  inList category objectPrototypeNames = true ->
  ResponseFormatter.formatErrorResponse draw errorMessage (Some category) = None.
Proof.
  intros H. unfold ResponseFormatter.formatErrorResponse. cbv zeta.
  each_member H; reflexivity.
Qed.

Lemma guidance_of_accepted (readings : Readings) (category selection : string)
    (preferences : option UserPreferences.t) (input : UserInput.t) :
  DropdownInterfaceImpl.processSelection category selection preferences
  = Ok input ->
  exists typed,
    guidanceAttempt readings category selection preferences
    = Ok (Some (ResponseFormatter.formatResponse (drawOpening readings)
                  (drawClosing readings) typed)).
Proof.
  intros H. unfold guidanceAttempt. rewrite H. cbn [andThen].
  apply processSelection_char in H.
  destruct H as ((options & Hg & Hin) & Hp & ->).
  destruct (offered_passes_processor category selection preferences options
              Hg Hin Hp) as [Hv Htrim].
  assert (Hc : DropdownInterfaceImpl.isValidCategory category = true).
  { unfold DropdownInterfaceImpl.getSubcategories in Hg.
    destruct (DropdownInterfaceImpl.isValidCategory category);
      [reflexivity | discriminate]. }
  unfold InputProcessorImpl.enrichInput. rewrite Hv. cbn [negb andThen].
  unfold InputProcessorImpl.inferIntent. cbn [InputProcessorImpl.input].
  rewrite Hv. cbn [negb andThen]. cbv zeta.
  cbn [UserInput.category UserInput.selection UserInput.preferences].
  set (given := match preferences with
                | Some given => given
                | None => UserPreferences.empty
                end).
  assert (Hgiven : InputProcessorImpl.validatePreferences given = true)
    by (subst given; destruct preferences; [exact Hp | reflexivity]).
  set (intent := {| UserIntent.category := category;
                    UserIntent.selection := trim selection;
                    UserIntent.preferences := given;
                    UserIntent.context :=
                      InputProcessorImpl.inferContext given (currentHour readings) |}).
  destruct (generateResponse_some culturalDatabase intent (wordDraws readings)
              Hgiven) as (response & -> & Htone & Hregion & Hcategory).
  cbn [UserIntent.context UserIntent.category intent
       InputProcessorImpl.inferContext UserIntent.contextRegion] in Hregion, Hcategory.
  assert (Hsame : preferences ≫= UserPreferences.region
                  = UserPreferences.region given
                  \/ (preferences = None /\ UserPreferences.region given = None)).
  { subst given. destruct preferences; [left; reflexivity | right; split; reflexivity]. }
  assert (Hpresent : present (preferences ≫= UserPreferences.region)
                     = present (UserPreferences.region given)).
  { destruct Hsame as [->|[-> ->]]; reflexivity. }
  cbv zeta. rewrite Hpresent.
  destruct (present (UserPreferences.region given)) eqn:Hr.
  - assert (Hreg : exists region,
               preferences ≫= UserPreferences.region = Some region
               /\ truthy region = true
               /\ inList region ["coastal"; "guntur"; "rayalaseema"] = true).
    { destruct Hsame as [E|[_ E]]; [|rewrite E in Hr; discriminate].
      rewrite E. destruct (UserPreferences.region given) as [region|] eqn:Eg;
        [|discriminate].
      exists region. split; [reflexivity|]. cbn [present] in Hr.
      split; [exact Hr|].
      unfold InputProcessorImpl.validatePreferences in Hgiven.
      cbv zeta in Hgiven. rewrite Eg in Hgiven.
      destruct (rejected (UserPreferences.spiceLevel given) _); [discriminate|].
      destruct (rejected (UserPreferences.dietary given) _); [discriminate|].
      destruct (rejected (UserPreferences.formality given) _); [discriminate|].
      destruct (rejected (Some region) _) eqn:Hrej; [discriminate|].
      apply (accepted_value _ _ Hrej Hr). }
    destruct Hreg as (region & -> & Ht & Hin').
    destruct (applyRegionalContext_region response region (toneRoll readings)
                (toneDraw readings) Ht Hin')
      as (adapted & tone & -> & Htone' & Hregion' & Hcategory').
    cbn [andThen].
    destruct (formatOutput_some (drawOpening readings) (drawClosing readings)
                adapted tone) as [typed ->].
    + rewrite Hcategory', Hcategory. exact Hc.
    + exact Htone'.
    + rewrite Hregion'. exact Hin'.
    + exists typed. reflexivity.
  - cbn [andThen].
    destruct (formatOutput_some (drawOpening readings) (drawClosing readings)
                response "warm and friendly") as [typed ->].
    + rewrite Hcategory. exact Hc.
    + exact Htone.
    + rewrite Hregion. exact I.
    + exists typed. reflexivity.
Qed.

(** X24.  getCulturalGuidance reports an error exactly when processSelection
    throws, and the error is the message thrown.  When processSelection
    returns, no later step throws and the response is a formatted text that
    ends with a full stop or an exclamation mark.  When it throws, the
    response ends with an exclamation mark, unless the category names a
    member inherited from the prototype, for which the reply is no text of
    this model. *)
Theorem getCulturalGuidance_reports (readings : Readings)
    (category selection : string) (preferences : option UserPreferences.t) :
  match DropdownInterfaceImpl.processSelection category selection preferences with
  | Ok _ =>
      exists text,
        getCulturalGuidance readings category selection preferences
        = Some {| Guidance.response := text; Guidance.error := None |}
        /\ (lastChar text = Some "."%char \/ lastChar text = Some "!"%char)
  | Throw message =>
      if inList category objectPrototypeNames
      then getCulturalGuidance readings category selection preferences = None
      else
        exists text,
          getCulturalGuidance readings category selection preferences
          = Some {| Guidance.response := text; Guidance.error := Some message |}
          /\ lastChar text = Some "!"%char
  end.
Proof.
  destruct (DropdownInterfaceImpl.processSelection category selection preferences)
    as [input|message] eqn:H.
  - destruct (guidance_of_accepted readings category selection preferences input H)
      as [typed Hattempt].
    unfold getCulturalGuidance. rewrite Hattempt.
    cbn [fmap option_fmap option_map]. eexists. split; [reflexivity|].
    apply (formatResponse_ends_with_mark (drawOpening readings)
             (drawClosing readings) typed).
  - unfold getCulturalGuidance, guidanceAttempt. rewrite H. cbn [andThen].
    destruct (generateUserFriendlyError_some category selection message)
      as [errorMessage ->].
    destruct (inList category objectPrototypeNames) eqn:Hin.
    + rewrite (formatErrorResponse_prototype _ _ _ Hin). reflexivity.
    + destruct (formatErrorResponse_cases (drawError readings) errorMessage
                  (Some category))
        as [(name & Hname & Hin' & _)|(opener & advice & _ & -> & Hlast & _)].
      * injection Hname as <-. congruence.
      * cbn [fmap option_fmap option_map]. eexists. split; [reflexivity|].
        replace (opener ++ ", " ++ toLowerCase errorMessage ++ " " ++ advice)
          with ((opener ++ ", " ++ toLowerCase errorMessage ++ " ") ++ advice)
          by (rewrite !append_assoc; reflexivity).
        rewrite lastChar_app; [exact Hlast|].
        intros ->. discriminate.
Qed.

End GuidancePipeline.

Section GeneratedResponses.
Import Js ResponseGeneratorImpl.

Lemma includes_refl (s : string) : includes s s = true.
Proof.
  pose proof (includes_prefix s "") as H. rewrite append_nil_r in H. exact H.
Qed.

Lemma response_words (category : ResponseFormatter.Category) (count : nat)
    (draws : nat -> nat) (content : string) :
  1 <= count <= 3 ->
  let words := selectTeluguWords category count draws in
  List.length words = count
  /\ List.NoDup words
  /\ Forall (fun word => In word (teluguVocabulary category)) words
  /\ exists word, In word words
       /\ includes (toLowerCase (integrateTeluguWords content words))
            (toLowerCase word) = true.
Proof.
  intros Hcount. cbv zeta.
  destruct (selectTeluguWords_facts category count draws)
    as (Hnd & Hin & _ & Hlen).
  specialize (Hlen (proj2 Hcount)).
  split; [exact Hlen|]. split; [exact Hnd|]. split; [exact Hin|].
  apply integrateTeluguWords_word. intros E. rewrite E in Hlen.
  cbn in Hlen. lia.
Qed.

(** X25.  A response generateResponse builds carries two distinct words of the
    vocabulary of its category (one word of the slang vocabulary for a
    category that is none of the four); its content contains one of them,
    letter case aside; its category and its region are the intent's. *)
Theorem generateResponse_carries_a_word (db : CulturalDatabaseImpl.t)
    (intent : UserIntent.t) (draws : nat -> nat)
    (response : CulturalResponse.t) :
  generateResponse db intent draws = Some response ->
  let words := CulturalResponse.teluguWords response in
  let vocabulary :=
    teluguVocabulary
      match asCategory (UserIntent.category intent) with
      | Some category => category
      | None => ResponseFormatter.cat_slang
      end in
  List.length words
  = (if DropdownInterfaceImpl.isValidCategory (UserIntent.category intent)
     then 2 else 1)
  /\ List.NoDup words
  /\ Forall (fun word => In word vocabulary) words
  /\ (exists word,
         In word words
         /\ includes (toLowerCase (CulturalResponse.content response))
              (toLowerCase word) = true)
  /\ CulturalResponse.category response = UserIntent.category intent
  /\ CulturalResponse.region response
     = UserIntent.contextRegion (UserIntent.context intent).
Proof.
  unfold generateResponse, asCategory, DropdownInterfaceImpl.isValidCategory,
    DropdownInterfaceImpl.categories, inList.
  cbv zeta. cbn [List.existsb].
  destruct (String.eqb (UserIntent.category intent) "slang");
    [|destruct (String.eqb (UserIntent.category intent) "food");
      [|destruct (String.eqb (UserIntent.category intent) "festival");
        [|destruct (String.eqb (UserIntent.category intent) "emotion")]]];
    cbn [fst snd orb];
    match goal with
    | |- _ <$> ?generated = Some _ -> _ =>
        destruct generated as [content|];
        cbn [fmap option_fmap option_map]; [|discriminate]
    end;
    intros H; injection H as <-;
    cbn [CulturalResponse.teluguWords CulturalResponse.content
         CulturalResponse.category CulturalResponse.region];
    match goal with
    | |- context [selectTeluguWords ?c ?n draws] =>
        destruct (response_words c n draws content ltac:(lia))
          as (Hlen & Hnd & Hin & Hword)
    end;
    (split; [exact Hlen|]); (split; [exact Hnd|]); (split; [exact Hin|]);
    (split; [exact Hword|]); split; reflexivity.
Qed.

Lemma generateResponse_carries_a_word_witness :
  exists response,
    generateResponse AndhraCulturalGuide.culturalDatabase
      (UserIntent.mk "festival" "Ugadi" UserPreferences.empty
         (UserIntent.mkContext None (Some "evening")))
      (fun i => i) = Some response
    /\ List.length (CulturalResponse.teluguWords response) = 2.
Proof.
  eexists. split; [vm_compute; reflexivity|].
  refine (proj1 (generateResponse_carries_a_word
                   AndhraCulturalGuide.culturalDatabase
                   (UserIntent.mk "festival" "Ugadi" UserPreferences.empty
                      (UserIntent.mkContext None (Some "evening")))
                   (fun i => i) _ _)).
  vm_compute. reflexivity.
Defined.

Lemma adaptTone_cases (roll : float) (draw : nat) (content region : string) :
  exists before after,
    RegionalAdapterImpl.adaptTone roll draw content region
    = before ++ content ++ after.
Proof.
  assert (H : forall phrases applies,
             exists before after,
               RegionalAdapterImpl.addPhrase phrases applies draw content
               = before ++ content ++ after).
  { intros phrases applies. unfold RegionalAdapterImpl.addPhrase.
    destruct applies; [|exists "", ""; rewrite append_nil_r; reflexivity].
    cbv zeta. destruct (endsWith _ _).
    - eexists. exists "". rewrite append_nil_r. reflexivity.
    - exists "". eexists. reflexivity. }
  unfold RegionalAdapterImpl.adaptTone, RegionalAdapterImpl.applyCoastalTone,
    RegionalAdapterImpl.applyGunturTone, RegionalAdapterImpl.applyRayalaseemaTone.
  destruct (String.eqb region "coastal"); [apply H|].
  destruct (String.eqb region "guntur"); [apply H|].
  destruct (String.eqb region "rayalaseema"); [apply H|].
  exists "", "". rewrite append_nil_r. reflexivity.
Qed.

(** X26.  applyRegionalContext keeps the words and the category, and the content
    stays a part of the adapted content.  Without any region the response is
    returned unchanged; otherwise it gets the target region and the tone of
    that region's context.  It throws exactly when the target region is
    neither one of the three regions nor the name of a member inherited from
    the prototype. *)
Theorem applyRegionalContext_spec (response : CulturalResponse.t)
    (region : option string) (roll : float) (draw : nat) :
  let target := orDefault region (shown (CulturalResponse.region response)) in
  let regionless :=
    negb (present region) && negb (present (CulturalResponse.region response)) in
  match applyRegionalContext response region roll draw with
  | Ok adapted =>
      includes (CulturalResponse.content adapted)
        (CulturalResponse.content response) = true
      /\ CulturalResponse.teluguWords adapted
         = CulturalResponse.teluguWords response
      /\ CulturalResponse.category adapted = CulturalResponse.category response
      /\ (if regionless then adapted = response
          else CulturalResponse.region adapted = Some target
               /\ CulturalResponse.culturalTone adapted
                  = RegionalAdapterImpl.tone
                      <$> ownEntry RegionalAdapterImpl.contexts target
               /\ inList target ["coastal"; "guntur"; "rayalaseema"]
                  || inList target objectPrototypeNames = true)
  | Throw _ =>
      regionless = false
      /\ inList target ["coastal"; "guntur"; "rayalaseema"] = false
      /\ inList target objectPrototypeNames = false
  end.
Proof.
  cbv zeta. unfold applyRegionalContext.
  destruct (negb (present region)
            && negb (present (CulturalResponse.region response))).
  - split; [apply includes_refl|]. repeat split.
  - cbv zeta. unfold RegionalAdapterImpl.getRegionalCulturalContext, member.
    set (target := orDefault region (shown (CulturalResponse.region response))).
    clearbody target.
    destruct (adaptTone_cases roll draw (CulturalResponse.content response) target)
      as (before & after & Htone).
    assert (Hkeeps : includes
                       (RegionalAdapterImpl.adaptTone roll draw
                          (CulturalResponse.content response) target)
                       (CulturalResponse.content response) = true).
    { rewrite Htone. apply includes_app_r, includes_prefix. }
    destruct (ownEntry RegionalAdapterImpl.contexts target) as [context|] eqn:Hown.
    + cbn [CulturalResponse.content CulturalResponse.teluguWords
           CulturalResponse.category CulturalResponse.region
           CulturalResponse.culturalTone].
      split; [exact Hkeeps|]. repeat split.
      apply orb_true_iff. left.
      cbn [ownEntry RegionalAdapterImpl.contexts] in Hown.
      unfold inList. cbn [List.existsb].
      destruct (String.eqb target "coastal"); [reflexivity|].
      destruct (String.eqb target "guntur"); [reflexivity|].
      destruct (String.eqb target "rayalaseema"); [reflexivity | discriminate].
    + destruct (inList target objectPrototypeNames) eqn:Hproto.
      * cbn [CulturalResponse.content CulturalResponse.teluguWords
             CulturalResponse.category CulturalResponse.region
             CulturalResponse.culturalTone].
        split; [exact Hkeeps|]. repeat split. apply orb_true_r.
      * split; [reflexivity|]. split; [|reflexivity].
        destruct (inList target ["coastal"; "guntur"; "rayalaseema"]) eqn:Hin;
          [|reflexivity].
        exfalso. each_member Hin; vm_compute in Hown; discriminate.
Qed.

End GeneratedResponses.

Section ErrorReplies.
Import Js DropdownInterfaceImpl AndhraCulturalGuide.

Lemma quoted_has_no_category (selection tail : string) :
  includes selection "Invalid category" = false ->
  includes tail "Invalid category" = false ->
  includes (inQuotes selection ++ tail) "Invalid category" = false.
Proof.
  intros Hs Ht.
  destruct (includes (inQuotes selection ++ tail) "Invalid category") eqn:H;
    [exfalso | reflexivity].
  unfold inQuotes in H.
  change (String doubleQuote (selection ++ String doubleQuote "") ++ tail)
    with (String doubleQuote ((selection ++ String doubleQuote "") ++ tail)) in H.
  cbn [includes] in H. apply orb_true_iff in H.
  destruct H as [H|H]; [vm_compute in H; discriminate|].
  rewrite append_assoc in H.
  apply includes_app_cases in H.
  destruct H as [H | [H | (c & y' & Hy & Hc)]].
  - congruence.
  - change (String doubleQuote "" ++ tail) with (String doubleQuote tail) in H.
    cbn [includes] in H. apply orb_true_iff in H.
    destruct H as [H|H]; [vm_compute in H; discriminate | congruence].
  - change (String doubleQuote "" ++ tail) with (String doubleQuote tail) in Hy.
    injection Hy as <- _. vm_compute in Hc. discriminate.
Qed.

(** X27.  The reply generateUserFriendlyError builds from the message
    processSelection throws.  A category that is none of the four is
    answered with the sentence that the category is not recognized; a
    missing or blank selection with the general sentence; a selection that
    is not offered, and does not itself contain the words Invalid category,
    with the sentence that there is no information about it followed by a
    list of suggestions that is not empty. *)
Theorem rejected_selection_reply (category selection : string)
    (preferences : option UserPreferences.t) :
  let reply := generateUserFriendlyError category selection in
  let blank := negb (truthy selection) || String.eqb (trim selection) "" in
  (isValidCategory category = false ->
   exists message,
     processSelection category selection preferences = Throw message
     /\ reply message
        = Some ("I don't recognize " ++ inQuotes category
                ++ " as a cultural category. Try asking about slang, food, festivals, or emotions!"))
  /\ (isValidCategory category = true -> blank = true ->
      exists message,
        processSelection category selection preferences = Throw message
        /\ reply message
           = Some "Arey, I'm having trouble understanding your request! Please try selecting a category (slang, food, festival, or emotion) and make a choice from the available options.")
  /\ (forall options,
        DropdownInterfaceImpl.getSubcategories category = Ok options ->
        blank = false ->
        inList selection options = false ->
        includes selection "Invalid category" = false ->
        exists message suggestions,
          processSelection category selection preferences = Throw message
          /\ getSuggestions category (Some selection) = Some suggestions
          /\ suggestions <> []
          /\ reply message
             = Some ("I don't have information about " ++ inQuotes selection
                     ++ " in " ++ category ++ ". How about trying: "
                     ++ join ", " suggestions ++ "?")).
Proof.
  cbv zeta. split; [|split].
  - intros Hc. unfold processSelection. rewrite Hc. cbn [negb].
    eexists. split; [reflexivity|]. reflexivity.
  - intros Hc Hblank. unfold processSelection. rewrite Hc. cbn [negb].
    destruct (valid_category_member category Hc) as [options Hm].
    rewrite Hm, Hblank. eexists. split; reflexivity.
  - intros options Hg Hblank Hout Hfree.
    unfold DropdownInterfaceImpl.getSubcategories in Hg.
    destruct (isValidCategory category) eqn:Hc; [|discriminate].
    cbn [negb] in Hg.
    destruct (member subcategories category) as [l| |] eqn:Hm; try discriminate.
    injection Hg as ->.
    unfold processSelection. rewrite Hc. cbn [negb]. rewrite Hm, Hblank, Hout.
    cbn [negb].
    destruct (getSuggestions_some category (Some selection)) as [suggestions Hs].
    assert (Hne : suggestions <> []).
    { intros ->. unfold getSuggestions, AndhraCulturalGuide.getSubcategories,
        DropdownInterfaceImpl.getSubcategories in Hs.
      rewrite Hc in Hs. cbn [negb] in Hs. rewrite Hm in Hs. cbv zeta in Hs.
      destruct (0 <? _)%nat eqn:Hlen.
      - injection Hs as Hs. revert Hs. apply firstn_nonempty. exact Hlen.
      - unfold isValidCategory, categories in Hc. clear Hm Hlen Hout.
        each_member Hc; vm_compute in Hs; discriminate. }
    eexists. exists suggestions. split; [reflexivity|].
    split; [exact Hs|]. split; [exact Hne|].
    unfold generateUserFriendlyError.
    assert (Hfirst : includes
              (inQuotes selection ++ " is not available for " ++ category
               ++ ". Available options: " ++ join ", " options)
              "Invalid category" = false).
    { apply quoted_has_no_category; [exact Hfree|].
      unfold isValidCategory, categories in Hc. clear Hs Hout.
      each_member Hc; vm_compute in Hm; injection Hm as <-; reflexivity. }
    rewrite Hfirst.
    assert (Hsecond : includes
              (inQuotes selection ++ " is not available for " ++ category
               ++ ". Available options: " ++ join ", " options)
              "not available" = true).
    { apply includes_app_r.
      change (" is not available for " ++ category ++ ". Available options: "
              ++ join ", " options)
        with (" is " ++ "not available"
              ++ (" for " ++ category ++ ". Available options: "
                  ++ join ", " options)).
      apply includes_app_r, includes_prefix. }
    rewrite Hsecond, Hs. cbv zeta.
    destruct suggestions as [|first others]; [congruence|].
    cbn [List.length Nat.ltb Nat.leb]. f_equal.
    rewrite !append_assoc. reflexivity.
Qed.

End ErrorReplies.
